(** * Fossilize: content-addressed recorder / replayer of pipeline state

    A shallow embedding of [fossilize.cpp] (the hasher, the per-kind hash
    functions, the base64 codec, the deep copies, the recorder's worker
    and the closure serializer with the replayer), followed by the
    properties of the specification that are settled on it.

    Conventions of the embedding.
    - A [uint32_t], [uint64_t], [size_t] or enum value is a [Z]; the
      conversions the C++ performs (parameter passing to [u32], the casts
      [uint32_t(..)] and [uint8_t(..)]) are written out as [mod 2^w].
    - A [float] is carried as its IEEE-754 bit pattern: the hasher only
      reinterprets it through a union and nothing else computes with it.
    - A runtime handle and a content hash are 64-bit values, hence [Z];
      [VK_NULL_HANDLE] is [0].
    - A pointer to an array is the [list] of the elements behind it, the
      element count stays the separate field the struct has; a pointer
      the code tests against null is an [option].  Reading [p[i]] past
      the end of the list, or through a null pointer, is undefined
      behaviour in C++ and is the outcome [Undef] here.
    - [std::unordered_map] is stdpp's [gmap]. *)

From Stdlib Require Import ZArith List String Ascii Bool Lia Btauto.
From stdpp Require Import base option list strings gmap.
From coqutil Require Import Z.bitblast.

Local Open Scope string_scope.
Local Open Scope list_scope.
Local Open Scope Z_scope.

(** ** Outcomes of a call *)

(** [FOSSILIZE_THROW(x)] raises [Fossilize::Exception(x)]; [Undef] stands
    for undefined behaviour (a read through a null pointer or past the
    end of an array).  [NoFuel] is not an outcome of the program: it says
    that the bound the model puts on the recursion of the replayer was
    reached before the call ended. *)
Inductive Res (A : Type) : Type :=
| Ok (a : A)
| Throw (msg : string)
| Undef
| NoFuel.
Arguments Ok {A} a.
Arguments Throw {A} msg.
Arguments Undef {A}.
Arguments NoFuel {A}.

Definition res_bind {A B : Type} (m : Res A) (f : A → Res B) : Res B :=
  match m with
  | Ok a => f a
  | Throw msg => Throw msg
  | Undef => Undef
  | NoFuel => NoFuel
  end.

Definition res_map {A B : Type} (f : A → B) (m : Res A) : Res B :=
  res_bind m (λ a, Ok (f a)).

Definition is_ok {A : Type} (m : Res A) : bool :=
  match m with Ok _ => true | _ => false end.

Definition is_throw {A : Type} (m : Res A) : bool :=
  match m with Throw _ => true | _ => false end.

Declare Scope res_scope.
Delimit Scope res_scope with res.
Notation "'let?' x := m 'in' k" := (res_bind m (λ x, k))
  (at level 10, x pattern, m at level 100, k at level 200) : res_scope.
Local Open Scope res_scope.

(** [p[i]] on an array pointer. *)
Definition index {T : Type} (p : list T) (i : nat) : Res T :=
  match p !! i with
  | Some x => Ok x
  | None => Undef
  end.

(** The elements behind an array pointer that may be null: none can be
    read through a null pointer. *)
Definition elems {T : Type} (p : option (list T)) : list T :=
  match p with
  | Some l => l
  | None => []
  end.

Definition uint8 (z : Z) : Z := z mod 2 ^ 8.
Definition uint32 (z : Z) : Z := z mod 2 ^ 32.
Definition uint64 (z : Z) : Z := z mod 2 ^ 64.

(** ** Base64 codec *)

Module Base64.

Definition ord (c : ascii) : Z := Z.of_N (N_of_ascii c).
Definition chr (z : Z) : ascii := ascii_of_N (Z.to_N (z mod 256)).

(** [static char base64(uint32_t v)] *)
Definition base64 (v : Z) : ascii :=
  if v =? 63 then "/"%char
  else if v =? 62 then "+"%char
  else if 52 <=? v then chr (ord "0" + (v - 52))
  else if 26 <=? v then chr (ord "a" + (v - 26))
  else chr (ord "A" + v).

(** One turn of the loop of [encode_base64] at index [i]: the four
    characters pushed on [ret]. *)
Definition encode_group (data : list Z) (size i : Z) : Res string :=
  let? d0 := index data (Z.to_nat i) in
  let code := Z.shiftl d0 16 in
  let? code :=
    (if i + 1 <? size
     then let? d1 := index data (Z.to_nat (i + 1)) in
          Ok (Z.lor code (Z.shiftl d1 8))
     else Ok code) in
  let? code :=
    (if i + 2 <? size
     then let? d2 := index data (Z.to_nat (i + 2)) in
          Ok (Z.lor code (Z.shiftl d2 0))
     else Ok code) in
  let c0 := base64 (Z.land (Z.shiftr code 18) 63) in
  let c1 := base64 (Z.land (Z.shiftr code 12) 63) in
  let c2 := base64 (Z.land (Z.shiftr code 6) 63) in
  let c3 := base64 (Z.land (Z.shiftr code 0) 63) in
  let outbytes := Z.min (size - i) 3 in
  let '(c2, c3) :=
    if outbytes =? 1 then ("="%char, "="%char)
    else if outbytes =? 2 then (c2, "="%char)
    else (c2, c3) in
  Ok (String c0 (String c1 (String c2 (String c3 "")))).

(** [for (size_t i = 0; i < size; i += 3)]; every turn advances [i] by
    three, so [size] turns of fuel are never used up. *)
Fixpoint encode_loop (fuel : nat) (data : list Z) (size i : Z)
    (ret : string) : Res string :=
  match fuel with
  | O => Ok ret
  | S fuel' =>
      if i <? size then
        let? g := encode_group data size i in
        encode_loop fuel' data size (i + 3) (ret +:+ g)
      else Ok ret
  end.

(** [static std::string encode_base64(const void *data_, size_t size)] *)
Definition encode_base64 (data : list Z) (size : Z) : Res string :=
  encode_loop (Z.to_nat size) data size 0 "".

(** The lambda [base64_index] of [decode_base64]. *)
Definition base64_index (c : ascii) : Z :=
  let c := ord c in
  if (ord "A" <=? c) && (c <=? ord "Z") then c - ord "A"
  else if (ord "a" <=? c) && (c <=? ord "z") then c - ord "a" + 26
  else if (ord "0" <=? c) && (c <=? ord "9") then c - ord "0" + 52
  else if c =? ord "+" then 62
  else if c =? ord "/" then 63
  else 0.

Definition is_nul (c : ascii) : bool := ord c =? 0.
Definition is_pad (c : ascii) : bool := ord c =? ord "=".

(** The loop of [decode_base64].  [data] is the cursor into the
    NUL-terminated input ([EmptyString] is the terminator), [i] the
    loop counter and [buf] the bytes stored through [ptr] so far. *)
Fixpoint decode_loop (data : string) (length i : Z) (buf : list Z)
    : list Z :=
  if i <? length then
    match data with
    | EmptyString => buf
    | String c0 data1 =>
      if is_nul c0 then buf else
      match data1 with
      | EmptyString => buf
      | String c1 data2 =>
        if is_nul c1 then buf else
        match data2 with
        | EmptyString => buf
        | String c2 data3 =>
          if is_nul c2 then buf else
          match data3 with
          | EmptyString => buf
          | String c3 data4 =>
            if is_nul c3 then buf else
            let values :=
              Z.lor (Z.lor (Z.lor
                (Z.shiftl (base64_index c0) 18)
                (Z.shiftl (base64_index c1) 12))
                (Z.shiftl (base64_index c2) 6))
                (Z.shiftl (base64_index c3) 0) in
            if is_pad c2 && is_pad c3 then
              decode_loop data4 length (i + 1)
                (buf ++ [uint8 (Z.shiftr values 16)])
            else if is_pad c3 then
              decode_loop data4 length (i + 2)
                (buf ++ [uint8 (Z.shiftr values 16);
                         uint8 (Z.shiftr values 8)])
            else
              decode_loop data4 length (i + 3)
                (buf ++ [uint8 (Z.shiftr values 16);
                         uint8 (Z.shiftr values 8);
                         uint8 (Z.shiftr values 0)])
          end
        end
      end
    end
  else buf.

(** [static uint8_t *decode_base64(ScratchAllocator &, const char *data,
    size_t length)]: the bytes written to the [length]-byte buffer. *)
Definition decode_base64 (data : string) (length : Z) : list Z :=
  decode_loop data length 0 [].

(** The groups of three bytes the encoder walks through, as a
    recursion on the bytes that remain from index [i] on. *)
Fixpoint encode_groups (rest : list Z) : string :=
  match rest with
  | [] => ""
  | d0 :: rest1 =>
    match rest1 with
    | [] =>
      let code := Z.shiftl d0 16 in
      String (base64 (Z.land (Z.shiftr code 18) 63))
        (String (base64 (Z.land (Z.shiftr code 12) 63)) "==")
    | d1 :: rest2 =>
      match rest2 with
      | [] =>
        let code := Z.lor (Z.shiftl d0 16) (Z.shiftl d1 8) in
        String (base64 (Z.land (Z.shiftr code 18) 63))
          (String (base64 (Z.land (Z.shiftr code 12) 63))
            (String (base64 (Z.land (Z.shiftr code 6) 63)) "="))
      | d2 :: rest3 =>
        let code :=
          Z.lor (Z.lor (Z.shiftl d0 16) (Z.shiftl d1 8)) (Z.shiftl d2 0) in
        String (base64 (Z.land (Z.shiftr code 18) 63))
          (String (base64 (Z.land (Z.shiftr code 12) 63))
            (String (base64 (Z.land (Z.shiftr code 6) 63))
              (String (base64 (Z.land (Z.shiftr code 0) 63))
                (encode_groups rest3))))
      end
    end
  end.

Definition is_byte (b : Z) : Prop := 0 <= b < 256.

End Base64.

(** ** The canonical hasher *)

(** [class Hasher]: 64-bit FNV-1a over 32-bit words.  Next to the running
    value [h] of the class the model keeps [fed], the arguments of the
    word feeds in the order they were made; [fed] is a ghost log that no
    operation reads. *)
Module Hasher.

Record t : Type := { h : Z; fed : list Z }.

(** [Hash h = 0xcbf29ce484222325ull;] *)
Definition init : t := {| h := 0xcbf29ce484222325; fed := [] |}.

(** [h = (h * 0x100000001b3ull) ^ value;] with [value] a [uint32_t]. *)
Definition mix (s : t) (value : Z) : t :=
  {| h := Z.lxor (uint64 (h s * 0x100000001b3)) (uint32 value);
     fed := fed s ++ [value] |}.

Definition mix_all (s : t) (values : list Z) : t := fold_left mix values s.

(** [inline Hash get() const] *)
Definition get (s : t) : Z := h s.

End Hasher.

(** A computation that feeds a [Hasher] and may throw or be undefined. *)
Definition HashM (A : Type) : Type := Hasher.t → Res (A * Hasher.t).

Definition hash_ret {A : Type} (a : A) : HashM A := λ s, Ok (a, s).

Definition hash_bind {A B : Type} (m : HashM A) (f : A → HashM B) : HashM B :=
  λ s, match m s with
       | Ok (a, s') => f a s'
       | Throw msg => Throw msg
       | Undef => Undef
       | NoFuel => NoFuel
       end.

(** The outcome of a call of the recorder or of an array read, inside a
    hash function. *)
Definition hash_lift {A : Type} (r : Res A) : HashM A :=
  λ s, match r with
       | Ok a => Ok (a, s)
       | Throw msg => Throw msg
       | Undef => Undef
       | NoFuel => NoFuel
       end.

Declare Scope hash_scope.
Delimit Scope hash_scope with hash.
Bind Scope hash_scope with HashM.
Notation "x ← m ; k" := (hash_bind m (λ x, k))
  (at level 20, m at level 100, k at level 200, only parsing) : hash_scope.
Notation "m ;; k" := (hash_bind m (λ _, k))
  (at level 100, k at level 200, right associativity) : hash_scope.

(** [for (uint32_t i = 0; i < n; i++) body(i)], carrying the locals the
    body assigns. *)
Fixpoint for_acc {B : Type} (n : nat) (i : nat) (body : nat → B → HashM B)
    (b : B) : HashM B :=
  match n with
  | O => hash_ret b
  | S n' => hash_bind (body i b) (for_acc n' (S i) body)
  end.

Definition for_range (count : Z) (body : nat → HashM unit) : HashM unit :=
  for_acc (Z.to_nat count) 0 (λ i _, body i) tt.

Module H.

(** [inline void u32(uint32_t value)] *)
Definition u32 (value : Z) : HashM unit := λ s, Ok (tt, Hasher.mix s value).

(** [inline void s32(int32_t value) { u32(uint32_t(value)); }] *)
Definition s32 (value : Z) : HashM unit := u32 (uint32 value).

(** [inline void f32(float value)]: the word that shares the union. *)
Definition f32 (value : Z) : HashM unit := u32 value.

(** [inline void u64(uint64_t value)] *)
Definition u64 (value : Z) : HashM unit :=
  (u32 (Z.land (uint64 value) 0xffffffff) ;;
   u32 (Z.shiftr (uint64 value) 32))%hash.

(** [template <typename T> inline void data(const T *data, size_t size)],
    [sizeof_T] being the size of one element. *)
Definition data (data : list Z) (size sizeof_T : Z) : HashM unit :=
  for_range (size / sizeof_T)
    (λ i, x ← hash_lift (index data i); u32 x)%hash.

(** The loop of [inline void string(const char *str)]. *)
Fixpoint string_chars (str : string) : HashM unit :=
  match str with
  | EmptyString => hash_ret tt
  | String c str' =>
      if Base64.is_nul c then hash_ret tt
      else (u32 (uint8 (Base64.ord c)) ;; string_chars str')%hash
  end.

(** [inline void string(const char *str)] *)
Definition string (str : string) : HashM unit :=
  (u32 0xff ;; string_chars str)%hash.

End H.

(** [Hasher h; ...; return h.get();] *)
Definition hashed (m : HashM unit) : Res Z :=
  match m Hasher.init with
  | Ok (_, s) => Ok (Hasher.get s)
  | Throw msg => Throw msg
  | Undef => Undef
  | NoFuel => NoFuel
  end.

(** The words a computation feeds to a fresh hasher. *)
Definition feed_log {A : Type} (m : HashM A) : Res (list Z) :=
  match m Hasher.init with
  | Ok (_, s) => Ok (Hasher.fed s)
  | Throw msg => Throw msg
  | Undef => Undef
  | NoFuel => NoFuel
  end.

(** ** The descriptors *)

(** The creation structures of the API, field for field.  [sType] is not
    a field: it is the constructor of [CreateInfo] further down, which is
    what the worker dispatches on.  [pNext] is the address of the
    extension chain, [0] when there is none. *)

(** Values of [vulkan_core.h] that the code names. *)
Definition VK_NULL_HANDLE : Z := 0.
Definition VK_DESCRIPTOR_TYPE_SAMPLER : Z := 0.
Definition VK_DESCRIPTOR_TYPE_COMBINED_IMAGE_SAMPLER : Z := 1.
Definition VK_DYNAMIC_STATE_VIEWPORT : Z := 0.
Definition VK_DYNAMIC_STATE_SCISSOR : Z := 1.
Definition VK_DYNAMIC_STATE_LINE_WIDTH : Z := 2.
Definition VK_DYNAMIC_STATE_DEPTH_BIAS : Z := 3.
Definition VK_DYNAMIC_STATE_BLEND_CONSTANTS : Z := 4.
Definition VK_DYNAMIC_STATE_DEPTH_BOUNDS : Z := 5.
Definition VK_DYNAMIC_STATE_STENCIL_COMPARE_MASK : Z := 6.
Definition VK_DYNAMIC_STATE_STENCIL_WRITE_MASK : Z := 7.
Definition VK_DYNAMIC_STATE_STENCIL_REFERENCE : Z := 8.
Definition VK_BLEND_FACTOR_CONSTANT_COLOR : Z := 10.
Definition VK_BLEND_FACTOR_CONSTANT_ALPHA : Z := 12.

Module VkSamplerCreateInfo.
Record t : Type := {
  pNext : Z; flags : Z; magFilter : Z; minFilter : Z; mipmapMode : Z;
  addressModeU : Z; addressModeV : Z; addressModeW : Z; mipLodBias : Z;
  anisotropyEnable : Z; maxAnisotropy : Z; compareEnable : Z;
  compareOp : Z; minLod : Z; maxLod : Z; borderColor : Z;
  unnormalizedCoordinates : Z }.
End VkSamplerCreateInfo.

Module VkDescriptorSetLayoutBinding.
Record t : Type := {
  binding : Z; descriptorType : Z; descriptorCount : Z; stageFlags : Z;
  pImmutableSamplers : option (list Z) }.
End VkDescriptorSetLayoutBinding.

Module VkDescriptorSetLayoutCreateInfo.
Record t : Type := {
  pNext : Z; flags : Z; bindingCount : Z;
  pBindings : list VkDescriptorSetLayoutBinding.t }.
End VkDescriptorSetLayoutCreateInfo.

Module VkPushConstantRange.
Record t : Type := { stageFlags : Z; offset : Z; size : Z }.
End VkPushConstantRange.

Module VkPipelineLayoutCreateInfo.
Record t : Type := {
  pNext : Z; flags : Z; setLayoutCount : Z; pSetLayouts : list Z;
  pushConstantRangeCount : Z;
  pPushConstantRanges : list VkPushConstantRange.t }.
End VkPipelineLayoutCreateInfo.

Module VkShaderModuleCreateInfo.
Record t : Type := { pNext : Z; flags : Z; codeSize : Z; pCode : list Z }.
End VkShaderModuleCreateInfo.

Module VkAttachmentDescription.
Record t : Type := {
  flags : Z; format : Z; samples : Z; loadOp : Z; storeOp : Z;
  stencilLoadOp : Z; stencilStoreOp : Z; initialLayout : Z;
  finalLayout : Z }.
End VkAttachmentDescription.

Module VkAttachmentReference.
Record t : Type := { attachment : Z; layout : Z }.
End VkAttachmentReference.

Module VkSubpassDescription.
Record t : Type := {
  flags : Z; pipelineBindPoint : Z;
  inputAttachmentCount : Z;
  pInputAttachments : option (list VkAttachmentReference.t);
  colorAttachmentCount : Z;
  pColorAttachments : option (list VkAttachmentReference.t);
  pResolveAttachments : option (list VkAttachmentReference.t);
  pDepthStencilAttachment : option VkAttachmentReference.t;
  preserveAttachmentCount : Z;
  pPreserveAttachments : option (list Z) }.
End VkSubpassDescription.

Module VkSubpassDependency.
Record t : Type := {
  srcSubpass : Z; dstSubpass : Z; srcStageMask : Z; dstStageMask : Z;
  srcAccessMask : Z; dstAccessMask : Z; dependencyFlags : Z }.
End VkSubpassDependency.

Module VkRenderPassCreateInfo.
Record t : Type := {
  pNext : Z; flags : Z;
  attachmentCount : Z; pAttachments : list VkAttachmentDescription.t;
  subpassCount : Z; pSubpasses : list VkSubpassDescription.t;
  dependencyCount : Z; pDependencies : list VkSubpassDependency.t }.
End VkRenderPassCreateInfo.

Module VkSpecializationMapEntry.
Record t : Type := { constantID : Z; offset : Z; size : Z }.
End VkSpecializationMapEntry.

Module VkSpecializationInfo.
Record t : Type := {
  mapEntryCount : Z; pMapEntries : list VkSpecializationMapEntry.t;
  dataSize : Z; pData : list Z }.
End VkSpecializationInfo.

Module VkPipelineShaderStageCreateInfo.
Record t : Type := {
  pNext : Z; flags : Z; stage : Z; module : Z; pName : string;
  pSpecializationInfo : option VkSpecializationInfo.t }.
End VkPipelineShaderStageCreateInfo.

Module VkComputePipelineCreateInfo.
Record t : Type := {
  pNext : Z; flags : Z; stage : VkPipelineShaderStageCreateInfo.t;
  layout : Z; basePipelineHandle : Z; basePipelineIndex : Z }.
End VkComputePipelineCreateInfo.

Module VkVertexInputBindingDescription.
Record t : Type := { binding : Z; stride : Z; inputRate : Z }.
End VkVertexInputBindingDescription.

Module VkVertexInputAttributeDescription.
Record t : Type := { location : Z; binding : Z; format : Z; offset : Z }.
End VkVertexInputAttributeDescription.

Module VkPipelineVertexInputStateCreateInfo.
Record t : Type := {
  pNext : Z; flags : Z;
  vertexBindingDescriptionCount : Z;
  pVertexBindingDescriptions : list VkVertexInputBindingDescription.t;
  vertexAttributeDescriptionCount : Z;
  pVertexAttributeDescriptions : list VkVertexInputAttributeDescription.t }.
End VkPipelineVertexInputStateCreateInfo.

Module VkPipelineInputAssemblyStateCreateInfo.
Record t : Type := {
  pNext : Z; flags : Z; topology : Z; primitiveRestartEnable : Z }.
End VkPipelineInputAssemblyStateCreateInfo.

Module VkPipelineTessellationStateCreateInfo.
Record t : Type := { pNext : Z; flags : Z; patchControlPoints : Z }.
End VkPipelineTessellationStateCreateInfo.

Module VkViewport.
Record t : Type := {
  x : Z; y : Z; width : Z; height : Z; minDepth : Z; maxDepth : Z }.
End VkViewport.

Module VkOffset2D.
Record t : Type := { x : Z; y : Z }.
End VkOffset2D.

Module VkExtent2D.
Record t : Type := { width : Z; height : Z }.
End VkExtent2D.

Module VkRect2D.
Record t : Type := { offset : VkOffset2D.t; extent : VkExtent2D.t }.
End VkRect2D.

Module VkPipelineViewportStateCreateInfo.
Record t : Type := {
  pNext : Z; flags : Z;
  viewportCount : Z; pViewports : list VkViewport.t;
  scissorCount : Z; pScissors : list VkRect2D.t }.
End VkPipelineViewportStateCreateInfo.

Module VkPipelineRasterizationStateCreateInfo.
Record t : Type := {
  pNext : Z; flags : Z; depthClampEnable : Z; rasterizerDiscardEnable : Z;
  polygonMode : Z; cullMode : Z; frontFace : Z; depthBiasEnable : Z;
  depthBiasConstantFactor : Z; depthBiasClamp : Z;
  depthBiasSlopeFactor : Z; lineWidth : Z }.
End VkPipelineRasterizationStateCreateInfo.

Module VkPipelineMultisampleStateCreateInfo.
Record t : Type := {
  pNext : Z; flags : Z; rasterizationSamples : Z; sampleShadingEnable : Z;
  minSampleShading : Z; pSampleMask : option (list Z);
  alphaToCoverageEnable : Z; alphaToOneEnable : Z }.
End VkPipelineMultisampleStateCreateInfo.

Module VkStencilOpState.
Record t : Type := {
  failOp : Z; passOp : Z; depthFailOp : Z; compareOp : Z;
  compareMask : Z; writeMask : Z; reference : Z }.
End VkStencilOpState.

Module VkPipelineDepthStencilStateCreateInfo.
Record t : Type := {
  pNext : Z; flags : Z; depthTestEnable : Z; depthWriteEnable : Z;
  depthCompareOp : Z; depthBoundsTestEnable : Z; stencilTestEnable : Z;
  front : VkStencilOpState.t; back : VkStencilOpState.t;
  minDepthBounds : Z; maxDepthBounds : Z }.

(** The same state with other depth bounds. *)
Definition with_depth_bounds (ds : t) (min_bounds max_bounds : Z) : t :=
  {| pNext := pNext ds; flags := flags ds;
     depthTestEnable := depthTestEnable ds;
     depthWriteEnable := depthWriteEnable ds;
     depthCompareOp := depthCompareOp ds;
     depthBoundsTestEnable := depthBoundsTestEnable ds;
     stencilTestEnable := stencilTestEnable ds;
     front := front ds; back := back ds;
     minDepthBounds := min_bounds; maxDepthBounds := max_bounds |}.
End VkPipelineDepthStencilStateCreateInfo.

Module VkPipelineColorBlendAttachmentState.
Record t : Type := {
  blendEnable : Z; srcColorBlendFactor : Z; dstColorBlendFactor : Z;
  colorBlendOp : Z; srcAlphaBlendFactor : Z; dstAlphaBlendFactor : Z;
  alphaBlendOp : Z; colorWriteMask : Z }.
End VkPipelineColorBlendAttachmentState.

Module VkPipelineColorBlendStateCreateInfo.
Record t : Type := {
  pNext : Z; flags : Z; logicOpEnable : Z; logicOp : Z;
  attachmentCount : Z;
  pAttachments : list VkPipelineColorBlendAttachmentState.t;
  blendConstants : Z * Z * Z * Z (* float[4] *) }.

(** The same state with another attachment array. *)
Definition with_pAttachments (b : t)
    (atts : list VkPipelineColorBlendAttachmentState.t) : t :=
  {| pNext := pNext b; flags := flags b; logicOpEnable := logicOpEnable b;
     logicOp := logicOp b; attachmentCount := attachmentCount b;
     pAttachments := atts; blendConstants := blendConstants b |}.
End VkPipelineColorBlendStateCreateInfo.

Module VkPipelineDynamicStateCreateInfo.
Record t : Type := {
  pNext : Z; flags : Z; dynamicStateCount : Z; pDynamicStates : list Z }.
End VkPipelineDynamicStateCreateInfo.

Module VkGraphicsPipelineCreateInfo.
Record t : Type := {
  pNext : Z; flags : Z; stageCount : Z;
  pStages : list VkPipelineShaderStageCreateInfo.t;
  pVertexInputState : option VkPipelineVertexInputStateCreateInfo.t;
  pInputAssemblyState : option VkPipelineInputAssemblyStateCreateInfo.t;
  pTessellationState : option VkPipelineTessellationStateCreateInfo.t;
  pViewportState : option VkPipelineViewportStateCreateInfo.t;
  pRasterizationState : option VkPipelineRasterizationStateCreateInfo.t;
  pMultisampleState : option VkPipelineMultisampleStateCreateInfo.t;
  pDepthStencilState : option VkPipelineDepthStencilStateCreateInfo.t;
  pColorBlendState : option VkPipelineColorBlendStateCreateInfo.t;
  pDynamicState : option VkPipelineDynamicStateCreateInfo.t;
  layout : Z; renderPass : Z; subpass : Z;
  basePipelineHandle : Z; basePipelineIndex : Z }.

(** The same descriptor with another depth-stencil state. *)
Definition with_pDepthStencilState (ci : t)
    (ds : option VkPipelineDepthStencilStateCreateInfo.t) : t :=
  {| pNext := pNext ci; flags := flags ci; stageCount := stageCount ci;
     pStages := pStages ci; pVertexInputState := pVertexInputState ci;
     pInputAssemblyState := pInputAssemblyState ci;
     pTessellationState := pTessellationState ci;
     pViewportState := pViewportState ci;
     pRasterizationState := pRasterizationState ci;
     pMultisampleState := pMultisampleState ci;
     pDepthStencilState := ds;
     pColorBlendState := pColorBlendState ci;
     pDynamicState := pDynamicState ci;
     layout := layout ci; renderPass := renderPass ci;
     subpass := subpass ci;
     basePipelineHandle := basePipelineHandle ci;
     basePipelineIndex := basePipelineIndex ci |}.

(** The same descriptor with another color-blend state. *)
Definition with_pColorBlendState (ci : t)
    (b : option VkPipelineColorBlendStateCreateInfo.t) : t :=
  {| pNext := pNext ci; flags := flags ci; stageCount := stageCount ci;
     pStages := pStages ci; pVertexInputState := pVertexInputState ci;
     pInputAssemblyState := pInputAssemblyState ci;
     pTessellationState := pTessellationState ci;
     pViewportState := pViewportState ci;
     pRasterizationState := pRasterizationState ci;
     pMultisampleState := pMultisampleState ci;
     pDepthStencilState := pDepthStencilState ci;
     pColorBlendState := b;
     pDynamicState := pDynamicState ci;
     layout := layout ci; renderPass := renderPass ci;
     subpass := subpass ci;
     basePipelineHandle := basePipelineHandle ci;
     basePipelineIndex := basePipelineIndex ci |}.
End VkGraphicsPipelineCreateInfo.

(** What a queued [void *create_info] points to; the constructor is the
    structure type found in its first word. *)
Inductive CreateInfo : Type :=
| SamplerCI (ci : VkSamplerCreateInfo.t)
| DescriptorSetLayoutCI (ci : VkDescriptorSetLayoutCreateInfo.t)
| PipelineLayoutCI (ci : VkPipelineLayoutCreateInfo.t)
| RenderPassCI (ci : VkRenderPassCreateInfo.t)
| ShaderModuleCI (ci : VkShaderModuleCreateInfo.t)
| GraphicsPipelineCI (ci : VkGraphicsPipelineCreateInfo.t)
| ComputePipelineCI (ci : VkComputePipelineCreateInfo.t).

(** ** Documents *)

(** The JSON document of the on-disk format, as the DOM the serializer
    builds and the replayer walks: the optional [version] member and one
    optional object per kind, whose members (in insertion order) are keyed by the
    hash that the 16 hexadecimal digits of the member name spell.  A
    member value is kept as the structure it is written from and read
    back into, references being the hashes that their hexadecimal strings
    spell; the field-by-field encoding of [json_value] and of the
    [parse_*] of sub-objects is not modelled.  The one number whose JSON
    type the reader mistakes, [basePipelineIndex], is handled in
    [GetUint] below. *)
Module Document.
Record t : Type := {
  version : option Z;
  shaderModules : option (list (Z * VkShaderModuleCreateInfo.t));
  samplers : option (list (Z * VkSamplerCreateInfo.t));
  setLayouts : option (list (Z * VkDescriptorSetLayoutCreateInfo.t));
  pipelineLayouts : option (list (Z * VkPipelineLayoutCreateInfo.t));
  renderPasses : option (list (Z * VkRenderPassCreateInfo.t));
  computePipelines : option (list (Z * VkComputePipelineCreateInfo.t));
  graphicsPipelines : option (list (Z * VkGraphicsPipelineCreateInfo.t)) }.
End Document.

(** A byte buffer as rapidjson sees it: no bytes at all, bytes that do not
    parse, or the text of a document.  The writer and the parser belong to
    the library; a buffer is identified with the DOM its text denotes. *)
Inductive Buffer : Type :=
| EmptyBuffer
| Malformed
| JsonText (doc : Document.t).

Definition FOSSILIZE_FORMAT_VERSION : Z := 1.

(** ** The recorder's state *)

(** [struct WorkItem]; a null [create_info] is [None]. *)
Record WorkItem : Type := {
  handle : Z;
  create_info : option CreateInfo }.

(** [struct StateRecorder::Impl] without the arena, the locks and the
    thread, together with what the worker leaves outside the object: the
    files written by [write_buffer] and the lines logged by [LOGE]. *)
Module StateRecorder.
Record t : Type := {
  descriptor_sets : gmap Z VkDescriptorSetLayoutCreateInfo.t;
  pipeline_layouts : gmap Z VkPipelineLayoutCreateInfo.t;
  shader_modules : gmap Z VkShaderModuleCreateInfo.t;
  graphics_pipelines : gmap Z VkGraphicsPipelineCreateInfo.t;
  compute_pipelines : gmap Z VkComputePipelineCreateInfo.t;
  render_passes : gmap Z VkRenderPassCreateInfo.t;
  samplers : gmap Z VkSamplerCreateInfo.t;

  descriptor_set_layout_to_index : gmap Z Z;
  pipeline_layout_to_index : gmap Z Z;
  shader_module_to_index : gmap Z Z;
  graphics_pipeline_to_index : gmap Z Z;
  compute_pipeline_to_index : gmap Z Z;
  render_pass_to_index : gmap Z Z;
  sampler_to_index : gmap Z Z;

  record_queue : list WorkItem;
  serialization_path : string;

  written : list (string * Z * Buffer);
  logged : list string }.

(** A recorder that has recorded nothing. *)
Definition empty : t :=
  {| descriptor_sets := ∅; pipeline_layouts := ∅; shader_modules := ∅;
     graphics_pipelines := ∅; compute_pipelines := ∅; render_passes := ∅;
     samplers := ∅;
     descriptor_set_layout_to_index := ∅; pipeline_layout_to_index := ∅;
     shader_module_to_index := ∅; graphics_pipeline_to_index := ∅;
     compute_pipeline_to_index := ∅; render_pass_to_index := ∅;
     sampler_to_index := ∅;
     record_queue := []; serialization_path := "";
     written := []; logged := [] |}.

(** Assignments to one member. *)
Definition set_descriptor_sets (v : _) (r : t) : t :=
  {| descriptor_sets := v; pipeline_layouts := pipeline_layouts r;
     shader_modules := shader_modules r;
     graphics_pipelines := graphics_pipelines r;
     compute_pipelines := compute_pipelines r;
     render_passes := render_passes r; samplers := samplers r;
     descriptor_set_layout_to_index := descriptor_set_layout_to_index r;
     pipeline_layout_to_index := pipeline_layout_to_index r;
     shader_module_to_index := shader_module_to_index r;
     graphics_pipeline_to_index := graphics_pipeline_to_index r;
     compute_pipeline_to_index := compute_pipeline_to_index r;
     render_pass_to_index := render_pass_to_index r;
     sampler_to_index := sampler_to_index r;
     record_queue := record_queue r;
     serialization_path := serialization_path r; written := written r;
     logged := logged r |}.

Definition set_pipeline_layouts (v : _) (r : t) : t :=
  {| descriptor_sets := descriptor_sets r; pipeline_layouts := v;
     shader_modules := shader_modules r;
     graphics_pipelines := graphics_pipelines r;
     compute_pipelines := compute_pipelines r;
     render_passes := render_passes r; samplers := samplers r;
     descriptor_set_layout_to_index := descriptor_set_layout_to_index r;
     pipeline_layout_to_index := pipeline_layout_to_index r;
     shader_module_to_index := shader_module_to_index r;
     graphics_pipeline_to_index := graphics_pipeline_to_index r;
     compute_pipeline_to_index := compute_pipeline_to_index r;
     render_pass_to_index := render_pass_to_index r;
     sampler_to_index := sampler_to_index r;
     record_queue := record_queue r;
     serialization_path := serialization_path r; written := written r;
     logged := logged r |}.

Definition set_shader_modules (v : _) (r : t) : t :=
  {| descriptor_sets := descriptor_sets r;
     pipeline_layouts := pipeline_layouts r; shader_modules := v;
     graphics_pipelines := graphics_pipelines r;
     compute_pipelines := compute_pipelines r;
     render_passes := render_passes r; samplers := samplers r;
     descriptor_set_layout_to_index := descriptor_set_layout_to_index r;
     pipeline_layout_to_index := pipeline_layout_to_index r;
     shader_module_to_index := shader_module_to_index r;
     graphics_pipeline_to_index := graphics_pipeline_to_index r;
     compute_pipeline_to_index := compute_pipeline_to_index r;
     render_pass_to_index := render_pass_to_index r;
     sampler_to_index := sampler_to_index r;
     record_queue := record_queue r;
     serialization_path := serialization_path r; written := written r;
     logged := logged r |}.

Definition set_graphics_pipelines (v : _) (r : t) : t :=
  {| descriptor_sets := descriptor_sets r;
     pipeline_layouts := pipeline_layouts r;
     shader_modules := shader_modules r; graphics_pipelines := v;
     compute_pipelines := compute_pipelines r;
     render_passes := render_passes r; samplers := samplers r;
     descriptor_set_layout_to_index := descriptor_set_layout_to_index r;
     pipeline_layout_to_index := pipeline_layout_to_index r;
     shader_module_to_index := shader_module_to_index r;
     graphics_pipeline_to_index := graphics_pipeline_to_index r;
     compute_pipeline_to_index := compute_pipeline_to_index r;
     render_pass_to_index := render_pass_to_index r;
     sampler_to_index := sampler_to_index r;
     record_queue := record_queue r;
     serialization_path := serialization_path r; written := written r;
     logged := logged r |}.

Definition set_compute_pipelines (v : _) (r : t) : t :=
  {| descriptor_sets := descriptor_sets r;
     pipeline_layouts := pipeline_layouts r;
     shader_modules := shader_modules r;
     graphics_pipelines := graphics_pipelines r; compute_pipelines := v;
     render_passes := render_passes r; samplers := samplers r;
     descriptor_set_layout_to_index := descriptor_set_layout_to_index r;
     pipeline_layout_to_index := pipeline_layout_to_index r;
     shader_module_to_index := shader_module_to_index r;
     graphics_pipeline_to_index := graphics_pipeline_to_index r;
     compute_pipeline_to_index := compute_pipeline_to_index r;
     render_pass_to_index := render_pass_to_index r;
     sampler_to_index := sampler_to_index r;
     record_queue := record_queue r;
     serialization_path := serialization_path r; written := written r;
     logged := logged r |}.

Definition set_render_passes (v : _) (r : t) : t :=
  {| descriptor_sets := descriptor_sets r;
     pipeline_layouts := pipeline_layouts r;
     shader_modules := shader_modules r;
     graphics_pipelines := graphics_pipelines r;
     compute_pipelines := compute_pipelines r; render_passes := v;
     samplers := samplers r;
     descriptor_set_layout_to_index := descriptor_set_layout_to_index r;
     pipeline_layout_to_index := pipeline_layout_to_index r;
     shader_module_to_index := shader_module_to_index r;
     graphics_pipeline_to_index := graphics_pipeline_to_index r;
     compute_pipeline_to_index := compute_pipeline_to_index r;
     render_pass_to_index := render_pass_to_index r;
     sampler_to_index := sampler_to_index r;
     record_queue := record_queue r;
     serialization_path := serialization_path r; written := written r;
     logged := logged r |}.

Definition set_samplers (v : _) (r : t) : t :=
  {| descriptor_sets := descriptor_sets r;
     pipeline_layouts := pipeline_layouts r;
     shader_modules := shader_modules r;
     graphics_pipelines := graphics_pipelines r;
     compute_pipelines := compute_pipelines r;
     render_passes := render_passes r; samplers := v;
     descriptor_set_layout_to_index := descriptor_set_layout_to_index r;
     pipeline_layout_to_index := pipeline_layout_to_index r;
     shader_module_to_index := shader_module_to_index r;
     graphics_pipeline_to_index := graphics_pipeline_to_index r;
     compute_pipeline_to_index := compute_pipeline_to_index r;
     render_pass_to_index := render_pass_to_index r;
     sampler_to_index := sampler_to_index r;
     record_queue := record_queue r;
     serialization_path := serialization_path r; written := written r;
     logged := logged r |}.

Definition set_descriptor_set_layout_to_index (v : _) (r : t) : t :=
  {| descriptor_sets := descriptor_sets r;
     pipeline_layouts := pipeline_layouts r;
     shader_modules := shader_modules r;
     graphics_pipelines := graphics_pipelines r;
     compute_pipelines := compute_pipelines r;
     render_passes := render_passes r; samplers := samplers r;
     descriptor_set_layout_to_index := v;
     pipeline_layout_to_index := pipeline_layout_to_index r;
     shader_module_to_index := shader_module_to_index r;
     graphics_pipeline_to_index := graphics_pipeline_to_index r;
     compute_pipeline_to_index := compute_pipeline_to_index r;
     render_pass_to_index := render_pass_to_index r;
     sampler_to_index := sampler_to_index r;
     record_queue := record_queue r;
     serialization_path := serialization_path r; written := written r;
     logged := logged r |}.

Definition set_pipeline_layout_to_index (v : _) (r : t) : t :=
  {| descriptor_sets := descriptor_sets r;
     pipeline_layouts := pipeline_layouts r;
     shader_modules := shader_modules r;
     graphics_pipelines := graphics_pipelines r;
     compute_pipelines := compute_pipelines r;
     render_passes := render_passes r; samplers := samplers r;
     descriptor_set_layout_to_index := descriptor_set_layout_to_index r;
     pipeline_layout_to_index := v;
     shader_module_to_index := shader_module_to_index r;
     graphics_pipeline_to_index := graphics_pipeline_to_index r;
     compute_pipeline_to_index := compute_pipeline_to_index r;
     render_pass_to_index := render_pass_to_index r;
     sampler_to_index := sampler_to_index r;
     record_queue := record_queue r;
     serialization_path := serialization_path r; written := written r;
     logged := logged r |}.

Definition set_shader_module_to_index (v : _) (r : t) : t :=
  {| descriptor_sets := descriptor_sets r;
     pipeline_layouts := pipeline_layouts r;
     shader_modules := shader_modules r;
     graphics_pipelines := graphics_pipelines r;
     compute_pipelines := compute_pipelines r;
     render_passes := render_passes r; samplers := samplers r;
     descriptor_set_layout_to_index := descriptor_set_layout_to_index r;
     pipeline_layout_to_index := pipeline_layout_to_index r;
     shader_module_to_index := v;
     graphics_pipeline_to_index := graphics_pipeline_to_index r;
     compute_pipeline_to_index := compute_pipeline_to_index r;
     render_pass_to_index := render_pass_to_index r;
     sampler_to_index := sampler_to_index r;
     record_queue := record_queue r;
     serialization_path := serialization_path r; written := written r;
     logged := logged r |}.

Definition set_graphics_pipeline_to_index (v : _) (r : t) : t :=
  {| descriptor_sets := descriptor_sets r;
     pipeline_layouts := pipeline_layouts r;
     shader_modules := shader_modules r;
     graphics_pipelines := graphics_pipelines r;
     compute_pipelines := compute_pipelines r;
     render_passes := render_passes r; samplers := samplers r;
     descriptor_set_layout_to_index := descriptor_set_layout_to_index r;
     pipeline_layout_to_index := pipeline_layout_to_index r;
     shader_module_to_index := shader_module_to_index r;
     graphics_pipeline_to_index := v;
     compute_pipeline_to_index := compute_pipeline_to_index r;
     render_pass_to_index := render_pass_to_index r;
     sampler_to_index := sampler_to_index r;
     record_queue := record_queue r;
     serialization_path := serialization_path r; written := written r;
     logged := logged r |}.

Definition set_compute_pipeline_to_index (v : _) (r : t) : t :=
  {| descriptor_sets := descriptor_sets r;
     pipeline_layouts := pipeline_layouts r;
     shader_modules := shader_modules r;
     graphics_pipelines := graphics_pipelines r;
     compute_pipelines := compute_pipelines r;
     render_passes := render_passes r; samplers := samplers r;
     descriptor_set_layout_to_index := descriptor_set_layout_to_index r;
     pipeline_layout_to_index := pipeline_layout_to_index r;
     shader_module_to_index := shader_module_to_index r;
     graphics_pipeline_to_index := graphics_pipeline_to_index r;
     compute_pipeline_to_index := v;
     render_pass_to_index := render_pass_to_index r;
     sampler_to_index := sampler_to_index r;
     record_queue := record_queue r;
     serialization_path := serialization_path r; written := written r;
     logged := logged r |}.

Definition set_render_pass_to_index (v : _) (r : t) : t :=
  {| descriptor_sets := descriptor_sets r;
     pipeline_layouts := pipeline_layouts r;
     shader_modules := shader_modules r;
     graphics_pipelines := graphics_pipelines r;
     compute_pipelines := compute_pipelines r;
     render_passes := render_passes r; samplers := samplers r;
     descriptor_set_layout_to_index := descriptor_set_layout_to_index r;
     pipeline_layout_to_index := pipeline_layout_to_index r;
     shader_module_to_index := shader_module_to_index r;
     graphics_pipeline_to_index := graphics_pipeline_to_index r;
     compute_pipeline_to_index := compute_pipeline_to_index r;
     render_pass_to_index := v; sampler_to_index := sampler_to_index r;
     record_queue := record_queue r;
     serialization_path := serialization_path r; written := written r;
     logged := logged r |}.

Definition set_sampler_to_index (v : _) (r : t) : t :=
  {| descriptor_sets := descriptor_sets r;
     pipeline_layouts := pipeline_layouts r;
     shader_modules := shader_modules r;
     graphics_pipelines := graphics_pipelines r;
     compute_pipelines := compute_pipelines r;
     render_passes := render_passes r; samplers := samplers r;
     descriptor_set_layout_to_index := descriptor_set_layout_to_index r;
     pipeline_layout_to_index := pipeline_layout_to_index r;
     shader_module_to_index := shader_module_to_index r;
     graphics_pipeline_to_index := graphics_pipeline_to_index r;
     compute_pipeline_to_index := compute_pipeline_to_index r;
     render_pass_to_index := render_pass_to_index r;
     sampler_to_index := v; record_queue := record_queue r;
     serialization_path := serialization_path r; written := written r;
     logged := logged r |}.

Definition set_record_queue (v : _) (r : t) : t :=
  {| descriptor_sets := descriptor_sets r;
     pipeline_layouts := pipeline_layouts r;
     shader_modules := shader_modules r;
     graphics_pipelines := graphics_pipelines r;
     compute_pipelines := compute_pipelines r;
     render_passes := render_passes r; samplers := samplers r;
     descriptor_set_layout_to_index := descriptor_set_layout_to_index r;
     pipeline_layout_to_index := pipeline_layout_to_index r;
     shader_module_to_index := shader_module_to_index r;
     graphics_pipeline_to_index := graphics_pipeline_to_index r;
     compute_pipeline_to_index := compute_pipeline_to_index r;
     render_pass_to_index := render_pass_to_index r;
     sampler_to_index := sampler_to_index r; record_queue := v;
     serialization_path := serialization_path r; written := written r;
     logged := logged r |}.

Definition set_written (v : _) (r : t) : t :=
  {| descriptor_sets := descriptor_sets r;
     pipeline_layouts := pipeline_layouts r;
     shader_modules := shader_modules r;
     graphics_pipelines := graphics_pipelines r;
     compute_pipelines := compute_pipelines r;
     render_passes := render_passes r; samplers := samplers r;
     descriptor_set_layout_to_index := descriptor_set_layout_to_index r;
     pipeline_layout_to_index := pipeline_layout_to_index r;
     shader_module_to_index := shader_module_to_index r;
     graphics_pipeline_to_index := graphics_pipeline_to_index r;
     compute_pipeline_to_index := compute_pipeline_to_index r;
     render_pass_to_index := render_pass_to_index r;
     sampler_to_index := sampler_to_index r;
     record_queue := record_queue r;
     serialization_path := serialization_path r; written := v;
     logged := logged r |}.

Definition set_logged (v : _) (r : t) : t :=
  {| descriptor_sets := descriptor_sets r;
     pipeline_layouts := pipeline_layouts r;
     shader_modules := shader_modules r;
     graphics_pipelines := graphics_pipelines r;
     compute_pipelines := compute_pipelines r;
     render_passes := render_passes r; samplers := samplers r;
     descriptor_set_layout_to_index := descriptor_set_layout_to_index r;
     pipeline_layout_to_index := pipeline_layout_to_index r;
     shader_module_to_index := shader_module_to_index r;
     graphics_pipeline_to_index := graphics_pipeline_to_index r;
     compute_pipeline_to_index := compute_pipeline_to_index r;
     render_pass_to_index := render_pass_to_index r;
     sampler_to_index := sampler_to_index r;
     record_queue := record_queue r;
     serialization_path := serialization_path r; written := written r;
     logged := v |}.

(** [itr = map.find(handle); if (itr == end(map)) FOSSILIZE_THROW(..);
    else return itr->second;] *)
Definition find_or_throw (table : gmap Z Z) (handle : Z) (msg : string)
    : Res Z :=
  match table !! handle with
  | Some hash => Ok hash
  | None => Throw msg
  end.

Definition get_hash_for_compute_pipeline_handle (r : t) (pipeline : Z) :=
  find_or_throw (compute_pipeline_to_index r) pipeline
    "Handle is not registered.".

Definition get_hash_for_graphics_pipeline_handle (r : t) (pipeline : Z) :=
  find_or_throw (graphics_pipeline_to_index r) pipeline
    "Handle is not registered.".

Definition get_hash_for_sampler (r : t) (sampler : Z) :=
  find_or_throw (sampler_to_index r) sampler "Handle is not registered.".

Definition get_hash_for_shader_module (r : t) (module : Z) :=
  find_or_throw (shader_module_to_index r) module
    "Handle is not registered.".

Definition get_hash_for_pipeline_layout (r : t) (layout : Z) :=
  find_or_throw (pipeline_layout_to_index r) layout
    "Handle is not registered.".

Definition get_hash_for_descriptor_set_layout (r : t) (layout : Z) :=
  find_or_throw (descriptor_set_layout_to_index r) layout
    "Handle is not registered.".

Definition get_hash_for_render_pass (r : t) (render_pass : Z) :=
  find_or_throw (render_pass_to_index r) render_pass
    "Handle is not registered.".

End StateRecorder.

(** ** The content hashes *)

Module Hashing.
Import StateRecorder.

(** [Hash compute_hash_sampler(const StateRecorder &,
    const VkSamplerCreateInfo &sampler)] *)
Definition compute_hash_sampler (recorder : StateRecorder.t)
    (sampler : VkSamplerCreateInfo.t) : Res Z :=
  hashed (
    H.u32 sampler.(VkSamplerCreateInfo.flags) ;;
    H.f32 sampler.(VkSamplerCreateInfo.maxAnisotropy) ;;
    H.f32 sampler.(VkSamplerCreateInfo.mipLodBias) ;;
    H.f32 sampler.(VkSamplerCreateInfo.minLod) ;;
    H.f32 sampler.(VkSamplerCreateInfo.maxLod) ;;
    H.u32 sampler.(VkSamplerCreateInfo.minFilter) ;;
    H.u32 sampler.(VkSamplerCreateInfo.magFilter) ;;
    H.u32 sampler.(VkSamplerCreateInfo.mipmapMode) ;;
    H.u32 sampler.(VkSamplerCreateInfo.compareEnable) ;;
    H.u32 sampler.(VkSamplerCreateInfo.compareOp) ;;
    H.u32 sampler.(VkSamplerCreateInfo.anisotropyEnable) ;;
    H.u32 sampler.(VkSamplerCreateInfo.addressModeU) ;;
    H.u32 sampler.(VkSamplerCreateInfo.addressModeV) ;;
    H.u32 sampler.(VkSamplerCreateInfo.addressModeW) ;;
    H.u32 sampler.(VkSamplerCreateInfo.borderColor) ;;
    H.u32 sampler.(VkSamplerCreateInfo.unnormalizedCoordinates))%hash.

(** [binding.pImmutableSamplers && (binding.descriptorType ==
    VK_DESCRIPTOR_TYPE_COMBINED_IMAGE_SAMPLER || binding.descriptorType
    == VK_DESCRIPTOR_TYPE_SAMPLER)]: the sampler array when the test
    passes. *)
Definition immutable_samplers (binding : VkDescriptorSetLayoutBinding.t)
    : option (list Z) :=
  match binding.(VkDescriptorSetLayoutBinding.pImmutableSamplers) with
  | Some samplers =>
      if (binding.(VkDescriptorSetLayoutBinding.descriptorType)
            =? VK_DESCRIPTOR_TYPE_COMBINED_IMAGE_SAMPLER)
         || (binding.(VkDescriptorSetLayoutBinding.descriptorType)
            =? VK_DESCRIPTOR_TYPE_SAMPLER)
      then Some samplers else None
  | None => None
  end.

Definition compute_hash_descriptor_set_layout (recorder : StateRecorder.t)
    (layout : VkDescriptorSetLayoutCreateInfo.t) : Res Z :=
  hashed (
    H.u32 layout.(VkDescriptorSetLayoutCreateInfo.bindingCount) ;;
    H.u32 layout.(VkDescriptorSetLayoutCreateInfo.flags) ;;
    for_range layout.(VkDescriptorSetLayoutCreateInfo.bindingCount) (λ i,
      binding ← hash_lift
        (index layout.(VkDescriptorSetLayoutCreateInfo.pBindings) i);
      H.u32 binding.(VkDescriptorSetLayoutBinding.binding) ;;
      H.u32 binding.(VkDescriptorSetLayoutBinding.descriptorCount) ;;
      H.u32 binding.(VkDescriptorSetLayoutBinding.descriptorType) ;;
      H.u32 binding.(VkDescriptorSetLayoutBinding.stageFlags) ;;
      match immutable_samplers binding with
      | Some samplers =>
          for_range binding.(VkDescriptorSetLayoutBinding.descriptorCount)
            (λ j,
              sampler ← hash_lift (index samplers j);
              hash ← hash_lift (get_hash_for_sampler recorder sampler);
              H.u64 hash)
      | None => hash_ret tt
      end))%hash.

Definition compute_hash_pipeline_layout (recorder : StateRecorder.t)
    (layout : VkPipelineLayoutCreateInfo.t) : Res Z :=
  hashed (
    H.u32 layout.(VkPipelineLayoutCreateInfo.setLayoutCount) ;;
    for_range layout.(VkPipelineLayoutCreateInfo.setLayoutCount) (λ i,
      set_layout ← hash_lift
        (index layout.(VkPipelineLayoutCreateInfo.pSetLayouts) i);
      if set_layout =? VK_NULL_HANDLE then H.u32 0
      else
        hash ← hash_lift
          (get_hash_for_descriptor_set_layout recorder set_layout);
        H.u64 hash) ;;
    H.u32 layout.(VkPipelineLayoutCreateInfo.pushConstantRangeCount) ;;
    for_range layout.(VkPipelineLayoutCreateInfo.pushConstantRangeCount)
      (λ i,
        push ← hash_lift
          (index layout.(VkPipelineLayoutCreateInfo.pPushConstantRanges) i);
        H.u32 push.(VkPushConstantRange.stageFlags) ;;
        H.u32 push.(VkPushConstantRange.size) ;;
        H.u32 push.(VkPushConstantRange.offset)) ;;
    H.u32 layout.(VkPipelineLayoutCreateInfo.flags))%hash.

Definition compute_hash_shader_module (recorder : StateRecorder.t)
    (create_info : VkShaderModuleCreateInfo.t) : Res Z :=
  hashed (
    H.data create_info.(VkShaderModuleCreateInfo.pCode)
      create_info.(VkShaderModuleCreateInfo.codeSize) 4 ;;
    H.u32 create_info.(VkShaderModuleCreateInfo.flags))%hash.

(** [static void hash_specialization_info(Hasher &h,
    const VkSpecializationInfo &spec)] *)
Definition hash_specialization_info (spec : VkSpecializationInfo.t)
    : HashM unit :=
  (H.data spec.(VkSpecializationInfo.pData)
     spec.(VkSpecializationInfo.dataSize) 1 ;;
   H.u64 spec.(VkSpecializationInfo.dataSize) ;;
   H.u32 spec.(VkSpecializationInfo.mapEntryCount) ;;
   for_range spec.(VkSpecializationInfo.mapEntryCount) (λ i,
     entry ← hash_lift (index spec.(VkSpecializationInfo.pMapEntries) i);
     H.u32 entry.(VkSpecializationMapEntry.offset) ;;
     H.u64 entry.(VkSpecializationMapEntry.size) ;;
     H.u32 entry.(VkSpecializationMapEntry.constantID)))%hash.

(** A [VkBool32], or a pointer, used as a condition. *)
Definition truthy (v : Z) : bool := negb (v =? 0).

(** The nine locals [dynamic_*] of [compute_hash_graphics_pipeline]. *)
Record DynamicFlags : Type := {
  dynamic_stencil_compare : bool;
  dynamic_stencil_reference : bool;
  dynamic_stencil_write_mask : bool;
  dynamic_depth_bounds : bool;
  dynamic_depth_bias : bool;
  dynamic_line_width : bool;
  dynamic_blend_constants : bool;
  dynamic_scissor : bool;
  dynamic_viewport : bool }.

Definition no_dynamic : DynamicFlags :=
  {| dynamic_stencil_compare := false; dynamic_stencil_reference := false;
     dynamic_stencil_write_mask := false; dynamic_depth_bounds := false;
     dynamic_depth_bias := false; dynamic_line_width := false;
     dynamic_blend_constants := false; dynamic_scissor := false;
     dynamic_viewport := false |}.

(** [switch (state.pDynamicStates[i])]: at most one local is set. *)
Definition switch_dynamic_state (v : Z) (d : DynamicFlags) : DynamicFlags :=
  let case k := v =? k in
  {| dynamic_stencil_compare :=
       case VK_DYNAMIC_STATE_STENCIL_COMPARE_MASK || dynamic_stencil_compare d;
     dynamic_stencil_reference :=
       case VK_DYNAMIC_STATE_STENCIL_REFERENCE || dynamic_stencil_reference d;
     dynamic_stencil_write_mask :=
       case VK_DYNAMIC_STATE_STENCIL_WRITE_MASK
       || dynamic_stencil_write_mask d;
     dynamic_depth_bounds :=
       case VK_DYNAMIC_STATE_DEPTH_BOUNDS || dynamic_depth_bounds d;
     dynamic_depth_bias :=
       case VK_DYNAMIC_STATE_DEPTH_BIAS || dynamic_depth_bias d;
     dynamic_line_width :=
       case VK_DYNAMIC_STATE_LINE_WIDTH || dynamic_line_width d;
     dynamic_blend_constants :=
       case VK_DYNAMIC_STATE_BLEND_CONSTANTS || dynamic_blend_constants d;
     dynamic_scissor := case VK_DYNAMIC_STATE_SCISSOR || dynamic_scissor d;
     dynamic_viewport :=
       case VK_DYNAMIC_STATE_VIEWPORT || dynamic_viewport d |}.

(** The blocks of [compute_hash_graphics_pipeline], one per sub-state,
    in the order of the source. *)

(** [if (create_info.pDynamicState) { ... } else h.u32(0);] *)
Definition hash_dynamic_state
    (pDynamicState : option VkPipelineDynamicStateCreateInfo.t)
    : HashM DynamicFlags :=
  match pDynamicState with
  | Some state =>
      (H.u32 state.(VkPipelineDynamicStateCreateInfo.dynamicStateCount) ;;
       H.u32 state.(VkPipelineDynamicStateCreateInfo.flags) ;;
       for_acc
         (Z.to_nat state.(VkPipelineDynamicStateCreateInfo.dynamicStateCount))
         0
         (λ i d,
           v ← hash_lift
             (index state.(VkPipelineDynamicStateCreateInfo.pDynamicStates)
                i);
           H.u32 v ;;
           hash_ret (switch_dynamic_state v d))
         no_dynamic)%hash
  | None => (H.u32 0 ;; hash_ret no_dynamic)%hash
  end.

(** [if (create_info.pDepthStencilState) { ... } else h.u32(0);] *)
Definition hash_depth_stencil_state (d : DynamicFlags)
    (pDepthStencilState : option VkPipelineDepthStencilStateCreateInfo.t)
    : HashM unit :=
  match pDepthStencilState with
  | Some ds =>
      let front := ds.(VkPipelineDepthStencilStateCreateInfo.front) in
      let back := ds.(VkPipelineDepthStencilStateCreateInfo.back) in
      (H.u32 ds.(VkPipelineDepthStencilStateCreateInfo.flags) ;;
       H.u32 ds.(VkPipelineDepthStencilStateCreateInfo.depthBoundsTestEnable) ;;
       H.u32 ds.(VkPipelineDepthStencilStateCreateInfo.depthCompareOp) ;;
       H.u32 ds.(VkPipelineDepthStencilStateCreateInfo.depthTestEnable) ;;
       H.u32 ds.(VkPipelineDepthStencilStateCreateInfo.depthWriteEnable) ;;
       H.u32 front.(VkStencilOpState.compareOp) ;;
       H.u32 front.(VkStencilOpState.depthFailOp) ;;
       H.u32 front.(VkStencilOpState.failOp) ;;
       H.u32 front.(VkStencilOpState.passOp) ;;
       H.u32 back.(VkStencilOpState.compareOp) ;;
       H.u32 back.(VkStencilOpState.depthFailOp) ;;
       H.u32 back.(VkStencilOpState.failOp) ;;
       H.u32 back.(VkStencilOpState.passOp) ;;
       H.u32 ds.(VkPipelineDepthStencilStateCreateInfo.stencilTestEnable) ;;
       (if negb (dynamic_depth_bounds d)
           && truthy
                ds.(VkPipelineDepthStencilStateCreateInfo.depthBoundsTestEnable)
        then
          H.f32 ds.(VkPipelineDepthStencilStateCreateInfo.minDepthBounds) ;;
          H.f32 ds.(VkPipelineDepthStencilStateCreateInfo.maxDepthBounds)
        else hash_ret tt) ;;
       (if truthy
             ds.(VkPipelineDepthStencilStateCreateInfo.stencilTestEnable)
        then
          (if negb (dynamic_stencil_compare d) then
             H.u32 front.(VkStencilOpState.compareMask) ;;
             H.u32 back.(VkStencilOpState.compareMask)
           else hash_ret tt) ;;
          (if negb (dynamic_stencil_reference d) then
             H.u32 front.(VkStencilOpState.reference) ;;
             H.u32 back.(VkStencilOpState.reference)
           else hash_ret tt) ;;
          (if negb (dynamic_stencil_write_mask d) then
             H.u32 front.(VkStencilOpState.writeMask) ;;
             H.u32 back.(VkStencilOpState.writeMask)
           else hash_ret tt)
        else hash_ret tt))%hash
  | None => H.u32 0
  end.

(** [if (create_info.pInputAssemblyState) { ... } else h.u32(0);] *)
Definition hash_input_assembly_state
    (pInputAssemblyState : option VkPipelineInputAssemblyStateCreateInfo.t)
    : HashM unit :=
  match pInputAssemblyState with
  | Some ia =>
      (H.u32 ia.(VkPipelineInputAssemblyStateCreateInfo.flags) ;;
       H.u32 ia.(VkPipelineInputAssemblyStateCreateInfo.primitiveRestartEnable) ;;
       H.u32 ia.(VkPipelineInputAssemblyStateCreateInfo.topology))%hash
  | None => H.u32 0
  end.

(** [if (create_info.pRasterizationState) { ... } else h.u32(0);] *)
Definition hash_rasterization_state (d : DynamicFlags)
    (pRasterizationState : option VkPipelineRasterizationStateCreateInfo.t)
    : HashM unit :=
  match pRasterizationState with
  | Some rs =>
      (H.u32 rs.(VkPipelineRasterizationStateCreateInfo.flags) ;;
       H.u32 rs.(VkPipelineRasterizationStateCreateInfo.cullMode) ;;
       H.u32 rs.(VkPipelineRasterizationStateCreateInfo.depthClampEnable) ;;
       H.u32 rs.(VkPipelineRasterizationStateCreateInfo.frontFace) ;;
       H.u32 rs.(VkPipelineRasterizationStateCreateInfo.rasterizerDiscardEnable) ;;
       H.u32 rs.(VkPipelineRasterizationStateCreateInfo.polygonMode) ;;
       H.u32 rs.(VkPipelineRasterizationStateCreateInfo.depthBiasEnable) ;;
       (if truthy rs.(VkPipelineRasterizationStateCreateInfo.depthBiasEnable)
           && negb (dynamic_depth_bias d)
        then
          H.f32 rs.(VkPipelineRasterizationStateCreateInfo.depthBiasClamp) ;;
          H.f32 rs.(VkPipelineRasterizationStateCreateInfo.depthBiasSlopeFactor) ;;
          H.f32 rs.(VkPipelineRasterizationStateCreateInfo.depthBiasConstantFactor)
        else hash_ret tt) ;;
       (if negb (dynamic_line_width d)
        then H.f32 rs.(VkPipelineRasterizationStateCreateInfo.lineWidth)
        else hash_ret tt))%hash
  | None => H.u32 0
  end.

(** [if (create_info.pMultisampleState) { ... }], which has no [else]. *)
Definition hash_multisample_state
    (pMultisampleState : option VkPipelineMultisampleStateCreateInfo.t)
    : HashM unit :=
  match pMultisampleState with
  | Some ms =>
      (H.u32 ms.(VkPipelineMultisampleStateCreateInfo.flags) ;;
       H.u32 ms.(VkPipelineMultisampleStateCreateInfo.alphaToCoverageEnable) ;;
       H.u32 ms.(VkPipelineMultisampleStateCreateInfo.alphaToOneEnable) ;;
       H.f32 ms.(VkPipelineMultisampleStateCreateInfo.minSampleShading) ;;
       H.u32 ms.(VkPipelineMultisampleStateCreateInfo.rasterizationSamples) ;;
       H.u32 ms.(VkPipelineMultisampleStateCreateInfo.sampleShadingEnable) ;;
       match ms.(VkPipelineMultisampleStateCreateInfo.pSampleMask) with
       | Some mask =>
           let elems :=
             uint32
               (ms.(VkPipelineMultisampleStateCreateInfo.rasterizationSamples)
                + 31) / 32 in
           for_range elems (λ i, w ← hash_lift (index mask i); H.u32 w)
       | None => H.u32 0
       end)%hash
  | None => hash_ret tt
  end.

(** [if (create_info.pViewportState) { ... } else h.u32(0);] *)
Definition hash_viewport_state (d : DynamicFlags)
    (pViewportState : option VkPipelineViewportStateCreateInfo.t)
    : HashM unit :=
  match pViewportState with
  | Some vp =>
      (H.u32 vp.(VkPipelineViewportStateCreateInfo.flags) ;;
       H.u32 vp.(VkPipelineViewportStateCreateInfo.scissorCount) ;;
       H.u32 vp.(VkPipelineViewportStateCreateInfo.viewportCount) ;;
       (if negb (dynamic_scissor d) then
          for_range vp.(VkPipelineViewportStateCreateInfo.scissorCount)
            (λ i,
              sc ← hash_lift
                (index vp.(VkPipelineViewportStateCreateInfo.pScissors) i);
              H.s32 sc.(VkRect2D.offset).(VkOffset2D.x) ;;
              H.s32 sc.(VkRect2D.offset).(VkOffset2D.y) ;;
              H.u32 sc.(VkRect2D.extent).(VkExtent2D.width) ;;
              H.u32 sc.(VkRect2D.extent).(VkExtent2D.height))
        else hash_ret tt) ;;
       (if negb (dynamic_viewport d) then
          for_range vp.(VkPipelineViewportStateCreateInfo.viewportCount)
            (λ i,
              v ← hash_lift
                (index vp.(VkPipelineViewportStateCreateInfo.pViewports) i);
              H.f32 v.(VkViewport.x) ;;
              H.f32 v.(VkViewport.y) ;;
              H.f32 v.(VkViewport.width) ;;
              H.f32 v.(VkViewport.height) ;;
              H.f32 v.(VkViewport.minDepth) ;;
              H.f32 v.(VkViewport.maxDepth))
        else hash_ret tt))%hash
  | None => H.u32 0
  end.

(** [if (create_info.pVertexInputState) { ... } else h.u32(0);] *)
Definition hash_vertex_input_state
    (pVertexInputState : option VkPipelineVertexInputStateCreateInfo.t)
    : HashM unit :=
  match pVertexInputState with
  | Some vi =>
      (H.u32 vi.(VkPipelineVertexInputStateCreateInfo.flags) ;;
       H.u32 vi.(VkPipelineVertexInputStateCreateInfo.vertexAttributeDescriptionCount) ;;
       H.u32 vi.(VkPipelineVertexInputStateCreateInfo.vertexBindingDescriptionCount) ;;
       for_range
         vi.(VkPipelineVertexInputStateCreateInfo.vertexAttributeDescriptionCount)
         (λ i,
           a ← hash_lift
             (index
                vi.(VkPipelineVertexInputStateCreateInfo.pVertexAttributeDescriptions)
                i);
           H.u32 a.(VkVertexInputAttributeDescription.offset) ;;
           H.u32 a.(VkVertexInputAttributeDescription.binding) ;;
           H.u32 a.(VkVertexInputAttributeDescription.format) ;;
           H.u32 a.(VkVertexInputAttributeDescription.location)) ;;
       for_range
         vi.(VkPipelineVertexInputStateCreateInfo.vertexBindingDescriptionCount)
         (λ i,
           b ← hash_lift
             (index
                vi.(VkPipelineVertexInputStateCreateInfo.pVertexBindingDescriptions)
                i);
           H.u32 b.(VkVertexInputBindingDescription.binding) ;;
           H.u32 b.(VkVertexInputBindingDescription.inputRate) ;;
           H.u32 b.(VkVertexInputBindingDescription.stride)))%hash
  | None => H.u32 0
  end.

(** The eight comparisons that set [need_blend_constants]. *)
Definition uses_blend_constants
    (a : VkPipelineColorBlendAttachmentState.t) : bool :=
  (a.(VkPipelineColorBlendAttachmentState.dstAlphaBlendFactor)
     =? VK_BLEND_FACTOR_CONSTANT_ALPHA)
  || (a.(VkPipelineColorBlendAttachmentState.dstAlphaBlendFactor)
     =? VK_BLEND_FACTOR_CONSTANT_COLOR)
  || (a.(VkPipelineColorBlendAttachmentState.srcAlphaBlendFactor)
     =? VK_BLEND_FACTOR_CONSTANT_ALPHA)
  || (a.(VkPipelineColorBlendAttachmentState.srcAlphaBlendFactor)
     =? VK_BLEND_FACTOR_CONSTANT_COLOR)
  || (a.(VkPipelineColorBlendAttachmentState.dstColorBlendFactor)
     =? VK_BLEND_FACTOR_CONSTANT_ALPHA)
  || (a.(VkPipelineColorBlendAttachmentState.dstColorBlendFactor)
     =? VK_BLEND_FACTOR_CONSTANT_COLOR)
  || (a.(VkPipelineColorBlendAttachmentState.srcColorBlendFactor)
     =? VK_BLEND_FACTOR_CONSTANT_ALPHA)
  || (a.(VkPipelineColorBlendAttachmentState.srcColorBlendFactor)
     =? VK_BLEND_FACTOR_CONSTANT_COLOR).

(** The body of the loop over [b.pAttachments], for the element [a]. *)
Definition hash_blend_attachment
    (a : VkPipelineColorBlendAttachmentState.t)
    (need_blend_constants : bool) : HashM bool :=
  (H.u32 a.(VkPipelineColorBlendAttachmentState.blendEnable) ;;
   if truthy a.(VkPipelineColorBlendAttachmentState.blendEnable) then
     H.u32 a.(VkPipelineColorBlendAttachmentState.colorWriteMask) ;;
     H.u32 a.(VkPipelineColorBlendAttachmentState.alphaBlendOp) ;;
     H.u32 a.(VkPipelineColorBlendAttachmentState.colorBlendOp) ;;
     H.u32 a.(VkPipelineColorBlendAttachmentState.dstAlphaBlendFactor) ;;
     H.u32 a.(VkPipelineColorBlendAttachmentState.srcAlphaBlendFactor) ;;
     H.u32 a.(VkPipelineColorBlendAttachmentState.dstColorBlendFactor) ;;
     H.u32 a.(VkPipelineColorBlendAttachmentState.srcColorBlendFactor) ;;
     hash_ret (if uses_blend_constants a then true
               else need_blend_constants)
   else
     H.u32 0 ;;
     hash_ret need_blend_constants)%hash.

(** [for (auto &blend_const : b.blendConstants) h.f32(blend_const);]
    over the four elements of the array. *)
Definition hash_blend_constants (blendConstants : Z * Z * Z * Z)
    : HashM unit :=
  let '(c0, c1, c2, c3) := blendConstants in
  (H.f32 c0 ;; H.f32 c1 ;; H.f32 c2 ;; H.f32 c3)%hash.

(** [if (create_info.pColorBlendState) { ... } else h.u32(0);] *)
Definition hash_color_blend_state (d : DynamicFlags)
    (pColorBlendState : option VkPipelineColorBlendStateCreateInfo.t)
    : HashM unit :=
  match pColorBlendState with
  | Some b =>
      (H.u32 b.(VkPipelineColorBlendStateCreateInfo.flags) ;;
       H.u32 b.(VkPipelineColorBlendStateCreateInfo.attachmentCount) ;;
       H.u32 b.(VkPipelineColorBlendStateCreateInfo.logicOpEnable) ;;
       H.u32 b.(VkPipelineColorBlendStateCreateInfo.logicOp) ;;
       need_blend_constants ←
         for_acc
           (Z.to_nat b.(VkPipelineColorBlendStateCreateInfo.attachmentCount))
           0
           (λ i need,
             a ← hash_lift
               (index b.(VkPipelineColorBlendStateCreateInfo.pAttachments) i);
             hash_blend_attachment a need)
           false;
       if need_blend_constants && negb (dynamic_blend_constants d)
       then hash_blend_constants
              b.(VkPipelineColorBlendStateCreateInfo.blendConstants)
       else hash_ret tt)%hash
  | None => H.u32 0
  end.

(** [if (create_info.pTessellationState) { ... } else h.u32(0);] *)
Definition hash_tessellation_state
    (pTessellationState : option VkPipelineTessellationStateCreateInfo.t)
    : HashM unit :=
  match pTessellationState with
  | Some tess =>
      (H.u32 tess.(VkPipelineTessellationStateCreateInfo.flags) ;;
       H.u32 tess.(VkPipelineTessellationStateCreateInfo.patchControlPoints))%hash
  | None => H.u32 0
  end.

(** The body of the loop over [create_info.pStages]. *)
Definition hash_stage (recorder : StateRecorder.t)
    (stage : VkPipelineShaderStageCreateInfo.t) : HashM unit :=
  (H.u32 stage.(VkPipelineShaderStageCreateInfo.flags) ;;
   H.string stage.(VkPipelineShaderStageCreateInfo.pName) ;;
   H.u32 stage.(VkPipelineShaderStageCreateInfo.stage) ;;
   hash ← hash_lift
     (get_hash_for_shader_module recorder
        stage.(VkPipelineShaderStageCreateInfo.module));
   H.u64 hash ;;
   match stage.(VkPipelineShaderStageCreateInfo.pSpecializationInfo) with
   | Some spec => hash_specialization_info spec
   | None => H.u32 0
   end)%hash.

(** The feeds of [compute_hash_graphics_pipeline], between
    [Hasher h;] and [return h.get();]. *)
Definition feed_graphics_pipeline (recorder : StateRecorder.t)
    (create_info : VkGraphicsPipelineCreateInfo.t) : HashM unit :=
  (H.u32 create_info.(VkGraphicsPipelineCreateInfo.flags) ;;
   (if negb (create_info.(VkGraphicsPipelineCreateInfo.basePipelineHandle)
             =? VK_NULL_HANDLE)
    then
      hash ← hash_lift
        (get_hash_for_graphics_pipeline_handle recorder
           create_info.(VkGraphicsPipelineCreateInfo.basePipelineHandle));
      H.u64 hash ;;
      H.s32 create_info.(VkGraphicsPipelineCreateInfo.basePipelineIndex)
    else hash_ret tt) ;;
   layout ← hash_lift
     (get_hash_for_pipeline_layout recorder
        create_info.(VkGraphicsPipelineCreateInfo.layout));
   H.u64 layout ;;
   render_pass ← hash_lift
     (get_hash_for_render_pass recorder
        create_info.(VkGraphicsPipelineCreateInfo.renderPass));
   H.u64 render_pass ;;
   H.u32 create_info.(VkGraphicsPipelineCreateInfo.subpass) ;;
   H.u32 create_info.(VkGraphicsPipelineCreateInfo.stageCount) ;;
   d ← hash_dynamic_state
     create_info.(VkGraphicsPipelineCreateInfo.pDynamicState);
   hash_depth_stencil_state d
     create_info.(VkGraphicsPipelineCreateInfo.pDepthStencilState) ;;
   hash_input_assembly_state
     create_info.(VkGraphicsPipelineCreateInfo.pInputAssemblyState) ;;
   hash_rasterization_state d
     create_info.(VkGraphicsPipelineCreateInfo.pRasterizationState) ;;
   hash_multisample_state
     create_info.(VkGraphicsPipelineCreateInfo.pMultisampleState) ;;
   hash_viewport_state d
     create_info.(VkGraphicsPipelineCreateInfo.pViewportState) ;;
   hash_vertex_input_state
     create_info.(VkGraphicsPipelineCreateInfo.pVertexInputState) ;;
   hash_color_blend_state d
     create_info.(VkGraphicsPipelineCreateInfo.pColorBlendState) ;;
   hash_tessellation_state
     create_info.(VkGraphicsPipelineCreateInfo.pTessellationState) ;;
   for_range create_info.(VkGraphicsPipelineCreateInfo.stageCount) (λ i,
     stage ← hash_lift
       (index create_info.(VkGraphicsPipelineCreateInfo.pStages) i);
     hash_stage recorder stage))%hash.

Definition compute_hash_graphics_pipeline (recorder : StateRecorder.t)
    (create_info : VkGraphicsPipelineCreateInfo.t) : Res Z :=
  hashed (feed_graphics_pipeline recorder create_info).

Definition compute_hash_compute_pipeline (recorder : StateRecorder.t)
    (create_info : VkComputePipelineCreateInfo.t) : Res Z :=
  let stage := create_info.(VkComputePipelineCreateInfo.stage) in
  hashed (
    layout ← hash_lift
      (get_hash_for_pipeline_layout recorder
         create_info.(VkComputePipelineCreateInfo.layout));
    H.u64 layout ;;
    H.u32 create_info.(VkComputePipelineCreateInfo.flags) ;;
    (if negb (create_info.(VkComputePipelineCreateInfo.basePipelineHandle)
              =? VK_NULL_HANDLE)
     then
       hash ← hash_lift
         (get_hash_for_compute_pipeline_handle recorder
            create_info.(VkComputePipelineCreateInfo.basePipelineHandle));
       H.u64 hash ;;
       H.s32 create_info.(VkComputePipelineCreateInfo.basePipelineIndex)
     else H.u32 0) ;;
    module ← hash_lift
      (get_hash_for_shader_module recorder
         stage.(VkPipelineShaderStageCreateInfo.module));
    H.u64 module ;;
    H.string stage.(VkPipelineShaderStageCreateInfo.pName) ;;
    H.u32 stage.(VkPipelineShaderStageCreateInfo.flags) ;;
    H.u32 stage.(VkPipelineShaderStageCreateInfo.stage) ;;
    match stage.(VkPipelineShaderStageCreateInfo.pSpecializationInfo) with
    | Some spec => hash_specialization_info spec
    | None => H.u32 0
    end)%hash.

(** [static void hash_attachment(Hasher &h,
    const VkAttachmentDescription &att)] *)
Definition hash_attachment (att : VkAttachmentDescription.t) : HashM unit :=
  (H.u32 att.(VkAttachmentDescription.flags) ;;
   H.u32 att.(VkAttachmentDescription.initialLayout) ;;
   H.u32 att.(VkAttachmentDescription.finalLayout) ;;
   H.u32 att.(VkAttachmentDescription.format) ;;
   H.u32 att.(VkAttachmentDescription.loadOp) ;;
   H.u32 att.(VkAttachmentDescription.storeOp) ;;
   H.u32 att.(VkAttachmentDescription.stencilLoadOp) ;;
   H.u32 att.(VkAttachmentDescription.stencilStoreOp) ;;
   H.u32 att.(VkAttachmentDescription.samples))%hash.

(** [static void hash_dependency(Hasher &h,
    const VkSubpassDependency &dep)] *)
Definition hash_dependency (dep : VkSubpassDependency.t) : HashM unit :=
  (H.u32 dep.(VkSubpassDependency.dependencyFlags) ;;
   H.u32 dep.(VkSubpassDependency.dstAccessMask) ;;
   H.u32 dep.(VkSubpassDependency.srcAccessMask) ;;
   H.u32 dep.(VkSubpassDependency.srcSubpass) ;;
   H.u32 dep.(VkSubpassDependency.dstSubpass) ;;
   H.u32 dep.(VkSubpassDependency.srcStageMask) ;;
   H.u32 dep.(VkSubpassDependency.dstStageMask))%hash.

(** [h.u32(ref.attachment); h.u32(ref.layout);] *)
Definition hash_attachment_reference (ref : VkAttachmentReference.t)
    : HashM unit :=
  (H.u32 ref.(VkAttachmentReference.attachment) ;;
   H.u32 ref.(VkAttachmentReference.layout))%hash.

(** [static void hash_subpass(Hasher &h,
    const VkSubpassDescription &subpass)] *)
Definition hash_subpass (subpass : VkSubpassDescription.t) : HashM unit :=
  (H.u32 subpass.(VkSubpassDescription.flags) ;;
   H.u32 subpass.(VkSubpassDescription.colorAttachmentCount) ;;
   H.u32 subpass.(VkSubpassDescription.inputAttachmentCount) ;;
   H.u32 subpass.(VkSubpassDescription.preserveAttachmentCount) ;;
   H.u32 subpass.(VkSubpassDescription.pipelineBindPoint) ;;
   for_range subpass.(VkSubpassDescription.preserveAttachmentCount) (λ i,
     p ← hash_lift
       (index (elems subpass.(VkSubpassDescription.pPreserveAttachments)) i);
     H.u32 p) ;;
   for_range subpass.(VkSubpassDescription.colorAttachmentCount) (λ i,
     ref ← hash_lift
       (index (elems subpass.(VkSubpassDescription.pColorAttachments)) i);
     hash_attachment_reference ref) ;;
   for_range subpass.(VkSubpassDescription.inputAttachmentCount) (λ i,
     ref ← hash_lift
       (index (elems subpass.(VkSubpassDescription.pInputAttachments)) i);
     hash_attachment_reference ref) ;;
   match subpass.(VkSubpassDescription.pResolveAttachments) with
   | Some resolves =>
       for_range subpass.(VkSubpassDescription.colorAttachmentCount) (λ i,
         ref ← hash_lift (index resolves i);
         hash_attachment_reference ref)
   | None => hash_ret tt
   end ;;
   match subpass.(VkSubpassDescription.pDepthStencilAttachment) with
   | Some ref => hash_attachment_reference ref
   | None => H.u32 0
   end)%hash.

Definition compute_hash_render_pass (recorder : StateRecorder.t)
    (create_info : VkRenderPassCreateInfo.t) : Res Z :=
  hashed (
    H.u32 create_info.(VkRenderPassCreateInfo.attachmentCount) ;;
    H.u32 create_info.(VkRenderPassCreateInfo.dependencyCount) ;;
    H.u32 create_info.(VkRenderPassCreateInfo.subpassCount) ;;
    for_range create_info.(VkRenderPassCreateInfo.attachmentCount) (λ i,
      att ← hash_lift
        (index create_info.(VkRenderPassCreateInfo.pAttachments) i);
      hash_attachment att) ;;
    for_range create_info.(VkRenderPassCreateInfo.dependencyCount) (λ i,
      dep ← hash_lift
        (index create_info.(VkRenderPassCreateInfo.pDependencies) i);
      hash_dependency dep) ;;
    for_range create_info.(VkRenderPassCreateInfo.subpassCount) (λ i,
      subpass ← hash_lift
        (index create_info.(VkRenderPassCreateInfo.pSubpasses) i);
      hash_subpass subpass))%hash.

End Hashing.

(** ** Deep copies *)

(** The copies are made in the arena, which is not modelled: a copy is
    the value it holds.  What a copy leaves behind a pointer it does not
    follow ([pViewports], [pScissors], the immutable samplers of a binding
    of another type) is the caller's array. *)
Module DeepCopy.

(** [template <typename T> T *copy(const T *src, size_t count)]: the
    first [count] elements; [std::copy] reads them all. *)
Definition copy {T : Type} (src : list T) (count : Z) : Res (list T) :=
  if (Z.to_nat count <=? length src)%nat
  then Ok (take (Z.to_nat count) src)
  else Undef.

(** [if (p->pNext) FOSSILIZE_THROW(msg);] *)
Definition check_pNext (pNext : Z) (msg : string) : Res unit :=
  if Hashing.truthy pNext then Throw msg else Ok tt.

(** A loop that rewrites the first [n] elements of an array in place. *)
Fixpoint for_each {T : Type} (f : T → Res T) (n : nat) (arr : list T)
    : Res (list T) :=
  match n with
  | O => Ok arr
  | S n' =>
      match arr with
      | [] => Undef
      | x :: rest =>
          let? x' := f x in
          let? rest' := for_each f n' rest in
          Ok (x' :: rest')
      end
  end.

(** The characters of a C string: those before the first NUL. *)
Fixpoint c_str (str : string) : string :=
  match str with
  | EmptyString => EmptyString
  | String c str' =>
      if Base64.is_nul c then EmptyString else String c (c_str str')
  end.

Definition copy_shader_module (create_info : VkShaderModuleCreateInfo.t)
    : Res VkShaderModuleCreateInfo.t :=
  let info := create_info in
  let? pCode :=
    copy info.(VkShaderModuleCreateInfo.pCode)
      (info.(VkShaderModuleCreateInfo.codeSize) / 4) in
  Ok {| VkShaderModuleCreateInfo.pNext :=
          info.(VkShaderModuleCreateInfo.pNext);
        VkShaderModuleCreateInfo.flags :=
          info.(VkShaderModuleCreateInfo.flags);
        VkShaderModuleCreateInfo.codeSize :=
          info.(VkShaderModuleCreateInfo.codeSize);
        VkShaderModuleCreateInfo.pCode := pCode |}.

Definition copy_sampler (create_info : VkSamplerCreateInfo.t)
    : Res VkSamplerCreateInfo.t :=
  Ok create_info.

Definition copy_binding (b : VkDescriptorSetLayoutBinding.t)
    : Res VkDescriptorSetLayoutBinding.t :=
  match Hashing.immutable_samplers b with
  | Some samplers =>
      let? samplers' :=
        copy samplers b.(VkDescriptorSetLayoutBinding.descriptorCount) in
      Ok {| VkDescriptorSetLayoutBinding.binding :=
              b.(VkDescriptorSetLayoutBinding.binding);
            VkDescriptorSetLayoutBinding.descriptorType :=
              b.(VkDescriptorSetLayoutBinding.descriptorType);
            VkDescriptorSetLayoutBinding.descriptorCount :=
              b.(VkDescriptorSetLayoutBinding.descriptorCount);
            VkDescriptorSetLayoutBinding.stageFlags :=
              b.(VkDescriptorSetLayoutBinding.stageFlags);
            VkDescriptorSetLayoutBinding.pImmutableSamplers :=
              Some samplers' |}
  | None => Ok b
  end.

Definition copy_descriptor_set_layout
    (create_info : VkDescriptorSetLayoutCreateInfo.t)
    : Res VkDescriptorSetLayoutCreateInfo.t :=
  let info := create_info in
  let? pBindings :=
    copy info.(VkDescriptorSetLayoutCreateInfo.pBindings)
      info.(VkDescriptorSetLayoutCreateInfo.bindingCount) in
  let? pBindings :=
    for_each copy_binding
      (Z.to_nat info.(VkDescriptorSetLayoutCreateInfo.bindingCount))
      pBindings in
  Ok {| VkDescriptorSetLayoutCreateInfo.pNext :=
          info.(VkDescriptorSetLayoutCreateInfo.pNext);
        VkDescriptorSetLayoutCreateInfo.flags :=
          info.(VkDescriptorSetLayoutCreateInfo.flags);
        VkDescriptorSetLayoutCreateInfo.bindingCount :=
          info.(VkDescriptorSetLayoutCreateInfo.bindingCount);
        VkDescriptorSetLayoutCreateInfo.pBindings := pBindings |}.

Definition copy_pipeline_layout (create_info : VkPipelineLayoutCreateInfo.t)
    : Res VkPipelineLayoutCreateInfo.t :=
  let info := create_info in
  let? pPushConstantRanges :=
    copy info.(VkPipelineLayoutCreateInfo.pPushConstantRanges)
      info.(VkPipelineLayoutCreateInfo.pushConstantRangeCount) in
  let? pSetLayouts :=
    copy info.(VkPipelineLayoutCreateInfo.pSetLayouts)
      info.(VkPipelineLayoutCreateInfo.setLayoutCount) in
  Ok {| VkPipelineLayoutCreateInfo.pNext :=
          info.(VkPipelineLayoutCreateInfo.pNext);
        VkPipelineLayoutCreateInfo.flags :=
          info.(VkPipelineLayoutCreateInfo.flags);
        VkPipelineLayoutCreateInfo.setLayoutCount :=
          info.(VkPipelineLayoutCreateInfo.setLayoutCount);
        VkPipelineLayoutCreateInfo.pSetLayouts := pSetLayouts;
        VkPipelineLayoutCreateInfo.pushConstantRangeCount :=
          info.(VkPipelineLayoutCreateInfo.pushConstantRangeCount);
        VkPipelineLayoutCreateInfo.pPushConstantRanges :=
          pPushConstantRanges |}.

Definition copy_specialization_info (info : VkSpecializationInfo.t)
    : Res VkSpecializationInfo.t :=
  let ret := info in
  let? pMapEntries :=
    copy ret.(VkSpecializationInfo.pMapEntries)
      ret.(VkSpecializationInfo.mapEntryCount) in
  let? pData :=
    copy ret.(VkSpecializationInfo.pData)
      ret.(VkSpecializationInfo.dataSize) in
  Ok {| VkSpecializationInfo.mapEntryCount :=
          ret.(VkSpecializationInfo.mapEntryCount);
        VkSpecializationInfo.pMapEntries := pMapEntries;
        VkSpecializationInfo.dataSize :=
          ret.(VkSpecializationInfo.dataSize);
        VkSpecializationInfo.pData := pData |}.

(** [if (p) p = copy_specialization_info(p);] *)
Definition copy_specialization_info_opt
    (p : option VkSpecializationInfo.t)
    : Res (option VkSpecializationInfo.t) :=
  match p with
  | Some info => res_map Some (copy_specialization_info info)
  | None => Ok None
  end.

Definition copy_compute_pipeline
    (create_info : VkComputePipelineCreateInfo.t)
    : Res VkComputePipelineCreateInfo.t :=
  let info := create_info in
  let stage := info.(VkComputePipelineCreateInfo.stage) in
  let? pSpecializationInfo :=
    copy_specialization_info_opt
      stage.(VkPipelineShaderStageCreateInfo.pSpecializationInfo) in
  let? _ :=
    check_pNext stage.(VkPipelineShaderStageCreateInfo.pNext)
      "pNext in VkPipelineShaderStageCreateInfo not supported." in
  Ok {| VkComputePipelineCreateInfo.pNext :=
          info.(VkComputePipelineCreateInfo.pNext);
        VkComputePipelineCreateInfo.flags :=
          info.(VkComputePipelineCreateInfo.flags);
        VkComputePipelineCreateInfo.stage :=
          {| VkPipelineShaderStageCreateInfo.pNext :=
               stage.(VkPipelineShaderStageCreateInfo.pNext);
             VkPipelineShaderStageCreateInfo.flags :=
               stage.(VkPipelineShaderStageCreateInfo.flags);
             VkPipelineShaderStageCreateInfo.stage :=
               stage.(VkPipelineShaderStageCreateInfo.stage);
             VkPipelineShaderStageCreateInfo.module :=
               stage.(VkPipelineShaderStageCreateInfo.module);
             VkPipelineShaderStageCreateInfo.pName :=
               c_str stage.(VkPipelineShaderStageCreateInfo.pName);
             VkPipelineShaderStageCreateInfo.pSpecializationInfo :=
               pSpecializationInfo |};
        VkComputePipelineCreateInfo.layout :=
          info.(VkComputePipelineCreateInfo.layout);
        VkComputePipelineCreateInfo.basePipelineHandle :=
          info.(VkComputePipelineCreateInfo.basePipelineHandle);
        VkComputePipelineCreateInfo.basePipelineIndex :=
          info.(VkComputePipelineCreateInfo.basePipelineIndex) |}.

(** [if (info->p) { if (info->p->pNext) FOSSILIZE_THROW(msg); ... }] *)
Definition check_substate {S : Type} (p : option S) (pNext : S → Z)
    (msg : string) : Res unit :=
  match p with
  | Some st => check_pNext (pNext st) msg
  | None => Ok tt
  end.

(** The body of the loop over the copied stages. *)
Definition copy_stage (stage : VkPipelineShaderStageCreateInfo.t)
    : Res VkPipelineShaderStageCreateInfo.t :=
  let? _ :=
    check_pNext stage.(VkPipelineShaderStageCreateInfo.pNext)
      "pNext in VkPipelineShaderStageCreateInfo not supported." in
  let pName := c_str stage.(VkPipelineShaderStageCreateInfo.pName) in
  let? pSpecializationInfo :=
    copy_specialization_info_opt
      stage.(VkPipelineShaderStageCreateInfo.pSpecializationInfo) in
  Ok {| VkPipelineShaderStageCreateInfo.pNext :=
          stage.(VkPipelineShaderStageCreateInfo.pNext);
        VkPipelineShaderStageCreateInfo.flags :=
          stage.(VkPipelineShaderStageCreateInfo.flags);
        VkPipelineShaderStageCreateInfo.stage :=
          stage.(VkPipelineShaderStageCreateInfo.stage);
        VkPipelineShaderStageCreateInfo.module :=
          stage.(VkPipelineShaderStageCreateInfo.module);
        VkPipelineShaderStageCreateInfo.pName := pName;
        VkPipelineShaderStageCreateInfo.pSpecializationInfo :=
          pSpecializationInfo |}.

Definition copy_graphics_pipeline
    (create_info : VkGraphicsPipelineCreateInfo.t)
    : Res VkGraphicsPipelineCreateInfo.t :=
  let info := create_info in
  let? pStages :=
    copy info.(VkGraphicsPipelineCreateInfo.pStages)
      info.(VkGraphicsPipelineCreateInfo.stageCount) in
  let? _ :=
    check_substate info.(VkGraphicsPipelineCreateInfo.pTessellationState)
      VkPipelineTessellationStateCreateInfo.pNext
      "pNext in VkPipelineTessellationStateCreateInfo not supported." in
  let? _ :=
    check_substate info.(VkGraphicsPipelineCreateInfo.pColorBlendState)
      VkPipelineColorBlendStateCreateInfo.pNext
      "pNext in VkPipelineColorBlendStateCreateInfo not supported." in
  (* if (info->pVertexInputState)
       { if (info->pColorBlendState->pNext) FOSSILIZE_THROW(..); ... } *)
  let? _ :=
    match info.(VkGraphicsPipelineCreateInfo.pVertexInputState) with
    | Some _ =>
        match info.(VkGraphicsPipelineCreateInfo.pColorBlendState) with
        | Some blend =>
            check_pNext blend.(VkPipelineColorBlendStateCreateInfo.pNext)
              "pNext in VkPipelineTessellationStateCreateInfo not supported."
        | None => Undef
        end
    | None => Ok tt
    end in
  let? _ :=
    check_substate info.(VkGraphicsPipelineCreateInfo.pMultisampleState)
      VkPipelineMultisampleStateCreateInfo.pNext
      "pNext in VkPipelineMultisampleStateCreateInfo not supported." in
  let? _ :=
    check_substate info.(VkGraphicsPipelineCreateInfo.pVertexInputState)
      VkPipelineVertexInputStateCreateInfo.pNext
      "pNext in VkPipelineVertexInputStateCreateInfo not supported." in
  let? _ :=
    check_substate info.(VkGraphicsPipelineCreateInfo.pViewportState)
      VkPipelineViewportStateCreateInfo.pNext
      "pNext in VkPipelineViewportStateCreateInfo not supported." in
  let? _ :=
    check_substate info.(VkGraphicsPipelineCreateInfo.pInputAssemblyState)
      VkPipelineInputAssemblyStateCreateInfo.pNext
      "pNext in VkPipelineInputAssemblyStateCreateInfo not supported." in
  let? _ :=
    check_substate info.(VkGraphicsPipelineCreateInfo.pDepthStencilState)
      VkPipelineDepthStencilStateCreateInfo.pNext
      "pNext in VkPipelineDepthStencilStateCreateInfo not supported." in
  let? _ :=
    check_substate info.(VkGraphicsPipelineCreateInfo.pRasterizationState)
      VkPipelineRasterizationStateCreateInfo.pNext
      "pNext in VkPipelineRasterizationCreateInfo not supported." in
  let? _ :=
    check_substate info.(VkGraphicsPipelineCreateInfo.pDynamicState)
      VkPipelineDynamicStateCreateInfo.pNext
      "pNext in VkPipelineDynamicStateCreateInfo not supported." in
  let? pStages :=
    for_each copy_stage
      (Z.to_nat info.(VkGraphicsPipelineCreateInfo.stageCount)) pStages in
  let? pColorBlendState :=
    match info.(VkGraphicsPipelineCreateInfo.pColorBlendState) with
    | Some blend =>
        let? pAttachments :=
          copy blend.(VkPipelineColorBlendStateCreateInfo.pAttachments)
            blend.(VkPipelineColorBlendStateCreateInfo.attachmentCount) in
        Ok (Some (VkPipelineColorBlendStateCreateInfo.with_pAttachments
                    blend pAttachments))
    | None => Ok None
    end in
  let? pVertexInputState :=
    match info.(VkGraphicsPipelineCreateInfo.pVertexInputState) with
    | Some vs =>
        let? attributes :=
          copy
            vs.(VkPipelineVertexInputStateCreateInfo.pVertexAttributeDescriptions)
            vs.(VkPipelineVertexInputStateCreateInfo.vertexAttributeDescriptionCount) in
        let? bindings :=
          copy
            vs.(VkPipelineVertexInputStateCreateInfo.pVertexBindingDescriptions)
            vs.(VkPipelineVertexInputStateCreateInfo.vertexBindingDescriptionCount) in
        Ok (Some
          {| VkPipelineVertexInputStateCreateInfo.pNext :=
               vs.(VkPipelineVertexInputStateCreateInfo.pNext);
             VkPipelineVertexInputStateCreateInfo.flags :=
               vs.(VkPipelineVertexInputStateCreateInfo.flags);
             VkPipelineVertexInputStateCreateInfo.vertexBindingDescriptionCount :=
               vs.(VkPipelineVertexInputStateCreateInfo.vertexBindingDescriptionCount);
             VkPipelineVertexInputStateCreateInfo.pVertexBindingDescriptions :=
               bindings;
             VkPipelineVertexInputStateCreateInfo.vertexAttributeDescriptionCount :=
               vs.(VkPipelineVertexInputStateCreateInfo.vertexAttributeDescriptionCount);
             VkPipelineVertexInputStateCreateInfo.pVertexAttributeDescriptions :=
               attributes |})
    | None => Ok None
    end in
  let? pMultisampleState :=
    match info.(VkGraphicsPipelineCreateInfo.pMultisampleState) with
    | Some ms =>
        let? pSampleMask :=
          match ms.(VkPipelineMultisampleStateCreateInfo.pSampleMask) with
          | Some mask =>
              res_map Some
                (copy mask
                   (uint32
                      (ms.(VkPipelineMultisampleStateCreateInfo.rasterizationSamples)
                       + 31) / 32))
          | None => Ok None
          end in
        Ok (Some
          {| VkPipelineMultisampleStateCreateInfo.pNext :=
               ms.(VkPipelineMultisampleStateCreateInfo.pNext);
             VkPipelineMultisampleStateCreateInfo.flags :=
               ms.(VkPipelineMultisampleStateCreateInfo.flags);
             VkPipelineMultisampleStateCreateInfo.rasterizationSamples :=
               ms.(VkPipelineMultisampleStateCreateInfo.rasterizationSamples);
             VkPipelineMultisampleStateCreateInfo.sampleShadingEnable :=
               ms.(VkPipelineMultisampleStateCreateInfo.sampleShadingEnable);
             VkPipelineMultisampleStateCreateInfo.minSampleShading :=
               ms.(VkPipelineMultisampleStateCreateInfo.minSampleShading);
             VkPipelineMultisampleStateCreateInfo.pSampleMask := pSampleMask;
             VkPipelineMultisampleStateCreateInfo.alphaToCoverageEnable :=
               ms.(VkPipelineMultisampleStateCreateInfo.alphaToCoverageEnable);
             VkPipelineMultisampleStateCreateInfo.alphaToOneEnable :=
               ms.(VkPipelineMultisampleStateCreateInfo.alphaToOneEnable) |})
    | None => Ok None
    end in
  let? pDynamicState :=
    match info.(VkGraphicsPipelineCreateInfo.pDynamicState) with
    | Some dyn =>
        let? pDynamicStates :=
          copy dyn.(VkPipelineDynamicStateCreateInfo.pDynamicStates)
            dyn.(VkPipelineDynamicStateCreateInfo.dynamicStateCount) in
        Ok (Some
          {| VkPipelineDynamicStateCreateInfo.pNext :=
               dyn.(VkPipelineDynamicStateCreateInfo.pNext);
             VkPipelineDynamicStateCreateInfo.flags :=
               dyn.(VkPipelineDynamicStateCreateInfo.flags);
             VkPipelineDynamicStateCreateInfo.dynamicStateCount :=
               dyn.(VkPipelineDynamicStateCreateInfo.dynamicStateCount);
             VkPipelineDynamicStateCreateInfo.pDynamicStates :=
               pDynamicStates |})
    | None => Ok None
    end in
  Ok {| VkGraphicsPipelineCreateInfo.pNext :=
          info.(VkGraphicsPipelineCreateInfo.pNext);
        VkGraphicsPipelineCreateInfo.flags :=
          info.(VkGraphicsPipelineCreateInfo.flags);
        VkGraphicsPipelineCreateInfo.stageCount :=
          info.(VkGraphicsPipelineCreateInfo.stageCount);
        VkGraphicsPipelineCreateInfo.pStages := pStages;
        VkGraphicsPipelineCreateInfo.pVertexInputState := pVertexInputState;
        VkGraphicsPipelineCreateInfo.pInputAssemblyState :=
          info.(VkGraphicsPipelineCreateInfo.pInputAssemblyState);
        VkGraphicsPipelineCreateInfo.pTessellationState :=
          info.(VkGraphicsPipelineCreateInfo.pTessellationState);
        VkGraphicsPipelineCreateInfo.pViewportState :=
          info.(VkGraphicsPipelineCreateInfo.pViewportState);
        VkGraphicsPipelineCreateInfo.pRasterizationState :=
          info.(VkGraphicsPipelineCreateInfo.pRasterizationState);
        VkGraphicsPipelineCreateInfo.pMultisampleState := pMultisampleState;
        VkGraphicsPipelineCreateInfo.pDepthStencilState :=
          info.(VkGraphicsPipelineCreateInfo.pDepthStencilState);
        VkGraphicsPipelineCreateInfo.pColorBlendState := pColorBlendState;
        VkGraphicsPipelineCreateInfo.pDynamicState := pDynamicState;
        VkGraphicsPipelineCreateInfo.layout :=
          info.(VkGraphicsPipelineCreateInfo.layout);
        VkGraphicsPipelineCreateInfo.renderPass :=
          info.(VkGraphicsPipelineCreateInfo.renderPass);
        VkGraphicsPipelineCreateInfo.subpass :=
          info.(VkGraphicsPipelineCreateInfo.subpass);
        VkGraphicsPipelineCreateInfo.basePipelineHandle :=
          info.(VkGraphicsPipelineCreateInfo.basePipelineHandle);
        VkGraphicsPipelineCreateInfo.basePipelineIndex :=
          info.(VkGraphicsPipelineCreateInfo.basePipelineIndex) |}.

(** [if (sub.p) sub.p = copy(sub.p, count);] *)
Definition copy_opt {T : Type} (p : option (list T)) (count : Z)
    : Res (option (list T)) :=
  match p with
  | Some arr => res_map Some (copy arr count)
  | None => Ok None
  end.

(** The body of the loop over the copied subpasses. *)
Definition copy_subpass (sub : VkSubpassDescription.t)
    : Res VkSubpassDescription.t :=
  let? pColorAttachments :=
    copy_opt sub.(VkSubpassDescription.pColorAttachments)
      sub.(VkSubpassDescription.colorAttachmentCount) in
  let? pResolveAttachments :=
    copy_opt sub.(VkSubpassDescription.pResolveAttachments)
      sub.(VkSubpassDescription.colorAttachmentCount) in
  let? pInputAttachments :=
    copy_opt sub.(VkSubpassDescription.pInputAttachments)
      sub.(VkSubpassDescription.inputAttachmentCount) in
  let? pPreserveAttachments :=
    copy_opt sub.(VkSubpassDescription.pPreserveAttachments)
      sub.(VkSubpassDescription.preserveAttachmentCount) in
  Ok {| VkSubpassDescription.flags := sub.(VkSubpassDescription.flags);
        VkSubpassDescription.pipelineBindPoint :=
          sub.(VkSubpassDescription.pipelineBindPoint);
        VkSubpassDescription.inputAttachmentCount :=
          sub.(VkSubpassDescription.inputAttachmentCount);
        VkSubpassDescription.pInputAttachments := pInputAttachments;
        VkSubpassDescription.colorAttachmentCount :=
          sub.(VkSubpassDescription.colorAttachmentCount);
        VkSubpassDescription.pColorAttachments := pColorAttachments;
        VkSubpassDescription.pResolveAttachments := pResolveAttachments;
        VkSubpassDescription.pDepthStencilAttachment :=
          sub.(VkSubpassDescription.pDepthStencilAttachment);
        VkSubpassDescription.preserveAttachmentCount :=
          sub.(VkSubpassDescription.preserveAttachmentCount);
        VkSubpassDescription.pPreserveAttachments :=
          pPreserveAttachments |}.

Definition copy_render_pass (create_info : VkRenderPassCreateInfo.t)
    : Res VkRenderPassCreateInfo.t :=
  let info := create_info in
  let? pAttachments :=
    copy info.(VkRenderPassCreateInfo.pAttachments)
      info.(VkRenderPassCreateInfo.attachmentCount) in
  let? pSubpasses :=
    copy info.(VkRenderPassCreateInfo.pSubpasses)
      info.(VkRenderPassCreateInfo.subpassCount) in
  let? pDependencies :=
    copy info.(VkRenderPassCreateInfo.pDependencies)
      info.(VkRenderPassCreateInfo.dependencyCount) in
  let? pSubpasses :=
    for_each copy_subpass
      (Z.to_nat info.(VkRenderPassCreateInfo.subpassCount)) pSubpasses in
  Ok {| VkRenderPassCreateInfo.pNext := info.(VkRenderPassCreateInfo.pNext);
        VkRenderPassCreateInfo.flags := info.(VkRenderPassCreateInfo.flags);
        VkRenderPassCreateInfo.attachmentCount :=
          info.(VkRenderPassCreateInfo.attachmentCount);
        VkRenderPassCreateInfo.pAttachments := pAttachments;
        VkRenderPassCreateInfo.subpassCount :=
          info.(VkRenderPassCreateInfo.subpassCount);
        VkRenderPassCreateInfo.pSubpasses := pSubpasses;
        VkRenderPassCreateInfo.dependencyCount :=
          info.(VkRenderPassCreateInfo.dependencyCount);
        VkRenderPassCreateInfo.pDependencies := pDependencies |}.

End DeepCopy.

(** ** The closure serializer *)

(** [for (uint32_t i = 0; i < n; i++) body(i)] outside the hasher,
    carrying what the body updates. *)
Fixpoint for_fold {St : Type} (n : nat) (i : nat) (body : nat → St → Res St)
    (s : St) : Res St :=
  match n with
  | O => Ok s
  | S n' => let? s' := body i s in for_fold n' (S i) body s'
  end.

Module Serialize.
Import StateRecorder.

(** [json_map.HasMember(hash)] *)
Definition HasMember {T : Type} (json_map : list (Z * T)) (hash : Z) : bool :=
  existsb (λ member, fst member =? hash) json_map.

(** [serialize_obj(obj, ci_map, json_map, alloc)]: the stored structure
    when [obj] is a key of [ci_map], after adding it to [json_map]
    unless a member of that name is there. *)
Definition serialize_obj {T : Type} (obj : Z) (ci_map : gmap Z T)
    (json_map : list (Z * T)) : option T * list (Z * T) :=
  match ci_map !! obj with
  | Some ci =>
      (Some ci,
       if HasMember json_map obj then json_map else json_map ++ [(obj, ci)])
  | None => (None, json_map)
  end.

(** The three objects that the walk from a pipeline layout fills. *)
Record LayoutMaps : Type := {
  samplers_map : list (Z * VkSamplerCreateInfo.t);
  set_layouts_map : list (Z * VkDescriptorSetLayoutCreateInfo.t);
  pipeline_layouts_map : list (Z * VkPipelineLayoutCreateInfo.t) }.

Definition no_layout_maps : LayoutMaps :=
  {| samplers_map := []; set_layouts_map := []; pipeline_layouts_map := [] |}.

(** The loop over the bindings of a serialized set layout. *)
Definition serialize_immutable_samplers (r : StateRecorder.t)
    (set_layout : VkDescriptorSetLayoutCreateInfo.t)
    (samplers : list (Z * VkSamplerCreateInfo.t))
    : Res (list (Z * VkSamplerCreateInfo.t)) :=
  for_fold (Z.to_nat set_layout.(VkDescriptorSetLayoutCreateInfo.bindingCount))
    0
    (λ j samplers,
      let? binding :=
        index set_layout.(VkDescriptorSetLayoutCreateInfo.pBindings) j in
      match Hashing.immutable_samplers binding with
      | Some handles =>
          for_fold
            (Z.to_nat binding.(VkDescriptorSetLayoutBinding.descriptorCount))
            0
            (λ k samplers,
              let? sampler := index handles k in
              Ok (snd (serialize_obj sampler (StateRecorder.samplers r)
                         samplers)))
            samplers
      | None => Ok samplers
      end)
    samplers.

(** [if (auto pipeline_layout = serialize_obj(pipe->layout, ...)) { ... }],
    the nest shared by the two pipeline serializers. *)
Definition serialize_pipeline_layout (r : StateRecorder.t) (layout : Z)
    (maps : LayoutMaps) : Res LayoutMaps :=
  match serialize_obj layout (pipeline_layouts r)
          (pipeline_layouts_map maps) with
  | (Some pipeline_layout, pipeline_layouts') =>
      let maps :=
        {| samplers_map := samplers_map maps;
           set_layouts_map := set_layouts_map maps;
           pipeline_layouts_map := pipeline_layouts' |} in
      for_fold
        (Z.to_nat pipeline_layout.(VkPipelineLayoutCreateInfo.setLayoutCount))
        0
        (λ i maps,
          let? handle :=
            index pipeline_layout.(VkPipelineLayoutCreateInfo.pSetLayouts)
              i in
          match serialize_obj handle (descriptor_sets r)
                  (set_layouts_map maps) with
          | (Some set_layout, set_layouts') =>
              let? samplers' :=
                serialize_immutable_samplers r set_layout
                  (samplers_map maps) in
              Ok {| samplers_map := samplers';
                    set_layouts_map := set_layouts';
                    pipeline_layouts_map := pipeline_layouts_map maps |}
          | (None, _) => Ok maps
          end)
        maps
  | (None, _) => Ok maps
  end.

(** [vector<uint8_t> StateRecorder::serialize_graphics_pipeline(Hash hash)
    const].  The local [shader_modules] of the source is never filled
    nor added to the document. *)
Definition serialize_graphics_pipeline (r : StateRecorder.t) (hash : Z)
    : Res Buffer :=
  let? (maps, render_passes_map, graphics_pipelines_map) :=
    match serialize_obj hash (graphics_pipelines r) [] with
    | (Some pipe, graphics_pipelines_map) =>
        let? maps :=
          serialize_pipeline_layout r
            pipe.(VkGraphicsPipelineCreateInfo.layout) no_layout_maps in
        Ok (maps,
            snd (serialize_obj pipe.(VkGraphicsPipelineCreateInfo.renderPass)
                   (render_passes r) []),
            graphics_pipelines_map)
    | (None, _) => Ok (no_layout_maps, [], [])
    end in
  Ok (JsonText
    {| Document.version := Some FOSSILIZE_FORMAT_VERSION;
       Document.shaderModules := None;
       Document.samplers := Some (samplers_map maps);
       Document.setLayouts := Some (set_layouts_map maps);
       Document.pipelineLayouts := Some (pipeline_layouts_map maps);
       Document.renderPasses := Some render_passes_map;
       Document.computePipelines := None;
       Document.graphicsPipelines := Some graphics_pipelines_map |}).

(** [vector<uint8_t> StateRecorder::serialize_compute_pipeline(Hash hash)
    const] *)
Definition serialize_compute_pipeline (r : StateRecorder.t) (hash : Z)
    : Res Buffer :=
  let? (maps, compute_pipelines_map) :=
    match serialize_obj hash (compute_pipelines r) [] with
    | (Some pipe, compute_pipelines_map) =>
        let? maps :=
          serialize_pipeline_layout r
            pipe.(VkComputePipelineCreateInfo.layout) no_layout_maps in
        Ok (maps, compute_pipelines_map)
    | (None, _) => Ok (no_layout_maps, [])
    end in
  Ok (JsonText
    {| Document.version := Some FOSSILIZE_FORMAT_VERSION;
       Document.shaderModules := None;
       Document.samplers := Some (samplers_map maps);
       Document.setLayouts := Some (set_layouts_map maps);
       Document.pipelineLayouts := Some (pipeline_layouts_map maps);
       Document.renderPasses := None;
       Document.computePipelines := Some compute_pipelines_map;
       Document.graphicsPipelines := None |}).

(** [vector<uint8_t> StateRecorder::serialize_shader_module(Hash hash)
    const]; the statement that adds ["version"] is the body of the
    [if] on the result of [serialize_obj]. *)
Definition serialize_shader_module (r : StateRecorder.t) (hash : Z)
    : Res Buffer :=
  let '(found, shader_modules_map) :=
    serialize_obj hash (shader_modules r) [] in
  Ok (JsonText
    {| Document.version :=
         match found with
         | Some _ => Some FOSSILIZE_FORMAT_VERSION
         | None => None
         end;
       Document.shaderModules := Some shader_modules_map;
       Document.samplers := None;
       Document.setLayouts := None;
       Document.pipelineLayouts := None;
       Document.renderPasses := None;
       Document.computePipelines := None;
       Document.graphicsPipelines := None |}).

End Serialize.

(** ** Recording *)

Module Recording.
Import StateRecorder.

(** [impl->record_queue.push(item)] *)
Definition push (item : WorkItem) (r : StateRecorder.t) : StateRecorder.t :=
  set_record_queue (record_queue r ++ [item]) r.

(** [void StateRecorder::record_descriptor_set_layout(..)] *)
Definition record_descriptor_set_layout (set_layout : Z)
    (create_info : VkDescriptorSetLayoutCreateInfo.t) (r : StateRecorder.t)
    : Res StateRecorder.t :=
  let? info := DeepCopy.copy_descriptor_set_layout create_info in
  Ok (push {| handle := set_layout; create_info := Some (DescriptorSetLayoutCI info) |} r).

(** [void StateRecorder::record_pipeline_layout(..)] *)
Definition record_pipeline_layout (pipeline_layout : Z)
    (create_info : VkPipelineLayoutCreateInfo.t) (r : StateRecorder.t)
    : Res StateRecorder.t :=
  let? info := DeepCopy.copy_pipeline_layout create_info in
  Ok (push {| handle := pipeline_layout; create_info := Some (PipelineLayoutCI info) |} r).

(** [void StateRecorder::record_sampler(..)] *)
Definition record_sampler (sampler : Z)
    (create_info : VkSamplerCreateInfo.t) (r : StateRecorder.t)
    : Res StateRecorder.t :=
  if Hashing.truthy create_info.(VkSamplerCreateInfo.pNext)
  then Throw "pNext in VkSamplerCreateInfo not supported."
  else
    let? info := DeepCopy.copy_sampler create_info in
    Ok (push {| handle := sampler; create_info := Some (SamplerCI info) |} r).

(** [void StateRecorder::record_graphics_pipeline(..)] *)
Definition record_graphics_pipeline (pipeline : Z)
    (create_info : VkGraphicsPipelineCreateInfo.t) (r : StateRecorder.t)
    : Res StateRecorder.t :=
  if Hashing.truthy create_info.(VkGraphicsPipelineCreateInfo.pNext)
  then Throw "pNext in VkGraphicsPipelineCreateInfo not supported."
  else
    let? info := DeepCopy.copy_graphics_pipeline create_info in
    Ok (push {| handle := pipeline; create_info := Some (GraphicsPipelineCI info) |} r).

(** [void StateRecorder::record_compute_pipeline(..)] *)
Definition record_compute_pipeline (pipeline : Z)
    (create_info : VkComputePipelineCreateInfo.t) (r : StateRecorder.t)
    : Res StateRecorder.t :=
  if Hashing.truthy create_info.(VkComputePipelineCreateInfo.pNext)
  then Throw "pNext in VkComputePipelineCreateInfo not supported."
  else
    let? info := DeepCopy.copy_compute_pipeline create_info in
    Ok (push {| handle := pipeline; create_info := Some (ComputePipelineCI info) |} r).

(** [void StateRecorder::record_render_pass(..)] *)
Definition record_render_pass (render_pass : Z)
    (create_info : VkRenderPassCreateInfo.t) (r : StateRecorder.t)
    : Res StateRecorder.t :=
  if Hashing.truthy create_info.(VkRenderPassCreateInfo.pNext)
  then Throw "pNext in VkRenderPassCreateInfo not supported."
  else
    let? info := DeepCopy.copy_render_pass create_info in
    Ok (push {| handle := render_pass; create_info := Some (RenderPassCI info) |} r).

(** [void StateRecorder::record_shader_module(..)] *)
Definition record_shader_module (module : Z)
    (create_info : VkShaderModuleCreateInfo.t) (r : StateRecorder.t)
    : Res StateRecorder.t :=
  if Hashing.truthy create_info.(VkShaderModuleCreateInfo.pNext)
  then Throw "pNext in VkShaderModuleCreateInfo not supported."
  else
    let? info := DeepCopy.copy_shader_module create_info in
    Ok (push {| handle := module; create_info := Some (ShaderModuleCI info) |} r).

(** [void StateRecorder::record_end()] *)
Definition record_end (r : StateRecorder.t) : StateRecorder.t :=
  push {| handle := 0; create_info := None |} r.

(** [VkSampler remap_sampler_handle(VkSampler sampler) const] and its six
    siblings. *)
Definition remap_sampler_handle (r : StateRecorder.t) (sampler : Z) :=
  find_or_throw (sampler_to_index r) sampler
    "Cannot find sampler in hashmap.".

Definition remap_descriptor_set_layout_handle (r : StateRecorder.t)
    (layout : Z) :=
  find_or_throw (descriptor_set_layout_to_index r) layout
    "Cannot find descriptor set layout in hashmap.".

Definition remap_pipeline_layout_handle (r : StateRecorder.t) (layout : Z) :=
  find_or_throw (pipeline_layout_to_index r) layout
    "Cannot find pipeline layout in hashmap.".

Definition remap_shader_module_handle (r : StateRecorder.t) (module : Z) :=
  find_or_throw (shader_module_to_index r) module
    "Cannot find shader module in hashmap.".

Definition remap_render_pass_handle (r : StateRecorder.t)
    (render_pass : Z) :=
  find_or_throw (render_pass_to_index r) render_pass
    "Cannot find render pass in hashmap.".

Definition remap_graphics_pipeline_handle (r : StateRecorder.t)
    (pipeline : Z) :=
  find_or_throw (graphics_pipeline_to_index r) pipeline
    "Cannot find graphics pipeline in hashmap.".

Definition remap_compute_pipeline_handle (r : StateRecorder.t)
    (pipeline : Z) :=
  find_or_throw (compute_pipeline_to_index r) pipeline
    "Cannot find compute pipeline in hashmap.".

(** The body of the loop of [remap_descriptor_set_layout_ci]. *)
Definition remap_binding (r : StateRecorder.t)
    (b : VkDescriptorSetLayoutBinding.t)
    : Res VkDescriptorSetLayoutBinding.t :=
  match Hashing.immutable_samplers b with
  | Some samplers =>
      let? samplers' :=
        DeepCopy.for_each (remap_sampler_handle r)
          (Z.to_nat b.(VkDescriptorSetLayoutBinding.descriptorCount))
          samplers in
      Ok {| VkDescriptorSetLayoutBinding.binding :=
              b.(VkDescriptorSetLayoutBinding.binding);
            VkDescriptorSetLayoutBinding.descriptorType :=
              b.(VkDescriptorSetLayoutBinding.descriptorType);
            VkDescriptorSetLayoutBinding.descriptorCount :=
              b.(VkDescriptorSetLayoutBinding.descriptorCount);
            VkDescriptorSetLayoutBinding.stageFlags :=
              b.(VkDescriptorSetLayoutBinding.stageFlags);
            VkDescriptorSetLayoutBinding.pImmutableSamplers :=
              Some samplers' |}
  | None => Ok b
  end.

Definition remap_descriptor_set_layout_ci (r : StateRecorder.t)
    (info : VkDescriptorSetLayoutCreateInfo.t)
    : Res VkDescriptorSetLayoutCreateInfo.t :=
  let? pBindings :=
    DeepCopy.for_each (remap_binding r)
      (Z.to_nat info.(VkDescriptorSetLayoutCreateInfo.bindingCount))
      info.(VkDescriptorSetLayoutCreateInfo.pBindings) in
  Ok {| VkDescriptorSetLayoutCreateInfo.pNext :=
          info.(VkDescriptorSetLayoutCreateInfo.pNext);
        VkDescriptorSetLayoutCreateInfo.flags :=
          info.(VkDescriptorSetLayoutCreateInfo.flags);
        VkDescriptorSetLayoutCreateInfo.bindingCount :=
          info.(VkDescriptorSetLayoutCreateInfo.bindingCount);
        VkDescriptorSetLayoutCreateInfo.pBindings := pBindings |}.

(** Every element of [pSetLayouts] is looked up, a null one too. *)
Definition remap_pipeline_layout_ci (r : StateRecorder.t)
    (info : VkPipelineLayoutCreateInfo.t)
    : Res VkPipelineLayoutCreateInfo.t :=
  let? pSetLayouts :=
    DeepCopy.for_each (remap_descriptor_set_layout_handle r)
      (Z.to_nat info.(VkPipelineLayoutCreateInfo.setLayoutCount))
      info.(VkPipelineLayoutCreateInfo.pSetLayouts) in
  Ok {| VkPipelineLayoutCreateInfo.pNext :=
          info.(VkPipelineLayoutCreateInfo.pNext);
        VkPipelineLayoutCreateInfo.flags :=
          info.(VkPipelineLayoutCreateInfo.flags);
        VkPipelineLayoutCreateInfo.setLayoutCount :=
          info.(VkPipelineLayoutCreateInfo.setLayoutCount);
        VkPipelineLayoutCreateInfo.pSetLayouts := pSetLayouts;
        VkPipelineLayoutCreateInfo.pushConstantRangeCount :=
          info.(VkPipelineLayoutCreateInfo.pushConstantRangeCount);
        VkPipelineLayoutCreateInfo.pPushConstantRanges :=
          info.(VkPipelineLayoutCreateInfo.pPushConstantRanges) |}.

(** [stage.module = remap_shader_module_handle(stage.module);] *)
Definition remap_stage (r : StateRecorder.t)
    (stage : VkPipelineShaderStageCreateInfo.t)
    : Res VkPipelineShaderStageCreateInfo.t :=
  let? module :=
    remap_shader_module_handle r
      stage.(VkPipelineShaderStageCreateInfo.module) in
  Ok {| VkPipelineShaderStageCreateInfo.pNext :=
          stage.(VkPipelineShaderStageCreateInfo.pNext);
        VkPipelineShaderStageCreateInfo.flags :=
          stage.(VkPipelineShaderStageCreateInfo.flags);
        VkPipelineShaderStageCreateInfo.stage :=
          stage.(VkPipelineShaderStageCreateInfo.stage);
        VkPipelineShaderStageCreateInfo.module := module;
        VkPipelineShaderStageCreateInfo.pName :=
          stage.(VkPipelineShaderStageCreateInfo.pName);
        VkPipelineShaderStageCreateInfo.pSpecializationInfo :=
          stage.(VkPipelineShaderStageCreateInfo.pSpecializationInfo) |}.

Definition remap_graphics_pipeline_ci (r : StateRecorder.t)
    (info : VkGraphicsPipelineCreateInfo.t)
    : Res VkGraphicsPipelineCreateInfo.t :=
  let? renderPass :=
    remap_render_pass_handle r
      info.(VkGraphicsPipelineCreateInfo.renderPass) in
  let? layout :=
    remap_pipeline_layout_handle r
      info.(VkGraphicsPipelineCreateInfo.layout) in
  let? basePipelineHandle :=
    (if negb (info.(VkGraphicsPipelineCreateInfo.basePipelineHandle)
              =? VK_NULL_HANDLE)
     then remap_graphics_pipeline_handle r
            info.(VkGraphicsPipelineCreateInfo.basePipelineHandle)
     else Ok info.(VkGraphicsPipelineCreateInfo.basePipelineHandle)) in
  let? pStages :=
    DeepCopy.for_each (remap_stage r)
      (Z.to_nat info.(VkGraphicsPipelineCreateInfo.stageCount))
      info.(VkGraphicsPipelineCreateInfo.pStages) in
  Ok {| VkGraphicsPipelineCreateInfo.pNext :=
          info.(VkGraphicsPipelineCreateInfo.pNext);
        VkGraphicsPipelineCreateInfo.flags :=
          info.(VkGraphicsPipelineCreateInfo.flags);
        VkGraphicsPipelineCreateInfo.stageCount :=
          info.(VkGraphicsPipelineCreateInfo.stageCount);
        VkGraphicsPipelineCreateInfo.pStages := pStages;
        VkGraphicsPipelineCreateInfo.pVertexInputState :=
          info.(VkGraphicsPipelineCreateInfo.pVertexInputState);
        VkGraphicsPipelineCreateInfo.pInputAssemblyState :=
          info.(VkGraphicsPipelineCreateInfo.pInputAssemblyState);
        VkGraphicsPipelineCreateInfo.pTessellationState :=
          info.(VkGraphicsPipelineCreateInfo.pTessellationState);
        VkGraphicsPipelineCreateInfo.pViewportState :=
          info.(VkGraphicsPipelineCreateInfo.pViewportState);
        VkGraphicsPipelineCreateInfo.pRasterizationState :=
          info.(VkGraphicsPipelineCreateInfo.pRasterizationState);
        VkGraphicsPipelineCreateInfo.pMultisampleState :=
          info.(VkGraphicsPipelineCreateInfo.pMultisampleState);
        VkGraphicsPipelineCreateInfo.pDepthStencilState :=
          info.(VkGraphicsPipelineCreateInfo.pDepthStencilState);
        VkGraphicsPipelineCreateInfo.pColorBlendState :=
          info.(VkGraphicsPipelineCreateInfo.pColorBlendState);
        VkGraphicsPipelineCreateInfo.pDynamicState :=
          info.(VkGraphicsPipelineCreateInfo.pDynamicState);
        VkGraphicsPipelineCreateInfo.layout := layout;
        VkGraphicsPipelineCreateInfo.renderPass := renderPass;
        VkGraphicsPipelineCreateInfo.subpass :=
          info.(VkGraphicsPipelineCreateInfo.subpass);
        VkGraphicsPipelineCreateInfo.basePipelineHandle :=
          basePipelineHandle;
        VkGraphicsPipelineCreateInfo.basePipelineIndex :=
          info.(VkGraphicsPipelineCreateInfo.basePipelineIndex) |}.

Definition remap_compute_pipeline_ci (r : StateRecorder.t)
    (info : VkComputePipelineCreateInfo.t)
    : Res VkComputePipelineCreateInfo.t :=
  let? stage := remap_stage r info.(VkComputePipelineCreateInfo.stage) in
  let? basePipelineHandle :=
    (if negb (info.(VkComputePipelineCreateInfo.basePipelineHandle)
              =? VK_NULL_HANDLE)
     then remap_compute_pipeline_handle r
            info.(VkComputePipelineCreateInfo.basePipelineHandle)
     else Ok info.(VkComputePipelineCreateInfo.basePipelineHandle)) in
  let? layout :=
    remap_pipeline_layout_handle r
      info.(VkComputePipelineCreateInfo.layout) in
  Ok {| VkComputePipelineCreateInfo.pNext :=
          info.(VkComputePipelineCreateInfo.pNext);
        VkComputePipelineCreateInfo.flags :=
          info.(VkComputePipelineCreateInfo.flags);
        VkComputePipelineCreateInfo.stage := stage;
        VkComputePipelineCreateInfo.layout := layout;
        VkComputePipelineCreateInfo.basePipelineHandle :=
          basePipelineHandle;
        VkComputePipelineCreateInfo.basePipelineIndex :=
          info.(VkComputePipelineCreateInfo.basePipelineIndex) |}.

(** [static void write_buffer(const std::string &json_dir, Hash hash,
    const vector<uint8_t> &bytes)]: the file it opens and fills. *)
Definition write_buffer (json_dir : string) (hash : Z) (bytes : Buffer)
    (r : StateRecorder.t) : StateRecorder.t :=
  set_written (written r ++ [(json_dir, hash, bytes)]) r.

(** [map.count(hash)] *)
Definition count {T : Type} (map : gmap Z T) (hash : Z) : bool :=
  match map !! hash with
  | Some _ => true
  | None => false
  end.

(** How the [try] block of the worker ends: at its end, by an exception
    raised in the state reached so far, or undefined. *)
Inductive TryOutcome : Type :=
| Completed (r : StateRecorder.t)
| Raised (r : StateRecorder.t) (msg : string)
| Undefined.

(** A call made in the state [r] that may throw. *)
Definition try_call {A : Type} (call : Res A) (r : StateRecorder.t)
    (k : A → TryOutcome) : TryOutcome :=
  match call with
  | Ok a => k a
  | Throw msg => Raised r msg
  | Undef | NoFuel => Undefined
  end.

(** The [switch] on the structure type, one case per kind. *)
Definition dispatch (handle : Z) (ci : CreateInfo) (recorder : StateRecorder.t)
    : TryOutcome :=
  match ci with
  | SamplerCI create_info =>
      try_call (Hashing.compute_hash_sampler recorder create_info) recorder
        (λ hash,
          let r :=
            set_sampler_to_index
              (<[handle := hash]> (sampler_to_index recorder)) recorder in
          if count (samplers r) hash then Completed r
          else Completed
                 (set_samplers (<[hash := create_info]> (samplers r)) r))
  | DescriptorSetLayoutCI create_info =>
      try_call
        (Hashing.compute_hash_descriptor_set_layout recorder create_info)
        recorder
        (λ hash,
          let r :=
            set_descriptor_set_layout_to_index
              (<[handle := hash]> (descriptor_set_layout_to_index recorder))
              recorder in
          if count (descriptor_sets r) hash then Completed r
          else
            try_call (remap_descriptor_set_layout_ci r create_info) r
              (λ create_info,
                Completed
                  (set_descriptor_sets
                     (<[hash := create_info]> (descriptor_sets r)) r)))
  | PipelineLayoutCI create_info =>
      try_call (Hashing.compute_hash_pipeline_layout recorder create_info)
        recorder
        (λ hash,
          let r :=
            set_pipeline_layout_to_index
              (<[handle := hash]> (pipeline_layout_to_index recorder))
              recorder in
          if count (pipeline_layouts r) hash then Completed r
          else
            try_call (remap_pipeline_layout_ci r create_info) r
              (λ create_info,
                Completed
                  (set_pipeline_layouts
                     (<[hash := create_info]> (pipeline_layouts r)) r)))
  | RenderPassCI create_info =>
      try_call (Hashing.compute_hash_render_pass recorder create_info)
        recorder
        (λ hash,
          let r :=
            set_render_pass_to_index
              (<[handle := hash]> (render_pass_to_index recorder))
              recorder in
          if count (render_passes r) hash then Completed r
          else Completed
                 (set_render_passes
                    (<[hash := create_info]> (render_passes r)) r))
  | ShaderModuleCI create_info =>
      try_call (Hashing.compute_hash_shader_module recorder create_info)
        recorder
        (λ hash,
          let r :=
            set_shader_module_to_index
              (<[handle := hash]> (shader_module_to_index recorder))
              recorder in
          if count (shader_modules r) hash then Completed r
          else
            let r :=
              set_shader_modules
                (<[hash := create_info]> (shader_modules r)) r in
            try_call (Serialize.serialize_shader_module r hash) r
              (λ bytes,
                Completed (write_buffer (serialization_path r) hash bytes r)))
  | GraphicsPipelineCI create_info =>
      try_call (Hashing.compute_hash_graphics_pipeline recorder create_info)
        recorder
        (λ hash,
          let r :=
            set_graphics_pipeline_to_index
              (<[handle := hash]> (graphics_pipeline_to_index recorder))
              recorder in
          if count (graphics_pipelines r) hash then Completed r
          else
            try_call (remap_graphics_pipeline_ci r create_info) r
              (λ create_info,
                let r :=
                  set_graphics_pipelines
                    (<[hash := create_info]> (graphics_pipelines r)) r in
                try_call (Serialize.serialize_graphics_pipeline r hash) r
                  (λ bytes,
                    Completed
                      (write_buffer (serialization_path r) hash bytes r))))
  | ComputePipelineCI create_info =>
      try_call (Hashing.compute_hash_compute_pipeline recorder create_info)
        recorder
        (λ hash,
          let r :=
            set_compute_pipeline_to_index
              (<[handle := hash]> (compute_pipeline_to_index recorder))
              recorder in
          if count (compute_pipelines r) hash then Completed r
          else
            try_call (remap_compute_pipeline_ci r create_info) r
              (λ create_info,
                let r :=
                  set_compute_pipelines
                    (<[hash := create_info]> (compute_pipelines r)) r in
                try_call (Serialize.serialize_compute_pipeline r hash) r
                  (λ bytes,
                    Completed
                      (write_buffer (serialization_path r) hash bytes r))))
  end.

(** [try { switch (..) { .. } } catch (const std::exception &e)
    { LOGE("%s\n", e.what()); }] for one popped item. *)
Definition process_item (handle : Z) (ci : CreateInfo)
    (recorder : StateRecorder.t) : Res StateRecorder.t :=
  match dispatch handle ci recorder with
  | Completed r => Ok r
  | Raised r msg => Ok (set_logged (logged r ++ [msg]) r)
  | Undefined => Undef
  end.

(** One turn of the loop of the worker. *)
Inductive Turn : Type :=
| Waiting (r : StateRecorder.t)   (* the queue is empty: the wait blocks *)
| Returned (r : StateRecorder.t)  (* the null item was popped *)
| Continued (r : StateRecorder.t) (* an item was processed *)
| TurnUndef.

Definition record_task_turn (recorder : StateRecorder.t) : Turn :=
  match record_queue recorder with
  | [] => Waiting recorder
  | record_item :: queue =>
      let recorder := set_record_queue queue recorder in
      match create_info record_item with
      | None => Returned recorder
      | Some ci =>
          match process_item (handle record_item) ci recorder with
          | Ok r => Continued r
          | _ => TurnUndef
          end
      end
  end.

(** [static void record_task(StateRecorder *recorder)]: the turns of
    the worker until it returns or has to wait; as no turn adds to the
    queue, as many turns as the queue is long are enough. *)
Fixpoint record_task_turns (fuel : nat) (recorder : StateRecorder.t)
    : Turn :=
  match fuel with
  | O => Continued recorder
  | S fuel' =>
      match record_task_turn recorder with
      | Continued r => record_task_turns fuel' r
      | turn => turn
      end
  end.

Definition record_task (recorder : StateRecorder.t) : Turn :=
  record_task_turns (S (length (record_queue recorder))) recorder.

End Recording.

(** ** The replayer *)

(** [struct StateReplayer::Impl] without its allocator: for every kind
    the handles created so far, by hash. *)
Module StateReplayer.
Record t : Type := {
  replayed_samplers : gmap Z Z;
  replayed_descriptor_set_layouts : gmap Z Z;
  replayed_pipeline_layouts : gmap Z Z;
  replayed_shader_modules : gmap Z Z;
  replayed_render_passes : gmap Z Z;
  replayed_compute_pipelines : gmap Z Z;
  replayed_graphics_pipelines : gmap Z Z }.

(** A replayer that has replayed nothing. *)
Definition empty : t :=
  {| replayed_samplers := ∅; replayed_descriptor_set_layouts := ∅;
     replayed_pipeline_layouts := ∅; replayed_shader_modules := ∅;
     replayed_render_passes := ∅; replayed_compute_pipelines := ∅;
     replayed_graphics_pipelines := ∅ |}.

Definition set_replayed_samplers (v : gmap Z Z) (r : t) : t :=
  {| replayed_samplers := v;
     replayed_descriptor_set_layouts := replayed_descriptor_set_layouts r;
     replayed_pipeline_layouts := replayed_pipeline_layouts r;
     replayed_shader_modules := replayed_shader_modules r;
     replayed_render_passes := replayed_render_passes r;
     replayed_compute_pipelines := replayed_compute_pipelines r;
     replayed_graphics_pipelines := replayed_graphics_pipelines r |}.

Definition set_replayed_descriptor_set_layouts (v : gmap Z Z) (r : t) : t :=
  {| replayed_samplers := replayed_samplers r;
     replayed_descriptor_set_layouts := v;
     replayed_pipeline_layouts := replayed_pipeline_layouts r;
     replayed_shader_modules := replayed_shader_modules r;
     replayed_render_passes := replayed_render_passes r;
     replayed_compute_pipelines := replayed_compute_pipelines r;
     replayed_graphics_pipelines := replayed_graphics_pipelines r |}.

Definition set_replayed_pipeline_layouts (v : gmap Z Z) (r : t) : t :=
  {| replayed_samplers := replayed_samplers r;
     replayed_descriptor_set_layouts := replayed_descriptor_set_layouts r;
     replayed_pipeline_layouts := v;
     replayed_shader_modules := replayed_shader_modules r;
     replayed_render_passes := replayed_render_passes r;
     replayed_compute_pipelines := replayed_compute_pipelines r;
     replayed_graphics_pipelines := replayed_graphics_pipelines r |}.

Definition set_replayed_shader_modules (v : gmap Z Z) (r : t) : t :=
  {| replayed_samplers := replayed_samplers r;
     replayed_descriptor_set_layouts := replayed_descriptor_set_layouts r;
     replayed_pipeline_layouts := replayed_pipeline_layouts r;
     replayed_shader_modules := v;
     replayed_render_passes := replayed_render_passes r;
     replayed_compute_pipelines := replayed_compute_pipelines r;
     replayed_graphics_pipelines := replayed_graphics_pipelines r |}.

Definition set_replayed_render_passes (v : gmap Z Z) (r : t) : t :=
  {| replayed_samplers := replayed_samplers r;
     replayed_descriptor_set_layouts := replayed_descriptor_set_layouts r;
     replayed_pipeline_layouts := replayed_pipeline_layouts r;
     replayed_shader_modules := replayed_shader_modules r;
     replayed_render_passes := v;
     replayed_compute_pipelines := replayed_compute_pipelines r;
     replayed_graphics_pipelines := replayed_graphics_pipelines r |}.

Definition set_replayed_compute_pipelines (v : gmap Z Z) (r : t) : t :=
  {| replayed_samplers := replayed_samplers r;
     replayed_descriptor_set_layouts := replayed_descriptor_set_layouts r;
     replayed_pipeline_layouts := replayed_pipeline_layouts r;
     replayed_shader_modules := replayed_shader_modules r;
     replayed_render_passes := replayed_render_passes r;
     replayed_compute_pipelines := v;
     replayed_graphics_pipelines := replayed_graphics_pipelines r |}.

Definition set_replayed_graphics_pipelines (v : gmap Z Z) (r : t) : t :=
  {| replayed_samplers := replayed_samplers r;
     replayed_descriptor_set_layouts := replayed_descriptor_set_layouts r;
     replayed_pipeline_layouts := replayed_pipeline_layouts r;
     replayed_shader_modules := replayed_shader_modules r;
     replayed_render_passes := replayed_render_passes r;
     replayed_compute_pipelines := replayed_compute_pipelines r;
     replayed_graphics_pipelines := v |}.
End StateReplayer.

(** [class StateCreatorInterface], over the state [C] of the object that
    implements it.  An [enqueue_create_*] returns whether it accepts the
    call and the handle it stores through its last argument; that store
    is taken to happen at the call. *)
Record StateCreatorInterface (C : Type) : Type := {
  set_num_samplers : Z → C → C;
  set_num_descriptor_set_layouts : Z → C → C;
  set_num_pipeline_layouts : Z → C → C;
  set_num_shader_modules : Z → C → C;
  set_num_render_passes : Z → C → C;
  set_num_compute_pipelines : Z → C → C;
  set_num_graphics_pipelines : Z → C → C;
  enqueue_create_sampler :
    Z → VkSamplerCreateInfo.t → C → bool * Z * C;
  enqueue_create_descriptor_set_layout :
    Z → VkDescriptorSetLayoutCreateInfo.t → C → bool * Z * C;
  enqueue_create_pipeline_layout :
    Z → VkPipelineLayoutCreateInfo.t → C → bool * Z * C;
  enqueue_create_shader_module :
    Z → VkShaderModuleCreateInfo.t → C → bool * Z * C;
  enqueue_create_render_pass :
    Z → VkRenderPassCreateInfo.t → C → bool * Z * C;
  enqueue_create_compute_pipeline :
    Z → VkComputePipelineCreateInfo.t → C → bool * Z * C;
  enqueue_create_graphics_pipeline :
    Z → VkGraphicsPipelineCreateInfo.t → C → bool * Z * C;
  wait_enqueue : C → C }.
Arguments set_num_samplers {C}.
Arguments set_num_descriptor_set_layouts {C}.
Arguments set_num_pipeline_layouts {C}.
Arguments set_num_shader_modules {C}.
Arguments set_num_render_passes {C}.
Arguments set_num_compute_pipelines {C}.
Arguments set_num_graphics_pipelines {C}.
Arguments enqueue_create_sampler {C}.
Arguments enqueue_create_descriptor_set_layout {C}.
Arguments enqueue_create_pipeline_layout {C}.
Arguments enqueue_create_shader_module {C}.
Arguments enqueue_create_render_pass {C}.
Arguments enqueue_create_compute_pipeline {C}.
Arguments enqueue_create_graphics_pipeline {C}.
Arguments wait_enqueue {C}.

(** A creator accepts every create call. *)
Definition accepts_all {C : Type} (iface : StateCreatorInterface C) : Prop :=
  (∀ h i c, (enqueue_create_sampler iface h i c).1.1 = true)
  ∧ (∀ h i c, (enqueue_create_descriptor_set_layout iface h i c).1.1 = true)
  ∧ (∀ h i c, (enqueue_create_pipeline_layout iface h i c).1.1 = true)
  ∧ (∀ h i c, (enqueue_create_shader_module iface h i c).1.1 = true)
  ∧ (∀ h i c, (enqueue_create_render_pass iface h i c).1.1 = true)
  ∧ (∀ h i c, (enqueue_create_compute_pipeline iface h i c).1.1 = true)
  ∧ (∀ h i c, (enqueue_create_graphics_pipeline iface h i c).1.1 = true).

(** [class ResolverInterface]: [resolve(hash)]. *)
Definition ResolverInterface : Type := Z → Buffer.

(** The resolver that always returns empty bytes. *)
Definition empty_resolver : ResolverInterface := λ _, EmptyBuffer.

Module Replay.
Import StateReplayer.

Section WithInterfaces.
Context {C : Type}.
Variable iface : StateCreatorInterface C.
Variable resolver : ResolverInterface.

(** The replayer and the creator it drives. *)
Definition State : Type := StateReplayer.t * C.

(** [map[key]] of [std::unordered_map]: the value, after inserting a
    null handle for a key that is missing. *)
Definition subscript (map : gmap Z Z) (key : Z) : Z * gmap Z Z :=
  match map !! key with
  | Some v => (v, map)
  | None => (0, <[key := 0]> map)
  end.

(** [unsigned GetUint() const] of the JSON library asks for a number
    that is an unsigned one; an [int] member that is negative is not. *)
Definition GetUint (v : Z) : Res Z := if 0 <=? v then Ok v else Undef.

(** [for (auto itr = value.Begin(); itr != value.End(); ++itr)] *)
Fixpoint for_members {T : Type} (body : T → State → Res State)
    (members : list T) (st : State) : Res State :=
  match members with
  | [] => Ok st
  | member :: members' =>
      let? st' := body member st in for_members body members' st'
  end.

(** [if (!iface.enqueue_create_X(hash, &info, &replayed_X[hash]))
    FOSSILIZE_THROW(msg);] *)
Definition create {I : Type} (enqueue : Z → I → C → bool * Z * C)
    (get : StateReplayer.t → gmap Z Z)
    (set : gmap Z Z → StateReplayer.t → StateReplayer.t)
    (hash : Z) (info : I) (msg : string) (st : State) : Res State :=
  let rep := set (subscript (get st.1) hash).2 st.1 in
  let '(accepted, created, c) := enqueue hash info st.2 in
  if accepted then Ok (set (<[hash := created]> (get rep)) rep, c)
  else Throw msg.

(** [if (index > 0) *p = replayed_X[index];] over an array of
    references; a null reference leaves the element as allocated. *)
Fixpoint resolve_handles (get : StateReplayer.t → gmap Z Z)
    (set : gmap Z Z → StateReplayer.t → StateReplayer.t)
    (indices : list Z) (rep : StateReplayer.t)
    : list Z * StateReplayer.t :=
  match indices with
  | [] => ([], rep)
  | index :: indices' =>
      let '(v, rep') :=
        if 0 <? index
        then let '(v, map) := subscript (get rep) index in (v, set map rep)
        else (0, rep) in
      let '(vs, rep'') := resolve_handles get set indices' rep' in
      (v :: vs, rep'')
  end.

Definition parse_shader_modules
    (modules : list (Z * VkShaderModuleCreateInfo.t)) (st : State)
    : Res State :=
  let? st :=
    for_members
      (λ '(hash, obj) st,
        if Recording.count (replayed_shader_modules st.1) hash then Ok st
        else create (enqueue_create_shader_module iface)
               replayed_shader_modules set_replayed_shader_modules
               hash obj "Failed to create shader module." st)
      modules st in
  Ok (st.1, wait_enqueue iface st.2).

Definition parse_samplers (samplers : list (Z * VkSamplerCreateInfo.t))
    (st : State) : Res State :=
  let? st :=
    for_members
      (λ '(hash, obj) st,
        if Recording.count (replayed_samplers st.1) hash then Ok st
        else create (enqueue_create_sampler iface)
               replayed_samplers set_replayed_samplers
               hash obj "Failed to create sampler." st)
      samplers st in
  Ok (st.1, wait_enqueue iface st.2).

(** [parse_descriptor_set_bindings] with [parse_immutable_samplers]. *)
Fixpoint parse_descriptor_set_bindings
    (bindings : list VkDescriptorSetLayoutBinding.t)
    (rep : StateReplayer.t)
    : list VkDescriptorSetLayoutBinding.t * StateReplayer.t :=
  match bindings with
  | [] => ([], rep)
  | b :: bindings' =>
      let '(pImmutableSamplers, rep') :=
        match b.(VkDescriptorSetLayoutBinding.pImmutableSamplers) with
        | Some samplers =>
            let '(handles, rep') :=
              resolve_handles replayed_samplers set_replayed_samplers
                (take
                   (Z.to_nat b.(VkDescriptorSetLayoutBinding.descriptorCount))
                   samplers)
                rep in
            (Some handles, rep')
        | None => (None, rep)
        end in
      let '(rest, rep'') := parse_descriptor_set_bindings bindings' rep' in
      ({| VkDescriptorSetLayoutBinding.binding :=
            b.(VkDescriptorSetLayoutBinding.binding);
          VkDescriptorSetLayoutBinding.descriptorType :=
            b.(VkDescriptorSetLayoutBinding.descriptorType);
          VkDescriptorSetLayoutBinding.descriptorCount :=
            b.(VkDescriptorSetLayoutBinding.descriptorCount);
          VkDescriptorSetLayoutBinding.stageFlags :=
            b.(VkDescriptorSetLayoutBinding.stageFlags);
          VkDescriptorSetLayoutBinding.pImmutableSamplers :=
            pImmutableSamplers |} :: rest,
       rep'')
  end.

Definition parse_descriptor_set_layouts
    (layouts : list (Z * VkDescriptorSetLayoutCreateInfo.t)) (st : State)
    : Res State :=
  let? st :=
    for_members
      (λ '(hash, obj) st,
        if Recording.count (replayed_descriptor_set_layouts st.1) hash
        then Ok st
        else
          let '(bindings, rep) :=
            parse_descriptor_set_bindings
              (take
                 (Z.to_nat obj.(VkDescriptorSetLayoutCreateInfo.bindingCount))
                 obj.(VkDescriptorSetLayoutCreateInfo.pBindings))
              st.1 in
          let info :=
            {| VkDescriptorSetLayoutCreateInfo.pNext := 0;
               VkDescriptorSetLayoutCreateInfo.flags :=
                 obj.(VkDescriptorSetLayoutCreateInfo.flags);
               VkDescriptorSetLayoutCreateInfo.bindingCount :=
                 Z.of_nat (length bindings);
               VkDescriptorSetLayoutCreateInfo.pBindings := bindings |} in
          create (enqueue_create_descriptor_set_layout iface)
            replayed_descriptor_set_layouts
            set_replayed_descriptor_set_layouts
            hash info "Failed to create descriptor set layout."
            (rep, st.2))
      layouts st in
  Ok (st.1, wait_enqueue iface st.2).

Definition parse_pipeline_layouts
    (layouts : list (Z * VkPipelineLayoutCreateInfo.t)) (st : State)
    : Res State :=
  let? st :=
    for_members
      (λ '(hash, obj) st,
        if Recording.count (replayed_pipeline_layouts st.1) hash then Ok st
        else
          let ranges :=
            take
              (Z.to_nat
                 obj.(VkPipelineLayoutCreateInfo.pushConstantRangeCount))
              obj.(VkPipelineLayoutCreateInfo.pPushConstantRanges) in
          let '(set_layouts, rep) :=
            resolve_handles replayed_descriptor_set_layouts
              set_replayed_descriptor_set_layouts
              (take
                 (Z.to_nat obj.(VkPipelineLayoutCreateInfo.setLayoutCount))
                 obj.(VkPipelineLayoutCreateInfo.pSetLayouts))
              st.1 in
          let info :=
            {| VkPipelineLayoutCreateInfo.pNext := 0;
               VkPipelineLayoutCreateInfo.flags :=
                 obj.(VkPipelineLayoutCreateInfo.flags);
               VkPipelineLayoutCreateInfo.setLayoutCount :=
                 Z.of_nat (length set_layouts);
               VkPipelineLayoutCreateInfo.pSetLayouts := set_layouts;
               VkPipelineLayoutCreateInfo.pushConstantRangeCount :=
                 Z.of_nat (length ranges);
               VkPipelineLayoutCreateInfo.pPushConstantRanges := ranges |} in
          create (enqueue_create_pipeline_layout iface)
            replayed_pipeline_layouts set_replayed_pipeline_layouts
            hash info "Failed to create pipeline layout." (rep, st.2))
      layouts st in
  Ok (st.1, wait_enqueue iface st.2).

(** The member is skipped when its hash is a replayed sampler:
    [if (replayed_samplers.count(hash)) continue;]. *)
Definition parse_render_passes
    (passes : list (Z * VkRenderPassCreateInfo.t)) (st : State)
    : Res State :=
  let? st :=
    for_members
      (λ '(hash, obj) st,
        if Recording.count (replayed_samplers st.1) hash then Ok st
        else create (enqueue_create_render_pass iface)
               replayed_render_passes set_replayed_render_passes
               hash obj "Failed to create render pass." st)
      passes st in
  Ok (st.1, wait_enqueue iface st.2).

(** The recursive call [this->parse(iface, resolver, ..)]. *)
Variable parse_rec : Buffer → State → Res State.

(** [external_state.empty()] *)
Definition buffer_empty (buffer : Buffer) : bool :=
  match buffer with
  | EmptyBuffer => true
  | _ => false
  end.

(** The look-up of a referenced object, with the detour through the
    resolver when it has not been replayed:
    [itr = map.find(hash); if (itr == map.end()) { ... }]. *)
Definition find_or_resolve (get : StateReplayer.t → gmap Z Z) (hash : Z)
    (msg_unresolved msg_missing : string) (st : State)
    : Res (Z * State) :=
  match get st.1 !! hash with
  | Some created => Ok (created, st)
  | None =>
      let external_state := resolver hash in
      if buffer_empty external_state then Throw msg_unresolved
      else
        let? st' := parse_rec external_state st in
        match get st'.1 !! hash with
        | Some created => Ok (created, st')
        | None => Throw msg_missing
        end
  end.

(** The body of the loop of [parse_stages]. *)
Definition parse_stage (obj : VkPipelineShaderStageCreateInfo.t)
    (st : State) : Res (VkPipelineShaderStageCreateInfo.t * State) :=
  let module := obj.(VkPipelineShaderStageCreateInfo.module) in
  let? (created, st') :=
    (if 0 <? module
     then find_or_resolve replayed_shader_modules module
            "Failed to find referenced shader"
            "Failed to find referenced shader module" st
     else Ok (0, st)) in
  Ok ({| VkPipelineShaderStageCreateInfo.pNext := 0;
         VkPipelineShaderStageCreateInfo.flags :=
           obj.(VkPipelineShaderStageCreateInfo.flags);
         VkPipelineShaderStageCreateInfo.stage :=
           obj.(VkPipelineShaderStageCreateInfo.stage);
         VkPipelineShaderStageCreateInfo.module := created;
         VkPipelineShaderStageCreateInfo.pName :=
           obj.(VkPipelineShaderStageCreateInfo.pName);
         VkPipelineShaderStageCreateInfo.pSpecializationInfo :=
           obj.(VkPipelineShaderStageCreateInfo.pSpecializationInfo) |},
      st').

Fixpoint parse_stages (stages : list VkPipelineShaderStageCreateInfo.t)
    (st : State)
    : Res (list VkPipelineShaderStageCreateInfo.t * State) :=
  match stages with
  | [] => Ok ([], st)
  | obj :: stages' =>
      let? (stage, st') := parse_stage obj st in
      let? (rest, st'') := parse_stages stages' st' in
      Ok (stage :: rest, st'')
  end.

(** [if (layout > 0) info.layout = replayed_X[layout];] *)
Definition resolve_handle (get : StateReplayer.t → gmap Z Z)
    (set : gmap Z Z → StateReplayer.t → StateReplayer.t)
    (index : Z) (st : State) : Z * State :=
  if 0 <? index
  then let '(v, map) := subscript (get st.1) index in (v, (set map st.1, st.2))
  else (0, st).

(** The body of the loop of [parse_compute_pipelines]. *)
Definition parse_compute_pipeline (hash : Z)
    (obj : VkComputePipelineCreateInfo.t) (st : State) : Res State :=
  if Recording.count (replayed_compute_pipelines st.1) hash then Ok st
  else
    let? basePipelineIndex :=
      GetUint obj.(VkComputePipelineCreateInfo.basePipelineIndex) in
    let pipeline := obj.(VkComputePipelineCreateInfo.basePipelineHandle) in
    let? (basePipelineHandle, st) :=
      (if 0 <? pipeline
       then find_or_resolve replayed_compute_pipelines pipeline
              "Failed to find referenced compute pipeline"
              "Failed to find referenced compute pipeline"
              (st.1, wait_enqueue iface st.2)
       else Ok (0, st)) in
    let '(layout, st) :=
      resolve_handle replayed_pipeline_layouts
        set_replayed_pipeline_layouts
        obj.(VkComputePipelineCreateInfo.layout) st in
    let stage := obj.(VkComputePipelineCreateInfo.stage) in
    let module := stage.(VkPipelineShaderStageCreateInfo.module) in
    let? (created, st) :=
      (if 0 <? module
       then find_or_resolve replayed_shader_modules module
              "Failed to find referenced shader"
              "Failed find referenced shader module" st
       else Ok (0, st)) in
    let info :=
      {| VkComputePipelineCreateInfo.pNext := 0;
         VkComputePipelineCreateInfo.flags :=
           obj.(VkComputePipelineCreateInfo.flags);
         VkComputePipelineCreateInfo.stage :=
           {| VkPipelineShaderStageCreateInfo.pNext := 0;
              VkPipelineShaderStageCreateInfo.flags := 0;
              VkPipelineShaderStageCreateInfo.stage :=
                stage.(VkPipelineShaderStageCreateInfo.stage);
              VkPipelineShaderStageCreateInfo.module := created;
              VkPipelineShaderStageCreateInfo.pName :=
                stage.(VkPipelineShaderStageCreateInfo.pName);
              VkPipelineShaderStageCreateInfo.pSpecializationInfo :=
                stage.(VkPipelineShaderStageCreateInfo.pSpecializationInfo) |};
         VkComputePipelineCreateInfo.layout := layout;
         VkComputePipelineCreateInfo.basePipelineHandle :=
           basePipelineHandle;
         VkComputePipelineCreateInfo.basePipelineIndex :=
           basePipelineIndex |} in
    create (enqueue_create_compute_pipeline iface)
      replayed_compute_pipelines set_replayed_compute_pipelines
      hash info "Failed to create compute pipeline." st.

Definition parse_compute_pipelines
    (pipelines : list (Z * VkComputePipelineCreateInfo.t)) (st : State)
    : Res State :=
  let? st :=
    for_members (λ '(hash, obj), parse_compute_pipeline hash obj)
      pipelines st in
  Ok (st.1, wait_enqueue iface st.2).

(** The elements of the array member ["stages"]. *)
Definition stages_member (obj : VkGraphicsPipelineCreateInfo.t)
    : list VkPipelineShaderStageCreateInfo.t :=
  take (Z.to_nat obj.(VkGraphicsPipelineCreateInfo.stageCount))
    obj.(VkGraphicsPipelineCreateInfo.pStages).

(** The body of the loop of [parse_graphics_pipelines]. *)
Definition parse_graphics_pipeline (hash : Z)
    (obj : VkGraphicsPipelineCreateInfo.t) (st : State) : Res State :=
  if Recording.count (replayed_graphics_pipelines st.1) hash then Ok st
  else
    let? basePipelineIndex :=
      GetUint obj.(VkGraphicsPipelineCreateInfo.basePipelineIndex) in
    let pipeline := obj.(VkGraphicsPipelineCreateInfo.basePipelineHandle) in
    let? (basePipelineHandle, st) :=
      (if 0 <? pipeline
       then find_or_resolve replayed_graphics_pipelines pipeline
              "Failed to find referenced graphics pipeline"
              "Failed to find referenced graphics pipeline"
              (st.1, wait_enqueue iface st.2)
       else Ok (0, st)) in
    let '(layout, st) :=
      resolve_handle replayed_pipeline_layouts
        set_replayed_pipeline_layouts
        obj.(VkGraphicsPipelineCreateInfo.layout) st in
    let '(renderPass, st) :=
      resolve_handle replayed_render_passes set_replayed_render_passes
        obj.(VkGraphicsPipelineCreateInfo.renderPass) st in
    let? (stages, st) := parse_stages (stages_member obj) st in
    let info :=
      {| VkGraphicsPipelineCreateInfo.pNext := 0;
         VkGraphicsPipelineCreateInfo.flags :=
           obj.(VkGraphicsPipelineCreateInfo.flags);
         VkGraphicsPipelineCreateInfo.stageCount :=
           Z.of_nat (length stages);
         VkGraphicsPipelineCreateInfo.pStages := stages;
         VkGraphicsPipelineCreateInfo.pVertexInputState :=
           obj.(VkGraphicsPipelineCreateInfo.pVertexInputState);
         VkGraphicsPipelineCreateInfo.pInputAssemblyState :=
           obj.(VkGraphicsPipelineCreateInfo.pInputAssemblyState);
         VkGraphicsPipelineCreateInfo.pTessellationState :=
           obj.(VkGraphicsPipelineCreateInfo.pTessellationState);
         VkGraphicsPipelineCreateInfo.pViewportState :=
           obj.(VkGraphicsPipelineCreateInfo.pViewportState);
         VkGraphicsPipelineCreateInfo.pRasterizationState :=
           obj.(VkGraphicsPipelineCreateInfo.pRasterizationState);
         VkGraphicsPipelineCreateInfo.pMultisampleState :=
           obj.(VkGraphicsPipelineCreateInfo.pMultisampleState);
         VkGraphicsPipelineCreateInfo.pDepthStencilState :=
           obj.(VkGraphicsPipelineCreateInfo.pDepthStencilState);
         VkGraphicsPipelineCreateInfo.pColorBlendState :=
           obj.(VkGraphicsPipelineCreateInfo.pColorBlendState);
         VkGraphicsPipelineCreateInfo.pDynamicState :=
           obj.(VkGraphicsPipelineCreateInfo.pDynamicState);
         VkGraphicsPipelineCreateInfo.layout := layout;
         VkGraphicsPipelineCreateInfo.renderPass := renderPass;
         VkGraphicsPipelineCreateInfo.subpass :=
           obj.(VkGraphicsPipelineCreateInfo.subpass);
         VkGraphicsPipelineCreateInfo.basePipelineHandle :=
           basePipelineHandle;
         VkGraphicsPipelineCreateInfo.basePipelineIndex :=
           basePipelineIndex |} in
    create (enqueue_create_graphics_pipeline iface)
      replayed_graphics_pipelines set_replayed_graphics_pipelines
      hash info "Failed to create graphics pipeline." st.

Definition parse_graphics_pipelines
    (pipelines : list (Z * VkGraphicsPipelineCreateInfo.t)) (st : State)
    : Res State :=
  let? st :=
    for_members (λ '(hash, obj), parse_graphics_pipeline hash obj)
      pipelines st in
  Ok (st.1, wait_enqueue iface st.2).

(** [if (doc.HasMember(name)) parse_X(iface, doc[name]);
    else iface.set_num_X(0);] *)
Definition parse_section {T : Type} (member : option (list (Z * T)))
    (parse_members : list (Z * T) → State → Res State)
    (set_num : Z → C → C) (st : State) : Res State :=
  match member with
  | Some members => parse_members members st
  | None => Ok (st.1, set_num 0 st.2)
  end.

(** [StateReplayer::Impl::parse] after the recursive calls are given. *)
Definition parse_buffer (buffer : Buffer) (st : State) : Res State :=
  match buffer with
  | EmptyBuffer | Malformed => Throw "JSON parse error."
  | JsonText doc =>
      match Document.version doc with
      | None => Undef
      | Some version =>
          if negb (version =? FOSSILIZE_FORMAT_VERSION)
          then Throw "JSON version mismatches."
          else
            let? st :=
              parse_section (Document.shaderModules doc)
                parse_shader_modules (set_num_shader_modules iface) st in
            let? st :=
              parse_section (Document.samplers doc)
                parse_samplers (set_num_samplers iface) st in
            let? st :=
              parse_section (Document.setLayouts doc)
                parse_descriptor_set_layouts
                (set_num_descriptor_set_layouts iface) st in
            let? st :=
              parse_section (Document.pipelineLayouts doc)
                parse_pipeline_layouts (set_num_pipeline_layouts iface)
                st in
            let? st :=
              parse_section (Document.renderPasses doc)
                parse_render_passes (set_num_render_passes iface) st in
            let? st :=
              parse_section (Document.computePipelines doc)
                parse_compute_pipelines
                (set_num_compute_pipelines iface) st in
            parse_section (Document.graphicsPipelines doc)
              parse_graphics_pipelines
              (set_num_graphics_pipelines iface) st
      end
  end.

End WithInterfaces.

(** [void StateReplayer::Impl::parse(StateCreatorInterface &iface,
    ResolverInterface &resolver, const void *buffer_, size_t size)],
    with [fuel] bounding the depth of the calls it makes to itself for
    the documents the resolver returns. *)
Fixpoint parse {C : Type} (fuel : nat) (iface : StateCreatorInterface C)
    (resolver : ResolverInterface) (buffer : Buffer)
    (st : StateReplayer.t * C) : Res (StateReplayer.t * C) :=
  match fuel with
  | O => NoFuel
  | S fuel' =>
      parse_buffer iface resolver (parse fuel' iface resolver) buffer st
  end.

End Replay.

(** ** Feed sequences *)

(** [feeds m words a]: from any state of the hasher, [m] returns [a]
    after feeding exactly [words], in that order, and nothing else. *)
Definition feeds {A : Type} (m : HashM A) (words : list Z) (a : A) : Prop :=
  ∀ s : Hasher.t, m s = Ok (a, Hasher.mix_all s words).

(** The two words of each reference of an array of attachment
    references. *)
Definition reference_words (refs : list VkAttachmentReference.t) : list Z :=
  flat_map (λ ref, [ref.(VkAttachmentReference.attachment);
                    ref.(VkAttachmentReference.layout)]) refs.

(** The feed sequence of a subpass, in the words of the specification:
    the five scalars, the preserve indices, the color references, the
    input references, the resolve references only if the pointer is
    non-null, then the depth-stencil reference or a single zero. *)
Definition subpass_words (subpass : VkSubpassDescription.t) : list Z :=
  let color_count :=
    Z.to_nat subpass.(VkSubpassDescription.colorAttachmentCount) in
  let input_count :=
    Z.to_nat subpass.(VkSubpassDescription.inputAttachmentCount) in
  let preserve_count :=
    Z.to_nat subpass.(VkSubpassDescription.preserveAttachmentCount) in
  [ subpass.(VkSubpassDescription.flags);
    subpass.(VkSubpassDescription.colorAttachmentCount);
    subpass.(VkSubpassDescription.inputAttachmentCount);
    subpass.(VkSubpassDescription.preserveAttachmentCount);
    subpass.(VkSubpassDescription.pipelineBindPoint) ]
  ++ take preserve_count
       (elems subpass.(VkSubpassDescription.pPreserveAttachments))
  ++ reference_words
       (take color_count
          (elems subpass.(VkSubpassDescription.pColorAttachments)))
  ++ reference_words
       (take input_count
          (elems subpass.(VkSubpassDescription.pInputAttachments)))
  ++ match subpass.(VkSubpassDescription.pResolveAttachments) with
     | Some resolves => reference_words (take color_count resolves)
     | None => []
     end
  ++ match subpass.(VkSubpassDescription.pDepthStencilAttachment) with
     | Some ref => [ref.(VkAttachmentReference.attachment);
                    ref.(VkAttachmentReference.layout)]
     | None => [0]
     end.

(** The arrays of a subpass hold as many elements as its counts say. *)
Definition subpass_arrays_ok (subpass : VkSubpassDescription.t) : Prop :=
  let color_count :=
    Z.to_nat subpass.(VkSubpassDescription.colorAttachmentCount) in
  (Z.to_nat subpass.(VkSubpassDescription.preserveAttachmentCount)
     <= length (elems subpass.(VkSubpassDescription.pPreserveAttachments)))%nat
  ∧ (color_count
     <= length (elems subpass.(VkSubpassDescription.pColorAttachments)))%nat
  ∧ (Z.to_nat subpass.(VkSubpassDescription.inputAttachmentCount)
     <= length (elems subpass.(VkSubpassDescription.pInputAttachments)))%nat
  ∧ match subpass.(VkSubpassDescription.pResolveAttachments) with
    | Some resolves => (color_count <= length resolves)%nat
    | None => True
    end.

(** What the hashing of one optional sub-state must feed: a single zero
    for a null pointer; for a present structure its [flags] first, and
    then at least one word more. *)
Definition substate_feed {S A : Type} (hash : option S → HashM A)
    (flags : S → Z) (p : option S) : Prop :=
  match p with
  | None => ∃ a, feeds (hash None) [0] a
  | Some st =>
      ∃ rest a, rest ≠ [] ∧ feeds (hash (Some st)) (flags st :: rest) a
  end.

(** The arrays of the sub-states of a graphics pipeline hold as many
    elements as the loops of the hash read ([d] tells which loops are
    skipped). *)
Definition substate_arrays_ok (d : Hashing.DynamicFlags)
    (ci : VkGraphicsPipelineCreateInfo.t) : Prop :=
  match ci.(VkGraphicsPipelineCreateInfo.pDynamicState) with
  | Some st =>
      (Z.to_nat st.(VkPipelineDynamicStateCreateInfo.dynamicStateCount)
       <= length st.(VkPipelineDynamicStateCreateInfo.pDynamicStates))%nat
  | None => True
  end
  ∧ match ci.(VkGraphicsPipelineCreateInfo.pMultisampleState) with
    | Some ms =>
        match ms.(VkPipelineMultisampleStateCreateInfo.pSampleMask) with
        | Some mask =>
            (Z.to_nat
               (uint32
                  (ms.(VkPipelineMultisampleStateCreateInfo.rasterizationSamples)
                   + 31) / 32)
             <= length mask)%nat
        | None => True
        end
    | None => True
    end
  ∧ match ci.(VkGraphicsPipelineCreateInfo.pViewportState) with
    | Some vp =>
        (Hashing.dynamic_scissor d = false →
         (Z.to_nat vp.(VkPipelineViewportStateCreateInfo.scissorCount)
          <= length vp.(VkPipelineViewportStateCreateInfo.pScissors))%nat)
        ∧ (Hashing.dynamic_viewport d = false →
           (Z.to_nat vp.(VkPipelineViewportStateCreateInfo.viewportCount)
            <= length vp.(VkPipelineViewportStateCreateInfo.pViewports))%nat)
    | None => True
    end
  ∧ match ci.(VkGraphicsPipelineCreateInfo.pVertexInputState) with
    | Some vi =>
        (Z.to_nat
           vi.(VkPipelineVertexInputStateCreateInfo.vertexAttributeDescriptionCount)
         <= length
              vi.(VkPipelineVertexInputStateCreateInfo.pVertexAttributeDescriptions))%nat
        ∧ (Z.to_nat
             vi.(VkPipelineVertexInputStateCreateInfo.vertexBindingDescriptionCount)
           <= length
                vi.(VkPipelineVertexInputStateCreateInfo.pVertexBindingDescriptions))%nat
    | None => True
    end
  ∧ match ci.(VkGraphicsPipelineCreateInfo.pColorBlendState) with
    | Some b =>
        (Z.to_nat b.(VkPipelineColorBlendStateCreateInfo.attachmentCount)
         <= length b.(VkPipelineColorBlendStateCreateInfo.pAttachments))%nat
    | None => True
    end.

(** [VK_DYNAMIC_STATE_DEPTH_BOUNDS] is among the dynamic states of the
    descriptor. *)
Definition depth_bounds_dynamic (ci : VkGraphicsPipelineCreateInfo.t) : Prop :=
  match ci.(VkGraphicsPipelineCreateInfo.pDynamicState) with
  | Some st =>
      In VK_DYNAMIC_STATE_DEPTH_BOUNDS
        (take (Z.to_nat st.(VkPipelineDynamicStateCreateInfo.dynamicStateCount))
           st.(VkPipelineDynamicStateCreateInfo.pDynamicStates))
  | None => False
  end.

(** The feed sequence of a present depth-stencil state, in the words of
    the specification. *)
Definition depth_stencil_words (d : Hashing.DynamicFlags)
    (ds : VkPipelineDepthStencilStateCreateInfo.t) : list Z :=
  let front := ds.(VkPipelineDepthStencilStateCreateInfo.front) in
  let back := ds.(VkPipelineDepthStencilStateCreateInfo.back) in
  [ ds.(VkPipelineDepthStencilStateCreateInfo.flags);
    ds.(VkPipelineDepthStencilStateCreateInfo.depthBoundsTestEnable);
    ds.(VkPipelineDepthStencilStateCreateInfo.depthCompareOp);
    ds.(VkPipelineDepthStencilStateCreateInfo.depthTestEnable);
    ds.(VkPipelineDepthStencilStateCreateInfo.depthWriteEnable);
    front.(VkStencilOpState.compareOp); front.(VkStencilOpState.depthFailOp);
    front.(VkStencilOpState.failOp); front.(VkStencilOpState.passOp);
    back.(VkStencilOpState.compareOp); back.(VkStencilOpState.depthFailOp);
    back.(VkStencilOpState.failOp); back.(VkStencilOpState.passOp);
    ds.(VkPipelineDepthStencilStateCreateInfo.stencilTestEnable) ]
  ++ (if Hashing.dynamic_depth_bounds d then []
      else if ds.(VkPipelineDepthStencilStateCreateInfo.depthBoundsTestEnable)
              =? 0
      then []
      else [ ds.(VkPipelineDepthStencilStateCreateInfo.minDepthBounds);
             ds.(VkPipelineDepthStencilStateCreateInfo.maxDepthBounds) ])
  ++ (if ds.(VkPipelineDepthStencilStateCreateInfo.stencilTestEnable) =? 0
      then []
      else
        (if Hashing.dynamic_stencil_compare d then []
         else [ front.(VkStencilOpState.compareMask);
                back.(VkStencilOpState.compareMask) ])
        ++ (if Hashing.dynamic_stencil_reference d then []
            else [ front.(VkStencilOpState.reference);
                   back.(VkStencilOpState.reference) ])
        ++ (if Hashing.dynamic_stencil_write_mask d then []
            else [ front.(VkStencilOpState.writeMask);
                   back.(VkStencilOpState.writeMask) ])).

(** The words fed for one color-blend attachment, and the value of
    [need_blend_constants] after it. *)
Definition blend_attachment_words
    (a : VkPipelineColorBlendAttachmentState.t) : list Z :=
  a.(VkPipelineColorBlendAttachmentState.blendEnable)
  :: (if a.(VkPipelineColorBlendAttachmentState.blendEnable) =? 0 then [0]
      else [ a.(VkPipelineColorBlendAttachmentState.colorWriteMask);
             a.(VkPipelineColorBlendAttachmentState.alphaBlendOp);
             a.(VkPipelineColorBlendAttachmentState.colorBlendOp);
             a.(VkPipelineColorBlendAttachmentState.dstAlphaBlendFactor);
             a.(VkPipelineColorBlendAttachmentState.srcAlphaBlendFactor);
             a.(VkPipelineColorBlendAttachmentState.dstColorBlendFactor);
             a.(VkPipelineColorBlendAttachmentState.srcColorBlendFactor) ]).

Definition blend_attachment_need
    (a : VkPipelineColorBlendAttachmentState.t) (need : bool) : bool :=
  if a.(VkPipelineColorBlendAttachmentState.blendEnable) =? 0 then need
  else if Hashing.uses_blend_constants a then true else need.

(** Two color-blend attachments that differ at most in fields that are
    ignored because blending is disabled in both. *)
Definition same_blend (a a' : VkPipelineColorBlendAttachmentState.t) : Prop :=
  a = a'
  ∨ (a.(VkPipelineColorBlendAttachmentState.blendEnable) = 0
     ∧ a'.(VkPipelineColorBlendAttachmentState.blendEnable) = 0).

(** ** Sample descriptors *)

(** A dynamic state with one entry, the depth bounds, and non-zero flags. *)
Definition sample_dynamic_state : VkPipelineDynamicStateCreateInfo.t :=
  {| VkPipelineDynamicStateCreateInfo.pNext := 0;
     VkPipelineDynamicStateCreateInfo.flags := 7;
     VkPipelineDynamicStateCreateInfo.dynamicStateCount := 1;
     VkPipelineDynamicStateCreateInfo.pDynamicStates :=
       [VK_DYNAMIC_STATE_DEPTH_BOUNDS] |}.

(** A subpass with two color attachments, their resolves, one input and
    one preserved attachment, and no depth-stencil attachment. *)
Definition sample_subpass : VkSubpassDescription.t :=
  let ref a l :=
    {| VkAttachmentReference.attachment := a;
       VkAttachmentReference.layout := l |} in
  {| VkSubpassDescription.flags := 0;
     VkSubpassDescription.pipelineBindPoint := 0;
     VkSubpassDescription.inputAttachmentCount := 1;
     VkSubpassDescription.pInputAttachments := Some [ref 4 5];
     VkSubpassDescription.colorAttachmentCount := 2;
     VkSubpassDescription.pColorAttachments := Some [ref 0 2; ref 1 2];
     VkSubpassDescription.pResolveAttachments := Some [ref 2 2; ref 3 2];
     VkSubpassDescription.pDepthStencilAttachment := None;
     VkSubpassDescription.preserveAttachmentCount := 1;
     VkSubpassDescription.pPreserveAttachments := Some [6] |}.

(** The depth-stencil state of scenario S2: depth-bounds test enabled,
    bounds [0.0] and [1.0]. *)
Definition sample_depth_stencil_state
    : VkPipelineDepthStencilStateCreateInfo.t :=
  let stencil :=
    {| VkStencilOpState.failOp := 0; VkStencilOpState.passOp := 0;
       VkStencilOpState.depthFailOp := 0; VkStencilOpState.compareOp := 7;
       VkStencilOpState.compareMask := 255; VkStencilOpState.writeMask := 255;
       VkStencilOpState.reference := 0 |} in
  {| VkPipelineDepthStencilStateCreateInfo.pNext := 0;
     VkPipelineDepthStencilStateCreateInfo.flags := 0;
     VkPipelineDepthStencilStateCreateInfo.depthTestEnable := 1;
     VkPipelineDepthStencilStateCreateInfo.depthWriteEnable := 1;
     VkPipelineDepthStencilStateCreateInfo.depthCompareOp := 1;
     VkPipelineDepthStencilStateCreateInfo.depthBoundsTestEnable := 1;
     VkPipelineDepthStencilStateCreateInfo.stencilTestEnable := 0;
     VkPipelineDepthStencilStateCreateInfo.front := stencil;
     VkPipelineDepthStencilStateCreateInfo.back := stencil;
     VkPipelineDepthStencilStateCreateInfo.minDepthBounds := 0;
     VkPipelineDepthStencilStateCreateInfo.maxDepthBounds := 0x3f800000 |}.

(** A color attachment with blending disabled and some factors set. *)
Definition sample_blend_attachment : VkPipelineColorBlendAttachmentState.t :=
  {| VkPipelineColorBlendAttachmentState.blendEnable := 0;
     VkPipelineColorBlendAttachmentState.srcColorBlendFactor := 1;
     VkPipelineColorBlendAttachmentState.dstColorBlendFactor := 0;
     VkPipelineColorBlendAttachmentState.colorBlendOp := 0;
     VkPipelineColorBlendAttachmentState.srcAlphaBlendFactor := 1;
     VkPipelineColorBlendAttachmentState.dstAlphaBlendFactor := 0;
     VkPipelineColorBlendAttachmentState.alphaBlendOp := 0;
     VkPipelineColorBlendAttachmentState.colorWriteMask := 15 |}.

(** The same attachment, still disabled, with other ignored fields. *)
Definition sample_blend_attachment' : VkPipelineColorBlendAttachmentState.t :=
  {| VkPipelineColorBlendAttachmentState.blendEnable := 0;
     VkPipelineColorBlendAttachmentState.srcColorBlendFactor := 6;
     VkPipelineColorBlendAttachmentState.dstColorBlendFactor := 7;
     VkPipelineColorBlendAttachmentState.colorBlendOp := 1;
     VkPipelineColorBlendAttachmentState.srcAlphaBlendFactor := 10;
     VkPipelineColorBlendAttachmentState.dstAlphaBlendFactor := 12;
     VkPipelineColorBlendAttachmentState.alphaBlendOp := 2;
     VkPipelineColorBlendAttachmentState.colorWriteMask := 3 |}.

Definition sample_color_blend_state : VkPipelineColorBlendStateCreateInfo.t :=
  {| VkPipelineColorBlendStateCreateInfo.pNext := 0;
     VkPipelineColorBlendStateCreateInfo.flags := 0;
     VkPipelineColorBlendStateCreateInfo.logicOpEnable := 0;
     VkPipelineColorBlendStateCreateInfo.logicOp := 0;
     VkPipelineColorBlendStateCreateInfo.attachmentCount := 1;
     VkPipelineColorBlendStateCreateInfo.pAttachments :=
       [sample_blend_attachment];
     VkPipelineColorBlendStateCreateInfo.blendConstants := (0, 0, 0, 0) |}.

Definition sample_stage : VkPipelineShaderStageCreateInfo.t :=
  {| VkPipelineShaderStageCreateInfo.pNext := 0;
     VkPipelineShaderStageCreateInfo.flags := 0;
     VkPipelineShaderStageCreateInfo.stage := 1;
     VkPipelineShaderStageCreateInfo.module := 11;
     VkPipelineShaderStageCreateInfo.pName := "main";
     VkPipelineShaderStageCreateInfo.pSpecializationInfo := None |}.

(** A graphics pipeline with one vertex stage whose module is the handle
    [11], the layout [21] and the render pass [31]; no vertex-input,
    tessellation or multisample state. *)
Definition sample_graphics_pipeline : VkGraphicsPipelineCreateInfo.t :=
  {| VkGraphicsPipelineCreateInfo.pNext := 0;
     VkGraphicsPipelineCreateInfo.flags := 0;
     VkGraphicsPipelineCreateInfo.stageCount := 1;
     VkGraphicsPipelineCreateInfo.pStages := [sample_stage];
     VkGraphicsPipelineCreateInfo.pVertexInputState := None;
     VkGraphicsPipelineCreateInfo.pInputAssemblyState :=
       Some {| VkPipelineInputAssemblyStateCreateInfo.pNext := 0;
               VkPipelineInputAssemblyStateCreateInfo.flags := 0;
               VkPipelineInputAssemblyStateCreateInfo.topology := 3;
               VkPipelineInputAssemblyStateCreateInfo.primitiveRestartEnable
                 := 0 |};
     VkGraphicsPipelineCreateInfo.pTessellationState := None;
     VkGraphicsPipelineCreateInfo.pViewportState :=
       Some {| VkPipelineViewportStateCreateInfo.pNext := 0;
               VkPipelineViewportStateCreateInfo.flags := 0;
               VkPipelineViewportStateCreateInfo.viewportCount := 1;
               VkPipelineViewportStateCreateInfo.pViewports :=
                 [ {| VkViewport.x := 0; VkViewport.y := 0;
                      VkViewport.width := 0x44000000;
                      VkViewport.height := 0x44000000;
                      VkViewport.minDepth := 0;
                      VkViewport.maxDepth := 0x3f800000 |} ];
               VkPipelineViewportStateCreateInfo.scissorCount := 1;
               VkPipelineViewportStateCreateInfo.pScissors :=
                 [ {| VkRect2D.offset :=
                        {| VkOffset2D.x := 0; VkOffset2D.y := 0 |};
                      VkRect2D.extent :=
                        {| VkExtent2D.width := 512;
                           VkExtent2D.height := 512 |} |} ] |};
     VkGraphicsPipelineCreateInfo.pRasterizationState := None;
     VkGraphicsPipelineCreateInfo.pMultisampleState := None;
     VkGraphicsPipelineCreateInfo.pDepthStencilState :=
       Some sample_depth_stencil_state;
     VkGraphicsPipelineCreateInfo.pColorBlendState :=
       Some sample_color_blend_state;
     VkGraphicsPipelineCreateInfo.pDynamicState := Some sample_dynamic_state;
     VkGraphicsPipelineCreateInfo.layout := 21;
     VkGraphicsPipelineCreateInfo.renderPass := 31;
     VkGraphicsPipelineCreateInfo.subpass := 0;
     VkGraphicsPipelineCreateInfo.basePipelineHandle := 0;
     VkGraphicsPipelineCreateInfo.basePipelineIndex := 0 |}.

(** A recorder whose worker has processed the shader module [11], the
    pipeline layout [21] and the render pass [31]. *)
Definition sample_recorder : StateRecorder.t :=
  {| StateRecorder.descriptor_sets := ∅;
     StateRecorder.pipeline_layouts := ∅;
     StateRecorder.shader_modules := ∅;
     StateRecorder.graphics_pipelines := ∅;
     StateRecorder.compute_pipelines := ∅;
     StateRecorder.render_passes := ∅;
     StateRecorder.samplers := ∅;
     StateRecorder.descriptor_set_layout_to_index := ∅;
     StateRecorder.pipeline_layout_to_index := {[ 21 := 0x2222 ]};
     StateRecorder.shader_module_to_index := {[ 11 := 0x1111 ]};
     StateRecorder.graphics_pipeline_to_index := ∅;
     StateRecorder.compute_pipeline_to_index := ∅;
     StateRecorder.render_pass_to_index := {[ 31 := 0x3333 ]};
     StateRecorder.sampler_to_index := ∅;
     StateRecorder.record_queue := [];
     StateRecorder.serialization_path := "";
     StateRecorder.written := [];
     StateRecorder.logged := [] |}.

(** A creator without state that accepts every call and hands back the
    hash as the handle. *)
Definition accepting_creator : StateCreatorInterface unit :=
  {| set_num_samplers := λ _ c, c;
     set_num_descriptor_set_layouts := λ _ c, c;
     set_num_pipeline_layouts := λ _ c, c;
     set_num_shader_modules := λ _ c, c;
     set_num_render_passes := λ _ c, c;
     set_num_compute_pipelines := λ _ c, c;
     set_num_graphics_pipelines := λ _ c, c;
     enqueue_create_sampler := λ hash _ c, (true, hash, c);
     enqueue_create_descriptor_set_layout := λ hash _ c, (true, hash, c);
     enqueue_create_pipeline_layout := λ hash _ c, (true, hash, c);
     enqueue_create_shader_module := λ hash _ c, (true, hash, c);
     enqueue_create_render_pass := λ hash _ c, (true, hash, c);
     enqueue_create_compute_pipeline := λ hash _ c, (true, hash, c);
     enqueue_create_graphics_pipeline := λ hash _ c, (true, hash, c);
     wait_enqueue := λ c, c |}.

Definition sample_shader_module : VkShaderModuleCreateInfo.t :=
  {| VkShaderModuleCreateInfo.pNext := 0;
     VkShaderModuleCreateInfo.flags := 0;
     VkShaderModuleCreateInfo.codeSize := 8;
     VkShaderModuleCreateInfo.pCode := [0x07230203; 0x00010000] |}.

(** A pipeline layout without set layouts and push constants. *)
Definition sample_pipeline_layout : VkPipelineLayoutCreateInfo.t :=
  {| VkPipelineLayoutCreateInfo.pNext := 0;
     VkPipelineLayoutCreateInfo.flags := 0;
     VkPipelineLayoutCreateInfo.setLayoutCount := 0;
     VkPipelineLayoutCreateInfo.pSetLayouts := [];
     VkPipelineLayoutCreateInfo.pushConstantRangeCount := 0;
     VkPipelineLayoutCreateInfo.pPushConstantRanges := [] |}.

Definition sample_render_pass : VkRenderPassCreateInfo.t :=
  {| VkRenderPassCreateInfo.pNext := 0;
     VkRenderPassCreateInfo.flags := 0;
     VkRenderPassCreateInfo.attachmentCount := 0;
     VkRenderPassCreateInfo.pAttachments := [];
     VkRenderPassCreateInfo.subpassCount := 1;
     VkRenderPassCreateInfo.pSubpasses := [sample_subpass];
     VkRenderPassCreateInfo.dependencyCount := 0;
     VkRenderPassCreateInfo.pDependencies := [] |}.

(** A host that records the shader module [11], the pipeline layout
    [21], the render pass [31] and then the graphics pipeline [41] that
    uses them, and ends the recording. *)
Definition sample_session : Res StateRecorder.t :=
  let? r :=
    Recording.record_shader_module 11 sample_shader_module
      StateRecorder.empty in
  let? r := Recording.record_pipeline_layout 21 sample_pipeline_layout r in
  let? r := Recording.record_render_pass 31 sample_render_pass r in
  let? r := Recording.record_graphics_pipeline 41 sample_graphics_pipeline r in
  Ok (Recording.record_end r).

(** A graphics pipeline with a vertex-input state and without a
    color-blend state (a depth-only pass); no extension chain anywhere. *)
Definition sample_pipeline_without_blend : VkGraphicsPipelineCreateInfo.t :=
  {| VkGraphicsPipelineCreateInfo.pNext := 0;
     VkGraphicsPipelineCreateInfo.flags := 0;
     VkGraphicsPipelineCreateInfo.stageCount := 1;
     VkGraphicsPipelineCreateInfo.pStages := [sample_stage];
     VkGraphicsPipelineCreateInfo.pVertexInputState :=
       Some {| VkPipelineVertexInputStateCreateInfo.pNext := 0;
               VkPipelineVertexInputStateCreateInfo.flags := 0;
               VkPipelineVertexInputStateCreateInfo.vertexBindingDescriptionCount
                 := 0;
               VkPipelineVertexInputStateCreateInfo.pVertexBindingDescriptions
                 := [];
               VkPipelineVertexInputStateCreateInfo.vertexAttributeDescriptionCount
                 := 0;
               VkPipelineVertexInputStateCreateInfo.pVertexAttributeDescriptions
                 := [] |};
     VkGraphicsPipelineCreateInfo.pInputAssemblyState := None;
     VkGraphicsPipelineCreateInfo.pTessellationState := None;
     VkGraphicsPipelineCreateInfo.pViewportState := None;
     VkGraphicsPipelineCreateInfo.pRasterizationState := None;
     VkGraphicsPipelineCreateInfo.pMultisampleState := None;
     VkGraphicsPipelineCreateInfo.pDepthStencilState :=
       Some sample_depth_stencil_state;
     VkGraphicsPipelineCreateInfo.pColorBlendState := None;
     VkGraphicsPipelineCreateInfo.pDynamicState := None;
     VkGraphicsPipelineCreateInfo.layout := 21;
     VkGraphicsPipelineCreateInfo.renderPass := 31;
     VkGraphicsPipelineCreateInfo.subpass := 0;
     VkGraphicsPipelineCreateInfo.basePipelineHandle := 0;
     VkGraphicsPipelineCreateInfo.basePipelineIndex := 0 |}.

(** A set layout and a pipeline layout that arrive with an extension
    chain. *)
Definition sample_set_layout_with_pNext : VkDescriptorSetLayoutCreateInfo.t :=
  {| VkDescriptorSetLayoutCreateInfo.pNext := 0x7ffd1000;
     VkDescriptorSetLayoutCreateInfo.flags := 0;
     VkDescriptorSetLayoutCreateInfo.bindingCount := 0;
     VkDescriptorSetLayoutCreateInfo.pBindings := [] |}.

Definition sample_pipeline_layout_with_pNext : VkPipelineLayoutCreateInfo.t :=
  {| VkPipelineLayoutCreateInfo.pNext := 0x7ffd1000;
     VkPipelineLayoutCreateInfo.flags := 0;
     VkPipelineLayoutCreateInfo.setLayoutCount := 0;
     VkPipelineLayoutCreateInfo.pSetLayouts := [];
     VkPipelineLayoutCreateInfo.pushConstantRangeCount := 0;
     VkPipelineLayoutCreateInfo.pPushConstantRanges := [] |}.

(** A pipeline layout whose only set layout is [VK_NULL_HANDLE]. *)
Definition sample_pipeline_layout_null_set : VkPipelineLayoutCreateInfo.t :=
  {| VkPipelineLayoutCreateInfo.pNext := 0;
     VkPipelineLayoutCreateInfo.flags := 0;
     VkPipelineLayoutCreateInfo.setLayoutCount := 1;
     VkPipelineLayoutCreateInfo.pSetLayouts := [VK_NULL_HANDLE];
     VkPipelineLayoutCreateInfo.pushConstantRangeCount := 0;
     VkPipelineLayoutCreateInfo.pPushConstantRanges := [] |}.

(** A set layout whose only binding is a sampler with the immutable
    sampler [77]. *)
Definition sample_set_layout_with_sampler : VkDescriptorSetLayoutCreateInfo.t :=
  {| VkDescriptorSetLayoutCreateInfo.pNext := 0;
     VkDescriptorSetLayoutCreateInfo.flags := 0;
     VkDescriptorSetLayoutCreateInfo.bindingCount := 1;
     VkDescriptorSetLayoutCreateInfo.pBindings :=
       [ {| VkDescriptorSetLayoutBinding.binding := 0;
            VkDescriptorSetLayoutBinding.descriptorType :=
              VK_DESCRIPTOR_TYPE_SAMPLER;
            VkDescriptorSetLayoutBinding.descriptorCount := 1;
            VkDescriptorSetLayoutBinding.stageFlags := 16;
            VkDescriptorSetLayoutBinding.pImmutableSamplers := Some [77] |} ] |}.

(** The hash function the worker calls for a queued descriptor. *)
Definition compute_hash (recorder : StateRecorder.t) (ci : CreateInfo)
    : Res Z :=
  match ci with
  | SamplerCI create_info =>
      Hashing.compute_hash_sampler recorder create_info
  | DescriptorSetLayoutCI create_info =>
      Hashing.compute_hash_descriptor_set_layout recorder create_info
  | PipelineLayoutCI create_info =>
      Hashing.compute_hash_pipeline_layout recorder create_info
  | RenderPassCI create_info =>
      Hashing.compute_hash_render_pass recorder create_info
  | ShaderModuleCI create_info =>
      Hashing.compute_hash_shader_module recorder create_info
  | GraphicsPipelineCI create_info =>
      Hashing.compute_hash_graphics_pipeline recorder create_info
  | ComputePipelineCI create_info =>
      Hashing.compute_hash_compute_pipeline recorder create_info
  end.

(** The seven handle-to-hash tables and the seven stores of two states
    of the recorder are the same. *)
Definition same_tables_and_stores (r r' : StateRecorder.t) : Prop :=
  StateRecorder.descriptor_sets r' = StateRecorder.descriptor_sets r
  ∧ StateRecorder.pipeline_layouts r' = StateRecorder.pipeline_layouts r
  ∧ StateRecorder.shader_modules r' = StateRecorder.shader_modules r
  ∧ StateRecorder.graphics_pipelines r' = StateRecorder.graphics_pipelines r
  ∧ StateRecorder.compute_pipelines r' = StateRecorder.compute_pipelines r
  ∧ StateRecorder.render_passes r' = StateRecorder.render_passes r
  ∧ StateRecorder.samplers r' = StateRecorder.samplers r
  ∧ StateRecorder.descriptor_set_layout_to_index r'
    = StateRecorder.descriptor_set_layout_to_index r
  ∧ StateRecorder.pipeline_layout_to_index r'
    = StateRecorder.pipeline_layout_to_index r
  ∧ StateRecorder.shader_module_to_index r'
    = StateRecorder.shader_module_to_index r
  ∧ StateRecorder.graphics_pipeline_to_index r'
    = StateRecorder.graphics_pipeline_to_index r
  ∧ StateRecorder.compute_pipeline_to_index r'
    = StateRecorder.compute_pipeline_to_index r
  ∧ StateRecorder.render_pass_to_index r'
    = StateRecorder.render_pass_to_index r
  ∧ StateRecorder.sampler_to_index r' = StateRecorder.sampler_to_index r.

(** ** Closures and their replay *)

(** [ok] holds of every structure of a store. *)
Definition store_all {T : Type} (ok : T → bool) (store : gmap Z T) : bool :=
  forallb (λ entry, ok entry.2) (map_to_list store).

(** The immutable samplers of a binding are as many as its count says. *)
Definition binding_arrays_ok (binding : VkDescriptorSetLayoutBinding.t)
    : bool :=
  match Hashing.immutable_samplers binding with
  | Some handles =>
      (Z.to_nat binding.(VkDescriptorSetLayoutBinding.descriptorCount)
       <=? length handles)%nat
  | None => true
  end.

Definition set_layout_arrays_ok
    (set_layout : VkDescriptorSetLayoutCreateInfo.t) : bool :=
  let count :=
    Z.to_nat set_layout.(VkDescriptorSetLayoutCreateInfo.bindingCount) in
  let bindings := set_layout.(VkDescriptorSetLayoutCreateInfo.pBindings) in
  (count <=? length bindings)%nat
  && forallb binding_arrays_ok (take count bindings).

Definition pipeline_layout_arrays_ok
    (pipeline_layout : VkPipelineLayoutCreateInfo.t) : bool :=
  (Z.to_nat pipeline_layout.(VkPipelineLayoutCreateInfo.setLayoutCount)
   <=? length pipeline_layout.(VkPipelineLayoutCreateInfo.pSetLayouts))%nat.

(** The arrays that the serializer of a closure and the writer of its
    document walk hold as many elements as their counts say, as they do
    in the copies that the recorder makes. *)
Definition closure_arrays_ok (r : StateRecorder.t)
    (pipe : VkGraphicsPipelineCreateInfo.t) : bool :=
  (Z.to_nat pipe.(VkGraphicsPipelineCreateInfo.stageCount)
   <=? length pipe.(VkGraphicsPipelineCreateInfo.pStages))%nat
  && store_all pipeline_layout_arrays_ok (StateRecorder.pipeline_layouts r)
  && store_all set_layout_arrays_ok (StateRecorder.descriptor_sets r).

(** Two states of the replayer have created the same shader modules and
    the same graphics pipelines. *)
Definition same_modules_and_pipelines (rep rep' : StateReplayer.t) : Prop :=
  StateReplayer.replayed_shader_modules rep'
  = StateReplayer.replayed_shader_modules rep
  ∧ StateReplayer.replayed_graphics_pipelines rep'
    = StateReplayer.replayed_graphics_pipelines rep.

Definition keeps_modules_and_pipelines
    (set : gmap Z Z → StateReplayer.t → StateReplayer.t) : Prop :=
  ∀ v rep, same_modules_and_pipelines rep (set v rep).

(** The resolver returns, for the shader module that a stage of [pipe]
    refers to, the document that the recorder writes for that module. *)
Definition resolves_shader_modules (r : StateRecorder.t)
    (resolver : ResolverInterface) (pipe : VkGraphicsPipelineCreateInfo.t)
    : Prop :=
  Forall
    (λ stage,
      let module := VkPipelineShaderStageCreateInfo.module stage in
      0 < module →
      is_Some (StateRecorder.shader_modules r !! module)
      ∧ Serialize.serialize_shader_module r module = Ok (resolver module))
    (Replay.stages_member pipe).

(** The recorder of [sample_session] once its worker has returned. *)
Definition sample_store : StateRecorder.t :=
  match sample_session with
  | Ok r =>
      match Recording.record_task r with
      | Recording.Returned r' => r'
      | _ => r
      end
  | _ => StateRecorder.empty
  end.

(** The hash under which the pipeline [41] of the session is stored. *)
Definition sample_pipeline_hash : Z :=
  default 0 (StateRecorder.graphics_pipeline_to_index sample_store !! 41).

Definition sample_stored_pipeline : VkGraphicsPipelineCreateInfo.t :=
  default sample_graphics_pipeline
    (StateRecorder.graphics_pipelines sample_store !! sample_pipeline_hash).

(** A resolver that reads the documents that the recorder of the session
    writes for its shader modules. *)
Definition sample_resolver : ResolverInterface :=
  λ hash,
    match Serialize.serialize_shader_module sample_store hash with
    | Ok buffer => buffer
    | _ => EmptyBuffer
    end.

(** ** Descriptors that differ in one sub-state *)

(** [state] is among the [dynamicStateCount] dynamic states of the
    descriptor. *)
Definition dynamic_state_listed (state : Z)
    (ci : VkGraphicsPipelineCreateInfo.t) : Prop :=
  match ci.(VkGraphicsPipelineCreateInfo.pDynamicState) with
  | Some st =>
      In state
        (take (Z.to_nat st.(VkPipelineDynamicStateCreateInfo.dynamicStateCount))
           st.(VkPipelineDynamicStateCreateInfo.pDynamicStates))
  | None => False
  end.

(** The same descriptor with another viewport state. *)
Definition with_pViewportState (ci : VkGraphicsPipelineCreateInfo.t)
    (vp : option VkPipelineViewportStateCreateInfo.t)
    : VkGraphicsPipelineCreateInfo.t :=
  {| VkGraphicsPipelineCreateInfo.pNext :=
       ci.(VkGraphicsPipelineCreateInfo.pNext);
     VkGraphicsPipelineCreateInfo.flags :=
       ci.(VkGraphicsPipelineCreateInfo.flags);
     VkGraphicsPipelineCreateInfo.stageCount :=
       ci.(VkGraphicsPipelineCreateInfo.stageCount);
     VkGraphicsPipelineCreateInfo.pStages :=
       ci.(VkGraphicsPipelineCreateInfo.pStages);
     VkGraphicsPipelineCreateInfo.pVertexInputState :=
       ci.(VkGraphicsPipelineCreateInfo.pVertexInputState);
     VkGraphicsPipelineCreateInfo.pInputAssemblyState :=
       ci.(VkGraphicsPipelineCreateInfo.pInputAssemblyState);
     VkGraphicsPipelineCreateInfo.pTessellationState :=
       ci.(VkGraphicsPipelineCreateInfo.pTessellationState);
     VkGraphicsPipelineCreateInfo.pViewportState := vp;
     VkGraphicsPipelineCreateInfo.pRasterizationState :=
       ci.(VkGraphicsPipelineCreateInfo.pRasterizationState);
     VkGraphicsPipelineCreateInfo.pMultisampleState :=
       ci.(VkGraphicsPipelineCreateInfo.pMultisampleState);
     VkGraphicsPipelineCreateInfo.pDepthStencilState :=
       ci.(VkGraphicsPipelineCreateInfo.pDepthStencilState);
     VkGraphicsPipelineCreateInfo.pColorBlendState :=
       ci.(VkGraphicsPipelineCreateInfo.pColorBlendState);
     VkGraphicsPipelineCreateInfo.pDynamicState :=
       ci.(VkGraphicsPipelineCreateInfo.pDynamicState);
     VkGraphicsPipelineCreateInfo.layout :=
       ci.(VkGraphicsPipelineCreateInfo.layout);
     VkGraphicsPipelineCreateInfo.renderPass :=
       ci.(VkGraphicsPipelineCreateInfo.renderPass);
     VkGraphicsPipelineCreateInfo.subpass :=
       ci.(VkGraphicsPipelineCreateInfo.subpass);
     VkGraphicsPipelineCreateInfo.basePipelineHandle :=
       ci.(VkGraphicsPipelineCreateInfo.basePipelineHandle);
     VkGraphicsPipelineCreateInfo.basePipelineIndex :=
       ci.(VkGraphicsPipelineCreateInfo.basePipelineIndex) |}.

(** The same descriptor with another rasterization state. *)
Definition with_pRasterizationState (ci : VkGraphicsPipelineCreateInfo.t)
    (rs : option VkPipelineRasterizationStateCreateInfo.t)
    : VkGraphicsPipelineCreateInfo.t :=
  {| VkGraphicsPipelineCreateInfo.pNext :=
       ci.(VkGraphicsPipelineCreateInfo.pNext);
     VkGraphicsPipelineCreateInfo.flags :=
       ci.(VkGraphicsPipelineCreateInfo.flags);
     VkGraphicsPipelineCreateInfo.stageCount :=
       ci.(VkGraphicsPipelineCreateInfo.stageCount);
     VkGraphicsPipelineCreateInfo.pStages :=
       ci.(VkGraphicsPipelineCreateInfo.pStages);
     VkGraphicsPipelineCreateInfo.pVertexInputState :=
       ci.(VkGraphicsPipelineCreateInfo.pVertexInputState);
     VkGraphicsPipelineCreateInfo.pInputAssemblyState :=
       ci.(VkGraphicsPipelineCreateInfo.pInputAssemblyState);
     VkGraphicsPipelineCreateInfo.pTessellationState :=
       ci.(VkGraphicsPipelineCreateInfo.pTessellationState);
     VkGraphicsPipelineCreateInfo.pViewportState :=
       ci.(VkGraphicsPipelineCreateInfo.pViewportState);
     VkGraphicsPipelineCreateInfo.pRasterizationState := rs;
     VkGraphicsPipelineCreateInfo.pMultisampleState :=
       ci.(VkGraphicsPipelineCreateInfo.pMultisampleState);
     VkGraphicsPipelineCreateInfo.pDepthStencilState :=
       ci.(VkGraphicsPipelineCreateInfo.pDepthStencilState);
     VkGraphicsPipelineCreateInfo.pColorBlendState :=
       ci.(VkGraphicsPipelineCreateInfo.pColorBlendState);
     VkGraphicsPipelineCreateInfo.pDynamicState :=
       ci.(VkGraphicsPipelineCreateInfo.pDynamicState);
     VkGraphicsPipelineCreateInfo.layout :=
       ci.(VkGraphicsPipelineCreateInfo.layout);
     VkGraphicsPipelineCreateInfo.renderPass :=
       ci.(VkGraphicsPipelineCreateInfo.renderPass);
     VkGraphicsPipelineCreateInfo.subpass :=
       ci.(VkGraphicsPipelineCreateInfo.subpass);
     VkGraphicsPipelineCreateInfo.basePipelineHandle :=
       ci.(VkGraphicsPipelineCreateInfo.basePipelineHandle);
     VkGraphicsPipelineCreateInfo.basePipelineIndex :=
       ci.(VkGraphicsPipelineCreateInfo.basePipelineIndex) |}.

(** The same descriptor with another dynamic state. *)
Definition with_pDynamicState (ci : VkGraphicsPipelineCreateInfo.t)
    (dyn : option VkPipelineDynamicStateCreateInfo.t)
    : VkGraphicsPipelineCreateInfo.t :=
  {| VkGraphicsPipelineCreateInfo.pNext :=
       ci.(VkGraphicsPipelineCreateInfo.pNext);
     VkGraphicsPipelineCreateInfo.flags :=
       ci.(VkGraphicsPipelineCreateInfo.flags);
     VkGraphicsPipelineCreateInfo.stageCount :=
       ci.(VkGraphicsPipelineCreateInfo.stageCount);
     VkGraphicsPipelineCreateInfo.pStages :=
       ci.(VkGraphicsPipelineCreateInfo.pStages);
     VkGraphicsPipelineCreateInfo.pVertexInputState :=
       ci.(VkGraphicsPipelineCreateInfo.pVertexInputState);
     VkGraphicsPipelineCreateInfo.pInputAssemblyState :=
       ci.(VkGraphicsPipelineCreateInfo.pInputAssemblyState);
     VkGraphicsPipelineCreateInfo.pTessellationState :=
       ci.(VkGraphicsPipelineCreateInfo.pTessellationState);
     VkGraphicsPipelineCreateInfo.pViewportState :=
       ci.(VkGraphicsPipelineCreateInfo.pViewportState);
     VkGraphicsPipelineCreateInfo.pRasterizationState :=
       ci.(VkGraphicsPipelineCreateInfo.pRasterizationState);
     VkGraphicsPipelineCreateInfo.pMultisampleState :=
       ci.(VkGraphicsPipelineCreateInfo.pMultisampleState);
     VkGraphicsPipelineCreateInfo.pDepthStencilState :=
       ci.(VkGraphicsPipelineCreateInfo.pDepthStencilState);
     VkGraphicsPipelineCreateInfo.pColorBlendState :=
       ci.(VkGraphicsPipelineCreateInfo.pColorBlendState);
     VkGraphicsPipelineCreateInfo.pDynamicState := dyn;
     VkGraphicsPipelineCreateInfo.layout :=
       ci.(VkGraphicsPipelineCreateInfo.layout);
     VkGraphicsPipelineCreateInfo.renderPass :=
       ci.(VkGraphicsPipelineCreateInfo.renderPass);
     VkGraphicsPipelineCreateInfo.subpass :=
       ci.(VkGraphicsPipelineCreateInfo.subpass);
     VkGraphicsPipelineCreateInfo.basePipelineHandle :=
       ci.(VkGraphicsPipelineCreateInfo.basePipelineHandle);
     VkGraphicsPipelineCreateInfo.basePipelineIndex :=
       ci.(VkGraphicsPipelineCreateInfo.basePipelineIndex) |}.

(** The fields of a viewport state that are hashed whatever the dynamic
    states are. *)
Definition same_viewport_counts
    (vp vp' : VkPipelineViewportStateCreateInfo.t) : Prop :=
  vp'.(VkPipelineViewportStateCreateInfo.flags)
  = vp.(VkPipelineViewportStateCreateInfo.flags)
  ∧ vp'.(VkPipelineViewportStateCreateInfo.scissorCount)
    = vp.(VkPipelineViewportStateCreateInfo.scissorCount)
  ∧ vp'.(VkPipelineViewportStateCreateInfo.viewportCount)
    = vp.(VkPipelineViewportStateCreateInfo.viewportCount).

(** The fields of a rasterization state that are hashed whatever the
    dynamic states are. *)
Definition same_rasterization_modes
    (rs rs' : VkPipelineRasterizationStateCreateInfo.t) : Prop :=
  rs'.(VkPipelineRasterizationStateCreateInfo.flags)
  = rs.(VkPipelineRasterizationStateCreateInfo.flags)
  ∧ rs'.(VkPipelineRasterizationStateCreateInfo.cullMode)
    = rs.(VkPipelineRasterizationStateCreateInfo.cullMode)
  ∧ rs'.(VkPipelineRasterizationStateCreateInfo.depthClampEnable)
    = rs.(VkPipelineRasterizationStateCreateInfo.depthClampEnable)
  ∧ rs'.(VkPipelineRasterizationStateCreateInfo.frontFace)
    = rs.(VkPipelineRasterizationStateCreateInfo.frontFace)
  ∧ rs'.(VkPipelineRasterizationStateCreateInfo.rasterizerDiscardEnable)
    = rs.(VkPipelineRasterizationStateCreateInfo.rasterizerDiscardEnable)
  ∧ rs'.(VkPipelineRasterizationStateCreateInfo.polygonMode)
    = rs.(VkPipelineRasterizationStateCreateInfo.polygonMode)
  ∧ rs'.(VkPipelineRasterizationStateCreateInfo.depthBiasEnable)
    = rs.(VkPipelineRasterizationStateCreateInfo.depthBiasEnable).

(** The three depth-bias factors of two rasterization states are the
    same. *)
Definition same_depth_bias
    (rs rs' : VkPipelineRasterizationStateCreateInfo.t) : Prop :=
  rs'.(VkPipelineRasterizationStateCreateInfo.depthBiasClamp)
  = rs.(VkPipelineRasterizationStateCreateInfo.depthBiasClamp)
  ∧ rs'.(VkPipelineRasterizationStateCreateInfo.depthBiasSlopeFactor)
    = rs.(VkPipelineRasterizationStateCreateInfo.depthBiasSlopeFactor)
  ∧ rs'.(VkPipelineRasterizationStateCreateInfo.depthBiasConstantFactor)
    = rs.(VkPipelineRasterizationStateCreateInfo.depthBiasConstantFactor).

(** The fields of a depth-stencil state other than the stencil masks and
    references. *)
Definition same_depth_stencil_tests
    (ds ds' : VkPipelineDepthStencilStateCreateInfo.t) : Prop :=
  let front := VkPipelineDepthStencilStateCreateInfo.front in
  let back := VkPipelineDepthStencilStateCreateInfo.back in
  ds'.(VkPipelineDepthStencilStateCreateInfo.flags)
  = ds.(VkPipelineDepthStencilStateCreateInfo.flags)
  ∧ ds'.(VkPipelineDepthStencilStateCreateInfo.depthBoundsTestEnable)
    = ds.(VkPipelineDepthStencilStateCreateInfo.depthBoundsTestEnable)
  ∧ ds'.(VkPipelineDepthStencilStateCreateInfo.depthCompareOp)
    = ds.(VkPipelineDepthStencilStateCreateInfo.depthCompareOp)
  ∧ ds'.(VkPipelineDepthStencilStateCreateInfo.depthTestEnable)
    = ds.(VkPipelineDepthStencilStateCreateInfo.depthTestEnable)
  ∧ ds'.(VkPipelineDepthStencilStateCreateInfo.depthWriteEnable)
    = ds.(VkPipelineDepthStencilStateCreateInfo.depthWriteEnable)
  ∧ ds'.(VkPipelineDepthStencilStateCreateInfo.stencilTestEnable)
    = ds.(VkPipelineDepthStencilStateCreateInfo.stencilTestEnable)
  ∧ ds'.(VkPipelineDepthStencilStateCreateInfo.minDepthBounds)
    = ds.(VkPipelineDepthStencilStateCreateInfo.minDepthBounds)
  ∧ ds'.(VkPipelineDepthStencilStateCreateInfo.maxDepthBounds)
    = ds.(VkPipelineDepthStencilStateCreateInfo.maxDepthBounds)
  ∧ ∀ face, face = front ∨ face = back →
      (face ds').(VkStencilOpState.compareOp)
      = (face ds).(VkStencilOpState.compareOp)
      ∧ (face ds').(VkStencilOpState.depthFailOp)
        = (face ds).(VkStencilOpState.depthFailOp)
      ∧ (face ds').(VkStencilOpState.failOp)
        = (face ds).(VkStencilOpState.failOp)
      ∧ (face ds').(VkStencilOpState.passOp)
        = (face ds).(VkStencilOpState.passOp).

(** One field of the two faces of two depth-stencil states is the
    same. *)
Definition same_stencil_field (field : VkStencilOpState.t → Z)
    (ds ds' : VkPipelineDepthStencilStateCreateInfo.t) : Prop :=
  field ds'.(VkPipelineDepthStencilStateCreateInfo.front)
  = field ds.(VkPipelineDepthStencilStateCreateInfo.front)
  ∧ field ds'.(VkPipelineDepthStencilStateCreateInfo.back)
    = field ds.(VkPipelineDepthStencilStateCreateInfo.back).

(** The fields of a color-blend state other than the blend constants. *)
Definition same_blend_state
    (b b' : VkPipelineColorBlendStateCreateInfo.t) : Prop :=
  b'.(VkPipelineColorBlendStateCreateInfo.flags)
  = b.(VkPipelineColorBlendStateCreateInfo.flags)
  ∧ b'.(VkPipelineColorBlendStateCreateInfo.attachmentCount)
    = b.(VkPipelineColorBlendStateCreateInfo.attachmentCount)
  ∧ b'.(VkPipelineColorBlendStateCreateInfo.logicOpEnable)
    = b.(VkPipelineColorBlendStateCreateInfo.logicOpEnable)
  ∧ b'.(VkPipelineColorBlendStateCreateInfo.logicOp)
    = b.(VkPipelineColorBlendStateCreateInfo.logicOp)
  ∧ b'.(VkPipelineColorBlendStateCreateInfo.pAttachments)
    = b.(VkPipelineColorBlendStateCreateInfo.pAttachments).

(** No attachment that the loop of the color-blend block visits blends
    with a constant factor. *)
Definition no_constant_blend (b : VkPipelineColorBlendStateCreateInfo.t)
    : Prop :=
  Forall
    (λ a, a.(VkPipelineColorBlendAttachmentState.blendEnable) = 0
          ∨ Hashing.uses_blend_constants a = false)
    (take (Z.to_nat b.(VkPipelineColorBlendStateCreateInfo.attachmentCount))
       b.(VkPipelineColorBlendStateCreateInfo.pAttachments)).

(** A rasterization state with a depth bias and a line width. *)
Definition sample_rasterization_state
    : VkPipelineRasterizationStateCreateInfo.t :=
  {| VkPipelineRasterizationStateCreateInfo.pNext := 0;
     VkPipelineRasterizationStateCreateInfo.flags := 0;
     VkPipelineRasterizationStateCreateInfo.depthClampEnable := 0;
     VkPipelineRasterizationStateCreateInfo.rasterizerDiscardEnable := 0;
     VkPipelineRasterizationStateCreateInfo.polygonMode := 0;
     VkPipelineRasterizationStateCreateInfo.cullMode := 2;
     VkPipelineRasterizationStateCreateInfo.frontFace := 1;
     VkPipelineRasterizationStateCreateInfo.depthBiasEnable := 1;
     VkPipelineRasterizationStateCreateInfo.depthBiasConstantFactor :=
       0x3f800000;
     VkPipelineRasterizationStateCreateInfo.depthBiasClamp := 0;
     VkPipelineRasterizationStateCreateInfo.depthBiasSlopeFactor :=
       0x3f000000;
     VkPipelineRasterizationStateCreateInfo.lineWidth := 0x3f800000 |}.

(** [sample_graphics_pipeline] with a rasterization state and with all
    nine dynamic states listed. *)
Definition sample_dynamic_pipeline : VkGraphicsPipelineCreateInfo.t :=
  with_pDynamicState
    (with_pRasterizationState sample_graphics_pipeline
       (Some sample_rasterization_state))
    (Some {| VkPipelineDynamicStateCreateInfo.pNext := 0;
             VkPipelineDynamicStateCreateInfo.flags := 0;
             VkPipelineDynamicStateCreateInfo.dynamicStateCount := 9;
             VkPipelineDynamicStateCreateInfo.pDynamicStates :=
               [ VK_DYNAMIC_STATE_VIEWPORT; VK_DYNAMIC_STATE_SCISSOR;
                 VK_DYNAMIC_STATE_LINE_WIDTH; VK_DYNAMIC_STATE_DEPTH_BIAS;
                 VK_DYNAMIC_STATE_BLEND_CONSTANTS;
                 VK_DYNAMIC_STATE_DEPTH_BOUNDS;
                 VK_DYNAMIC_STATE_STENCIL_COMPARE_MASK;
                 VK_DYNAMIC_STATE_STENCIL_WRITE_MASK;
                 VK_DYNAMIC_STATE_STENCIL_REFERENCE ] |}).

(** A viewport state with one viewport and one scissor, other than
    those of [sample_graphics_pipeline]. *)
Definition sample_viewport_state' : VkPipelineViewportStateCreateInfo.t :=
  {| VkPipelineViewportStateCreateInfo.pNext := 0;
     VkPipelineViewportStateCreateInfo.flags := 0;
     VkPipelineViewportStateCreateInfo.viewportCount := 1;
     VkPipelineViewportStateCreateInfo.pViewports :=
       [ {| VkViewport.x := 0x41000000; VkViewport.y := 0x41000000;
            VkViewport.width := 0x43800000;
            VkViewport.height := 0x43800000;
            VkViewport.minDepth := 0;
            VkViewport.maxDepth := 0x3f000000 |} ];
     VkPipelineViewportStateCreateInfo.scissorCount := 1;
     VkPipelineViewportStateCreateInfo.pScissors :=
       [ {| VkRect2D.offset :=
              {| VkOffset2D.x := 8; VkOffset2D.y := 8 |};
            VkRect2D.extent :=
              {| VkExtent2D.width := 256;
                 VkExtent2D.height := 256 |} |} ] |}.

(** [sample_rasterization_state] with another line width and other
    depth-bias factors. *)
Definition sample_rasterization_state'
    : VkPipelineRasterizationStateCreateInfo.t :=
  {| VkPipelineRasterizationStateCreateInfo.pNext := 0;
     VkPipelineRasterizationStateCreateInfo.flags := 0;
     VkPipelineRasterizationStateCreateInfo.depthClampEnable := 0;
     VkPipelineRasterizationStateCreateInfo.rasterizerDiscardEnable := 0;
     VkPipelineRasterizationStateCreateInfo.polygonMode := 0;
     VkPipelineRasterizationStateCreateInfo.cullMode := 2;
     VkPipelineRasterizationStateCreateInfo.frontFace := 1;
     VkPipelineRasterizationStateCreateInfo.depthBiasEnable := 1;
     VkPipelineRasterizationStateCreateInfo.depthBiasConstantFactor :=
       0x40000000;
     VkPipelineRasterizationStateCreateInfo.depthBiasClamp := 0x3f800000;
     VkPipelineRasterizationStateCreateInfo.depthBiasSlopeFactor :=
       0x40400000;
     VkPipelineRasterizationStateCreateInfo.lineWidth := 0x40000000 |}.

(** A depth-stencil state with the stencil test on. *)
Definition sample_stencil_state : VkPipelineDepthStencilStateCreateInfo.t :=
  let stencil :=
    {| VkStencilOpState.failOp := 0; VkStencilOpState.passOp := 2;
       VkStencilOpState.depthFailOp := 0; VkStencilOpState.compareOp := 7;
       VkStencilOpState.compareMask := 255; VkStencilOpState.writeMask := 255;
       VkStencilOpState.reference := 1 |} in
  {| VkPipelineDepthStencilStateCreateInfo.pNext := 0;
     VkPipelineDepthStencilStateCreateInfo.flags := 0;
     VkPipelineDepthStencilStateCreateInfo.depthTestEnable := 1;
     VkPipelineDepthStencilStateCreateInfo.depthWriteEnable := 1;
     VkPipelineDepthStencilStateCreateInfo.depthCompareOp := 1;
     VkPipelineDepthStencilStateCreateInfo.depthBoundsTestEnable := 0;
     VkPipelineDepthStencilStateCreateInfo.stencilTestEnable := 1;
     VkPipelineDepthStencilStateCreateInfo.front := stencil;
     VkPipelineDepthStencilStateCreateInfo.back := stencil;
     VkPipelineDepthStencilStateCreateInfo.minDepthBounds := 0;
     VkPipelineDepthStencilStateCreateInfo.maxDepthBounds := 0x3f800000 |}.

(** The same state with other masks and references. *)
Definition sample_stencil_state' : VkPipelineDepthStencilStateCreateInfo.t :=
  let stencil :=
    {| VkStencilOpState.failOp := 0; VkStencilOpState.passOp := 2;
       VkStencilOpState.depthFailOp := 0; VkStencilOpState.compareOp := 7;
       VkStencilOpState.compareMask := 15; VkStencilOpState.writeMask := 240;
       VkStencilOpState.reference := 3 |} in
  {| VkPipelineDepthStencilStateCreateInfo.pNext := 0;
     VkPipelineDepthStencilStateCreateInfo.flags := 0;
     VkPipelineDepthStencilStateCreateInfo.depthTestEnable := 1;
     VkPipelineDepthStencilStateCreateInfo.depthWriteEnable := 1;
     VkPipelineDepthStencilStateCreateInfo.depthCompareOp := 1;
     VkPipelineDepthStencilStateCreateInfo.depthBoundsTestEnable := 0;
     VkPipelineDepthStencilStateCreateInfo.stencilTestEnable := 1;
     VkPipelineDepthStencilStateCreateInfo.front := stencil;
     VkPipelineDepthStencilStateCreateInfo.back := stencil;
     VkPipelineDepthStencilStateCreateInfo.minDepthBounds := 0;
     VkPipelineDepthStencilStateCreateInfo.maxDepthBounds := 0x3f800000 |}.

(** A color-blend state whose attachment blends with the constant
    color, and the same state with other constants. *)
Definition sample_constant_blend_state (blendConstants : Z * Z * Z * Z)
    : VkPipelineColorBlendStateCreateInfo.t :=
  {| VkPipelineColorBlendStateCreateInfo.pNext := 0;
     VkPipelineColorBlendStateCreateInfo.flags := 0;
     VkPipelineColorBlendStateCreateInfo.logicOpEnable := 0;
     VkPipelineColorBlendStateCreateInfo.logicOp := 0;
     VkPipelineColorBlendStateCreateInfo.attachmentCount := 1;
     VkPipelineColorBlendStateCreateInfo.pAttachments :=
       [ {| VkPipelineColorBlendAttachmentState.blendEnable := 1;
            VkPipelineColorBlendAttachmentState.srcColorBlendFactor :=
              VK_BLEND_FACTOR_CONSTANT_COLOR;
            VkPipelineColorBlendAttachmentState.dstColorBlendFactor := 0;
            VkPipelineColorBlendAttachmentState.colorBlendOp := 0;
            VkPipelineColorBlendAttachmentState.srcAlphaBlendFactor := 1;
            VkPipelineColorBlendAttachmentState.dstAlphaBlendFactor := 0;
            VkPipelineColorBlendAttachmentState.alphaBlendOp := 0;
            VkPipelineColorBlendAttachmentState.colorWriteMask := 15 |} ];
     VkPipelineColorBlendStateCreateInfo.blendConstants := blendConstants |}.

(** ** The width of a hash *)

(** The running value of the hasher is a 64-bit value. *)
Definition hash_in_range (s : Hasher.t) : Prop := 0 <= Hasher.h s < 2 ^ 64.

(** A computation leaves a 64-bit running value when it starts from
    one. *)
Definition keeps_range {A : Type} (m : HashM A) : Prop :=
  ∀ s a s', hash_in_range s → m s = Ok (a, s') → hash_in_range s'.
(** ** Hashes and handles *)

(** Two set-layout handles of two recorders stand for the same content:
    both are null, or neither is and the recorders give them the same
    hash (or fail alike). *)
Definition same_set_layout_content (r r' : StateRecorder.t) (h h' : Z)
    : Prop :=
  (h = VK_NULL_HANDLE ∧ h' = VK_NULL_HANDLE)
  ∨ (h ≠ VK_NULL_HANDLE ∧ h' ≠ VK_NULL_HANDLE
     ∧ StateRecorder.get_hash_for_descriptor_set_layout r' h'
       = StateRecorder.get_hash_for_descriptor_set_layout r h).

(** A recorder that knows the set layout [5] and one that knows the same
    content under the handle [9]. *)
Definition sample_recorder_5 : StateRecorder.t :=
  StateRecorder.set_descriptor_set_layout_to_index {[ 5 := 0xabcdef ]}
    StateRecorder.empty.

Definition sample_recorder_9 : StateRecorder.t :=
  StateRecorder.set_descriptor_set_layout_to_index {[ 9 := 0xabcdef ]}
    StateRecorder.empty.

(** A pipeline layout over the set layout [handle] and a null one. *)
Definition sample_pipeline_layout_over (handle : Z)
    : VkPipelineLayoutCreateInfo.t :=
  {| VkPipelineLayoutCreateInfo.pNext := 0;
     VkPipelineLayoutCreateInfo.flags := 0;
     VkPipelineLayoutCreateInfo.setLayoutCount := 2;
     VkPipelineLayoutCreateInfo.pSetLayouts := [handle; VK_NULL_HANDLE];
     VkPipelineLayoutCreateInfo.pushConstantRangeCount := 1;
     VkPipelineLayoutCreateInfo.pPushConstantRanges :=
       [ {| VkPushConstantRange.stageFlags := 1;
            VkPushConstantRange.offset := 0;
            VkPushConstantRange.size := 16 |} ] |}.

(** ** Hashing a deep copy *)

(** The deep copy that [record_<kind>] makes of a descriptor. *)
Definition copy_create_info (ci : CreateInfo) : Res CreateInfo :=
  match ci with
  | SamplerCI create_info =>
      res_map SamplerCI (DeepCopy.copy_sampler create_info)
  | DescriptorSetLayoutCI create_info =>
      res_map DescriptorSetLayoutCI
        (DeepCopy.copy_descriptor_set_layout create_info)
  | PipelineLayoutCI create_info =>
      res_map PipelineLayoutCI (DeepCopy.copy_pipeline_layout create_info)
  | RenderPassCI create_info =>
      res_map RenderPassCI (DeepCopy.copy_render_pass create_info)
  | ShaderModuleCI create_info =>
      res_map ShaderModuleCI (DeepCopy.copy_shader_module create_info)
  | GraphicsPipelineCI create_info =>
      res_map GraphicsPipelineCI
        (DeepCopy.copy_graphics_pipeline create_info)
  | ComputePipelineCI create_info =>
      res_map ComputePipelineCI (DeepCopy.copy_compute_pipeline create_info)
  end.

(** ** The worker *)

(** The handle-to-hash table and the store of the kind of a descriptor. *)
Definition handle_table (ci : CreateInfo) (r : StateRecorder.t) : gmap Z Z :=
  match ci with
  | SamplerCI _ => StateRecorder.sampler_to_index r
  | DescriptorSetLayoutCI _ => StateRecorder.descriptor_set_layout_to_index r
  | PipelineLayoutCI _ => StateRecorder.pipeline_layout_to_index r
  | RenderPassCI _ => StateRecorder.render_pass_to_index r
  | ShaderModuleCI _ => StateRecorder.shader_module_to_index r
  | GraphicsPipelineCI _ => StateRecorder.graphics_pipeline_to_index r
  | ComputePipelineCI _ => StateRecorder.compute_pipeline_to_index r
  end.

Definition set_handle_table (ci : CreateInfo) (table : gmap Z Z)
    (r : StateRecorder.t) : StateRecorder.t :=
  match ci with
  | SamplerCI _ => StateRecorder.set_sampler_to_index table r
  | DescriptorSetLayoutCI _ =>
      StateRecorder.set_descriptor_set_layout_to_index table r
  | PipelineLayoutCI _ => StateRecorder.set_pipeline_layout_to_index table r
  | RenderPassCI _ => StateRecorder.set_render_pass_to_index table r
  | ShaderModuleCI _ => StateRecorder.set_shader_module_to_index table r
  | GraphicsPipelineCI _ =>
      StateRecorder.set_graphics_pipeline_to_index table r
  | ComputePipelineCI _ => StateRecorder.set_compute_pipeline_to_index table r
  end.

(** [store.count(hash)] for the store of the kind of [ci]. *)
Definition stored (ci : CreateInfo) (r : StateRecorder.t) (hash : Z) : bool :=
  match ci with
  | SamplerCI _ => Recording.count (StateRecorder.samplers r) hash
  | DescriptorSetLayoutCI _ =>
      Recording.count (StateRecorder.descriptor_sets r) hash
  | PipelineLayoutCI _ =>
      Recording.count (StateRecorder.pipeline_layouts r) hash
  | RenderPassCI _ => Recording.count (StateRecorder.render_passes r) hash
  | ShaderModuleCI _ => Recording.count (StateRecorder.shader_modules r) hash
  | GraphicsPipelineCI _ =>
      Recording.count (StateRecorder.graphics_pipelines r) hash
  | ComputePipelineCI _ =>
      Recording.count (StateRecorder.compute_pipelines r) hash
  end.

(** Every entry of the seven stores of [r] is an entry of [r']. *)
Definition stores_extend (r r' : StateRecorder.t) : Prop :=
  StateRecorder.samplers r ⊆ StateRecorder.samplers r'
  ∧ StateRecorder.descriptor_sets r ⊆ StateRecorder.descriptor_sets r'
  ∧ StateRecorder.pipeline_layouts r ⊆ StateRecorder.pipeline_layouts r'
  ∧ StateRecorder.render_passes r ⊆ StateRecorder.render_passes r'
  ∧ StateRecorder.shader_modules r ⊆ StateRecorder.shader_modules r'
  ∧ StateRecorder.graphics_pipelines r ⊆ StateRecorder.graphics_pipelines r'
  ∧ StateRecorder.compute_pipelines r ⊆ StateRecorder.compute_pipelines r'.

(** The seven handle-to-hash tables of [r] and [r'] agree at [h]. *)
Definition same_hash_of_handle (r r' : StateRecorder.t) (h : Z) : Prop :=
  StateRecorder.sampler_to_index r' !! h
  = StateRecorder.sampler_to_index r !! h
  ∧ StateRecorder.descriptor_set_layout_to_index r' !! h
    = StateRecorder.descriptor_set_layout_to_index r !! h
  ∧ StateRecorder.pipeline_layout_to_index r' !! h
    = StateRecorder.pipeline_layout_to_index r !! h
  ∧ StateRecorder.render_pass_to_index r' !! h
    = StateRecorder.render_pass_to_index r !! h
  ∧ StateRecorder.shader_module_to_index r' !! h
    = StateRecorder.shader_module_to_index r !! h
  ∧ StateRecorder.graphics_pipeline_to_index r' !! h
    = StateRecorder.graphics_pipeline_to_index r !! h
  ∧ StateRecorder.compute_pipeline_to_index r' !! h
    = StateRecorder.compute_pipeline_to_index r !! h.

(** The kinds for which the worker writes a file when it stores a new
    entry. *)
Definition writes_blob (ci : CreateInfo) : bool :=
  match ci with
  | ShaderModuleCI _ | GraphicsPipelineCI _ | ComputePipelineCI _ => true
  | _ => false
  end.

(** The queue entry of a submission. *)
Definition work_item (submission : Z * CreateInfo) : WorkItem :=
  {| handle := submission.1; create_info := Some submission.2 |}.

(** The items of a list processed one after the other. *)
Fixpoint process_items (submissions : list (Z * CreateInfo))
    (r : StateRecorder.t) : Res StateRecorder.t :=
  match submissions with
  | [] => Ok r
  | (handle, ci) :: submissions' =>
      let? r' := Recording.process_item handle ci r in
      process_items submissions' r'
  end.

(** The outcome of [dispatch] with the queue of its state replaced. *)
Definition with_queue (queue : list WorkItem) (out : Recording.TryOutcome)
    : Recording.TryOutcome :=
  match out with
  | Recording.Completed r =>
      Recording.Completed (StateRecorder.set_record_queue queue r)
  | Recording.Raised r msg =>
      Recording.Raised (StateRecorder.set_record_queue queue r) msg
  | Recording.Undefined => Recording.Undefined
  end.

(** ** From a submission to a look-up *)

(** [record_<kind>(handle, create_info)] for the kind of [ci]. *)
Definition record (handle : Z) (ci : CreateInfo) (r : StateRecorder.t)
    : Res StateRecorder.t :=
  match ci with
  | SamplerCI create_info => Recording.record_sampler handle create_info r
  | DescriptorSetLayoutCI create_info =>
      Recording.record_descriptor_set_layout handle create_info r
  | PipelineLayoutCI create_info =>
      Recording.record_pipeline_layout handle create_info r
  | RenderPassCI create_info =>
      Recording.record_render_pass handle create_info r
  | ShaderModuleCI create_info =>
      Recording.record_shader_module handle create_info r
  | GraphicsPipelineCI create_info =>
      Recording.record_graphics_pipeline handle create_info r
  | ComputePipelineCI create_info =>
      Recording.record_compute_pipeline handle create_info r
  end.

(** [get_hash_for_<kind>(handle)] for the kind of [ci]. *)
Definition get_hash_for (ci : CreateInfo) (r : StateRecorder.t) (handle : Z)
    : Res Z :=
  match ci with
  | SamplerCI _ => StateRecorder.get_hash_for_sampler r handle
  | DescriptorSetLayoutCI _ =>
      StateRecorder.get_hash_for_descriptor_set_layout r handle
  | PipelineLayoutCI _ => StateRecorder.get_hash_for_pipeline_layout r handle
  | RenderPassCI _ => StateRecorder.get_hash_for_render_pass r handle
  | ShaderModuleCI _ => StateRecorder.get_hash_for_shader_module r handle
  | GraphicsPipelineCI _ =>
      StateRecorder.get_hash_for_graphics_pipeline_handle r handle
  | ComputePipelineCI _ =>
      StateRecorder.get_hash_for_compute_pipeline_handle r handle
  end.

(** Two descriptors are of one kind. *)
Definition same_kind (ci ci' : CreateInfo) : bool :=
  match ci, ci' with
  | SamplerCI _, SamplerCI _
  | DescriptorSetLayoutCI _, DescriptorSetLayoutCI _
  | PipelineLayoutCI _, PipelineLayoutCI _
  | RenderPassCI _, RenderPassCI _
  | ShaderModuleCI _, ShaderModuleCI _
  | GraphicsPipelineCI _, GraphicsPipelineCI _
  | ComputePipelineCI _, ComputePipelineCI _ => true
  | _, _ => false
  end.

(** ** What a closure holds *)

(** Every member of a section is an entry of the store, under its hash,
    and no hash names two members. *)
Definition from_store {T : Type} (store : gmap Z T)
    (json_map : list (Z * T)) : Prop :=
  Forall (λ member, store !! member.1 = Some member.2) json_map
  ∧ NoDup json_map.*1.

(** The seven sections of a document come from the stores. *)
Definition sections_from_stores (r : StateRecorder.t) (doc : Document.t)
    : Prop :=
  from_store (StateRecorder.shader_modules r)
    (elems (Document.shaderModules doc))
  ∧ from_store (StateRecorder.samplers r) (elems (Document.samplers doc))
  ∧ from_store (StateRecorder.descriptor_sets r)
      (elems (Document.setLayouts doc))
  ∧ from_store (StateRecorder.pipeline_layouts r)
      (elems (Document.pipelineLayouts doc))
  ∧ from_store (StateRecorder.render_passes r)
      (elems (Document.renderPasses doc))
  ∧ from_store (StateRecorder.compute_pipelines r)
      (elems (Document.computePipelines doc))
  ∧ from_store (StateRecorder.graphics_pipelines r)
      (elems (Document.graphicsPipelines doc)).

(** The three sections that the walk from a pipeline layout fills come
    from the stores. *)
Definition maps_from_stores (r : StateRecorder.t)
    (maps : Serialize.LayoutMaps) : Prop :=
  from_store (StateRecorder.samplers r) (Serialize.samplers_map maps)
  ∧ from_store (StateRecorder.descriptor_sets r)
      (Serialize.set_layouts_map maps)
  ∧ from_store (StateRecorder.pipeline_layouts r)
      (Serialize.pipeline_layouts_map maps).

(** The set layout [set_layout] is one of the first [setLayoutCount]
    set layouts of the stored pipeline layout [layout]. *)
Definition layout_reaches_set_layout (r : StateRecorder.t)
    (layout set_layout : Z) : Prop :=
  ∃ pipeline_layout (i : nat),
    StateRecorder.pipeline_layouts r !! layout = Some pipeline_layout
    ∧ (i < Z.to_nat
             pipeline_layout.(VkPipelineLayoutCreateInfo.setLayoutCount))%nat
    ∧ pipeline_layout.(VkPipelineLayoutCreateInfo.pSetLayouts) !! i
      = Some set_layout.

(** The sampler [sampler] is one of the first [descriptorCount]
    immutable samplers of one of the first [bindingCount] bindings of
    the stored set layout [set_layout], in a binding of a sampler
    type. *)
Definition set_layout_reaches_sampler (r : StateRecorder.t)
    (set_layout sampler : Z) : Prop :=
  ∃ info (j : nat) binding handles (k : nat),
    StateRecorder.descriptor_sets r !! set_layout = Some info
    ∧ (j < Z.to_nat info.(VkDescriptorSetLayoutCreateInfo.bindingCount))%nat
    ∧ info.(VkDescriptorSetLayoutCreateInfo.pBindings) !! j = Some binding
    ∧ Hashing.immutable_samplers binding = Some handles
    ∧ (k < Z.to_nat
             binding.(VkDescriptorSetLayoutBinding.descriptorCount))%nat
    ∧ handles !! k = Some sampler.

(** What the walk from the pipeline layout [layout] has to put into
    the three sections it fills. *)
Definition layout_closure_in (r : StateRecorder.t) (layout : Z)
    (samplers : list (Z * VkSamplerCreateInfo.t))
    (set_layouts : list (Z * VkDescriptorSetLayoutCreateInfo.t))
    (pipeline_layouts : list (Z * VkPipelineLayoutCreateInfo.t)) : Prop :=
  (∀ info, StateRecorder.pipeline_layouts r !! layout = Some info →
     (layout, info) ∈ pipeline_layouts)
  ∧ (∀ set_layout info,
       layout_reaches_set_layout r layout set_layout →
       StateRecorder.descriptor_sets r !! set_layout = Some info →
       (set_layout, info) ∈ set_layouts)
  ∧ (∀ set_layout sampler info,
       layout_reaches_set_layout r layout set_layout →
       set_layout_reaches_sampler r set_layout sampler →
       StateRecorder.samplers r !! sampler = Some info →
       (sampler, info) ∈ samplers).

(** A recorder that has stored a sampler, a set layout with that
    immutable sampler, a pipeline layout over that set layout, a shader
    module and the compute pipeline [51] that uses them. *)
Definition sample_sampler : VkSamplerCreateInfo.t :=
  {| VkSamplerCreateInfo.pNext := 0;
     VkSamplerCreateInfo.flags := 0;
     VkSamplerCreateInfo.magFilter := 1;
     VkSamplerCreateInfo.minFilter := 1;
     VkSamplerCreateInfo.mipmapMode := 0;
     VkSamplerCreateInfo.addressModeU := 2;
     VkSamplerCreateInfo.addressModeV := 2;
     VkSamplerCreateInfo.addressModeW := 2;
     VkSamplerCreateInfo.mipLodBias := 0;
     VkSamplerCreateInfo.anisotropyEnable := 0;
     VkSamplerCreateInfo.maxAnisotropy := 0x3f800000;
     VkSamplerCreateInfo.compareEnable := 0;
     VkSamplerCreateInfo.compareOp := 0;
     VkSamplerCreateInfo.minLod := 0;
     VkSamplerCreateInfo.maxLod := 0;
     VkSamplerCreateInfo.borderColor := 0;
     VkSamplerCreateInfo.unnormalizedCoordinates := 0 |}.

Definition sample_pipeline_layout_with_set : VkPipelineLayoutCreateInfo.t :=
  {| VkPipelineLayoutCreateInfo.pNext := 0;
     VkPipelineLayoutCreateInfo.flags := 0;
     VkPipelineLayoutCreateInfo.setLayoutCount := 1;
     VkPipelineLayoutCreateInfo.pSetLayouts := [5];
     VkPipelineLayoutCreateInfo.pushConstantRangeCount := 0;
     VkPipelineLayoutCreateInfo.pPushConstantRanges := [] |}.

Definition sample_compute_pipeline : VkComputePipelineCreateInfo.t :=
  {| VkComputePipelineCreateInfo.pNext := 0;
     VkComputePipelineCreateInfo.flags := 0;
     VkComputePipelineCreateInfo.stage := sample_stage;
     VkComputePipelineCreateInfo.layout := 22;
     VkComputePipelineCreateInfo.basePipelineHandle := VK_NULL_HANDLE;
     VkComputePipelineCreateInfo.basePipelineIndex := 0 |}.

Definition sample_compute_store : StateRecorder.t :=
  match
    process_items
      [ (77, SamplerCI sample_sampler);
        (5, DescriptorSetLayoutCI sample_set_layout_with_sampler);
        (22, PipelineLayoutCI sample_pipeline_layout_with_set);
        (11, ShaderModuleCI sample_shader_module);
        (51, ComputePipelineCI sample_compute_pipeline) ]
      StateRecorder.empty
  with
  | Ok r => r
  | _ => StateRecorder.empty
  end.

Definition sample_compute_hash : Z :=
  default 0 (StateRecorder.compute_pipeline_to_index sample_compute_store
               !! 51).

(** ** The tables of the replayer *)

(** Every key of [m] is a key of [m']. *)
Definition keys_kept (m m' : gmap Z Z) : Prop :=
  ∀ k, is_Some (m !! k) → is_Some (m' !! k).

(** The tables of [rep'] extend those of [rep]: a shader module, a
    sampler, a set layout or a pipeline layout that has a handle keeps
    it; a render pass or a pipeline that has a handle has one. *)
Definition tables_extend (rep rep' : StateReplayer.t) : Prop :=
  StateReplayer.replayed_samplers rep
  ⊆ StateReplayer.replayed_samplers rep'
  ∧ StateReplayer.replayed_descriptor_set_layouts rep
    ⊆ StateReplayer.replayed_descriptor_set_layouts rep'
  ∧ StateReplayer.replayed_pipeline_layouts rep
    ⊆ StateReplayer.replayed_pipeline_layouts rep'
  ∧ StateReplayer.replayed_shader_modules rep
    ⊆ StateReplayer.replayed_shader_modules rep'
  ∧ keys_kept (StateReplayer.replayed_render_passes rep)
      (StateReplayer.replayed_render_passes rep')
  ∧ keys_kept (StateReplayer.replayed_compute_pipelines rep)
      (StateReplayer.replayed_compute_pipelines rep')
  ∧ keys_kept (StateReplayer.replayed_graphics_pipelines rep)
      (StateReplayer.replayed_graphics_pipelines rep').

(** An assignment of a table that extends it extends the tables. *)
Definition extending (get : StateReplayer.t → gmap Z Z)
    (set : gmap Z Z → StateReplayer.t → StateReplayer.t) : Prop :=
  (∀ v rep, get (set v rep) = v)
  ∧ (∀ v w rep, set v (set w rep) = set v rep)
  ∧ (∀ v rep, get rep ⊆ v → tables_extend rep (set v rep)).

(** An assignment of a table that keeps its keys extends the tables. *)
Definition keeping (get : StateReplayer.t → gmap Z Z)
    (set : gmap Z Z → StateReplayer.t → StateReplayer.t) : Prop :=
  (∀ v rep, get (set v rep) = v)
  ∧ (∀ v w rep, set v (set w rep) = set v rep)
  ∧ (∀ v rep, keys_kept (get rep) v → tables_extend rep (set v rep)).

(** [set] leaves the table [get'] alone. *)
Definition apart (get' : StateReplayer.t → gmap Z Z)
    (set : gmap Z Z → StateReplayer.t → StateReplayer.t) : Prop :=
  ∀ v rep, get' (set v rep) = get' rep.

(** The calls a replay makes to the creator when it creates nothing:
    [wait_enqueue] for a section of the document, [set_num_X(0)] for a
    section that the document does not have. *)
Definition quiet_section {C T : Type} (iface : StateCreatorInterface C)
    (member : option (list (Z * T))) (set_num : Z → C → C) (c : C) : C :=
  match member with
  | Some _ => wait_enqueue iface c
  | None => set_num 0 c
  end.

Definition quiet_replay {C : Type} (iface : StateCreatorInterface C)
    (doc : Document.t) (c : C) : C :=
  let c :=
    quiet_section iface (Document.shaderModules doc)
      (set_num_shader_modules iface) c in
  let c :=
    quiet_section iface (Document.samplers doc) (set_num_samplers iface) c in
  let c :=
    quiet_section iface (Document.setLayouts doc)
      (set_num_descriptor_set_layouts iface) c in
  let c :=
    quiet_section iface (Document.pipelineLayouts doc)
      (set_num_pipeline_layouts iface) c in
  let c :=
    quiet_section iface (Document.renderPasses doc)
      (set_num_render_passes iface) c in
  let c :=
    quiet_section iface (Document.computePipelines doc)
      (set_num_compute_pipelines iface) c in
  quiet_section iface (Document.graphicsPipelines doc)
    (set_num_graphics_pipelines iface) c.

(** A creator that refuses the shader module [13] and numbers the
    objects it creates. *)
Definition counting_creator : StateCreatorInterface Z :=
  {| set_num_samplers := λ _ c, c;
     set_num_descriptor_set_layouts := λ _ c, c;
     set_num_pipeline_layouts := λ _ c, c;
     set_num_shader_modules := λ _ c, c;
     set_num_render_passes := λ _ c, c;
     set_num_compute_pipelines := λ _ c, c;
     set_num_graphics_pipelines := λ _ c, c;
     enqueue_create_sampler := λ _ _ c, (true, c + 1, c + 1);
     enqueue_create_descriptor_set_layout := λ _ _ c, (true, c + 1, c + 1);
     enqueue_create_pipeline_layout := λ _ _ c, (true, c + 1, c + 1);
     enqueue_create_shader_module :=
       λ hash _ c, (negb (hash =? 13), c + 1, c + 1);
     enqueue_create_render_pass := λ _ _ c, (true, c + 1, c + 1);
     enqueue_create_compute_pipeline := λ _ _ c, (true, c + 1, c + 1);
     enqueue_create_graphics_pipeline := λ _ _ c, (true, c + 1, c + 1);
     wait_enqueue := λ c, c |}.

(** The document of one shader module, under the hash [0x1111]. *)
Definition sample_module_doc : Document.t :=
  {| Document.version := Some FOSSILIZE_FORMAT_VERSION;
     Document.shaderModules := Some [(0x1111, sample_shader_module)];
     Document.samplers := None;
     Document.setLayouts := None;
     Document.pipelineLayouts := None;
     Document.renderPasses := None;
     Document.computePipelines := None;
     Document.graphicsPipelines := None |}.

Definition sample_module_document : Buffer := JsonText sample_module_doc.

(** Every member of a section has a handle in the table [get]. *)
Definition section_created {T : Type} (get : StateReplayer.t → gmap Z Z)
    (member : option (list (Z * T))) (rep : StateReplayer.t) : Prop :=
  Forall (λ member, is_Some (get rep !! member.1)) (elems member).

(** ** Items that are stored *)

(** None of the first [setLayoutCount] set layouts of a pipeline layout
    is the null handle. *)
Definition no_null_set_layout (ci : CreateInfo) : Prop :=
  match ci with
  | PipelineLayoutCI layout =>
      Forall (λ set_layout, set_layout ≠ VK_NULL_HANDLE)
        (take (Z.to_nat layout.(VkPipelineLayoutCreateInfo.setLayoutCount))
           layout.(VkPipelineLayoutCreateInfo.pSetLayouts))
  | _ => True
  end.

(** A call that raises no exception. *)
Definition no_throw {A : Type} (m : Res A) : Prop := ∀ msg, m ≠ Throw msg.

(** ** The text of the encoder and the bytes of the decoder *)

(** [c] is a character of the base64 alphabet or the padding. *)
Definition is_base64_char (c : ascii) : bool :=
  let c := Base64.ord c in
  ((Base64.ord "A" <=? c) && (c <=? Base64.ord "Z"))
  || ((Base64.ord "a" <=? c) && (c <=? Base64.ord "z"))
  || ((Base64.ord "0" <=? c) && (c <=? Base64.ord "9"))
  || (c =? Base64.ord "+") || (c =? Base64.ord "/")
  || (c =? Base64.ord "=").

Fixpoint string_forallb (p : ascii → bool) (s : string) : bool :=
  match s with
  | EmptyString => true
  | String c s' => p c && string_forallb p s'
  end.

(** ** The arena *)

(** [class ScratchAllocator]: its blocks, each with the size of its
    blob and the offset of its first free byte; the bytes of the blobs
    are not modelled.  The class is declared in the header, which is
    not among the sources: a block starts with the offset zero. *)
Module ScratchAllocator.

(** Arithmetic on [size_t]. *)
Definition size_t (z : Z) : Z := z mod 2 ^ 64.

(** [struct Block { size_t offset; std::vector<uint8_t> blob; }] *)
Record Block : Type := { offset : Z; blob_size : Z }.

(** [ScratchAllocator::Block::Block(size_t size) { blob.resize(size); }] *)
Definition new_block (size : Z) : Block :=
  {| offset := 0; blob_size := size |}.

(** [void ScratchAllocator::add_block(size_t minimum_size)] *)
Definition add_block (minimum_size : Z) (blocks : list Block)
    : list Block :=
  let minimum_size :=
    if minimum_size <? 64 * 1024 then 64 * 1024 else minimum_size in
  blocks ++ [new_block minimum_size].

(** [void *ScratchAllocator::allocate_raw(size_t size, size_t
    alignment)].  The pointer [block.blob.data() + offset] it returns is
    given by the index of the block and the offset in its blob; it is
    returned with the blocks as the call leaves them.  [fuel] bounds
    the calls the function makes to itself after adding a block. *)
Fixpoint allocate_raw (fuel : nat) (size alignment : Z) (blocks : list Block)
    : Res (nat * Z * list Block) :=
  match fuel with
  | O => NoFuel
  | S fuel' =>
      let blocks :=
        match blocks with
        | [] => add_block (size_t (size + alignment)) blocks
        | _ => blocks
        end in
      match last blocks with
      | None => Undef
      | Some block =>
          let offset :=
            Z.land (size_t (offset block + alignment - 1))
              (size_t (Z.lnot (size_t (alignment - 1)))) in
          let required_size := size_t (offset + size) in
          if required_size <=? blob_size block then
            Ok (pred (length blocks), offset,
                <[pred (length blocks) :=
                    {| offset := required_size;
                       blob_size := blob_size block |}]> blocks)
          else
            allocate_raw fuel' size alignment
              (add_block (size_t (size + alignment)) blocks)
      end
  end.

End ScratchAllocator.

(** The offset of a block is within its blob, whose size is a
    [size_t]. *)
Definition block_ok (block : ScratchAllocator.Block) : Prop :=
  0 <= ScratchAllocator.offset block <= ScratchAllocator.blob_size block
  ∧ ScratchAllocator.blob_size block < 2 ^ 64.

(** An alignment that is a power of two. *)
Definition power_of_two (alignment : Z) : Prop :=
  ∃ k, 0 <= k < 64 ∧ alignment = 2 ^ k.

(** What a call of [allocate_raw] on [blocks] has to return: a pointer
    that is aligned, to [size] bytes that lie in the blob of its block
    and above what the block had given out, the offset of the block
    being moved past them; the other blocks are as they were. *)
Definition allocated (size alignment : Z) (blocks : list ScratchAllocator.Block)
    (result : nat * Z * list ScratchAllocator.Block) : Prop :=
  let '(i, offset, blocks') := result in
  ∃ block',
    blocks' !! i = Some block'
    ∧ offset mod alignment = 0
    ∧ 0 <= offset
    ∧ offset + size = ScratchAllocator.offset block'
    ∧ ScratchAllocator.offset block' <= ScratchAllocator.blob_size block'
    ∧ (∀ block,
         blocks !! i = Some block →
         ScratchAllocator.offset block <= offset
         ∧ ScratchAllocator.blob_size block'
           = ScratchAllocator.blob_size block)
    ∧ (∀ j block,
         j ≠ i → blocks !! j = Some block → blocks' !! j = Some block)
    ∧ Forall block_ok blocks'.

(** ** Hashes as member names *)

(** The digit that ["%X"] prints for a value below sixteen. *)
Definition hex_digit (v : Z) : ascii :=
  if v <? 10 then Base64.chr (Base64.ord "0" + v)
  else Base64.chr (Base64.ord "A" + (v - 10)).

(** The [n] least significant hexadecimal digits of [value], the most
    significant first. *)
Fixpoint hex_digits (n : nat) (value : Z) : string :=
  match n with
  | O => ""
  | S n' =>
      String (hex_digit ((value / 16 ^ Z.of_nat n') mod 16))
        (hex_digits n' value)
  end.

(** [static Value uint64_string(const uint64_t value, Allocator &alloc)]:
    what [sprintf(str, "%016" PRIX64, value)] leaves in [str], sixteen
    digits being all that a [uint64_t] has. *)
Definition uint64_string (value : Z) : string := hex_digits 16 value.

(** The value of a hexadecimal digit, of either case. *)
Definition hex_value (c : ascii) : option Z :=
  let c := Base64.ord c in
  if (Base64.ord "0" <=? c) && (c <=? Base64.ord "9")
  then Some (c - Base64.ord "0")
  else if (Base64.ord "a" <=? c) && (c <=? Base64.ord "f")
  then Some (c - Base64.ord "a" + 10)
  else if (Base64.ord "A" <=? c) && (c <=? Base64.ord "F")
  then Some (c - Base64.ord "A" + 10)
  else None.

(** [isspace] in the C locale. *)
Definition isspace (c : ascii) : bool :=
  let c := Base64.ord c in (c =? 32) || ((9 <=? c) && (c <=? 13)).

Fixpoint skip_space (str : string) : string :=
  match str with
  | String c str' => if isspace c then skip_space str' else str
  | EmptyString => str
  end.

(** The digits at the start of [str]: their value after [acc] and how
    many they are. *)
Fixpoint scan_digits (str : string) (acc : Z) (count : nat) : Z * nat :=
  match str with
  | String c str' =>
      match hex_value c with
      | Some d => scan_digits str' (acc * 16 + d) (S count)
      | None => (acc, count)
      end
  | EmptyString => (acc, count)
  end.

(** [static uint64_t string_to_uint64(const char* str)]: what
    [sscanf(str, "%" SCNx64, &value)] stores in [value], as the C
    standard has it: white space is skipped, then come an optional
    sign, an optional [0x] or [0X] and the digits.  When no digit is
    there nothing is stored and [value] is returned uninitialised; a
    number that a [uint64_t] cannot hold is undefined as well. *)
Definition string_to_uint64 (str : string) : Res Z :=
  let str := skip_space str in
  let '(negative, str) :=
    match str with
    | String "+" str' => (false, str')
    | String "-" str' => (true, str')
    | _ => (false, str)
    end in
  let str :=
    match str with
    | String "0" (String "x" str') => str'
    | String "0" (String "X" str') => str'
    | _ => str
    end in
  let '(value, count) := scan_digits str 0 0 in
  if (count =? 0)%nat then Undef
  else if 2 ^ 64 <=? value then Undef
  else Ok (if negative then (2 ^ 64 - value) mod 2 ^ 64 else value).

(** * Properties *)

(** Equalities between words built from shifts and masks, bit by bit. *)
Ltac bitblast_lia :=
  Z.bitblast; try (f_equal; lia);
  try (repeat match goal with
              | |- context [Z.testbit ?x ?i] =>
                  rewrite (Z.testbit_neg_r x i) by lia
              end; btauto).

Section Base64Facts.
Import Base64.

Lemma base64_index_base64 (v : Z) :
  0 <= v < 64 →
  base64_index (base64 v) = v ∧ is_nul (base64 v) = false
  ∧ is_pad (base64 v) = false.
Proof.
  intros Hv.
  assert (Hn : ∃ n : nat, (n < 64)%nat ∧ v = Z.of_nat n).
  { exists (Z.to_nat v). lia. }
  destruct Hn as (n & Hn & ->).
  do 64 (destruct n as [|n]; [vm_compute; auto|]).
  lia.
Qed.


Lemma sextet_range (x : Z) : 0 <= Z.land x 63 < 64.
Proof.
  change 63 with (Z.ones 6). rewrite Z.land_ones by lia.
  apply Z.mod_pos_bound. lia.
Qed.

(** Bits 16..23, 8..15 and 0..7 of the 24-bit word the decoder
    reassembles from four sextets. *)
Lemma values_byte2 (code x2 x3 : Z) :
  uint8 (Z.shiftr
    (Z.lor (Z.lor (Z.lor
      (Z.shiftl (Z.land (Z.shiftr code 18) 63) 18)
      (Z.shiftl (Z.land (Z.shiftr code 12) 63) 12))
      (Z.shiftl (Z.land x2 63) 6))
      (Z.shiftl (Z.land x3 63) 0)) 16)
  = uint8 (Z.shiftr code 16).
Proof. unfold uint8. change 63 with (Z.ones 6). bitblast_lia. Qed.

Lemma values_byte1 (code x3 : Z) :
  uint8 (Z.shiftr
    (Z.lor (Z.lor (Z.lor
      (Z.shiftl (Z.land (Z.shiftr code 18) 63) 18)
      (Z.shiftl (Z.land (Z.shiftr code 12) 63) 12))
      (Z.shiftl (Z.land (Z.shiftr code 6) 63) 6))
      (Z.shiftl (Z.land x3 63) 0)) 8)
  = uint8 (Z.shiftr code 8).
Proof. unfold uint8. change 63 with (Z.ones 6). bitblast_lia. Qed.

Lemma values_byte0 (code : Z) :
  uint8 (Z.shiftr
    (Z.lor (Z.lor (Z.lor
      (Z.shiftl (Z.land (Z.shiftr code 18) 63) 18)
      (Z.shiftl (Z.land (Z.shiftr code 12) 63) 12))
      (Z.shiftl (Z.land (Z.shiftr code 6) 63) 6))
      (Z.shiftl (Z.land (Z.shiftr code 0) 63) 0)) 0)
  = uint8 (Z.shiftr code 0).
Proof. unfold uint8. change 63 with (Z.ones 6). bitblast_lia. Qed.

(** The three bytes packed into [code] by the encoder. *)
Lemma code_byte2 (a b c : Z) :
  uint8 (Z.shiftr (Z.lor (Z.lor (Z.shiftl (uint8 a) 16)
    (Z.shiftl (uint8 b) 8)) (Z.shiftl (uint8 c) 0)) 16) = uint8 a.
Proof. unfold uint8. bitblast_lia. Qed.

Lemma code_byte1 (a b c : Z) :
  uint8 (Z.shiftr (Z.lor (Z.lor (Z.shiftl (uint8 a) 16)
    (Z.shiftl (uint8 b) 8)) (Z.shiftl (uint8 c) 0)) 8) = uint8 b.
Proof. unfold uint8. bitblast_lia. Qed.

Lemma code_byte0 (a b c : Z) :
  uint8 (Z.shiftr (Z.lor (Z.lor (Z.shiftl (uint8 a) 16)
    (Z.shiftl (uint8 b) 8)) (Z.shiftl (uint8 c) 0)) 0) = uint8 c.
Proof. unfold uint8. bitblast_lia. Qed.

Lemma uint8_byte (b : Z) : is_byte b → uint8 b = b.
Proof. intros Hb. apply Z.mod_small. exact Hb. Qed.


Lemma append_cons (c : ascii) (s t : string) :
  String c s +:+ t = String c (s +:+ t).
Proof. reflexivity. Qed.

Lemma append_empty_r (s : string) : s +:+ "" = s.
Proof.
  induction s as [|c s IH]; [reflexivity|].
  now rewrite append_cons, IH.
Qed.

Lemma append_assoc (s1 s2 s3 : string) :
  (s1 +:+ s2) +:+ s3 = s1 +:+ (s2 +:+ s3).
Proof.
  induction s1 as [|c s1 IH]; [reflexivity|].
  now rewrite !append_cons, IH.
Qed.

Lemma index_app_r {T : Type} (pre rest : list T) (i : Z) (k : nat) :
  i = Z.of_nat (length pre) + Z.of_nat k →
  index (pre ++ rest) (Z.to_nat i) = index rest k.
Proof.
  intros ->. unfold index.
  rewrite lookup_app_r by lia.
  replace (Z.to_nat (Z.of_nat (length pre) + Z.of_nat k) - length pre)%nat
    with k by lia.
  reflexivity.
Qed.

Lemma encode_loop_done (fuel : nat) (data : list Z) (size i : Z) ret :
  size <= i → encode_loop fuel data size i ret = Ok ret.
Proof.
  intros Hi. destruct fuel as [|fuel]; simpl; [reflexivity|].
  destruct (Z.ltb_spec i size); [lia | reflexivity].
Qed.

(** The loop over the index agrees with the walk over the remaining
    bytes, whenever the fuel covers them. *)
Lemma encode_loop_groups (fuel : nat) :
  ∀ (pre rest : list Z) (ret : string),
    (length rest <= fuel)%nat →
    encode_loop fuel (pre ++ rest) (Z.of_nat (length (pre ++ rest)))
      (Z.of_nat (length pre)) ret
    = Ok (ret +:+ encode_groups rest).
Proof.
  induction fuel as [|fuel IH]; intros pre rest ret Hfuel.
  - destruct rest; [|simpl in Hfuel; lia].
    cbn [encode_loop encode_groups]. now rewrite append_empty_r.
  - destruct rest as [|d0 rest1].
    { rewrite encode_loop_done by (rewrite app_nil_r; lia).
      cbn [encode_groups]. now rewrite append_empty_r. }
    cbn [encode_loop].
    set (size := Z.of_nat (length (pre ++ d0 :: rest1))).
    set (i := Z.of_nat (length pre)).
    assert (Hsize : size = i + Z.of_nat (length (d0 :: rest1))).
    { unfold size, i. rewrite length_app. lia. }
    destruct (Z.ltb_spec i size) as [_|Hge];
      [|simpl in Hsize; lia].
    unfold encode_group.
    rewrite (index_app_r pre (d0 :: rest1) i 0) by lia.
    cbn [index lookup list_lookup res_bind].
    destruct rest1 as [|d1 rest2].
    { (* one byte left *)
      simpl in Hsize.
      destruct (Z.ltb_spec (i + 1) size); [lia|].
      destruct (Z.ltb_spec (i + 2) size); [lia|].
      cbn [res_bind].
      replace (Z.min (size - i) 3) with 1 by lia.
      cbn [Z.eqb Pos.eqb res_bind].
      rewrite encode_loop_done by lia.
      reflexivity. }
    rewrite (index_app_r pre (d0 :: d1 :: rest2) (i + 1) 1) by lia.
    cbn [index lookup list_lookup res_bind].
    destruct rest2 as [|d2 rest3].
    { (* two bytes left *)
      simpl in Hsize.
      destruct (Z.ltb_spec (i + 1) size); [|lia].
      destruct (Z.ltb_spec (i + 2) size); [lia|].
      cbn [res_bind].
      replace (Z.min (size - i) 3) with 2 by lia.
      cbn [Z.eqb Pos.eqb res_bind].
      rewrite encode_loop_done by lia.
      reflexivity. }
    (* a full group *)
    rewrite (index_app_r pre (d0 :: d1 :: d2 :: rest3) (i + 2) 2) by lia.
    cbn [index lookup list_lookup res_bind].
    simpl in Hsize.
    destruct (Z.ltb_spec (i + 1) size); [|lia].
    destruct (Z.ltb_spec (i + 2) size); [|lia].
    cbn [res_bind].
    replace (Z.min (size - i) 3) with 3 by lia.
    cbn [Z.eqb Pos.eqb res_bind].
    specialize (IH (pre ++ [d0; d1; d2]) rest3).
    replace ((pre ++ [d0; d1; d2]) ++ rest3)
      with (pre ++ d0 :: d1 :: d2 :: rest3) in IH
      by (now rewrite <- app_assoc).
    fold size in IH.
    replace (Z.of_nat (length (pre ++ [d0; d1; d2]))) with (i + 3) in IH
      by (unfold i; rewrite length_app; simpl; lia).
    rewrite IH by (simpl in Hfuel; lia).
    rewrite append_assoc. reflexivity.
Qed.

Lemma encode_base64_groups (d : list Z) :
  encode_base64 d (Z.of_nat (length d)) = Ok (encode_groups d).
Proof.
  unfold encode_base64.
  pose proof (encode_loop_groups (length d) [] d "") as H.
  simpl in H. rewrite Nat2Z.id. apply H. lia.
Qed.


Lemma code1 (a : Z) :
  is_byte a → uint8 (Z.shiftr (Z.shiftl a 16) 16) = a.
Proof.
  intros Ha. pose proof (code_byte2 a 0 0) as H.
  rewrite (uint8_byte a Ha) in H.
  change (Z.shiftl (uint8 0) 8) with 0 in H.
  change (Z.shiftl (uint8 0) 0) with 0 in H.
  now rewrite !Z.lor_0_r in H.
Qed.

Lemma code2 (a b : Z) :
  is_byte a → is_byte b →
  let code := Z.lor (Z.shiftl a 16) (Z.shiftl b 8) in
  uint8 (Z.shiftr code 16) = a ∧ uint8 (Z.shiftr code 8) = b.
Proof.
  intros Ha Hb code.
  pose proof (code_byte2 a b 0) as H2. pose proof (code_byte1 a b 0) as H1.
  rewrite (uint8_byte a Ha), (uint8_byte b Hb) in H2, H1.
  change (Z.shiftl (uint8 0) 0) with 0 in H2, H1.
  rewrite Z.lor_0_r in H2, H1. now split.
Qed.

Lemma code3 (a b c : Z) :
  is_byte a → is_byte b → is_byte c →
  let code := Z.lor (Z.lor (Z.shiftl a 16) (Z.shiftl b 8)) (Z.shiftl c 0) in
  uint8 (Z.shiftr code 16) = a ∧ uint8 (Z.shiftr code 8) = b
  ∧ uint8 (Z.shiftr code 0) = c.
Proof.
  intros Ha Hb Hc code.
  pose proof (code_byte2 a b c) as H2. pose proof (code_byte1 a b c) as H1.
  pose proof (code_byte0 a b c) as H0.
  rewrite (uint8_byte a Ha), (uint8_byte b Hb), (uint8_byte c Hc)
    in H2, H1, H0.
  now repeat split.
Qed.

Lemma decode_loop_end (len i : Z) (buf : list Z) :
  decode_loop "" len i buf = buf.
Proof. cbn [decode_loop]. now destruct (i <? len). Qed.

Lemma decode_loop_step (c0 c1 c2 c3 : ascii) (data4 : string)
    (len i : Z) (buf : list Z) :
  i < len →
  is_nul c0 = false → is_nul c1 = false →
  is_nul c2 = false → is_nul c3 = false →
  decode_loop (String c0 (String c1 (String c2 (String c3 data4)))) len i buf
  = let values :=
      Z.lor (Z.lor (Z.lor
        (Z.shiftl (base64_index c0) 18)
        (Z.shiftl (base64_index c1) 12))
        (Z.shiftl (base64_index c2) 6))
        (Z.shiftl (base64_index c3) 0) in
    if is_pad c2 && is_pad c3 then
      decode_loop data4 len (i + 1) (buf ++ [uint8 (Z.shiftr values 16)])
    else if is_pad c3 then
      decode_loop data4 len (i + 2)
        (buf ++ [uint8 (Z.shiftr values 16); uint8 (Z.shiftr values 8)])
    else
      decode_loop data4 len (i + 3)
        (buf ++ [uint8 (Z.shiftr values 16); uint8 (Z.shiftr values 8);
                 uint8 (Z.shiftr values 0)]).
Proof.
  intros Hi H0 H1 H2 H3.
  cbn [decode_loop].
  destruct (Z.ltb_spec i len); [|lia].
  now rewrite H0, H1, H2, H3.
Qed.

Lemma base64_not_nul (x : Z) : is_nul (base64 (Z.land x 63)) = false.
Proof. apply (base64_index_base64 _ (sextet_range x)). Qed.

Lemma base64_not_pad (x : Z) : is_pad (base64 (Z.land x 63)) = false.
Proof. apply (base64_index_base64 _ (sextet_range x)). Qed.

Lemma base64_index_sextet (x : Z) :
  base64_index (base64 (Z.land x 63)) = Z.land x 63.
Proof. apply (base64_index_base64 _ (sextet_range x)). Qed.

(** Decoding what the encoder wrote for the remaining bytes appends
    exactly those bytes. *)
Lemma decode_loop_groups (n : nat) :
  ∀ (rest : list Z) (len i : Z) (buf : list Z),
    (length rest <= n)%nat →
    Forall is_byte rest →
    len - i = Z.of_nat (length rest) →
    decode_loop (encode_groups rest) len i buf = buf ++ rest.
Proof.
  induction n as [|n IH]; intros rest len i buf Hn Hbytes Hlen.
  - destruct rest; [|simpl in Hn; lia].
    cbn [encode_groups]. rewrite decode_loop_end. now rewrite app_nil_r.
  - destruct rest as [|a [|b [|c rest3]]].
    + cbn [encode_groups]. rewrite decode_loop_end. now rewrite app_nil_r.
    + apply Forall_cons in Hbytes as [Ha _].
      cbn [encode_groups]. simpl in Hlen.
      rewrite decode_loop_step
        by (lia || apply base64_not_nul || reflexivity).
      cbn zeta. change (is_pad "=") with true. cbn [andb].
      rewrite decode_loop_end, !base64_index_sextet.
      change (base64_index "=") with 0.
      pose proof (values_byte2 (Z.shiftl a 16) 0 0) as H2.
      change (Z.land 0 63) with 0 in H2. rewrite H2.
      now rewrite code1.
    + apply Forall_cons in Hbytes as [Ha Hbytes].
      apply Forall_cons in Hbytes as [Hb _].
      cbn [encode_groups]. simpl in Hlen.
      rewrite decode_loop_step
        by (lia || apply base64_not_nul || reflexivity).
      cbn zeta. change (is_pad "=") with true.
      rewrite base64_not_pad. cbn [andb].
      rewrite decode_loop_end, !base64_index_sextet.
      change (base64_index "=") with 0.
      set (code := Z.lor (Z.shiftl a 16) (Z.shiftl b 8)).
      pose proof (values_byte2 code (Z.shiftr code 6) 0) as H2.
      pose proof (values_byte1 code 0) as H1.
      change (Z.land 0 63) with 0 in H2, H1. rewrite H2, H1.
      destruct (code2 a b Ha Hb) as [E2 E1]. fold code in E2, E1.
      now rewrite E2, E1.
    + apply Forall_cons in Hbytes as [Ha Hbytes].
      apply Forall_cons in Hbytes as [Hb Hbytes].
      apply Forall_cons in Hbytes as [Hc Hbytes].
      cbn [encode_groups]. simpl in Hlen, Hn.
      rewrite decode_loop_step
        by (lia || apply base64_not_nul || reflexivity).
      cbn zeta. rewrite !base64_not_pad. cbn [andb].
      rewrite !base64_index_sextet.
      set (code := Z.lor (Z.lor (Z.shiftl a 16) (Z.shiftl b 8))
                     (Z.shiftl c 0)).
      rewrite (values_byte2 code (Z.shiftr code 6) (Z.shiftr code 0)).
      rewrite (values_byte1 code (Z.shiftr code 0)).
      rewrite (values_byte0 code).
      destruct (code3 a b c Ha Hb Hc) as (E2 & E1 & E0).
      fold code in E2, E1, E0. rewrite E2, E1, E0.
      rewrite IH by (assumption || lia).
      now rewrite <- app_assoc.
Qed.

End Base64Facts.

(** C9.  Base64 round trip: for every byte array [d], [encode_base64]
    on [d] and its size returns a string, and [decode_base64] of that
    string, asked for as many bytes as [d] has, writes exactly the bytes
    of [d]; lengths that are not a multiple of three (one or two ['=']
    of padding) are covered. *)
Theorem C9_base64_round_trip (d : list Z) :
  Forall Base64.is_byte d →
  ∃ s : string,
    Base64.encode_base64 d (Z.of_nat (length d)) = Ok s
    ∧ Base64.decode_base64 s (Z.of_nat (length d)) = d.
Proof.
  intros Hd. exists (Base64.encode_groups d). split.
  - apply encode_base64_groups.
  - unfold Base64.decode_base64.
    rewrite (decode_loop_groups (length d)) by (auto; lia).
    reflexivity.
Qed.

Lemma C9_base64_round_trip_witness :
  ∃ s : string,
    Base64.encode_base64 [77; 97; 0; 255] 4 = Ok s
    ∧ Base64.decode_base64 s 4 = [77; 97; 0; 255].
Proof.
  apply (C9_base64_round_trip [77; 97; 0; 255]).
  repeat constructor; unfold Base64.is_byte; lia.
Defined.

(** ** The hasher and its feed sequences *)

Section FeedFacts.

Lemma mix_all_app (s : Hasher.t) (l1 l2 : list Z) :
  Hasher.mix_all s (l1 ++ l2) = Hasher.mix_all (Hasher.mix_all s l1) l2.
Proof. apply fold_left_app. Qed.

Lemma fed_mix_all (s : Hasher.t) (l : list Z) :
  Hasher.fed (Hasher.mix_all s l) = Hasher.fed s ++ l.
Proof.
  revert s. induction l as [|v l IH]; intros s; simpl.
  - now rewrite app_nil_r.
  - rewrite IH. simpl. now rewrite <- app_assoc.
Qed.

Lemma feeds_eq {A} (m : HashM A) (l l' : list Z) (a : A) :
  feeds m l a → l = l' → feeds m l' a.
Proof. now intros H <-. Qed.

Lemma feeds_ret {A} (a : A) : feeds (hash_ret a) [] a.
Proof. intros s. reflexivity. Qed.

Lemma feeds_bind {A B} (m : HashM A) (f : A → HashM B) l1 l2 a b :
  feeds m l1 a → feeds (f a) l2 b → feeds (hash_bind m f) (l1 ++ l2) b.
Proof.
  intros Hm Hf s. unfold hash_bind. rewrite Hm, Hf.
  now rewrite mix_all_app.
Qed.

Lemma feeds_u32 (v : Z) : feeds (H.u32 v) [v] tt.
Proof. intros s. reflexivity. Qed.

Lemma feeds_f32 (v : Z) : feeds (H.f32 v) [v] tt.
Proof. intros s. reflexivity. Qed.

Lemma feeds_s32 (v : Z) : feeds (H.s32 v) [uint32 v] tt.
Proof. intros s. reflexivity. Qed.

Lemma feeds_u64 (v : Z) :
  feeds (H.u64 v)
    [Z.land (uint64 v) 0xffffffff; Z.shiftr (uint64 v) 32] tt.
Proof. intros s. reflexivity. Qed.

Lemma feeds_if {A} (c : bool) (m1 m2 : HashM A) l1 l2 a1 a2 :
  feeds m1 l1 a1 → feeds m2 l2 a2 →
  feeds (if c then m1 else m2) (if c then l1 else l2)
    (if c then a1 else a2).
Proof. now destruct c. Qed.

Lemma feeds_if_unit (c : bool) (m1 m2 : HashM unit) l1 l2 :
  feeds m1 l1 tt → feeds m2 l2 tt →
  feeds (if c then m1 else m2) (if c then l1 else l2) tt.
Proof. now destruct c. Qed.

Lemma feeds_index {T} (arr : list T) (i : nat) (x : T) :
  arr !! i = Some x → feeds (hash_lift (index arr i)) [] x.
Proof. intros Hx s. unfold hash_lift, index. now rewrite Hx. Qed.

(** A loop over the first [n] elements of an array feeds what its body
    feeds for each of them, in order, and threads the locals. *)
Lemma feeds_for_acc_fold {T B} (f : T → B → HashM B) (g : T → list Z)
    (u : T → B → B) (arr : list T) :
  (∀ x b, feeds (f x b) (g x) (u x b)) →
  ∀ (n i : nat) (b : B),
    (i + n <= length arr)%nat →
    feeds
      (for_acc n i
         (λ i b, hash_bind (hash_lift (index arr i)) (λ x, f x b)) b)
      (flat_map g (take n (drop i arr)))
      (fold_left (λ b x, u x b) (take n (drop i arr)) b).
Proof.
  intros Hf n. induction n as [|n IH]; intros i b Hlen.
  - rewrite take_0. apply feeds_ret.
  - destruct (lookup_lt_is_Some_2 arr i) as [x Hx]; [lia|].
    rewrite (drop_S _ _ _ Hx). cbn [take flat_map for_acc fold_left].
    eapply feeds_bind.
    + eapply feeds_eq.
      * eapply feeds_bind; [apply (feeds_index _ _ _ Hx) | apply Hf].
      * reflexivity.
    + apply IH. lia.
Qed.

Lemma feeds_for_acc_array {T} (f : T → HashM unit) (g : T → list Z)
    (arr : list T) :
  (∀ x, feeds (f x) (g x) tt) →
  ∀ (n i : nat),
    (i + n <= length arr)%nat →
    feeds
      (for_acc n i (λ i _, hash_bind (hash_lift (index arr i)) f) tt)
      (flat_map g (take n (drop i arr))) tt.
Proof.
  intros Hf n i Hlen.
  pose proof (feeds_for_acc_fold (λ x _, f x) g (λ _ _, tt) arr
                (λ x _, Hf x) n i tt Hlen) as H.
  destruct (fold_left _ _ tt). exact H.
Qed.

Lemma feeds_for_range_array {T} (f : T → HashM unit) (g : T → list Z)
    (arr : list T) (count : Z) :
  (∀ x, feeds (f x) (g x) tt) →
  (Z.to_nat count <= length arr)%nat →
  feeds (for_range count (λ i, hash_bind (hash_lift (index arr i)) f))
    (flat_map g (take (Z.to_nat count) arr)) tt.
Proof.
  intros Hf Hlen. unfold for_range.
  apply (feeds_for_acc_array f g arr Hf (Z.to_nat count) 0). lia.
Qed.

Lemma feeds_feed_log {A} (m : HashM A) (l : list Z) (a : A) :
  feeds m l a → feed_log m = Ok l.
Proof.
  intros Hm. unfold feed_log. rewrite Hm.
  now rewrite fed_mix_all.
Qed.

Lemma flat_map_singleton (l : list Z) : flat_map (λ x, [x]) l = l.
Proof. induction l as [|x l IH]; simpl; [reflexivity | now rewrite IH]. Qed.

Lemma feeds_attachment_reference (ref : VkAttachmentReference.t) :
  feeds (Hashing.hash_attachment_reference ref)
    [ref.(VkAttachmentReference.attachment);
     ref.(VkAttachmentReference.layout)] tt.
Proof.
  unfold Hashing.hash_attachment_reference.
  eapply feeds_eq; [eapply feeds_bind; apply feeds_u32 | reflexivity].
Qed.

End FeedFacts.

(** Splits a sequence of feeds into its steps. *)
Ltac feeds_step :=
  lazymatch goal with
  | |- feeds (H.u32 _) _ _ => apply feeds_u32
  | |- feeds (H.f32 _) _ _ => apply feeds_f32
  | |- feeds (H.s32 _) _ _ => apply feeds_s32
  | |- feeds (H.u64 _) _ _ => apply feeds_u64
  | |- feeds (hash_ret _) _ _ => apply feeds_ret
  | |- feeds (Hashing.hash_attachment_reference _) _ _ =>
      apply feeds_attachment_reference
  | |- feeds (hash_bind _ _) _ _ => eapply feeds_bind
  | |- feeds (if _ then _ else _) _ _ =>
      first [eapply feeds_if_unit | eapply feeds_if]
  end.
Ltac feeds_steps := repeat feeds_step.

Section GraphicsFeedFacts.
Import Hashing.

Lemma truthy_0 : truthy 0 = false.
Proof. reflexivity. Qed.

Lemma feeds_dynamic_state (st : VkPipelineDynamicStateCreateInfo.t) :
  let n := Z.to_nat st.(VkPipelineDynamicStateCreateInfo.dynamicStateCount) in
  let states := st.(VkPipelineDynamicStateCreateInfo.pDynamicStates) in
  (n <= length states)%nat →
  feeds (hash_dynamic_state (Some st))
    (st.(VkPipelineDynamicStateCreateInfo.dynamicStateCount)
     :: st.(VkPipelineDynamicStateCreateInfo.flags) :: take n states)
    (fold_left (λ d v, switch_dynamic_state v d) (take n states) no_dynamic).
Proof.
  intros n states Hlen. unfold hash_dynamic_state.
  eapply feeds_eq.
  - do 2 (eapply feeds_bind; [apply feeds_u32|]).
    apply (feeds_for_acc_fold
             (λ v d, hash_bind (H.u32 v)
                       (λ _, hash_ret (switch_dynamic_state v d)))
             (λ v, [v]) switch_dynamic_state).
    + intros v d. eapply feeds_eq;
        [eapply feeds_bind; [apply feeds_u32 | apply feeds_ret]
        | reflexivity].
    + fold n states. lia.
  - rewrite drop_0. fold n states. rewrite flat_map_singleton. reflexivity.
Qed.

Lemma feeds_depth_stencil_state (d : DynamicFlags)
    (ds : VkPipelineDepthStencilStateCreateInfo.t) :
  feeds (hash_depth_stencil_state d (Some ds)) (depth_stencil_words d ds) tt.
Proof.
  unfold hash_depth_stencil_state, depth_stencil_words, truthy.
  destruct (dynamic_depth_bounds d), (dynamic_stencil_compare d),
    (dynamic_stencil_reference d), (dynamic_stencil_write_mask d),
    (VkPipelineDepthStencilStateCreateInfo.depthBoundsTestEnable ds =? 0),
    (VkPipelineDepthStencilStateCreateInfo.stencilTestEnable ds =? 0);
    cbn [negb andb];
    (eapply feeds_eq; [feeds_steps | reflexivity]).
Qed.


Lemma feeds_blend_constants (c : Z * Z * Z * Z) :
  ∃ words, feeds (hash_blend_constants c) words tt.
Proof.
  destruct c as [[[c0 c1] c2] c3]. eexists. unfold hash_blend_constants.
  feeds_steps.
Qed.

Lemma substate_feed_depth_stencil d p :
  substate_feed (hash_depth_stencil_state d)
    VkPipelineDepthStencilStateCreateInfo.flags p.
Proof.
  destruct p as [ds|]; cbn [substate_feed].
  - eexists _, tt. split; cycle 1.
    + eapply feeds_eq; [apply feeds_depth_stencil_state | reflexivity].
    + discriminate.
  - exists tt. apply feeds_u32.
Qed.

Lemma substate_feed_input_assembly p :
  substate_feed hash_input_assembly_state
    VkPipelineInputAssemblyStateCreateInfo.flags p.
Proof.
  destruct p as [ia|]; cbn [substate_feed hash_input_assembly_state].
  - eexists _, tt. split; cycle 1.
    + eapply feeds_eq; [feeds_steps | reflexivity].
    + discriminate.
  - exists tt. apply feeds_u32.
Qed.

Lemma substate_feed_rasterization d p :
  substate_feed (hash_rasterization_state d)
    VkPipelineRasterizationStateCreateInfo.flags p.
Proof.
  destruct p as [rs|]; cbn [substate_feed hash_rasterization_state].
  - eexists _, tt. split; cycle 1.
    + eapply feeds_eq.
      * do 7 (eapply feeds_bind; [apply feeds_u32|]).
        feeds_steps.
      * reflexivity.
    + discriminate.
  - exists tt. apply feeds_u32.
Qed.

Lemma substate_feed_tessellation p :
  substate_feed hash_tessellation_state
    VkPipelineTessellationStateCreateInfo.flags p.
Proof.
  destruct p as [tess|]; cbn [substate_feed hash_tessellation_state].
  - eexists _, tt. split; cycle 1.
    + eapply feeds_eq; [feeds_steps | reflexivity].
    + discriminate.
  - exists tt. apply feeds_u32.
Qed.

Lemma feeds_multisample_present
    (ms : VkPipelineMultisampleStateCreateInfo.t) :
  match ms.(VkPipelineMultisampleStateCreateInfo.pSampleMask) with
  | Some mask =>
      (Z.to_nat
         (uint32
            (ms.(VkPipelineMultisampleStateCreateInfo.rasterizationSamples)
             + 31) / 32)
       <= length mask)%nat
  | None => True
  end →
  ∃ rest a, rest ≠ []
    ∧ feeds (hash_multisample_state (Some ms))
        (ms.(VkPipelineMultisampleStateCreateInfo.flags) :: rest) a.
Proof.
  intros Hmask. cbn [hash_multisample_state].
  destruct (VkPipelineMultisampleStateCreateInfo.pSampleMask ms) as [mask|].
  - eexists _, tt. split; cycle 1.
    + eapply feeds_eq.
      * do 6 (eapply feeds_bind; [apply feeds_u32|]).
        apply (feeds_for_range_array H.u32 (λ x, [x]));
          [apply feeds_u32 | exact Hmask].
      * reflexivity.
    + discriminate.
  - eexists _, tt. split; cycle 1.
    + eapply feeds_eq; [feeds_steps | reflexivity].
    + discriminate.
Qed.

Lemma feeds_scissor (sc : VkRect2D.t) :
  feeds
    (H.s32 sc.(VkRect2D.offset).(VkOffset2D.x) ;;
     H.s32 sc.(VkRect2D.offset).(VkOffset2D.y) ;;
     H.u32 sc.(VkRect2D.extent).(VkExtent2D.width) ;;
     H.u32 sc.(VkRect2D.extent).(VkExtent2D.height))%hash
    [ uint32 sc.(VkRect2D.offset).(VkOffset2D.x);
      uint32 sc.(VkRect2D.offset).(VkOffset2D.y);
      sc.(VkRect2D.extent).(VkExtent2D.width);
      sc.(VkRect2D.extent).(VkExtent2D.height) ] tt.
Proof. eapply feeds_eq; [feeds_steps | reflexivity]. Qed.

Lemma feeds_viewport (v : VkViewport.t) :
  feeds
    (H.f32 v.(VkViewport.x) ;; H.f32 v.(VkViewport.y) ;;
     H.f32 v.(VkViewport.width) ;; H.f32 v.(VkViewport.height) ;;
     H.f32 v.(VkViewport.minDepth) ;; H.f32 v.(VkViewport.maxDepth))%hash
    [ v.(VkViewport.x); v.(VkViewport.y); v.(VkViewport.width);
      v.(VkViewport.height); v.(VkViewport.minDepth);
      v.(VkViewport.maxDepth) ] tt.
Proof. eapply feeds_eq; [feeds_steps | reflexivity]. Qed.

Lemma substate_feed_viewport d p :
  match p with
  | Some vp =>
      (dynamic_scissor d = false →
       (Z.to_nat vp.(VkPipelineViewportStateCreateInfo.scissorCount)
        <= length vp.(VkPipelineViewportStateCreateInfo.pScissors))%nat)
      ∧ (dynamic_viewport d = false →
         (Z.to_nat vp.(VkPipelineViewportStateCreateInfo.viewportCount)
          <= length vp.(VkPipelineViewportStateCreateInfo.pViewports))%nat)
  | None => True
  end →
  substate_feed (hash_viewport_state d)
    VkPipelineViewportStateCreateInfo.flags p.
Proof.
  destruct p as [vp|]; cbn [substate_feed hash_viewport_state].
  - intros [Hsc Hvp].
    destruct (dynamic_scissor d), (dynamic_viewport d); cbn [negb].
    all: eexists _, tt; split; cycle 1;
      [ eapply feeds_eq;
        [ do 3 (eapply feeds_bind; [apply feeds_u32|]);
          eapply feeds_bind;
          [ first [ apply feeds_ret
                  | apply (feeds_for_range_array _ _ _ _ feeds_scissor);
                    auto ]
          | first [ apply feeds_ret
                  | apply (feeds_for_range_array _ _ _ _ feeds_viewport);
                    auto ] ]
        | reflexivity ]
      | discriminate ].
  - intros _. exists tt. apply feeds_u32.
Qed.

Lemma feeds_vertex_attribute (a : VkVertexInputAttributeDescription.t) :
  feeds
    (H.u32 a.(VkVertexInputAttributeDescription.offset) ;;
     H.u32 a.(VkVertexInputAttributeDescription.binding) ;;
     H.u32 a.(VkVertexInputAttributeDescription.format) ;;
     H.u32 a.(VkVertexInputAttributeDescription.location))%hash
    [ a.(VkVertexInputAttributeDescription.offset);
      a.(VkVertexInputAttributeDescription.binding);
      a.(VkVertexInputAttributeDescription.format);
      a.(VkVertexInputAttributeDescription.location) ] tt.
Proof. eapply feeds_eq; [feeds_steps | reflexivity]. Qed.

Lemma feeds_vertex_binding (b : VkVertexInputBindingDescription.t) :
  feeds
    (H.u32 b.(VkVertexInputBindingDescription.binding) ;;
     H.u32 b.(VkVertexInputBindingDescription.inputRate) ;;
     H.u32 b.(VkVertexInputBindingDescription.stride))%hash
    [ b.(VkVertexInputBindingDescription.binding);
      b.(VkVertexInputBindingDescription.inputRate);
      b.(VkVertexInputBindingDescription.stride) ] tt.
Proof. eapply feeds_eq; [feeds_steps | reflexivity]. Qed.

Lemma substate_feed_vertex_input p :
  match p with
  | Some vi =>
      (Z.to_nat
         vi.(VkPipelineVertexInputStateCreateInfo.vertexAttributeDescriptionCount)
       <= length
            vi.(VkPipelineVertexInputStateCreateInfo.pVertexAttributeDescriptions))%nat
      ∧ (Z.to_nat
           vi.(VkPipelineVertexInputStateCreateInfo.vertexBindingDescriptionCount)
         <= length
              vi.(VkPipelineVertexInputStateCreateInfo.pVertexBindingDescriptions))%nat
  | None => True
  end →
  substate_feed hash_vertex_input_state
    VkPipelineVertexInputStateCreateInfo.flags p.
Proof.
  destruct p as [vi|]; cbn [substate_feed hash_vertex_input_state].
  - intros [Ha Hb]. eexists _, tt. split; cycle 1.
    + eapply feeds_eq.
      * do 3 (eapply feeds_bind; [apply feeds_u32|]).
        eapply feeds_bind.
        { apply (feeds_for_range_array _ _ _ _ feeds_vertex_attribute Ha). }
        apply (feeds_for_range_array _ _ _ _ feeds_vertex_binding Hb).
      * reflexivity.
    + discriminate.
  - intros _. exists tt. apply feeds_u32.
Qed.

Lemma feeds_blend_attachment_words
    (a : VkPipelineColorBlendAttachmentState.t) (need : bool) :
  feeds (hash_blend_attachment a need) (blend_attachment_words a)
    (blend_attachment_need a need).
Proof.
  unfold hash_blend_attachment, blend_attachment_words,
    blend_attachment_need, truthy.
  destruct (VkPipelineColorBlendAttachmentState.blendEnable a =? 0);
    cbn [negb]; (eapply feeds_eq; [feeds_steps | reflexivity]).
Qed.

Lemma substate_feed_color_blend d p :
  match p with
  | Some b =>
      (Z.to_nat b.(VkPipelineColorBlendStateCreateInfo.attachmentCount)
       <= length b.(VkPipelineColorBlendStateCreateInfo.pAttachments))%nat
  | None => True
  end →
  substate_feed (hash_color_blend_state d)
    VkPipelineColorBlendStateCreateInfo.flags p.
Proof.
  destruct p as [b|]; cbn [substate_feed hash_color_blend_state].
  - intros Hatt.
    destruct (feeds_blend_constants
                b.(VkPipelineColorBlendStateCreateInfo.blendConstants))
      as [cw Hcw].
    eexists _, _. split; cycle 1.
    + eapply feeds_eq.
      * do 4 (eapply feeds_bind; [apply feeds_u32|]).
        eapply feeds_bind.
        { apply (feeds_for_acc_fold hash_blend_attachment
                   blend_attachment_words blend_attachment_need);
            [apply feeds_blend_attachment_words | simpl; lia]. }
        eapply feeds_if_unit; [exact Hcw | apply feeds_ret].
      * reflexivity.
    + discriminate.
  - intros _. exists tt. apply feeds_u32.
Qed.

End GraphicsFeedFacts.

(** C3 does not hold as stated: a present dynamic state feeds its
    [dynamicStateCount] first, not its [flags], and a null multisample
    state feeds nothing at all instead of a single zero. *)
Lemma C3_counterexample :
  ¬ substate_feed Hashing.hash_dynamic_state
      VkPipelineDynamicStateCreateInfo.flags (Some sample_dynamic_state)
  ∧ ¬ substate_feed Hashing.hash_multisample_state
        VkPipelineMultisampleStateCreateInfo.flags None.
Proof.
  split.
  - intros (rest & a & _ & Hfeeds).
    specialize (Hfeeds Hasher.init).
    apply (f_equal (res_map (λ p, Hasher.fed (snd p)))) in Hfeeds.
    cbn [res_map res_bind snd] in Hfeeds.
    rewrite fed_mix_all in Hfeeds.
    vm_compute in Hfeeds. discriminate Hfeeds.
  - intros (a & Hfeeds).
    specialize (Hfeeds Hasher.init).
    apply (f_equal (res_map (λ p, Hasher.fed (snd p)))) in Hfeeds.
    vm_compute in Hfeeds. discriminate Hfeeds.
Qed.

(** C3, amended.  In [compute_hash_graphics_pipeline], each of the
    sub-states dynamic, depth-stencil, input-assembly, rasterization,
    viewport, vertex-input, color-blend and tessellation feeds exactly
    one zero word when its pointer is null.  A present sub-state feeds
    its [flags] first and at least one word more, except the dynamic
    state, which feeds [dynamicStateCount], then [flags], then the
    states.  So the feed of a present sub-state always differs from that
    of an absent one.  (What a null multisample state feeds is left
    open.) *)
Theorem C3_substate_feeds (d : Hashing.DynamicFlags)
    (ci : VkGraphicsPipelineCreateInfo.t) :
  substate_arrays_ok d ci →
  match ci.(VkGraphicsPipelineCreateInfo.pDynamicState) with
  | None => feeds (Hashing.hash_dynamic_state None) [0] Hashing.no_dynamic
  | Some st =>
      ∃ rest a,
        feeds (Hashing.hash_dynamic_state (Some st))
          (st.(VkPipelineDynamicStateCreateInfo.dynamicStateCount)
           :: st.(VkPipelineDynamicStateCreateInfo.flags) :: rest) a
  end
  ∧ substate_feed (Hashing.hash_depth_stencil_state d)
      VkPipelineDepthStencilStateCreateInfo.flags
      ci.(VkGraphicsPipelineCreateInfo.pDepthStencilState)
  ∧ substate_feed Hashing.hash_input_assembly_state
      VkPipelineInputAssemblyStateCreateInfo.flags
      ci.(VkGraphicsPipelineCreateInfo.pInputAssemblyState)
  ∧ substate_feed (Hashing.hash_rasterization_state d)
      VkPipelineRasterizationStateCreateInfo.flags
      ci.(VkGraphicsPipelineCreateInfo.pRasterizationState)
  ∧ (∀ ms, ci.(VkGraphicsPipelineCreateInfo.pMultisampleState) = Some ms →
       ∃ rest a, rest ≠ []
         ∧ feeds (Hashing.hash_multisample_state (Some ms))
             (ms.(VkPipelineMultisampleStateCreateInfo.flags) :: rest) a)
  ∧ substate_feed (Hashing.hash_viewport_state d)
      VkPipelineViewportStateCreateInfo.flags
      ci.(VkGraphicsPipelineCreateInfo.pViewportState)
  ∧ substate_feed Hashing.hash_vertex_input_state
      VkPipelineVertexInputStateCreateInfo.flags
      ci.(VkGraphicsPipelineCreateInfo.pVertexInputState)
  ∧ substate_feed (Hashing.hash_color_blend_state d)
      VkPipelineColorBlendStateCreateInfo.flags
      ci.(VkGraphicsPipelineCreateInfo.pColorBlendState)
  ∧ substate_feed Hashing.hash_tessellation_state
      VkPipelineTessellationStateCreateInfo.flags
      ci.(VkGraphicsPipelineCreateInfo.pTessellationState).
Proof.
  intros (Hdyn & Hms & Hvp & Hvi & Hcb).
  split; [|split; [|split; [|split; [|split; [|split; [|split; [|split]]]]]]].
  - destruct (VkGraphicsPipelineCreateInfo.pDynamicState ci) as [st|].
    + eexists _, _. apply feeds_dynamic_state. exact Hdyn.
    + eapply feeds_eq; [unfold Hashing.hash_dynamic_state; feeds_steps
                       | reflexivity].
  - apply substate_feed_depth_stencil.
  - apply substate_feed_input_assembly.
  - apply substate_feed_rasterization.
  - intros ms Hms'. rewrite Hms' in Hms.
    apply feeds_multisample_present. exact Hms.
  - apply substate_feed_viewport. exact Hvp.
  - apply substate_feed_vertex_input. exact Hvi.
  - apply substate_feed_color_blend. exact Hcb.
  - apply substate_feed_tessellation.
Qed.

Lemma C3_substate_feeds_witness :
  (∃ rest a,
     feeds (Hashing.hash_dynamic_state (Some sample_dynamic_state))
       (1 :: 7 :: rest) a)
  ∧ substate_feed (Hashing.hash_depth_stencil_state Hashing.no_dynamic)
      VkPipelineDepthStencilStateCreateInfo.flags
      (Some sample_depth_stencil_state)
  ∧ substate_feed Hashing.hash_tessellation_state
      VkPipelineTessellationStateCreateInfo.flags None.
Proof.
  assert (Hok : substate_arrays_ok Hashing.no_dynamic sample_graphics_pipeline).
  { unfold substate_arrays_ok. simpl. repeat split; intros; lia. }
  pose proof (C3_substate_feeds Hashing.no_dynamic sample_graphics_pipeline Hok)
    as (Hdyn & Hds & _ & _ & _ & _ & _ & _ & Htess).
  exact (conj Hdyn (conj Hds Htess)).
Defined.

Section HashInvariance.
Import Hashing.

Lemma hash_bind_ext {A B} (m : HashM A) (f g : A → HashM B) (s : Hasher.t) :
  (∀ a s', m s = Ok (a, s') → f a s' = g a s') →
  hash_bind m f s = hash_bind m g s.
Proof.
  intros Hfg. unfold hash_bind.
  destruct (m s) as [[a s']| | |]; [now apply Hfg | reflexivity..].
Qed.

Lemma hash_bind_cong {A B} (m m' : HashM A) (f : A → HashM B)
    (s : Hasher.t) :
  m s = m' s → hash_bind m f s = hash_bind m' f s.
Proof. intros Hm. unfold hash_bind. now rewrite Hm. Qed.

(** The locals a loop over an array ends with, when it ends. *)
Lemma for_acc_result {T B} (f : T → B → HashM B) (u : T → B → B)
    (arr : list T) :
  (∀ x b s r s', f x b s = Ok (r, s') → r = u x b) →
  ∀ (n i : nat) (b : B) s b' s',
    for_acc n i
      (λ i b, hash_bind (hash_lift (index arr i)) (λ x, f x b)) b s
    = Ok (b', s') →
    b' = fold_left (λ b x, u x b) (take n (drop i arr)) b.
Proof.
  intros Hf n. induction n as [|n IH]; intros i b s b' s' Hrun.
  - rewrite take_0. cbn [for_acc] in Hrun. unfold hash_ret in Hrun.
    cbn [fold_left]. congruence.
  - cbn [for_acc] in Hrun. unfold hash_bind at 1 in Hrun.
    destruct (hash_bind _ _ s) as [[b1 s1]| | |] eqn:Hbody;
      [|discriminate..].
    unfold hash_bind, hash_lift, index in Hbody.
    destruct (arr !! i) as [x|] eqn:Hx; [|discriminate].
    apply Hf in Hbody. subst b1.
    rewrite (drop_S _ _ _ Hx). cbn [take fold_left].
    apply (IH _ _ _ _ _ Hrun).
Qed.

Lemma switch_keeps_depth_bounds (l : list Z) (d : DynamicFlags) :
  dynamic_depth_bounds d = true →
  dynamic_depth_bounds (fold_left (λ d v, switch_dynamic_state v d) l d)
  = true.
Proof.
  revert d. induction l as [|v l IH]; intros d Hd; [exact Hd|].
  cbn [fold_left]. apply IH. cbn. rewrite Hd. apply orb_true_r.
Qed.

Lemma switch_sets_depth_bounds (l : list Z) (d : DynamicFlags) :
  In VK_DYNAMIC_STATE_DEPTH_BOUNDS l →
  dynamic_depth_bounds (fold_left (λ d v, switch_dynamic_state v d) l d)
  = true.
Proof.
  revert d. induction l as [|v l IH]; intros d Hin; [destruct Hin|].
  cbn [fold_left]. destruct Hin as [->|Hin].
  - apply switch_keeps_depth_bounds. reflexivity.
  - now apply IH.
Qed.

Lemma dynamic_state_depth_bounds (ci : VkGraphicsPipelineCreateInfo.t)
    (s s' : Hasher.t) (d : DynamicFlags) :
  depth_bounds_dynamic ci →
  hash_dynamic_state ci.(VkGraphicsPipelineCreateInfo.pDynamicState) s
  = Ok (d, s') →
  dynamic_depth_bounds d = true.
Proof.
  unfold depth_bounds_dynamic, hash_dynamic_state.
  destruct (VkGraphicsPipelineCreateInfo.pDynamicState ci) as [st|];
    [|intros []].
  intros Hin Hrun.
  unfold hash_bind at 1 2 in Hrun. cbn [H.u32] in Hrun.
  apply (for_acc_result
           (λ v d, hash_bind (H.u32 v)
                     (λ _, hash_ret (switch_dynamic_state v d)))
           switch_dynamic_state) in Hrun.
  - subst d. rewrite drop_0. now apply switch_sets_depth_bounds.
  - intros x b s0 r s0' Hx. unfold hash_bind, H.u32, hash_ret in Hx.
    congruence.
Qed.

(** The depth-stencil block does not read the depth bounds when they
    are dynamic or when the depth-bounds test is off. *)
Lemma depth_stencil_ignores_bounds (d : DynamicFlags)
    (ds : VkPipelineDepthStencilStateCreateInfo.t) (mn mx : Z) :
  dynamic_depth_bounds d = true
  ∨ ds.(VkPipelineDepthStencilStateCreateInfo.depthBoundsTestEnable) = 0 →
  hash_depth_stencil_state d
    (Some (VkPipelineDepthStencilStateCreateInfo.with_depth_bounds ds mn mx))
  = hash_depth_stencil_state d (Some ds).
Proof.
  intros Hskip. unfold hash_depth_stencil_state.
  cbn [VkPipelineDepthStencilStateCreateInfo.with_depth_bounds
       VkPipelineDepthStencilStateCreateInfo.flags
       VkPipelineDepthStencilStateCreateInfo.depthTestEnable
       VkPipelineDepthStencilStateCreateInfo.depthWriteEnable
       VkPipelineDepthStencilStateCreateInfo.depthCompareOp
       VkPipelineDepthStencilStateCreateInfo.depthBoundsTestEnable
       VkPipelineDepthStencilStateCreateInfo.stencilTestEnable
       VkPipelineDepthStencilStateCreateInfo.front
       VkPipelineDepthStencilStateCreateInfo.back
       VkPipelineDepthStencilStateCreateInfo.minDepthBounds
       VkPipelineDepthStencilStateCreateInfo.maxDepthBounds].
  assert (Hcond :
    negb (dynamic_depth_bounds d)
    && truthy
         (VkPipelineDepthStencilStateCreateInfo.depthBoundsTestEnable ds)
    = false).
  { destruct Hskip as [-> | ->]; [reflexivity|].
    rewrite truthy_0. apply andb_false_r. }
  rewrite Hcond. reflexivity.
Qed.

End HashInvariance.

(** Peels the common first step of two runs of the hasher. *)
Ltac peel_bind := apply hash_bind_ext; intros ? ? ?.

(** C4.  Two graphics-pipeline descriptors that differ only in
    [minDepthBounds] and [maxDepthBounds] of the depth-stencil state have
    the same hash (or fail alike on an unregistered handle) when
    [VK_DYNAMIC_STATE_DEPTH_BOUNDS] is among their dynamic states; when
    it is not, the two bounds are fed exactly when [depthBoundsTestEnable]
    is set, right after [stencilTestEnable], so they do not influence the
    hash of a pipeline whose depth-bounds test is off either. *)
Theorem C4_depth_bounds_invariance (recorder : StateRecorder.t)
    (ci : VkGraphicsPipelineCreateInfo.t)
    (ds : VkPipelineDepthStencilStateCreateInfo.t) (mn mx : Z) :
  ci.(VkGraphicsPipelineCreateInfo.pDepthStencilState) = Some ds →
  (depth_bounds_dynamic ci
   ∨ ds.(VkPipelineDepthStencilStateCreateInfo.depthBoundsTestEnable) = 0 →
   Hashing.compute_hash_graphics_pipeline recorder
     (VkGraphicsPipelineCreateInfo.with_pDepthStencilState ci
        (Some (VkPipelineDepthStencilStateCreateInfo.with_depth_bounds
                 ds mn mx)))
   = Hashing.compute_hash_graphics_pipeline recorder ci)
  ∧ (∀ d, feeds (Hashing.hash_depth_stencil_state d (Some ds))
            (depth_stencil_words d ds) tt).
Proof.
  intros Hds. split; [|intros d; apply feeds_depth_stencil_state].
  intros Hskip.
  unfold Hashing.compute_hash_graphics_pipeline, hashed.
  enough (Hrun : ∀ s,
    Hashing.feed_graphics_pipeline recorder
      (VkGraphicsPipelineCreateInfo.with_pDepthStencilState ci
         (Some (VkPipelineDepthStencilStateCreateInfo.with_depth_bounds
                  ds mn mx))) s
    = Hashing.feed_graphics_pipeline recorder ci s) by now rewrite Hrun.
  intros s. unfold Hashing.feed_graphics_pipeline.
  cbn [VkGraphicsPipelineCreateInfo.with_pDepthStencilState
       VkGraphicsPipelineCreateInfo.flags
       VkGraphicsPipelineCreateInfo.stageCount
       VkGraphicsPipelineCreateInfo.pStages
       VkGraphicsPipelineCreateInfo.pVertexInputState
       VkGraphicsPipelineCreateInfo.pInputAssemblyState
       VkGraphicsPipelineCreateInfo.pTessellationState
       VkGraphicsPipelineCreateInfo.pViewportState
       VkGraphicsPipelineCreateInfo.pRasterizationState
       VkGraphicsPipelineCreateInfo.pMultisampleState
       VkGraphicsPipelineCreateInfo.pDepthStencilState
       VkGraphicsPipelineCreateInfo.pColorBlendState
       VkGraphicsPipelineCreateInfo.pDynamicState
       VkGraphicsPipelineCreateInfo.layout
       VkGraphicsPipelineCreateInfo.renderPass
       VkGraphicsPipelineCreateInfo.subpass
       VkGraphicsPipelineCreateInfo.basePipelineHandle
       VkGraphicsPipelineCreateInfo.basePipelineIndex].
  rewrite Hds.
  do 9 peel_bind.
  match goal with
  | Hdyn : Hashing.hash_dynamic_state _ _ = Ok (?d, _) |- _ =>
      rewrite (depth_stencil_ignores_bounds d ds mn mx); [reflexivity|];
      destruct Hskip as [Hin | Hoff];
        [left; exact (dynamic_state_depth_bounds ci _ _ _ Hin Hdyn)
        | right; exact Hoff]
  end.
Qed.

Lemma C4_depth_bounds_invariance_witness :
  Hashing.compute_hash_graphics_pipeline sample_recorder
    (VkGraphicsPipelineCreateInfo.with_pDepthStencilState
       sample_graphics_pipeline
       (Some (VkPipelineDepthStencilStateCreateInfo.with_depth_bounds
                sample_depth_stencil_state 0x3f000000 0x3f800000)))
  = Hashing.compute_hash_graphics_pipeline sample_recorder
      sample_graphics_pipeline
  ∧ is_ok (Hashing.compute_hash_graphics_pipeline sample_recorder
             sample_graphics_pipeline) = true.
Proof.
  destruct (C4_depth_bounds_invariance sample_recorder
              sample_graphics_pipeline sample_depth_stencil_state
              0x3f000000 0x3f800000 eq_refl) as [Hsame _].
  split.
  - apply Hsame. left. unfold depth_bounds_dynamic. simpl. auto.
  - vm_compute. reflexivity.
Defined.

Section BlendInvariance.
Import Hashing.

Lemma hash_blend_attachment_same
    (a a' : VkPipelineColorBlendAttachmentState.t) (need : bool)
    (s : Hasher.t) :
  same_blend a a' →
  hash_blend_attachment a need s = hash_blend_attachment a' need s.
Proof.
  intros [-> | [Ha Ha']]; [reflexivity|].
  unfold hash_blend_attachment. rewrite Ha, Ha', truthy_0. reflexivity.
Qed.

Lemma for_acc_same_blend
    (atts atts' : list VkPipelineColorBlendAttachmentState.t) :
  Forall2 same_blend atts atts' →
  ∀ (n i : nat) (need : bool) (s : Hasher.t),
    for_acc n i
      (λ i need, hash_bind (hash_lift (index atts i))
                   (λ a, hash_blend_attachment a need)) need s
    = for_acc n i
        (λ i need, hash_bind (hash_lift (index atts' i))
                     (λ a, hash_blend_attachment a need)) need s.
Proof.
  intros Hsame n. induction n as [|n IH]; intros i need s; [reflexivity|].
  cbn [for_acc].
  transitivity
    (hash_bind
       (hash_bind (hash_lift (index atts' i))
          (λ a, hash_blend_attachment a need))
       (for_acc n (S i)
          (λ i need, hash_bind (hash_lift (index atts i))
                       (λ a, hash_blend_attachment a need))) s).
  - apply hash_bind_cong. unfold hash_bind, hash_lift, index.
    destruct (atts !! i) as [a|] eqn:Ha.
    + destruct (Forall2_lookup_l _ _ _ _ _ Hsame Ha) as (a' & Ha' & Haa').
      rewrite Ha'. now rewrite (hash_blend_attachment_same a a').
    + apply (Forall2_length) in Hsame as Hlen.
      apply lookup_ge_None in Ha.
      rewrite (proj2 (lookup_ge_None atts' i)) by lia. reflexivity.
  - apply hash_bind_ext. intros need' s' _. apply IH.
Qed.

(** The color-blend block does not read the ignored fields of an
    attachment whose blending is disabled. *)
Lemma color_blend_ignores_disabled (d : DynamicFlags)
    (b : VkPipelineColorBlendStateCreateInfo.t)
    (atts' : list VkPipelineColorBlendAttachmentState.t) (s : Hasher.t) :
  Forall2 same_blend b.(VkPipelineColorBlendStateCreateInfo.pAttachments)
    atts' →
  hash_color_blend_state d
    (Some (VkPipelineColorBlendStateCreateInfo.with_pAttachments b atts')) s
  = hash_color_blend_state d (Some b) s.
Proof.
  intros Hsame. unfold hash_color_blend_state.
  cbn [VkPipelineColorBlendStateCreateInfo.with_pAttachments
       VkPipelineColorBlendStateCreateInfo.flags
       VkPipelineColorBlendStateCreateInfo.logicOpEnable
       VkPipelineColorBlendStateCreateInfo.logicOp
       VkPipelineColorBlendStateCreateInfo.attachmentCount
       VkPipelineColorBlendStateCreateInfo.pAttachments
       VkPipelineColorBlendStateCreateInfo.blendConstants].
  do 4 peel_bind.
  apply hash_bind_cong. symmetry. now apply for_acc_same_blend.
Qed.

End BlendInvariance.

(** C5 does not hold as stated: for a color attachment whose
    [blendEnable] is false the hash is fed two zero words, not one. *)
Lemma C5_counterexample :
  ¬ feeds (Hashing.hash_blend_attachment sample_blend_attachment false)
      [0] false
  ∧ feeds (Hashing.hash_blend_attachment sample_blend_attachment false)
      [0; 0] false.
Proof.
  split.
  - intros Hfeeds. specialize (Hfeeds Hasher.init).
    apply (f_equal (res_map (λ p, Hasher.fed (snd p)))) in Hfeeds.
    vm_compute in Hfeeds. discriminate Hfeeds.
  - apply (feeds_blend_attachment_words sample_blend_attachment false).
Qed.

(** C5, amended.  Two graphics-pipeline descriptors that are identical
    except in the factor, op and write-mask fields of color-blend
    attachments whose [blendEnable] is false have the same hash (or fail
    alike).  For such an attachment exactly two zero words are fed, the
    [blendEnable] word itself and a placeholder zero, and none of its
    other fields is fed or looked at. *)
Theorem C5_disabled_blend_invariance (recorder : StateRecorder.t)
    (ci : VkGraphicsPipelineCreateInfo.t)
    (b : VkPipelineColorBlendStateCreateInfo.t)
    (atts' : list VkPipelineColorBlendAttachmentState.t) :
  ci.(VkGraphicsPipelineCreateInfo.pColorBlendState) = Some b →
  Forall2 same_blend b.(VkPipelineColorBlendStateCreateInfo.pAttachments)
    atts' →
  Hashing.compute_hash_graphics_pipeline recorder
    (VkGraphicsPipelineCreateInfo.with_pColorBlendState ci
       (Some (VkPipelineColorBlendStateCreateInfo.with_pAttachments b atts')))
  = Hashing.compute_hash_graphics_pipeline recorder ci
  ∧ (∀ a need,
       a.(VkPipelineColorBlendAttachmentState.blendEnable) = 0 →
       feeds (Hashing.hash_blend_attachment a need) [0; 0] need).
Proof.
  intros Hb Hsame. split.
  - unfold Hashing.compute_hash_graphics_pipeline, hashed.
    enough (Hrun : ∀ s,
      Hashing.feed_graphics_pipeline recorder
        (VkGraphicsPipelineCreateInfo.with_pColorBlendState ci
           (Some (VkPipelineColorBlendStateCreateInfo.with_pAttachments
                    b atts'))) s
      = Hashing.feed_graphics_pipeline recorder ci s) by now rewrite Hrun.
    intros s. unfold Hashing.feed_graphics_pipeline.
    cbn [VkGraphicsPipelineCreateInfo.with_pColorBlendState
         VkGraphicsPipelineCreateInfo.flags
         VkGraphicsPipelineCreateInfo.stageCount
         VkGraphicsPipelineCreateInfo.pStages
         VkGraphicsPipelineCreateInfo.pVertexInputState
         VkGraphicsPipelineCreateInfo.pInputAssemblyState
         VkGraphicsPipelineCreateInfo.pTessellationState
         VkGraphicsPipelineCreateInfo.pViewportState
         VkGraphicsPipelineCreateInfo.pRasterizationState
         VkGraphicsPipelineCreateInfo.pMultisampleState
         VkGraphicsPipelineCreateInfo.pDepthStencilState
         VkGraphicsPipelineCreateInfo.pColorBlendState
         VkGraphicsPipelineCreateInfo.pDynamicState
         VkGraphicsPipelineCreateInfo.layout
         VkGraphicsPipelineCreateInfo.renderPass
         VkGraphicsPipelineCreateInfo.subpass
         VkGraphicsPipelineCreateInfo.basePipelineHandle
         VkGraphicsPipelineCreateInfo.basePipelineIndex].
    rewrite Hb.
    do 15 peel_bind.
    apply hash_bind_cong. now apply color_blend_ignores_disabled.
  - intros a need Ha.
    pose proof (feeds_blend_attachment_words a need) as Hfeeds.
    unfold blend_attachment_words, blend_attachment_need in Hfeeds.
    rewrite Ha in Hfeeds. exact Hfeeds.
Qed.

Lemma C5_disabled_blend_invariance_witness :
  Hashing.compute_hash_graphics_pipeline sample_recorder
    (VkGraphicsPipelineCreateInfo.with_pColorBlendState
       sample_graphics_pipeline
       (Some (VkPipelineColorBlendStateCreateInfo.with_pAttachments
                sample_color_blend_state [sample_blend_attachment'])))
  = Hashing.compute_hash_graphics_pipeline sample_recorder
      sample_graphics_pipeline
  ∧ is_ok (Hashing.compute_hash_graphics_pipeline sample_recorder
             sample_graphics_pipeline) = true.
Proof.
  split.
  - apply (C5_disabled_blend_invariance sample_recorder
             sample_graphics_pipeline sample_color_blend_state
             [sample_blend_attachment'] eq_refl).
    constructor; [right; split; reflexivity | constructor].
  - vm_compute. reflexivity.
Defined.

(** C8.  Hashing a subpass feeds exactly: flags, colorAttachmentCount,
    inputAttachmentCount, preserveAttachmentCount, the bind point, the
    preserve indices, the color references, the input references, the
    colorAttachmentCount resolve references only when pResolveAttachments
    is non-null (nothing at all otherwise), and the two words of the
    depth-stencil reference when present or a single zero when absent. *)
Theorem C8_hash_subpass_feed_sequence (subpass : VkSubpassDescription.t) :
  subpass_arrays_ok subpass →
  feeds (Hashing.hash_subpass subpass) (subpass_words subpass) tt.
Proof.
  intros (Hpreserve & Hcolor & Hinput & Hresolve).
  unfold Hashing.hash_subpass, subpass_words, reference_words.
  destruct (VkSubpassDescription.pResolveAttachments subpass) as [resolves|];
    destruct (VkSubpassDescription.pDepthStencilAttachment subpass) as [ref|].
  all: eapply feeds_eq;
    [ do 5 (eapply feeds_bind; [apply feeds_u32|]);
      (eapply feeds_bind;
       [ apply (feeds_for_range_array H.u32 (λ x, [x]));
         [apply feeds_u32 | exact Hpreserve] |]);
      (eapply feeds_bind;
       [ apply (feeds_for_range_array Hashing.hash_attachment_reference);
         [apply feeds_attachment_reference | exact Hcolor] |]);
      (eapply feeds_bind;
       [ apply (feeds_for_range_array Hashing.hash_attachment_reference);
         [apply feeds_attachment_reference | exact Hinput] |]);
      (eapply feeds_bind;
       [ first
           [ apply (feeds_for_range_array Hashing.hash_attachment_reference);
             [apply feeds_attachment_reference | exact Hresolve]
           | apply feeds_ret ] |]);
      first [apply feeds_attachment_reference | apply feeds_u32]
    | rewrite flat_map_singleton; reflexivity ].
Qed.

Lemma C8_hash_subpass_feed_sequence_witness :
  feeds (Hashing.hash_subpass sample_subpass)
    [0; 2; 1; 1; 0; 6; 0; 2; 1; 2; 4; 5; 2; 2; 3; 2; 0] tt.
Proof.
  apply (C8_hash_subpass_feed_sequence sample_subpass).
  unfold subpass_arrays_ok. simpl. repeat split; lia.
Defined.

(** ** Recording *)

(** The five [record_*] that test [pNext] raise the fatal error for a
    descriptor with an extension chain, and nothing is enqueued (the
    state of the recorder is the one before the call). *)
Lemma guarded_kinds_reject_pNext (r : StateRecorder.t) (handle : Z) :
  (∀ ci, ci.(VkSamplerCreateInfo.pNext) ≠ 0 →
     Recording.record_sampler handle ci r
     = Throw "pNext in VkSamplerCreateInfo not supported.")
  ∧ (∀ ci, ci.(VkGraphicsPipelineCreateInfo.pNext) ≠ 0 →
       Recording.record_graphics_pipeline handle ci r
       = Throw "pNext in VkGraphicsPipelineCreateInfo not supported.")
  ∧ (∀ ci, ci.(VkComputePipelineCreateInfo.pNext) ≠ 0 →
       Recording.record_compute_pipeline handle ci r
       = Throw "pNext in VkComputePipelineCreateInfo not supported.")
  ∧ (∀ ci, ci.(VkRenderPassCreateInfo.pNext) ≠ 0 →
       Recording.record_render_pass handle ci r
       = Throw "pNext in VkRenderPassCreateInfo not supported.")
  ∧ (∀ ci, ci.(VkShaderModuleCreateInfo.pNext) ≠ 0 →
       Recording.record_shader_module handle ci r
       = Throw "pNext in VkShaderModuleCreateInfo not supported.").
Proof.
  repeat split; intros ci Hnext.
  all: match goal with
       | |- ?f _ _ _ = _ => unfold f
       end.
  all: unfold Hashing.truthy.
  all: match goal with
       | |- context [?x =? 0] => destruct (Z.eqb_spec x 0) as [E|E]
       end; [contradiction | reflexivity].
Qed.

(** C2, at the inputs where the code departs from it:
    [record_descriptor_set_layout] and [record_pipeline_layout] do not
    test [pNext]; a descriptor with an extension chain is copied and
    enqueued and no error is raised. *)
Theorem C2_unguarded_kinds_enqueue :
  (∃ r,
     Recording.record_descriptor_set_layout 5 sample_set_layout_with_pNext
       StateRecorder.empty = Ok r
     ∧ StateRecorder.record_queue r
       = [ {| handle := 5;
              create_info :=
                Some (DescriptorSetLayoutCI sample_set_layout_with_pNext) |} ])
  ∧ (∃ r,
       Recording.record_pipeline_layout 6 sample_pipeline_layout_with_pNext
         StateRecorder.empty = Ok r
       ∧ StateRecorder.record_queue r
         = [ {| handle := 6;
                create_info :=
                  Some (PipelineLayoutCI sample_pipeline_layout_with_pNext) |} ]).
Proof. split; eexists; split; reflexivity. Qed.

(** C10, at the input where the code departs from it: the deep copy of
    a graphics pipeline that has a vertex-input state and no color-blend
    state reads [pNext] through the null color-blend pointer. *)
Theorem C10_copy_reads_null_color_blend :
  DeepCopy.copy_graphics_pipeline sample_pipeline_without_blend = Undef
  ∧ Recording.record_graphics_pipeline 41 sample_pipeline_without_blend
      StateRecorder.empty = Undef.
Proof. split; reflexivity. Qed.

(** Two submissions of one sampler under two handles: one entry is
    added to the store when the hash was not stored, and both handles
    map to the hash. *)
Lemma sampler_deduplication (r : StateRecorder.t) (h1 h2 hash : Z)
    (ci : VkSamplerCreateInfo.t) :
  Hashing.compute_hash_sampler r ci = Ok hash →
  StateRecorder.samplers r !! hash = None →
  ∃ r1 r2,
    Recording.process_item h1 (SamplerCI ci) r = Ok r1
    ∧ Recording.process_item h2 (SamplerCI ci) r1 = Ok r2
    ∧ StateRecorder.samplers r2 = <[hash := ci]> (StateRecorder.samplers r)
    ∧ StateRecorder.sampler_to_index r2
      = <[h2 := hash]> (<[h1 := hash]> (StateRecorder.sampler_to_index r)).
Proof.
  intros Hhash Hfresh.
  assert (Hany : ∀ r', Hashing.compute_hash_sampler r' ci = Ok hash).
  { intros r'. exact Hhash. }
  eexists _, _.
  unfold Recording.process_item, Recording.dispatch, Recording.try_call.
  rewrite Hhash.
  cbn [StateRecorder.samplers StateRecorder.set_sampler_to_index
       StateRecorder.set_samplers StateRecorder.sampler_to_index].
  unfold Recording.count at 1. rewrite Hfresh.
  split; [reflexivity|].
  rewrite Hany.
  cbn [StateRecorder.samplers StateRecorder.set_sampler_to_index
       StateRecorder.set_samplers StateRecorder.sampler_to_index].
  unfold Recording.count. rewrite lookup_insert_eq.
  split; [reflexivity|]. split; reflexivity.
Qed.

(** C6, at the input where the code departs from it: a pipeline layout
    with a null set layout, submitted under the handles 1 and 2.  Both
    handles are mapped to its hash, yet [remap_pipeline_layout_ci] throws
    on the null handle each time, so no entry reaches the store. *)
Theorem C6_null_set_layout_is_never_stored :
  ∃ r1 r2 hash,
    Recording.process_item 1 (PipelineLayoutCI sample_pipeline_layout_null_set)
      StateRecorder.empty = Ok r1
    ∧ Recording.process_item 2
        (PipelineLayoutCI sample_pipeline_layout_null_set) r1 = Ok r2
    ∧ Hashing.compute_hash_pipeline_layout StateRecorder.empty
        sample_pipeline_layout_null_set = Ok hash
    ∧ StateRecorder.pipeline_layout_to_index r2 !! 1 = Some hash
    ∧ StateRecorder.pipeline_layout_to_index r2 !! 2 = Some hash
    ∧ StateRecorder.pipeline_layouts r2 !! hash = None
    ∧ size (StateRecorder.pipeline_layouts r2) = 0%nat
    ∧ StateRecorder.logged r2
      = [ "Cannot find descriptor set layout in hashmap.";
          "Cannot find descriptor set layout in hashmap." ].
Proof.
  eexists _, _, _.
  split; [vm_compute; reflexivity|].
  split; [vm_compute; reflexivity|].
  split; [vm_compute; reflexivity|].
  repeat split; vm_compute; reflexivity.
Qed.

(** C7.  [get_hash_for_<kind>] raises the fatal error for a handle
    without an entry in the table of the kind; and when the hash function
    of a queued descriptor raises an error (such as that one, for a set
    layout that names a sampler not recorded), the worker logs it and is
    done with the item: no handle-to-hash table and no store has changed. *)
Theorem C7_unregistered_handle (r : StateRecorder.t) (handle : Z)
    (ci : CreateInfo) (msg : string) :
  (∀ h, StateRecorder.compute_pipeline_to_index r !! h = None →
     StateRecorder.get_hash_for_compute_pipeline_handle r h
     = Throw "Handle is not registered.")
  ∧ (∀ h, StateRecorder.graphics_pipeline_to_index r !! h = None →
       StateRecorder.get_hash_for_graphics_pipeline_handle r h
       = Throw "Handle is not registered.")
  ∧ (∀ h, StateRecorder.sampler_to_index r !! h = None →
       StateRecorder.get_hash_for_sampler r h
       = Throw "Handle is not registered.")
  ∧ (∀ h, StateRecorder.shader_module_to_index r !! h = None →
       StateRecorder.get_hash_for_shader_module r h
       = Throw "Handle is not registered.")
  ∧ (∀ h, StateRecorder.pipeline_layout_to_index r !! h = None →
       StateRecorder.get_hash_for_pipeline_layout r h
       = Throw "Handle is not registered.")
  ∧ (∀ h, StateRecorder.descriptor_set_layout_to_index r !! h = None →
       StateRecorder.get_hash_for_descriptor_set_layout r h
       = Throw "Handle is not registered.")
  ∧ (∀ h, StateRecorder.render_pass_to_index r !! h = None →
       StateRecorder.get_hash_for_render_pass r h
       = Throw "Handle is not registered.")
  ∧ (compute_hash r ci = Throw msg →
     ∃ r',
       Recording.process_item handle ci r = Ok r'
       ∧ same_tables_and_stores r r'
       ∧ StateRecorder.logged r' = StateRecorder.logged r ++ [msg]).
Proof.
  repeat match goal with |- _ ∧ _ => split end.
  1-7: intros h Hnone;
       match goal with
       | |- ?f _ _ = _ => unfold f, StateRecorder.find_or_throw
       end;
       now rewrite Hnone.
  intros Hthrow.
  exists (StateRecorder.set_logged (StateRecorder.logged r ++ [msg]) r).
  split; [|split; [repeat split | reflexivity]].
  unfold Recording.process_item, Recording.dispatch, Recording.try_call.
  destruct ci; cbn [compute_hash] in Hthrow; rewrite Hthrow; reflexivity.
Qed.

Lemma C7_unregistered_handle_witness :
  StateRecorder.get_hash_for_sampler StateRecorder.empty 77
  = Throw "Handle is not registered."
  ∧ ∃ r',
      Recording.process_item 9
        (DescriptorSetLayoutCI sample_set_layout_with_sampler)
        StateRecorder.empty = Ok r'
      ∧ same_tables_and_stores StateRecorder.empty r'
      ∧ StateRecorder.logged r' = ["Handle is not registered."].
Proof.
  destruct (C7_unregistered_handle StateRecorder.empty 9
              (DescriptorSetLayoutCI sample_set_layout_with_sampler)
              "Handle is not registered.")
    as (_ & _ & Hsampler & _ & _ & _ & _ & Hitem).
  split.
  - apply Hsampler. reflexivity.
  - apply Hitem. vm_compute. reflexivity.
Defined.

(** ** Replaying a closure *)


(** A loop whose body returns at every index returns. *)
Lemma for_fold_ok {St : Type} (body : nat → St → Res St) (n : nat) :
  ∀ (i : nat) (s : St),
    (∀ j s, (i <= j < i + n)%nat → ∃ s', body j s = Ok s') →
    ∃ s', for_fold n i body s = Ok s'.
Proof.
  induction n as [|n IH]; intros i s Hbody; cbn [for_fold].
  - eauto.
  - destruct (Hbody i s) as [s' ->]; [lia|]. cbn [res_bind].
    apply IH. intros j s0 Hj. apply Hbody. lia.
Qed.

Lemma store_all_lookup {T : Type} (ok : T → bool) (store : gmap Z T)
    (hash : Z) (ci : T) :
  store_all ok store = true → store !! hash = Some ci → ok ci = true.
Proof.
  unfold store_all. rewrite forallb_forall. intros Hall Hstored.
  apply (Hall (hash, ci)).
  apply list_elem_of_In, elem_of_map_to_list, Hstored.
Qed.

Lemma index_lookup {T : Type} (p : list T) (i : nat) (x : T) :
  p !! i = Some x → index p i = Ok x.
Proof. intros H. unfold index. now rewrite H. Qed.

Lemma index_ok {T : Type} (p : list T) (i : nat) :
  (i < length p)%nat → ∃ x, index p i = Ok x.
Proof.
  intros Hi. unfold index.
  destruct (lookup_lt_is_Some_2 p i Hi) as [x ->]. eauto.
Qed.

Lemma serialize_immutable_samplers_ok r set_layout samplers :
  set_layout_arrays_ok set_layout = true →
  ∃ samplers',
    Serialize.serialize_immutable_samplers r set_layout samplers
    = Ok samplers'.
Proof.
  unfold set_layout_arrays_ok. cbv zeta.
  rewrite andb_true_iff, Nat.leb_le, forallb_forall.
  intros [Hcount Hbindings].
  unfold Serialize.serialize_immutable_samplers.
  apply for_fold_ok. intros j s Hj. cbv beta.
  destruct (lookup_lt_is_Some_2
              (VkDescriptorSetLayoutCreateInfo.pBindings set_layout) j)
    as [binding Hb]; [lia|].
  rewrite (index_lookup _ _ _ Hb). cbn [res_bind].
  specialize (Hbindings binding). unfold binding_arrays_ok in Hbindings.
  destruct (Hashing.immutable_samplers binding) as [handles|]; [|eauto].
  apply for_fold_ok. intros k s0 Hk. cbv beta.
  destruct (index_ok handles k) as [x ->].
  { enough ((Z.to_nat (VkDescriptorSetLayoutBinding.descriptorCount binding)
             <=? length handles)%nat = true) as Hle
      by (apply Nat.leb_le in Hle; lia).
    apply Hbindings, list_elem_of_In.
    apply (list_elem_of_lookup_2 _ j). rewrite lookup_take_lt; [exact Hb | lia]. }
  cbn [res_bind]. eauto.
Qed.

Lemma serialize_pipeline_layout_ok r layout maps :
  store_all pipeline_layout_arrays_ok (StateRecorder.pipeline_layouts r)
  = true →
  store_all set_layout_arrays_ok (StateRecorder.descriptor_sets r) = true →
  ∃ maps', Serialize.serialize_pipeline_layout r layout maps = Ok maps'.
Proof.
  intros Hpl Hsl. unfold Serialize.serialize_pipeline_layout.
  unfold Serialize.serialize_obj at 1.
  destruct (StateRecorder.pipeline_layouts r !! layout)
    as [pipeline_layout|] eqn:Hlayout; [|eauto].
  apply for_fold_ok. intros i s Hi. cbv beta.
  destruct (index_ok (VkPipelineLayoutCreateInfo.pSetLayouts pipeline_layout)
              i) as [handle ->].
  { pose proof (store_all_lookup _ _ _ _ Hpl Hlayout) as Hle.
    apply Nat.leb_le in Hle. lia. }
  cbn [res_bind]. unfold Serialize.serialize_obj.
  destruct (StateRecorder.descriptor_sets r !! handle)
    as [set_layout|] eqn:Hset; [|eauto].
  destruct (serialize_immutable_samplers_ok r set_layout
              (Serialize.samplers_map s)
              (store_all_lookup _ _ _ _ Hsl Hset)) as [s' ->].
  cbn [res_bind]. eauto.
Qed.

(** The closure of a stored pipeline is written without a read past the
    end of an array, and its document is the following. *)
Lemma serialize_graphics_pipeline_ok r h pipe :
  StateRecorder.graphics_pipelines r !! h = Some pipe →
  closure_arrays_ok r pipe = true →
  ∃ samplers set_layouts pipeline_layouts render_passes,
    Serialize.serialize_graphics_pipeline r h
    = Ok (JsonText
        {| Document.version := Some FOSSILIZE_FORMAT_VERSION;
           Document.shaderModules := None;
           Document.samplers := Some samplers;
           Document.setLayouts := Some set_layouts;
           Document.pipelineLayouts := Some pipeline_layouts;
           Document.renderPasses := Some render_passes;
           Document.computePipelines := None;
           Document.graphicsPipelines := Some [(h, pipe)] |}).
Proof.
  unfold closure_arrays_ok. rewrite !andb_true_iff.
  intros Hpipe [[_ Hpl] Hsl].
  unfold Serialize.serialize_graphics_pipeline.
  unfold Serialize.serialize_obj at 1. rewrite Hpipe.
  destruct (serialize_pipeline_layout_ok r
              (VkGraphicsPipelineCreateInfo.layout pipe)
              Serialize.no_layout_maps Hpl Hsl) as [maps ->].
  cbn. eauto.
Qed.

Section ReplayFacts.
Import StateReplayer.
Context {C : Type}.
Variable iface : StateCreatorInterface C.
Hypothesis Haccepts : accepts_all iface.

Lemma same_refl rep : same_modules_and_pipelines rep rep.
Proof. split; reflexivity. Qed.

Lemma same_trans rep1 rep2 rep3 :
  same_modules_and_pipelines rep1 rep2 →
  same_modules_and_pipelines rep2 rep3 →
  same_modules_and_pipelines rep1 rep3.
Proof. intros [? ?] [? ?]. split; congruence. Qed.

Lemma for_members_inv {T : Type} (P : @Replay.State C → Prop)
    (body : T → Replay.State → Res Replay.State) :
  (∀ member st, P st → ∃ st', body member st = Ok st' ∧ P st') →
  ∀ members st, P st →
    ∃ st', Replay.for_members body members st = Ok st' ∧ P st'.
Proof.
  intros Hbody members.
  induction members as [|member members IH]; intros st HP;
    cbn [Replay.for_members].
  - eauto.
  - destruct (Hbody member st HP) as (st' & -> & HP'). cbn [res_bind].
    now apply IH.
Qed.

Lemma create_ok {I : Type} (enqueue : Z → I → C → bool * Z * C) get set
    hash info msg (st : Replay.State) :
  (∀ h i c, (enqueue h i c).1.1 = true) →
  ∃ created c',
    Replay.create enqueue get set hash info msg st
    = Ok (set (<[hash := created]>
                 (get (set (Replay.subscript (get st.1) hash).2 st.1)))
            (set (Replay.subscript (get st.1) hash).2 st.1), c').
Proof.
  intros Henqueue. unfold Replay.create.
  specialize (Henqueue hash info st.2).
  destruct (enqueue hash info st.2) as [[accepted created] c'].
  cbn in Henqueue. subst accepted. eauto.
Qed.

Lemma create_keeps {I : Type} (enqueue : Z → I → C → bool * Z * C) get set
    hash info msg (st : Replay.State) :
  (∀ h i c, (enqueue h i c).1.1 = true) →
  keeps_modules_and_pipelines set →
  ∃ st',
    Replay.create enqueue get set hash info msg st = Ok st'
    ∧ same_modules_and_pipelines st.1 st'.1.
Proof.
  intros Henqueue Hset.
  destruct (create_ok enqueue get set hash info msg st Henqueue)
    as (created & c' & ->).
  eexists. split; [reflexivity|]. cbn [fst].
  eapply same_trans; apply Hset.
Qed.

Lemma resolve_handles_keeps get set indices :
  keeps_modules_and_pipelines set →
  ∀ rep,
    same_modules_and_pipelines rep
      (Replay.resolve_handles get set indices rep).2.
Proof.
  intros Hset.
  induction indices as [|index indices IH]; intros rep;
    cbn [Replay.resolve_handles].
  - apply same_refl.
  - destruct (0 <? index).
    + destruct (Replay.subscript (get rep) index) as [v map].
      specialize (IH (set map rep)).
      destruct (Replay.resolve_handles get set indices (set map rep))
        as [vs rep''].
      cbn [snd] in *. eapply same_trans; [apply Hset | exact IH].
    + specialize (IH rep).
      destruct (Replay.resolve_handles get set indices rep) as [vs rep''].
      exact IH.
Qed.

Lemma keeps_samplers : keeps_modules_and_pipelines set_replayed_samplers.
Proof. intros v rep. split; reflexivity. Qed.

Lemma keeps_descriptor_set_layouts :
  keeps_modules_and_pipelines set_replayed_descriptor_set_layouts.
Proof. intros v rep. split; reflexivity. Qed.

Lemma keeps_pipeline_layouts :
  keeps_modules_and_pipelines set_replayed_pipeline_layouts.
Proof. intros v rep. split; reflexivity. Qed.

Lemma keeps_render_passes :
  keeps_modules_and_pipelines set_replayed_render_passes.
Proof. intros v rep. split; reflexivity. Qed.

Lemma parse_descriptor_set_bindings_keeps bindings :
  ∀ rep,
    same_modules_and_pipelines rep
      (Replay.parse_descriptor_set_bindings bindings rep).2.
Proof.
  induction bindings as [|b bindings IH]; intros rep;
    cbn [Replay.parse_descriptor_set_bindings].
  - apply same_refl.
  - destruct (VkDescriptorSetLayoutBinding.pImmutableSamplers b)
      as [samplers|].
    + pose proof (resolve_handles_keeps replayed_samplers
                    set_replayed_samplers
                    (take
                       (Z.to_nat
                          (VkDescriptorSetLayoutBinding.descriptorCount b))
                       samplers) keeps_samplers rep) as Hkeeps.
      destruct (Replay.resolve_handles _ _ _ rep) as [handles rep'].
      specialize (IH rep').
      destruct (Replay.parse_descriptor_set_bindings bindings rep')
        as [rest rep''].
      cbn [snd] in *. eapply same_trans; eassumption.
    + specialize (IH rep).
      destruct (Replay.parse_descriptor_set_bindings bindings rep)
        as [rest rep''].
      exact IH.
Qed.

Lemma section_keeps (st : @Replay.State C) (m : Res Replay.State) :
  (∃ st', m = Ok st' ∧ same_modules_and_pipelines st.1 st'.1) →
  ∃ st',
    (let? st := m in Ok (st.1, wait_enqueue iface st.2)) = Ok st'
    ∧ same_modules_and_pipelines st.1 st'.1.
Proof. intros (st' & -> & Hsame). cbn [res_bind]. eauto. Qed.

Lemma parse_samplers_keeps samplers (st : Replay.State) :
  ∃ st',
    Replay.parse_samplers iface samplers st = Ok st'
    ∧ same_modules_and_pipelines st.1 st'.1.
Proof.
  apply section_keeps.
  apply (for_members_inv (λ st', same_modules_and_pipelines st.1 st'.1));
    [|apply same_refl].
  intros [hash obj] st0 Hst0.
  destruct (Recording.count (replayed_samplers st0.1) hash); [eauto|].
  destruct (create_keeps (enqueue_create_sampler iface) replayed_samplers
              set_replayed_samplers hash obj "Failed to create sampler."
              st0) as (st' & -> & Hsame);
    [apply Haccepts | apply keeps_samplers |].
  eexists. split; [reflexivity|]. eapply same_trans; eassumption.
Qed.

Lemma parse_descriptor_set_layouts_keeps layouts (st : Replay.State) :
  ∃ st',
    Replay.parse_descriptor_set_layouts iface layouts st = Ok st'
    ∧ same_modules_and_pipelines st.1 st'.1.
Proof.
  apply section_keeps.
  apply (for_members_inv (λ st', same_modules_and_pipelines st.1 st'.1));
    [|apply same_refl].
  intros [hash obj] st0 Hst0.
  destruct (Recording.count (replayed_descriptor_set_layouts st0.1) hash);
    [eauto|].
  pose proof (parse_descriptor_set_bindings_keeps
                (take
                   (Z.to_nat
                      (VkDescriptorSetLayoutCreateInfo.bindingCount obj))
                   (VkDescriptorSetLayoutCreateInfo.pBindings obj)) st0.1)
    as Hbindings.
  destruct (Replay.parse_descriptor_set_bindings _ st0.1)
    as [bindings rep].
  cbn [snd] in Hbindings. cbv zeta.
  match goal with
  | |- ∃ st', Replay.create ?e ?g ?s ?h ?i ?m ?st = _ ∧ _ =>
      destruct (create_keeps e g s h i m st) as (st' & -> & Hsame);
        [apply Haccepts | apply keeps_descriptor_set_layouts |]
  end.
  eexists. split; [reflexivity|].
  eapply same_trans; [exact Hst0|].
  eapply same_trans; [exact Hbindings | exact Hsame].
Qed.

Lemma parse_pipeline_layouts_keeps layouts (st : Replay.State) :
  ∃ st',
    Replay.parse_pipeline_layouts iface layouts st = Ok st'
    ∧ same_modules_and_pipelines st.1 st'.1.
Proof.
  apply section_keeps.
  apply (for_members_inv (λ st', same_modules_and_pipelines st.1 st'.1));
    [|apply same_refl].
  intros [hash obj] st0 Hst0.
  destruct (Recording.count (replayed_pipeline_layouts st0.1) hash);
    [eauto|].
  pose proof (resolve_handles_keeps replayed_descriptor_set_layouts
                set_replayed_descriptor_set_layouts
                (take
                   (Z.to_nat (VkPipelineLayoutCreateInfo.setLayoutCount obj))
                   (VkPipelineLayoutCreateInfo.pSetLayouts obj))
                keeps_descriptor_set_layouts st0.1) as Hhandles.
  cbv zeta.
  destruct (Replay.resolve_handles _ _ _ st0.1) as [set_layouts rep].
  cbn [snd] in Hhandles.
  match goal with
  | |- ∃ st', Replay.create ?e ?g ?s ?h ?i ?m ?st = _ ∧ _ =>
      destruct (create_keeps e g s h i m st) as (st' & -> & Hsame);
        [apply Haccepts | apply keeps_pipeline_layouts |]
  end.
  eexists. split; [reflexivity|].
  eapply same_trans; [exact Hst0|].
  eapply same_trans; [exact Hhandles | exact Hsame].
Qed.

Lemma parse_render_passes_keeps passes (st : Replay.State) :
  ∃ st',
    Replay.parse_render_passes iface passes st = Ok st'
    ∧ same_modules_and_pipelines st.1 st'.1.
Proof.
  apply section_keeps.
  apply (for_members_inv (λ st', same_modules_and_pipelines st.1 st'.1));
    [|apply same_refl].
  intros [hash obj] st0 Hst0.
  destruct (Recording.count (replayed_samplers st0.1) hash); [eauto|].
  destruct (create_keeps (enqueue_create_render_pass iface)
              replayed_render_passes set_replayed_render_passes hash obj
              "Failed to create render pass." st0) as (st' & -> & Hsame);
    [apply Haccepts | apply keeps_render_passes |].
  eexists. split; [reflexivity|]. eapply same_trans; eassumption.
Qed.

(** The sections of a closure that precede its pipelines are replayed
    without error and leave the shader modules and the graphics
    pipelines of the replayer as they were. *)
Lemma parse_buffer_closure resolver parse_rec samplers set_layouts
    pipeline_layouts render_passes graphics_pipelines (st : Replay.State) :
  ∃ st',
    same_modules_and_pipelines st.1 st'.1
    ∧ Replay.parse_buffer iface resolver parse_rec
        (JsonText
           {| Document.version := Some FOSSILIZE_FORMAT_VERSION;
              Document.shaderModules := None;
              Document.samplers := Some samplers;
              Document.setLayouts := Some set_layouts;
              Document.pipelineLayouts := Some pipeline_layouts;
              Document.renderPasses := Some render_passes;
              Document.computePipelines := None;
              Document.graphicsPipelines := Some graphics_pipelines |}) st
      = Replay.parse_graphics_pipelines iface resolver parse_rec
          graphics_pipelines st'.
Proof.
  cbn [Replay.parse_buffer Document.version Document.shaderModules
       Document.samplers Document.setLayouts Document.pipelineLayouts
       Document.renderPasses Document.computePipelines
       Document.graphicsPipelines Replay.parse_section].
  rewrite Z.eqb_refl. cbn [negb res_bind fst snd].
  destruct (parse_samplers_keeps samplers
              (st.1, set_num_shader_modules iface 0 st.2))
    as (st1 & -> & H1).
  cbn [res_bind].
  destruct (parse_descriptor_set_layouts_keeps set_layouts st1)
    as (st2 & -> & H2).
  cbn [res_bind].
  destruct (parse_pipeline_layouts_keeps pipeline_layouts st2)
    as (st3 & -> & H3).
  cbn [res_bind].
  destruct (parse_render_passes_keeps render_passes st3)
    as (st4 & -> & H4).
  cbn [res_bind fst snd].
  eexists. split; [|reflexivity]. cbn [fst] in *.
  eapply same_trans; [exact H1|].
  eapply same_trans; [exact H2|].
  eapply same_trans; [exact H3 | exact H4].
Qed.

Lemma resolve_handle_keeps get set index (st : @Replay.State C) :
  keeps_modules_and_pipelines set →
  same_modules_and_pipelines st.1 (Replay.resolve_handle get set index st).2.1.
Proof.
  intros Hset. unfold Replay.resolve_handle.
  destruct (0 <? index); [|apply same_refl].
  destruct (Replay.subscript (get st.1) index) as [v map]. apply Hset.
Qed.

Lemma parse_stages_null resolver parse_rec stages (st : @Replay.State C) :
  Forall (λ stage, VkPipelineShaderStageCreateInfo.module stage <= 0)
    stages →
  ∃ stages', Replay.parse_stages resolver parse_rec stages st
             = Ok (stages', st).
Proof.
  induction 1 as [|stage stages Hstage _ IH]; cbn [Replay.parse_stages].
  - eauto.
  - unfold Replay.parse_stage.
    destruct (Z.ltb_spec 0 (VkPipelineShaderStageCreateInfo.module stage));
      [lia|].
    cbn [res_bind]. destruct IH as [stages' ->]. cbn [res_bind]. eauto.
Qed.

Lemma parse_stages_unresolved parse_rec stages (st : @Replay.State C) :
  replayed_shader_modules st.1 = ∅ →
  ¬ Forall (λ stage, VkPipelineShaderStageCreateInfo.module stage <= 0)
      stages →
  Replay.parse_stages empty_resolver parse_rec stages st
  = Throw "Failed to find referenced shader".
Proof.
  intros Hempty.
  induction stages as [|stage stages IH]; intros Hsome;
    cbn [Replay.parse_stages].
  - destruct Hsome. constructor.
  - unfold Replay.parse_stage.
    destruct (Z.ltb_spec 0 (VkPipelineShaderStageCreateInfo.module stage))
      as [Hpos|Hnull].
    + unfold Replay.find_or_resolve. rewrite Hempty, lookup_empty.
      reflexivity.
    + cbn [res_bind]. rewrite IH; [reflexivity|].
      intros Hrest. apply Hsome. now constructor.
Qed.

(** Replaying the one pipeline of a closure when nothing it refers to
    can be resolved. *)
Lemma parse_graphics_pipelines_unresolved parse_rec h pipe
    (st : @Replay.State C) :
  replayed_shader_modules st.1 = ∅ →
  replayed_graphics_pipelines st.1 = ∅ →
  0 <= VkGraphicsPipelineCreateInfo.basePipelineIndex pipe →
  is_ok (Replay.parse_graphics_pipelines iface empty_resolver parse_rec
           [(h, pipe)] st) = true
  ↔ VkGraphicsPipelineCreateInfo.basePipelineHandle pipe <= 0
    ∧ Forall (λ stage, VkPipelineShaderStageCreateInfo.module stage <= 0)
        (Replay.stages_member pipe).
Proof.
  intros Hmodules Hpipelines Hindex.
  unfold Replay.parse_graphics_pipelines. cbn [Replay.for_members].
  unfold Replay.parse_graphics_pipeline, Recording.count.
  rewrite Hpipelines, lookup_empty. unfold Replay.GetUint.
  destruct (Z.leb_spec 0 (VkGraphicsPipelineCreateInfo.basePipelineIndex
                            pipe)); [|lia].
  cbn [res_bind].
  destruct (Z.ltb_spec 0 (VkGraphicsPipelineCreateInfo.basePipelineHandle
                            pipe)) as [Hbase|Hbase].
  { unfold Replay.find_or_resolve. cbn [fst].
    rewrite Hpipelines, lookup_empty. cbn. split; [discriminate | lia]. }
  cbn [res_bind].
  pose proof (resolve_handle_keeps replayed_pipeline_layouts
                set_replayed_pipeline_layouts
                (VkGraphicsPipelineCreateInfo.layout pipe) st
                keeps_pipeline_layouts) as Hlayout.
  destruct (Replay.resolve_handle replayed_pipeline_layouts _ _ st)
    as [layout st1].
  pose proof (resolve_handle_keeps replayed_render_passes
                set_replayed_render_passes
                (VkGraphicsPipelineCreateInfo.renderPass pipe) st1
                keeps_render_passes) as Hpass.
  destruct (Replay.resolve_handle replayed_render_passes _ _ st1)
    as [renderPass st2].
  cbn [fst snd] in Hlayout, Hpass.
  destruct (decide
              (Forall
                 (λ stage, VkPipelineShaderStageCreateInfo.module stage <= 0)
                 (Replay.stages_member pipe)))
    as [Hnull|Hsome].
  - destruct (parse_stages_null empty_resolver parse_rec _ st2 Hnull)
      as [stages ->].
    cbn [res_bind].
    match goal with
    | |- context [Replay.create ?e ?g ?s ?h ?i ?m ?st] =>
        destruct (create_ok e g s h i m st) as (created & c' & ->);
          [apply Haccepts|]
    end.
    cbn. split; [intros _; split; [lia | exact Hnull] | reflexivity].
  - rewrite parse_stages_unresolved; [| |exact Hsome].
    + cbn. split; [discriminate | intros [_ Hnull]; contradiction].
    + destruct Hlayout as [Hl _], Hpass as [Hp _]. congruence.
Qed.

Lemma serialize_shader_module_stored r m ci :
  StateRecorder.shader_modules r !! m = Some ci →
  Serialize.serialize_shader_module r m
  = Ok (JsonText
      {| Document.version := Some FOSSILIZE_FORMAT_VERSION;
         Document.shaderModules := Some [(m, ci)];
         Document.samplers := None;
         Document.setLayouts := None;
         Document.pipelineLayouts := None;
         Document.renderPasses := None;
         Document.computePipelines := None;
         Document.graphicsPipelines := None |}).
Proof.
  intros Hstored.
  unfold Serialize.serialize_shader_module, Serialize.serialize_obj.
  rewrite Hstored. reflexivity.
Qed.

(** Replaying the document of one shader module creates it. *)
Lemma parse_shader_module_document fuel resolver m ci
    (st : @Replay.State C) :
  replayed_shader_modules st.1 !! m = None →
  ∃ st',
    Replay.parse (S fuel) iface resolver
      (JsonText
         {| Document.version := Some FOSSILIZE_FORMAT_VERSION;
            Document.shaderModules := Some [(m, ci)];
            Document.samplers := None;
            Document.setLayouts := None;
            Document.pipelineLayouts := None;
            Document.renderPasses := None;
            Document.computePipelines := None;
            Document.graphicsPipelines := None |}) st = Ok st'
    ∧ is_Some (replayed_shader_modules st'.1 !! m).
Proof.
  intros Hnew.
  cbn [Replay.parse Replay.parse_buffer Document.version
       Document.shaderModules Document.samplers Document.setLayouts
       Document.pipelineLayouts Document.renderPasses
       Document.computePipelines Document.graphicsPipelines
       Replay.parse_section].
  rewrite Z.eqb_refl. cbn [negb].
  unfold Replay.parse_shader_modules. cbn [Replay.for_members].
  unfold Recording.count. rewrite Hnew.
  destruct (create_ok (enqueue_create_shader_module iface)
              replayed_shader_modules set_replayed_shader_modules m ci
              "Failed to create shader module." st)
    as (created & c' & ->); [apply Haccepts|].
  cbn [res_bind fst snd]. eexists. split; [reflexivity|].
  cbn [fst set_replayed_shader_modules replayed_shader_modules].
  rewrite lookup_insert_eq. eauto.
Qed.

Lemma parse_stages_resolved fuel r resolver stages :
  Forall
    (λ stage,
      let module := VkPipelineShaderStageCreateInfo.module stage in
      0 < module →
      is_Some (StateRecorder.shader_modules r !! module)
      ∧ Serialize.serialize_shader_module r module = Ok (resolver module))
    stages →
  ∀ st : @Replay.State C,
    ∃ result,
      Replay.parse_stages resolver (Replay.parse (S fuel) iface resolver)
        stages st = Ok result.
Proof.
  induction 1 as [|stage stages Hstage _ IH]; intros st;
    cbn [Replay.parse_stages].
  - eauto.
  - assert (∃ stage' st',
              Replay.parse_stage resolver
                (Replay.parse (S fuel) iface resolver) stage st
              = Ok (stage', st')) as (stage' & st' & ->).
    { unfold Replay.parse_stage.
      destruct (Z.ltb_spec 0 (VkPipelineShaderStageCreateInfo.module stage))
        as [Hpos|Hnull]; [|cbn [res_bind]; eauto].
      unfold Replay.find_or_resolve.
      destruct (replayed_shader_modules st.1
                  !! VkPipelineShaderStageCreateInfo.module stage)
        as [created|] eqn:Hfound; [cbn [res_bind]; eauto|].
      destruct (Hstage Hpos) as [[ci Hstored] Hresolved].
      rewrite (serialize_shader_module_stored _ _ _ Hstored) in Hresolved.
      injection Hresolved as <-. cbn [Replay.buffer_empty].
      destruct (parse_shader_module_document fuel resolver _ ci st Hfound)
        as (st' & -> & [created Hcreated]).
      cbn [res_bind]. rewrite Hcreated. cbn [res_bind]. eauto. }
    cbn [res_bind]. destruct (IH st') as [[stages' st''] ->].
    cbn [res_bind]. eauto.
Qed.

(** Replaying the one pipeline of a closure when the resolver returns
    the documents of its shader modules. *)
Lemma parse_graphics_pipelines_resolved fuel r resolver h pipe
    (st : @Replay.State C) :
  0 <= VkGraphicsPipelineCreateInfo.basePipelineIndex pipe →
  VkGraphicsPipelineCreateInfo.basePipelineHandle pipe <= 0 →
  Forall
    (λ stage,
      let module := VkPipelineShaderStageCreateInfo.module stage in
      0 < module →
      is_Some (StateRecorder.shader_modules r !! module)
      ∧ Serialize.serialize_shader_module r module = Ok (resolver module))
    (Replay.stages_member pipe) →
  is_ok (Replay.parse_graphics_pipelines iface resolver
           (Replay.parse (S fuel) iface resolver) [(h, pipe)] st) = true.
Proof.
  intros Hindex Hbase Hresolver.
  unfold Replay.parse_graphics_pipelines. cbn [Replay.for_members].
  unfold Replay.parse_graphics_pipeline.
  destruct (Recording.count (replayed_graphics_pipelines st.1) h);
    [reflexivity|].
  unfold Replay.GetUint.
  destruct (Z.leb_spec 0 (VkGraphicsPipelineCreateInfo.basePipelineIndex
                            pipe)); [|lia].
  destruct (Z.ltb_spec 0 (VkGraphicsPipelineCreateInfo.basePipelineHandle
                            pipe)); [lia|].
  cbn [res_bind].
  destruct (Replay.resolve_handle replayed_pipeline_layouts _ _ st)
    as [layout st1].
  destruct (Replay.resolve_handle replayed_render_passes _ _ st1)
    as [renderPass st2].
  destruct (parse_stages_resolved fuel r resolver _ Hresolver st2)
    as [[stages st3] ->].
  cbn [res_bind].
  match goal with
  | |- context [Replay.create ?e ?g ?s ?h ?i ?m ?st] =>
      destruct (create_ok e g s h i m st) as (created & c' & ->);
        [apply Haccepts|]
  end.
  reflexivity.
Qed.

End ReplayFacts.

Lemma parse_S {C : Type} fuel (iface : StateCreatorInterface C) resolver
    buffer st :
  Replay.parse (S fuel) iface resolver buffer st
  = Replay.parse_buffer iface resolver (Replay.parse fuel iface resolver)
      buffer st.
Proof. reflexivity. Qed.




(** ** Sub-states that the dynamic states take out of the hash *)

Section SubstateInvariance.
Import Hashing.

Lemma hash_bind_both {A B} (m m' : HashM A) (f g : A → HashM B)
    (s : Hasher.t) :
  m' s = m s → (∀ a s', m s = Ok (a, s') → f a s' = g a s') →
  hash_bind m' f s = hash_bind m g s.
Proof.
  intros Hm Hfg. unfold hash_bind. rewrite Hm.
  destruct (m s) as [[a s']| | |]; [now apply Hfg | reflexivity..].
Qed.

(** A local [dynamic_*] that a case of the switch sets stays set. *)
Lemma fold_switch_flag (p : DynamicFlags → bool) (k : Z) :
  (∀ v d, p (switch_dynamic_state v d) = (v =? k) || p d) →
  ∀ l d,
    In k l ∨ p d = true →
    p (fold_left (λ d v, switch_dynamic_state v d) l d) = true.
Proof.
  intros Hp l. induction l as [|v l IH]; intros d Hset; cbn [fold_left].
  - destruct Hset as [[]|Hd]. exact Hd.
  - apply IH. destruct Hset as [[->|Hin]|Hd].
    + right. rewrite Hp, Z.eqb_refl. reflexivity.
    + now left.
    + right. rewrite Hp, Hd. apply orb_true_r.
Qed.

Lemma dynamic_state_flag (p : DynamicFlags → bool) (k : Z)
    (ci : VkGraphicsPipelineCreateInfo.t) (s s' : Hasher.t)
    (d : DynamicFlags) :
  (∀ v d, p (switch_dynamic_state v d) = (v =? k) || p d) →
  dynamic_state_listed k ci →
  hash_dynamic_state ci.(VkGraphicsPipelineCreateInfo.pDynamicState) s
  = Ok (d, s') →
  p d = true.
Proof.
  intros Hp. unfold dynamic_state_listed, hash_dynamic_state.
  destruct (VkGraphicsPipelineCreateInfo.pDynamicState ci) as [st|];
    [|intros []].
  intros Hin Hrun.
  unfold hash_bind at 1 2 in Hrun. cbn [H.u32] in Hrun.
  apply (for_acc_result
           (λ v d, hash_bind (H.u32 v)
                     (λ _, hash_ret (switch_dynamic_state v d)))
           switch_dynamic_state) in Hrun.
  - subst d. rewrite drop_0. apply (fold_switch_flag p k Hp). now left.
  - intros x b s0 r s0' Hx. unfold hash_bind, H.u32, hash_ret in Hx.
    congruence.
Qed.

(** Two descriptors that differ at most in their depth-stencil,
    rasterization, viewport and color-blend states feed the same words
    when these four blocks do, for the locals [dynamic_*] that the block
    of the dynamic state leaves. *)
Lemma feed_graphics_pipeline_blocks (r : StateRecorder.t)
    (ci ci' : VkGraphicsPipelineCreateInfo.t) :
  ci'.(VkGraphicsPipelineCreateInfo.flags)
  = ci.(VkGraphicsPipelineCreateInfo.flags) →
  ci'.(VkGraphicsPipelineCreateInfo.basePipelineHandle)
  = ci.(VkGraphicsPipelineCreateInfo.basePipelineHandle) →
  ci'.(VkGraphicsPipelineCreateInfo.basePipelineIndex)
  = ci.(VkGraphicsPipelineCreateInfo.basePipelineIndex) →
  ci'.(VkGraphicsPipelineCreateInfo.layout)
  = ci.(VkGraphicsPipelineCreateInfo.layout) →
  ci'.(VkGraphicsPipelineCreateInfo.renderPass)
  = ci.(VkGraphicsPipelineCreateInfo.renderPass) →
  ci'.(VkGraphicsPipelineCreateInfo.subpass)
  = ci.(VkGraphicsPipelineCreateInfo.subpass) →
  ci'.(VkGraphicsPipelineCreateInfo.stageCount)
  = ci.(VkGraphicsPipelineCreateInfo.stageCount) →
  ci'.(VkGraphicsPipelineCreateInfo.pStages)
  = ci.(VkGraphicsPipelineCreateInfo.pStages) →
  ci'.(VkGraphicsPipelineCreateInfo.pDynamicState)
  = ci.(VkGraphicsPipelineCreateInfo.pDynamicState) →
  ci'.(VkGraphicsPipelineCreateInfo.pInputAssemblyState)
  = ci.(VkGraphicsPipelineCreateInfo.pInputAssemblyState) →
  ci'.(VkGraphicsPipelineCreateInfo.pMultisampleState)
  = ci.(VkGraphicsPipelineCreateInfo.pMultisampleState) →
  ci'.(VkGraphicsPipelineCreateInfo.pVertexInputState)
  = ci.(VkGraphicsPipelineCreateInfo.pVertexInputState) →
  ci'.(VkGraphicsPipelineCreateInfo.pTessellationState)
  = ci.(VkGraphicsPipelineCreateInfo.pTessellationState) →
  (∀ d s s',
     hash_dynamic_state ci.(VkGraphicsPipelineCreateInfo.pDynamicState) s
     = Ok (d, s') →
     (∀ s, hash_depth_stencil_state d
             ci'.(VkGraphicsPipelineCreateInfo.pDepthStencilState) s
           = hash_depth_stencil_state d
               ci.(VkGraphicsPipelineCreateInfo.pDepthStencilState) s)
     ∧ (∀ s, hash_rasterization_state d
               ci'.(VkGraphicsPipelineCreateInfo.pRasterizationState) s
             = hash_rasterization_state d
                 ci.(VkGraphicsPipelineCreateInfo.pRasterizationState) s)
     ∧ (∀ s, hash_viewport_state d
               ci'.(VkGraphicsPipelineCreateInfo.pViewportState) s
             = hash_viewport_state d
                 ci.(VkGraphicsPipelineCreateInfo.pViewportState) s)
     ∧ (∀ s, hash_color_blend_state d
               ci'.(VkGraphicsPipelineCreateInfo.pColorBlendState) s
             = hash_color_blend_state d
                 ci.(VkGraphicsPipelineCreateInfo.pColorBlendState) s)) →
  compute_hash_graphics_pipeline r ci' = compute_hash_graphics_pipeline r ci.
Proof.
  intros H1 H2 H3 H4 H5 H6 H7 H8 H9 H10 H11 H12 H13 Hblocks.
  unfold compute_hash_graphics_pipeline, hashed.
  enough (Hrun : ∀ s, feed_graphics_pipeline r ci' s
                      = feed_graphics_pipeline r ci s) by now rewrite Hrun.
  intros s. unfold feed_graphics_pipeline.
  rewrite H1, H2, H3, H4, H5, H6, H7, H8, H9, H10, H11, H12, H13.
  do 8 (apply hash_bind_ext; intros ? ? ?).
  apply hash_bind_ext. intros d s1 Hd.
  destruct (Hblocks d _ _ Hd) as (Hds & Hrs & Hvp & Hcb).
  apply hash_bind_both; [apply Hds|]. intros ? ? ?.
  apply hash_bind_ext; intros ? ? ?.
  apply hash_bind_both; [apply Hrs|]. intros ? ? ?.
  apply hash_bind_ext; intros ? ? ?.
  apply hash_bind_both; [apply Hvp|]. intros ? ? ?.
  apply hash_bind_ext; intros ? ? ?.
  apply hash_bind_both; [apply Hcb|]. intros ? ? ?.
  reflexivity.
Qed.

End SubstateInvariance.
Section SubstateBlocks.
Import Hashing.

Lemma viewport_block_same (d : DynamicFlags)
    (vp vp' : VkPipelineViewportStateCreateInfo.t) :
  same_viewport_counts vp vp' →
  dynamic_viewport d = true
  ∨ vp'.(VkPipelineViewportStateCreateInfo.pViewports)
    = vp.(VkPipelineViewportStateCreateInfo.pViewports) →
  dynamic_scissor d = true
  ∨ vp'.(VkPipelineViewportStateCreateInfo.pScissors)
    = vp.(VkPipelineViewportStateCreateInfo.pScissors) →
  hash_viewport_state d (Some vp') = hash_viewport_state d (Some vp).
Proof.
  intros (Hflags & Hsc & Hvc) Hviewports Hscissors.
  unfold hash_viewport_state. rewrite Hflags, Hsc, Hvc.
  destruct Hviewports as [-> | ->], Hscissors as [-> | ->];
    cbn [negb]; reflexivity.
Qed.

Lemma rasterization_block_same (d : DynamicFlags)
    (rs rs' : VkPipelineRasterizationStateCreateInfo.t) :
  same_rasterization_modes rs rs' →
  dynamic_line_width d = true
  ∨ rs'.(VkPipelineRasterizationStateCreateInfo.lineWidth)
    = rs.(VkPipelineRasterizationStateCreateInfo.lineWidth) →
  dynamic_depth_bias d = true
  ∨ rs.(VkPipelineRasterizationStateCreateInfo.depthBiasEnable) = 0
  ∨ same_depth_bias rs rs' →
  hash_rasterization_state d (Some rs')
  = hash_rasterization_state d (Some rs).
Proof.
  intros (Hf & Hc & Hdc & Hff & Hrd & Hpm & Hbe) Hwidth Hbias.
  unfold hash_rasterization_state. rewrite Hf, Hc, Hdc, Hff, Hrd, Hpm, Hbe.
  assert (Hbias' :
    (if truthy (VkPipelineRasterizationStateCreateInfo.depthBiasEnable rs)
        && negb (dynamic_depth_bias d)
     then
       (H.f32 (VkPipelineRasterizationStateCreateInfo.depthBiasClamp rs') ;;
        H.f32 (VkPipelineRasterizationStateCreateInfo.depthBiasSlopeFactor
                 rs') ;;
        H.f32 (VkPipelineRasterizationStateCreateInfo.depthBiasConstantFactor
                 rs'))%hash
     else hash_ret tt)
    = (if truthy (VkPipelineRasterizationStateCreateInfo.depthBiasEnable rs)
          && negb (dynamic_depth_bias d)
       then
         (H.f32 (VkPipelineRasterizationStateCreateInfo.depthBiasClamp rs) ;;
          H.f32 (VkPipelineRasterizationStateCreateInfo.depthBiasSlopeFactor
                   rs) ;;
          H.f32
            (VkPipelineRasterizationStateCreateInfo.depthBiasConstantFactor
               rs))%hash
       else hash_ret tt)).
  { destruct Hbias as [-> | [-> | (-> & -> & ->)]];
      [now rewrite andb_false_r | reflexivity | reflexivity]. }
  rewrite Hbias'.
  destruct Hwidth as [-> | ->]; reflexivity.
Qed.

Lemma depth_stencil_block_same (d : DynamicFlags)
    (ds ds' : VkPipelineDepthStencilStateCreateInfo.t) :
  same_depth_stencil_tests ds ds' →
  ds.(VkPipelineDepthStencilStateCreateInfo.stencilTestEnable) = 0
  ∨ (dynamic_stencil_compare d = true
     ∨ same_stencil_field VkStencilOpState.compareMask ds ds')
    ∧ (dynamic_stencil_reference d = true
       ∨ same_stencil_field VkStencilOpState.reference ds ds')
    ∧ (dynamic_stencil_write_mask d = true
       ∨ same_stencil_field VkStencilOpState.writeMask ds ds') →
  hash_depth_stencil_state d (Some ds') = hash_depth_stencil_state d (Some ds).
Proof.
  intros (Hf & Hbt & Hco & Hdt & Hdw & Hst & Hmin & Hmax & Hfaces) Hmasks.
  destruct (Hfaces VkPipelineDepthStencilStateCreateInfo.front
              (or_introl eq_refl)) as (Hf1 & Hf2 & Hf3 & Hf4).
  destruct (Hfaces VkPipelineDepthStencilStateCreateInfo.back
              (or_intror eq_refl)) as (Hb1 & Hb2 & Hb3 & Hb4).
  unfold hash_depth_stencil_state. cbv zeta.
  rewrite Hf, Hbt, Hco, Hdt, Hdw, Hst, Hmin, Hmax,
    Hf1, Hf2, Hf3, Hf4, Hb1, Hb2, Hb3, Hb4.
  destruct Hmasks as [-> | (Hcompare & Hreference & Hwrite)];
    [reflexivity|].
  destruct Hcompare as [-> | [-> ->]], Hreference as [-> | [-> ->]],
    Hwrite as [-> | [-> ->]]; reflexivity.
Qed.

(** The local [need_blend_constants] is still false after a loop over
    attachments of which none blends with a constant factor. *)
Lemma blend_loop_need (atts : list VkPipelineColorBlendAttachmentState.t)
    (n : nat) (s s' : Hasher.t) (need : bool) :
  Forall
    (λ a, a.(VkPipelineColorBlendAttachmentState.blendEnable) = 0
          ∨ uses_blend_constants a = false) (take n atts) →
  for_acc n 0
    (λ i need, hash_bind (hash_lift (index atts i))
                 (λ a, hash_blend_attachment a need)) false s
  = Ok (need, s') →
  need = false.
Proof.
  intros Hnone Hrun.
  apply (for_acc_result hash_blend_attachment blend_attachment_need)
    in Hrun.
  - subst need. rewrite drop_0.
    generalize dependent (take n atts). intros l Hnone.
    induction Hnone as [|a l Ha _ IH]; [reflexivity|].
    cbn [fold_left]. unfold blend_attachment_need at 2.
    destruct Ha as [-> | ->]; [exact IH|].
    destruct (_ =? 0); exact IH.
  - intros a b s0 r s0' Ha.
    pose proof (feeds_blend_attachment_words a b s0) as Hfeeds.
    rewrite Hfeeds in Ha. congruence.
Qed.

Lemma color_blend_block_same (d : DynamicFlags)
    (b b' : VkPipelineColorBlendStateCreateInfo.t) (s : Hasher.t) :
  same_blend_state b b' →
  dynamic_blend_constants d = true ∨ no_constant_blend b →
  hash_color_blend_state d (Some b') s = hash_color_blend_state d (Some b) s.
Proof.
  intros (Hf & Hac & Hle & Hlo & Hatts) Hskip.
  unfold hash_color_blend_state. rewrite Hf, Hac, Hle, Hlo, Hatts.
  do 4 (apply hash_bind_ext; intros ? ? ?).
  apply hash_bind_ext. intros need s1 Hloop.
  destruct Hskip as [-> | Hnone].
  - now rewrite andb_false_r.
  - rewrite (blend_loop_need _ _ _ _ _ Hnone Hloop). reflexivity.
Qed.

End SubstateBlocks.
Ltac switch_case := intros ? ?; reflexivity.

(** X1.  Viewports and scissors that are dynamic state are left out of
    the hash of a graphics pipeline: two descriptors that differ only in
    the viewport array, with [VK_DYNAMIC_STATE_VIEWPORT] listed, or only
    in the scissor array, with [VK_DYNAMIC_STATE_SCISSOR] listed, have
    the same hash (the two counts are hashed in every case). *)
Theorem X1_dynamic_viewport_scissor (r : StateRecorder.t)
    (ci : VkGraphicsPipelineCreateInfo.t)
    (vp vp' : VkPipelineViewportStateCreateInfo.t) :
  ci.(VkGraphicsPipelineCreateInfo.pViewportState) = Some vp →
  same_viewport_counts vp vp' →
  dynamic_state_listed VK_DYNAMIC_STATE_VIEWPORT ci
  ∨ vp'.(VkPipelineViewportStateCreateInfo.pViewports)
    = vp.(VkPipelineViewportStateCreateInfo.pViewports) →
  dynamic_state_listed VK_DYNAMIC_STATE_SCISSOR ci
  ∨ vp'.(VkPipelineViewportStateCreateInfo.pScissors)
    = vp.(VkPipelineViewportStateCreateInfo.pScissors) →
  Hashing.compute_hash_graphics_pipeline r (with_pViewportState ci (Some vp'))
  = Hashing.compute_hash_graphics_pipeline r ci.
Proof.
  intros Hvp Hcounts Hviewports Hscissors.
  apply feed_graphics_pipeline_blocks; try reflexivity.
  intros d s s' Hd. cbn [with_pViewportState
    VkGraphicsPipelineCreateInfo.pDepthStencilState
    VkGraphicsPipelineCreateInfo.pRasterizationState
    VkGraphicsPipelineCreateInfo.pViewportState
    VkGraphicsPipelineCreateInfo.pColorBlendState].
  repeat split; try reflexivity.
  intros s0. rewrite Hvp. apply (f_equal (λ m, m s0)).
  apply viewport_block_same; [exact Hcounts | |].
  - destruct Hviewports as [Hlisted|Heq]; [left|now right].
    apply (dynamic_state_flag Hashing.dynamic_viewport
             VK_DYNAMIC_STATE_VIEWPORT ci s s' d); [switch_case|assumption..].
  - destruct Hscissors as [Hlisted|Heq]; [left|now right].
    apply (dynamic_state_flag Hashing.dynamic_scissor
             VK_DYNAMIC_STATE_SCISSOR ci s s' d); [switch_case|assumption..].
Qed.
Lemma X1_dynamic_viewport_scissor_witness :
  Hashing.compute_hash_graphics_pipeline sample_recorder
    (with_pViewportState sample_dynamic_pipeline
       (Some sample_viewport_state'))
  = Hashing.compute_hash_graphics_pipeline sample_recorder
      sample_dynamic_pipeline
  ∧ is_ok (Hashing.compute_hash_graphics_pipeline sample_recorder
             sample_dynamic_pipeline) = true.
Proof.
  split; [|vm_compute; reflexivity].
  eapply X1_dynamic_viewport_scissor.
  - reflexivity.
  - vm_compute. repeat split.
  - left. vm_compute. auto 20.
  - left. vm_compute. auto 20.
Defined.

(** X2.  The line width and the three depth-bias factors of the
    rasterization state are left out of the hash of a graphics pipeline
    when they are dynamic state; the depth-bias factors also when
    [depthBiasEnable] is off. *)
Theorem X2_dynamic_line_width_depth_bias (r : StateRecorder.t)
    (ci : VkGraphicsPipelineCreateInfo.t)
    (rs rs' : VkPipelineRasterizationStateCreateInfo.t) :
  ci.(VkGraphicsPipelineCreateInfo.pRasterizationState) = Some rs →
  same_rasterization_modes rs rs' →
  dynamic_state_listed VK_DYNAMIC_STATE_LINE_WIDTH ci
  ∨ rs'.(VkPipelineRasterizationStateCreateInfo.lineWidth)
    = rs.(VkPipelineRasterizationStateCreateInfo.lineWidth) →
  dynamic_state_listed VK_DYNAMIC_STATE_DEPTH_BIAS ci
  ∨ rs.(VkPipelineRasterizationStateCreateInfo.depthBiasEnable) = 0
  ∨ same_depth_bias rs rs' →
  Hashing.compute_hash_graphics_pipeline r
    (with_pRasterizationState ci (Some rs'))
  = Hashing.compute_hash_graphics_pipeline r ci.
Proof.
  intros Hrs Hmodes Hwidth Hbias.
  apply feed_graphics_pipeline_blocks; try reflexivity.
  intros d s s' Hd. cbn [with_pRasterizationState
    VkGraphicsPipelineCreateInfo.pDepthStencilState
    VkGraphicsPipelineCreateInfo.pRasterizationState
    VkGraphicsPipelineCreateInfo.pViewportState
    VkGraphicsPipelineCreateInfo.pColorBlendState].
  repeat split; try reflexivity.
  intros s0. rewrite Hrs. apply (f_equal (λ m, m s0)).
  apply rasterization_block_same; [exact Hmodes | |].
  - destruct Hwidth as [Hlisted|Heq]; [left|now right].
    apply (dynamic_state_flag Hashing.dynamic_line_width
             VK_DYNAMIC_STATE_LINE_WIDTH ci s s' d);
      [switch_case|assumption..].
  - destruct Hbias as [Hlisted|Hrest]; [left|now right].
    apply (dynamic_state_flag Hashing.dynamic_depth_bias
             VK_DYNAMIC_STATE_DEPTH_BIAS ci s s' d);
      [switch_case|assumption..].
Qed.

Lemma X2_dynamic_line_width_depth_bias_witness :
  Hashing.compute_hash_graphics_pipeline sample_recorder
    (with_pRasterizationState sample_dynamic_pipeline
       (Some sample_rasterization_state'))
  = Hashing.compute_hash_graphics_pipeline sample_recorder
      sample_dynamic_pipeline
  ∧ is_ok (Hashing.compute_hash_graphics_pipeline sample_recorder
             sample_dynamic_pipeline) = true.
Proof.
  split; [|vm_compute; reflexivity].
  eapply X2_dynamic_line_width_depth_bias.
  - reflexivity.
  - vm_compute. repeat split.
  - left. vm_compute. auto 20.
  - left. vm_compute. auto 20.
Defined.

(** X3.  The compare masks, references and write masks of the two
    stencil faces are left out of the hash of a graphics pipeline when
    the stencil test is off, and each of the three when it is dynamic
    state. *)
Theorem X3_dynamic_stencil_masks (r : StateRecorder.t)
    (ci : VkGraphicsPipelineCreateInfo.t)
    (ds ds' : VkPipelineDepthStencilStateCreateInfo.t) :
  ci.(VkGraphicsPipelineCreateInfo.pDepthStencilState) = Some ds →
  same_depth_stencil_tests ds ds' →
  ds.(VkPipelineDepthStencilStateCreateInfo.stencilTestEnable) = 0
  ∨ (dynamic_state_listed VK_DYNAMIC_STATE_STENCIL_COMPARE_MASK ci
     ∨ same_stencil_field VkStencilOpState.compareMask ds ds')
    ∧ (dynamic_state_listed VK_DYNAMIC_STATE_STENCIL_REFERENCE ci
       ∨ same_stencil_field VkStencilOpState.reference ds ds')
    ∧ (dynamic_state_listed VK_DYNAMIC_STATE_STENCIL_WRITE_MASK ci
       ∨ same_stencil_field VkStencilOpState.writeMask ds ds') →
  Hashing.compute_hash_graphics_pipeline r
    (VkGraphicsPipelineCreateInfo.with_pDepthStencilState ci (Some ds'))
  = Hashing.compute_hash_graphics_pipeline r ci.
Proof.
  intros Hds Htests Hmasks.
  apply feed_graphics_pipeline_blocks; try reflexivity.
  intros d s s' Hd.
  cbn [VkGraphicsPipelineCreateInfo.with_pDepthStencilState
    VkGraphicsPipelineCreateInfo.pDepthStencilState
    VkGraphicsPipelineCreateInfo.pRasterizationState
    VkGraphicsPipelineCreateInfo.pViewportState
    VkGraphicsPipelineCreateInfo.pColorBlendState].
  repeat split; try reflexivity.
  intros s0. rewrite Hds. apply (f_equal (λ m, m s0)).
  apply depth_stencil_block_same; [exact Htests|].
  destruct Hmasks as [Hoff | (Hcompare & Hreference & Hwrite)];
    [now left | right].
  split; [|split].
  - destruct Hcompare as [Hlisted|Heq]; [left|now right].
    apply (dynamic_state_flag Hashing.dynamic_stencil_compare
             VK_DYNAMIC_STATE_STENCIL_COMPARE_MASK ci s s' d);
      [switch_case|assumption..].
  - destruct Hreference as [Hlisted|Heq]; [left|now right].
    apply (dynamic_state_flag Hashing.dynamic_stencil_reference
             VK_DYNAMIC_STATE_STENCIL_REFERENCE ci s s' d);
      [switch_case|assumption..].
  - destruct Hwrite as [Hlisted|Heq]; [left|now right].
    apply (dynamic_state_flag Hashing.dynamic_stencil_write_mask
             VK_DYNAMIC_STATE_STENCIL_WRITE_MASK ci s s' d);
      [switch_case|assumption..].
Qed.

(** X4.  The blend constants are left out of the hash of a graphics
    pipeline when they are dynamic state, and when no enabled
    attachment blends with a constant factor. *)
Theorem X4_blend_constants (r : StateRecorder.t)
    (ci : VkGraphicsPipelineCreateInfo.t)
    (b b' : VkPipelineColorBlendStateCreateInfo.t) :
  ci.(VkGraphicsPipelineCreateInfo.pColorBlendState) = Some b →
  same_blend_state b b' →
  dynamic_state_listed VK_DYNAMIC_STATE_BLEND_CONSTANTS ci
  ∨ no_constant_blend b →
  Hashing.compute_hash_graphics_pipeline r
    (VkGraphicsPipelineCreateInfo.with_pColorBlendState ci (Some b'))
  = Hashing.compute_hash_graphics_pipeline r ci.
Proof.
  intros Hb Hsame Hskip.
  apply feed_graphics_pipeline_blocks; try reflexivity.
  intros d s s' Hd.
  cbn [VkGraphicsPipelineCreateInfo.with_pColorBlendState
    VkGraphicsPipelineCreateInfo.pDepthStencilState
    VkGraphicsPipelineCreateInfo.pRasterizationState
    VkGraphicsPipelineCreateInfo.pViewportState
    VkGraphicsPipelineCreateInfo.pColorBlendState].
  repeat split; try reflexivity.
  intros s0. rewrite Hb.
  apply color_blend_block_same; [exact Hsame|].
  destruct Hskip as [Hlisted|Hnone]; [left|now right].
  apply (dynamic_state_flag Hashing.dynamic_blend_constants
           VK_DYNAMIC_STATE_BLEND_CONSTANTS ci s s' d);
    [switch_case|assumption..].
Qed.
Lemma X3_dynamic_stencil_masks_witness :
  let ci :=
    VkGraphicsPipelineCreateInfo.with_pDepthStencilState
      sample_dynamic_pipeline (Some sample_stencil_state) in
  Hashing.compute_hash_graphics_pipeline sample_recorder
    (VkGraphicsPipelineCreateInfo.with_pDepthStencilState ci
       (Some sample_stencil_state'))
  = Hashing.compute_hash_graphics_pipeline sample_recorder ci
  ∧ is_ok (Hashing.compute_hash_graphics_pipeline sample_recorder ci) = true.
Proof.
  split; [|vm_compute; reflexivity].
  eapply X3_dynamic_stencil_masks.
  - reflexivity.
  - unfold same_depth_stencil_tests. cbv zeta. repeat split; try reflexivity.
    all: match goal with H : _ ∨ _ |- _ => destruct H as [-> | ->] end;
      reflexivity.
  - right. repeat split; left; vm_compute; auto 20.
Defined.

Lemma X4_blend_constants_witness :
  let ci :=
    VkGraphicsPipelineCreateInfo.with_pColorBlendState
      sample_dynamic_pipeline
      (Some (sample_constant_blend_state (0, 0, 0, 0))) in
  Hashing.compute_hash_graphics_pipeline sample_recorder
    (VkGraphicsPipelineCreateInfo.with_pColorBlendState ci
       (Some (sample_constant_blend_state
                (0x3f800000, 0x3f000000, 0, 0x3f800000))))
  = Hashing.compute_hash_graphics_pipeline sample_recorder ci
  ∧ is_ok (Hashing.compute_hash_graphics_pipeline sample_recorder ci) = true.
Proof.
  split; [|vm_compute; reflexivity].
  eapply X4_blend_constants.
  - reflexivity.
  - repeat split.
  - left. vm_compute. auto 20.
Defined.

(** ** The width of a hash *)

Section HashRange.
Import Hashing.

Lemma lxor_range (a b : Z) (n : Z) :
  0 <= n → 0 <= a < 2 ^ n → 0 <= b < 2 ^ n → 0 <= Z.lxor a b < 2 ^ n.
Proof.
  intros Hn Ha Hb.
  assert (Hnonneg : 0 <= Z.lxor a b) by (apply Z.lxor_nonneg; lia).
  split; [exact Hnonneg|].
  destruct (Z.eq_dec (Z.lxor a b) 0) as [-> | Hnz]; [lia|].
  apply Z.log2_lt_pow2; [lia|].
  pose proof (Z.log2_lxor a b ltac:(lia) ltac:(lia)) as Hlog.
  assert (Hla : a = 0 ∨ Z.log2 a < n).
  { destruct (Z.eq_dec a 0); [now left | right].
    apply Z.log2_lt_pow2; lia. }
  assert (Hlb : b = 0 ∨ Z.log2 b < n).
  { destruct (Z.eq_dec b 0); [now left | right].
    apply Z.log2_lt_pow2; lia. }
  assert (0 < n).
  { destruct (Z.eq_dec n 0) as [-> | ?]; [|lia].
    assert (a = 0) by lia. assert (b = 0) by lia. subst. now cbn in Hnz. }
  destruct Hla as [-> | Hla], Hlb as [-> | Hlb];
    cbn [Z.log2] in Hlog; lia.
Qed.

Lemma mix_in_range (s : Hasher.t) (v : Z) : hash_in_range (Hasher.mix s v).
Proof.
  unfold hash_in_range, Hasher.mix, uint64, uint32. cbn [Hasher.h].
  apply lxor_range; [lia | apply Z.mod_pos_bound; lia |].
  pose proof (Z.mod_pos_bound v (2 ^ 32)). lia.
Qed.

Lemma init_in_range : hash_in_range Hasher.init.
Proof. unfold hash_in_range. cbn. lia. Qed.

Lemma range_ret {A} (a : A) : keeps_range (hash_ret a).
Proof. intros s a' s' Hs H. unfold hash_ret in H. congruence. Qed.

Lemma range_lift {A} (r : Res A) : keeps_range (hash_lift r).
Proof.
  intros s a s' Hs H. unfold hash_lift in H.
  destruct r; inversion H; subst; exact Hs.
Qed.

Lemma range_bind {A B} (m : HashM A) (f : A → HashM B) :
  keeps_range m → (∀ a, keeps_range (f a)) → keeps_range (hash_bind m f).
Proof.
  intros Hm Hf s b s' Hs H. unfold hash_bind in H.
  destruct (m s) as [[a s1]| | |] eqn:Hms; try discriminate.
  exact (Hf a s1 b s' (Hm s a s1 Hs Hms) H).
Qed.

Lemma range_u32 (v : Z) : keeps_range (H.u32 v).
Proof.
  intros s a s' _ H. unfold H.u32 in H. inversion H. apply mix_in_range.
Qed.

Lemma range_u64 (v : Z) : keeps_range (H.u64 v).
Proof.
  unfold H.u64. apply range_bind; [apply range_u32|].
  intros _. apply range_u32.
Qed.

Lemma range_for_acc {B} (body : nat → B → HashM B) :
  (∀ i b, keeps_range (body i b)) →
  ∀ n i b, keeps_range (for_acc n i body b).
Proof.
  intros Hbody n. induction n as [|n IH]; intros i b; cbn [for_acc].
  - apply range_ret.
  - apply range_bind; [apply Hbody | intros b'; apply IH].
Qed.

Lemma range_for_range (count : Z) (body : nat → HashM unit) :
  (∀ i, keeps_range (body i)) → keeps_range (for_range count body).
Proof. intros Hbody. unfold for_range. now apply range_for_acc. Qed.

Lemma range_string_chars (str : string) : keeps_range (H.string_chars str).
Proof.
  induction str as [|c str IH]; cbn [H.string_chars].
  - apply range_ret.
  - destruct (Base64.is_nul c); [apply range_ret|].
    apply range_bind; [apply range_u32 | intros _; exact IH].
Qed.

End HashRange.

(** Walks through a computation of the hasher. *)
Ltac range_step :=
  lazymatch goal with
  | |- keeps_range (hash_bind _ _) => apply range_bind; [|intros ?]
  | |- keeps_range (H.u32 _) => apply range_u32
  | |- keeps_range (H.f32 _) => apply range_u32
  | |- keeps_range (H.s32 _) => apply range_u32
  | |- keeps_range (H.u64 _) => apply range_u64
  | |- keeps_range (hash_ret _) => apply range_ret
  | |- keeps_range (hash_lift _) => apply range_lift
  | |- keeps_range (H.string_chars _) => apply range_string_chars
  | |- keeps_range (H.string _) => unfold H.string
  | |- keeps_range (H.data _ _ _) => unfold H.data
  | |- keeps_range (for_range _ _) => apply range_for_range; intros ?
  | |- keeps_range (for_acc _ _ _ _) => apply range_for_acc; intros ? ?
  | |- keeps_range (if ?c then _ else _) => destruct c
  | |- keeps_range (match ?x with Some _ => _ | None => _ end) => destruct x
  | |- keeps_range (let '(_, _) := ?x in _) => destruct x
  | |- keeps_range (Hashing.hash_specialization_info _) =>
      unfold Hashing.hash_specialization_info
  | |- keeps_range (Hashing.hash_attachment_reference _) =>
      unfold Hashing.hash_attachment_reference
  | |- keeps_range (Hashing.hash_blend_attachment _ _) =>
      unfold Hashing.hash_blend_attachment
  | |- keeps_range (Hashing.hash_blend_constants _) =>
      unfold Hashing.hash_blend_constants
  | |- keeps_range (Hashing.hash_stage _ _) => unfold Hashing.hash_stage
  | |- keeps_range (Hashing.hash_attachment _) =>
      unfold Hashing.hash_attachment
  | |- keeps_range (Hashing.hash_dependency _) =>
      unfold Hashing.hash_dependency
  | |- keeps_range (Hashing.hash_subpass _) => unfold Hashing.hash_subpass
  | |- keeps_range (Hashing.hash_dynamic_state _) =>
      unfold Hashing.hash_dynamic_state
  | |- keeps_range (Hashing.hash_depth_stencil_state _ _) =>
      unfold Hashing.hash_depth_stencil_state; cbv zeta
  | |- keeps_range (Hashing.hash_input_assembly_state _) =>
      unfold Hashing.hash_input_assembly_state
  | |- keeps_range (Hashing.hash_rasterization_state _ _) =>
      unfold Hashing.hash_rasterization_state
  | |- keeps_range (Hashing.hash_multisample_state _) =>
      unfold Hashing.hash_multisample_state; cbv zeta
  | |- keeps_range (Hashing.hash_viewport_state _ _) =>
      unfold Hashing.hash_viewport_state
  | |- keeps_range (Hashing.hash_vertex_input_state _) =>
      unfold Hashing.hash_vertex_input_state
  | |- keeps_range (Hashing.hash_color_blend_state _ _) =>
      unfold Hashing.hash_color_blend_state
  | |- keeps_range (Hashing.hash_tessellation_state _) =>
      unfold Hashing.hash_tessellation_state
  end.
Ltac range_steps := repeat range_step.

Lemma hashed_in_range (m : HashM unit) (hash : Z) :
  keeps_range m → hashed m = Ok hash → 0 <= hash < 2 ^ 64.
Proof.
  intros Hm H. unfold hashed in H.
  destruct (m Hasher.init) as [[[] s]| | |] eqn:Hrun; try discriminate.
  inversion H. subst hash.
  exact (Hm _ _ _ init_in_range Hrun).
Qed.


(** ** Hashes and handles *)

Section HashByContent.
Import Hashing.

(** Two loops whose bodies agree at the indices they visit. *)
Lemma for_acc_ext {B} (body body' : nat → B → HashM B) :
  ∀ (n i : nat) (b : B) (s : Hasher.t),
    (∀ j b s, (i <= j < i + n)%nat → body j b s = body' j b s) →
    for_acc n i body b s = for_acc n i body' b s.
Proof.
  intros n. induction n as [|n IH]; intros i b s Hbody; [reflexivity|].
  cbn [for_acc]. unfold hash_bind. rewrite Hbody by lia.
  destruct (body' i b s) as [[b1 s1]| | |]; try reflexivity.
  apply IH. intros j b0 s0 Hj. apply Hbody. lia.
Qed.

Lemma for_range_ext (count : Z) (body body' : nat → HashM unit)
    (s : Hasher.t) :
  (∀ j s, (j < Z.to_nat count)%nat → body j s = body' j s) →
  for_range count body s = for_range count body' s.
Proof.
  intros Hbody. unfold for_range. apply for_acc_ext.
  intros j [] s0 Hj. apply Hbody. lia.
Qed.

(** Related arrays are read alike below the count. *)
Lemma index_related {T} (P : T → T → Prop) (arr arr' : list T)
    (n j : nat) :
  Forall2 P (take n arr) (take n arr') → (j < n)%nat →
  match index arr j, index arr' j with
  | Ok x, Ok x' => P x x'
  | Undef, Undef => True
  | _, _ => False
  end.
Proof.
  intros Hrel Hj. unfold index.
  rewrite <- (lookup_take_lt arr n j), <- (lookup_take_lt arr' n j) by lia.
  destruct (take n arr !! j) as [x|] eqn:Hx.
  - destruct (Forall2_lookup_l _ _ _ _ _ Hrel Hx) as (x' & -> & HP).
    exact HP.
  - apply lookup_ge_None in Hx.
    rewrite (Forall2_length _ _ _ Hrel) in Hx.
    apply lookup_ge_None in Hx. now rewrite Hx.
Qed.

End HashByContent.

(** X6.  The hash of a pipeline layout depends on its set layouts only
    through their content hashes: two pipeline layouts with the same
    flags and push-constant ranges whose set layouts are, position by
    position, both null or mapped to the same hash by their recorders,
    have the same hash, whatever the handles are. *)
Theorem X6_pipeline_layout_hash_by_content (r r' : StateRecorder.t)
    (pl pl' : VkPipelineLayoutCreateInfo.t) :
  pl'.(VkPipelineLayoutCreateInfo.flags)
  = pl.(VkPipelineLayoutCreateInfo.flags) →
  pl'.(VkPipelineLayoutCreateInfo.pushConstantRangeCount)
  = pl.(VkPipelineLayoutCreateInfo.pushConstantRangeCount) →
  pl'.(VkPipelineLayoutCreateInfo.pPushConstantRanges)
  = pl.(VkPipelineLayoutCreateInfo.pPushConstantRanges) →
  pl'.(VkPipelineLayoutCreateInfo.setLayoutCount)
  = pl.(VkPipelineLayoutCreateInfo.setLayoutCount) →
  Forall2 (same_set_layout_content r r')
    (take (Z.to_nat pl.(VkPipelineLayoutCreateInfo.setLayoutCount))
       pl.(VkPipelineLayoutCreateInfo.pSetLayouts))
    (take (Z.to_nat pl.(VkPipelineLayoutCreateInfo.setLayoutCount))
       pl'.(VkPipelineLayoutCreateInfo.pSetLayouts)) →
  Hashing.compute_hash_pipeline_layout r' pl'
  = Hashing.compute_hash_pipeline_layout r pl.
Proof.
  intros Hflags Hcount Hranges Hsets Hrel.
  unfold Hashing.compute_hash_pipeline_layout, hashed.
  rewrite Hflags, Hcount, Hranges, Hsets.
  enough (Hloop : ∀ s,
    for_range (VkPipelineLayoutCreateInfo.setLayoutCount pl)
      (λ i,
        hash_bind
          (hash_lift (index (VkPipelineLayoutCreateInfo.pSetLayouts pl') i))
          (λ set_layout,
            if set_layout =? VK_NULL_HANDLE then H.u32 0
            else
              hash_bind
                (hash_lift
                   (StateRecorder.get_hash_for_descriptor_set_layout r'
                      set_layout)) (λ hash, H.u64 hash))) s
    = for_range (VkPipelineLayoutCreateInfo.setLayoutCount pl)
        (λ i,
          hash_bind
            (hash_lift (index (VkPipelineLayoutCreateInfo.pSetLayouts pl) i))
            (λ set_layout,
              if set_layout =? VK_NULL_HANDLE then H.u32 0
              else
                hash_bind
                  (hash_lift
                     (StateRecorder.get_hash_for_descriptor_set_layout r
                        set_layout)) (λ hash, H.u64 hash))) s).
  { unfold hash_bind at 1 2 5 6. cbn [H.u32]. rewrite Hloop. reflexivity. }
  intros s. apply for_range_ext. intros j s0 Hj.
  pose proof (index_related _ _ _ _ j Hrel Hj) as Hidx.
  unfold hash_bind at 1 3, hash_lift at 1 3.
  destruct (index (VkPipelineLayoutCreateInfo.pSetLayouts pl) j)
    as [h| | |], (index (VkPipelineLayoutCreateInfo.pSetLayouts pl') j)
    as [h'| | |]; try contradiction; try reflexivity.
  destruct Hidx as [[-> ->] | (Hh & Hh' & Hsame)]; [reflexivity|].
  apply Z.eqb_neq in Hh, Hh'. rewrite Hh, Hh', Hsame. reflexivity.
Qed.

Lemma X6_pipeline_layout_hash_by_content_witness :
  Hashing.compute_hash_pipeline_layout sample_recorder_9
    (sample_pipeline_layout_over 9)
  = Hashing.compute_hash_pipeline_layout sample_recorder_5
      (sample_pipeline_layout_over 5)
  ∧ is_ok (Hashing.compute_hash_pipeline_layout sample_recorder_5
             (sample_pipeline_layout_over 5)) = true.
Proof.
  split; [|vm_compute; reflexivity].
  apply X6_pipeline_layout_hash_by_content; try reflexivity.
  constructor; [|constructor; [|constructor]].
  - right. unfold VK_NULL_HANDLE. split; [lia|]. split; [lia | reflexivity].
  - left. split; reflexivity.
Defined.

(** ** Hashing a deep copy *)

Section HashOfCopy.
Import Hashing DeepCopy.

Lemma copy_ok {T} (src : list T) (count : Z) (dst : list T) :
  copy src count = Ok dst →
  dst = take (Z.to_nat count) src ∧ (Z.to_nat count <= length src)%nat.
Proof.
  unfold copy. destruct (Nat.leb_spec (Z.to_nat count) (length src)) as [Hle|];
    [|discriminate].
  intros Heq. inversion Heq. auto.
Qed.

Lemma index_take {T} (arr : list T) (n j : nat) :
  (j < n)%nat → index (take n arr) j = index arr j.
Proof. intros Hj. unfold index. now rewrite lookup_take_lt. Qed.

(** The elements that a loop over the first [n] elements rewrites. *)
Lemma for_each_lookup {T} (f : T → Res T) :
  ∀ (n : nat) (arr arr' : list T),
    for_each f n arr = Ok arr' →
    ∀ j, (j < n)%nat →
      ∃ x x', arr !! j = Some x ∧ f x = Ok x' ∧ arr' !! j = Some x'.
Proof.
  intros n. induction n as [|n IH]; intros arr arr' Hrun j Hj; [lia|].
  cbn [for_each] in Hrun. destruct arr as [|x rest]; [discriminate|].
  destruct (f x) as [x'| | |] eqn:Hx; try discriminate.
  cbn [res_bind] in Hrun.
  destruct (for_each f n rest) as [rest'| | |] eqn:Hrest; try discriminate.
  cbn [res_bind] in Hrun. inversion Hrun. subst arr'.
  destruct j as [|j]; [eauto|].
  apply (IH _ _ Hrest j). lia.
Qed.

(** A loop over a rewritten array runs as the loop over the array when
    its body does not tell an element from its rewriting. *)
Lemma for_range_rewritten {T} (f : T → Res T) (body : T → HashM unit)
    (count : Z) (arr arr' : list T) (s : Hasher.t) :
  for_each f (Z.to_nat count) arr = Ok arr' →
  (∀ x x' s, f x = Ok x' → body x' s = body x s) →
  for_range count (λ i, hash_bind (hash_lift (index arr' i)) body) s
  = for_range count (λ i, hash_bind (hash_lift (index arr i)) body) s.
Proof.
  intros Hrun Hbody. apply for_range_ext. intros j s0 Hj.
  destruct (for_each_lookup f _ _ _ Hrun j Hj) as (x & x' & Hx & Hfx & Hx').
  unfold index. rewrite Hx, Hx'. unfold hash_bind, hash_lift.
  now apply Hbody.
Qed.

Lemma for_range_take {T} (body : T → HashM unit) (count : Z)
    (arr : list T) (s : Hasher.t) :
  for_range count
    (λ i, hash_bind (hash_lift (index (take (Z.to_nat count) arr) i)) body) s
  = for_range count (λ i, hash_bind (hash_lift (index arr i)) body) s.
Proof.
  apply for_range_ext. intros j s0 Hj. now rewrite index_take.
Qed.

Lemma string_chars_c_str (str : string) :
  H.string_chars (c_str str) = H.string_chars str.
Proof.
  induction str as [|c str IH]; [reflexivity|].
  cbn [c_str H.string_chars].
  destruct (Base64.is_nul c) eqn:Hc; [reflexivity|].
  cbn [H.string_chars]. rewrite Hc, IH. reflexivity.
Qed.

Lemma hash_specialization_info_copy (spec spec' : VkSpecializationInfo.t)
    (s : Hasher.t) :
  copy_specialization_info spec = Ok spec' →
  hash_specialization_info spec' s = hash_specialization_info spec s.
Proof.
  unfold copy_specialization_info. cbv zeta.
  destruct (copy (VkSpecializationInfo.pMapEntries spec) _)
    as [entries| | |] eqn:Hentries; try discriminate.
  cbn [res_bind].
  destruct (copy (VkSpecializationInfo.pData spec) _)
    as [bytes| | |] eqn:Hbytes; try discriminate.
  cbn [res_bind]. intros Heq. inversion Heq. subst spec'. clear Heq.
  apply copy_ok in Hentries. destruct Hentries as [-> _].
  apply copy_ok in Hbytes. destruct Hbytes as [-> _].
  unfold hash_specialization_info, H.data.
  cbn [VkSpecializationInfo.pData VkSpecializationInfo.dataSize
       VkSpecializationInfo.mapEntryCount VkSpecializationInfo.pMapEntries].
  rewrite Z.div_1_r.
  apply hash_bind_both; [apply for_range_take|]. intros ? ? ?.
  do 2 (apply hash_bind_ext; intros ? ? ?).
  apply for_range_take.
Qed.

Lemma hash_specialization_info_opt_copy
    (p p' : option VkSpecializationInfo.t) (s : Hasher.t) :
  copy_specialization_info_opt p = Ok p' →
  match p' with
  | Some spec => hash_specialization_info spec
  | None => H.u32 0
  end s
  = match p with
    | Some spec => hash_specialization_info spec
    | None => H.u32 0
    end s.
Proof.
  destruct p as [spec|]; cbn [copy_specialization_info_opt].
  - unfold res_map.
    destruct (copy_specialization_info spec) as [spec'| | |] eqn:Hspec;
      try discriminate.
    cbn [res_bind]. intros Heq. inversion Heq.
    now apply hash_specialization_info_copy.
  - intros Heq. inversion Heq. reflexivity.
Qed.

(** Takes a successful sequence of fallible steps apart. *)
Ltac copy_steps Hcopy :=
  repeat match type of Hcopy with
         | res_bind ?m _ = Ok _ =>
             let Hstep := fresh "Hstep" in
             destruct m eqn:Hstep; try discriminate Hcopy;
             cbn [res_bind] in Hcopy
         end.

Lemma for_acc_take {T B} (body : T → B → HashM B) (n : nat) (arr : list T)
    (b : B) (s : Hasher.t) :
  for_acc n 0
    (λ i b, hash_bind (hash_lift (index (take n arr) i)) (λ x, body x b)) b s
  = for_acc n 0
      (λ i b, hash_bind (hash_lift (index arr i)) (λ x, body x b)) b s.
Proof.
  apply for_acc_ext. intros j b0 s0 Hj. rewrite index_take by lia.
  reflexivity.
Qed.

Lemma hash_shader_module_copy r (ci ci' : VkShaderModuleCreateInfo.t) :
  copy_shader_module ci = Ok ci' →
  compute_hash_shader_module r ci' = compute_hash_shader_module r ci.
Proof.
  unfold copy_shader_module. cbv zeta. intros Hcopy. copy_steps Hcopy.
  inversion Hcopy. subst ci'. clear Hcopy.
  apply copy_ok in Hstep. destruct Hstep as [-> _].
  unfold compute_hash_shader_module, hashed, H.data.
  cbn [VkShaderModuleCreateInfo.pCode VkShaderModuleCreateInfo.codeSize
       VkShaderModuleCreateInfo.flags].
  unfold hash_bind at 1 3. rewrite for_range_take. reflexivity.
Qed.

Lemma hash_binding_copy r (b b' : VkDescriptorSetLayoutBinding.t)
    (s : Hasher.t) :
  copy_binding b = Ok b' →
  (H.u32 b'.(VkDescriptorSetLayoutBinding.binding) ;;
   H.u32 b'.(VkDescriptorSetLayoutBinding.descriptorCount) ;;
   H.u32 b'.(VkDescriptorSetLayoutBinding.descriptorType) ;;
   H.u32 b'.(VkDescriptorSetLayoutBinding.stageFlags) ;;
   match immutable_samplers b' with
   | Some samplers =>
       for_range b'.(VkDescriptorSetLayoutBinding.descriptorCount)
         (λ j,
           sampler ← hash_lift (index samplers j);
           hash ← hash_lift (StateRecorder.get_hash_for_sampler r sampler);
           H.u64 hash)
   | None => hash_ret tt
   end)%hash s
  = (H.u32 b.(VkDescriptorSetLayoutBinding.binding) ;;
     H.u32 b.(VkDescriptorSetLayoutBinding.descriptorCount) ;;
     H.u32 b.(VkDescriptorSetLayoutBinding.descriptorType) ;;
     H.u32 b.(VkDescriptorSetLayoutBinding.stageFlags) ;;
     match immutable_samplers b with
     | Some samplers =>
         for_range b.(VkDescriptorSetLayoutBinding.descriptorCount)
           (λ j,
             sampler ← hash_lift (index samplers j);
             hash ← hash_lift (StateRecorder.get_hash_for_sampler r sampler);
             H.u64 hash)
     | None => hash_ret tt
     end)%hash s.
Proof.
  unfold copy_binding.
  destruct (immutable_samplers b) as [samplers|] eqn:Himm.
  - intros Hcopy. copy_steps Hcopy. inversion Hcopy. subst b'. clear Hcopy.
    apply copy_ok in Hstep. destruct Hstep as [-> _].
    unfold immutable_samplers in Himm |- *.
    cbn [VkDescriptorSetLayoutBinding.binding
         VkDescriptorSetLayoutBinding.descriptorCount
         VkDescriptorSetLayoutBinding.descriptorType
         VkDescriptorSetLayoutBinding.stageFlags
         VkDescriptorSetLayoutBinding.pImmutableSamplers].
    destruct (VkDescriptorSetLayoutBinding.pImmutableSamplers b)
      as [samplers0|]; [|discriminate].
    destruct (_ || _); [|discriminate]. inversion Himm. subst samplers0.
    do 4 (apply hash_bind_ext; intros ? ? ?).
    apply for_range_take.
  - intros Hcopy. inversion Hcopy. subst b'. rewrite Himm. reflexivity.
Qed.

Lemma hash_descriptor_set_layout_copy r
    (ci ci' : VkDescriptorSetLayoutCreateInfo.t) :
  copy_descriptor_set_layout ci = Ok ci' →
  compute_hash_descriptor_set_layout r ci'
  = compute_hash_descriptor_set_layout r ci.
Proof.
  unfold copy_descriptor_set_layout. cbv zeta. intros Hcopy.
  copy_steps Hcopy. inversion Hcopy. subst ci'. clear Hcopy.
  apply copy_ok in Hstep. destruct Hstep as [-> _].
  unfold compute_hash_descriptor_set_layout, hashed.
  cbn [VkDescriptorSetLayoutCreateInfo.bindingCount
       VkDescriptorSetLayoutCreateInfo.flags
       VkDescriptorSetLayoutCreateInfo.pBindings].
  match goal with
  | |- match ?m Hasher.init with _ => _ end
       = match ?m' Hasher.init with _ => _ end =>
      enough (Hrun : m Hasher.init = m' Hasher.init) by now rewrite Hrun
  end.
  do 2 (apply hash_bind_ext; intros ? ? ?).
  rewrite (for_range_rewritten copy_binding _ _ _ _ _ Hstep0).
  - apply for_range_take.
  - intros x x' s Hx. now apply hash_binding_copy.
Qed.

Lemma hash_pipeline_layout_copy r (ci ci' : VkPipelineLayoutCreateInfo.t) :
  copy_pipeline_layout ci = Ok ci' →
  compute_hash_pipeline_layout r ci' = compute_hash_pipeline_layout r ci.
Proof.
  unfold copy_pipeline_layout. cbv zeta. intros Hcopy.
  copy_steps Hcopy. inversion Hcopy. subst ci'. clear Hcopy.
  apply copy_ok in Hstep. destruct Hstep as [-> _].
  apply copy_ok in Hstep0. destruct Hstep0 as [-> _].
  unfold compute_hash_pipeline_layout, hashed.
  cbn [VkPipelineLayoutCreateInfo.setLayoutCount
       VkPipelineLayoutCreateInfo.pSetLayouts
       VkPipelineLayoutCreateInfo.pushConstantRangeCount
       VkPipelineLayoutCreateInfo.pPushConstantRanges
       VkPipelineLayoutCreateInfo.flags].
  match goal with
  | |- match ?m Hasher.init with _ => _ end
       = match ?m' Hasher.init with _ => _ end =>
      enough (Hrun : m Hasher.init = m' Hasher.init) by now rewrite Hrun
  end.
  apply hash_bind_ext; intros ? ? ?.
  apply hash_bind_both; [apply for_range_take|]. intros ? ? ?.
  apply hash_bind_ext; intros ? ? ?.
  apply hash_bind_both; [apply for_range_take|]. intros ? ? ?.
  reflexivity.
Qed.

Lemma for_range_copy_opt {T} (body : T → HashM unit) (count : Z)
    (p p' : option (list T)) (s : Hasher.t) :
  copy_opt p count = Ok p' →
  for_range count (λ i, hash_bind (hash_lift (index (elems p') i)) body) s
  = for_range count (λ i, hash_bind (hash_lift (index (elems p) i)) body) s.
Proof.
  destruct p as [arr|]; cbn [copy_opt]; unfold res_map.
  - intros Hcopy. copy_steps Hcopy. inversion Hcopy. subst p'.
    apply copy_ok in Hstep. destruct Hstep as [-> _].
    cbn [elems]. apply for_range_take.
  - intros Hcopy. inversion Hcopy. reflexivity.
Qed.

Lemma hash_subpass_copy (sub sub' : VkSubpassDescription.t) (s : Hasher.t) :
  copy_subpass sub = Ok sub' → hash_subpass sub' s = hash_subpass sub s.
Proof.
  unfold copy_subpass. intros Hcopy. copy_steps Hcopy.
  inversion Hcopy. subst sub'. clear Hcopy.
  unfold hash_subpass.
  cbn [VkSubpassDescription.flags VkSubpassDescription.pipelineBindPoint
       VkSubpassDescription.inputAttachmentCount
       VkSubpassDescription.pInputAttachments
       VkSubpassDescription.colorAttachmentCount
       VkSubpassDescription.pColorAttachments
       VkSubpassDescription.pResolveAttachments
       VkSubpassDescription.pDepthStencilAttachment
       VkSubpassDescription.preserveAttachmentCount
       VkSubpassDescription.pPreserveAttachments].
  do 5 (apply hash_bind_ext; intros ? ? ?).
  apply hash_bind_both; [now apply for_range_copy_opt|]. intros ? ? ?.
  apply hash_bind_both; [now apply for_range_copy_opt|]. intros ? ? ?.
  apply hash_bind_both; [now apply for_range_copy_opt|]. intros ? ? ?.
  apply hash_bind_both; [|reflexivity].
  destruct (VkSubpassDescription.pResolveAttachments sub) as [resolves|];
    cbn [copy_opt] in Hstep0; unfold res_map in Hstep0.
  - copy_steps Hstep0. inversion Hstep0.
    apply copy_ok in Hstep3. destruct Hstep3 as [-> _].
    apply for_range_take.
  - inversion Hstep0. reflexivity.
Qed.

Lemma hash_render_pass_copy r (ci ci' : VkRenderPassCreateInfo.t) :
  copy_render_pass ci = Ok ci' →
  compute_hash_render_pass r ci' = compute_hash_render_pass r ci.
Proof.
  unfold copy_render_pass. cbv zeta. intros Hcopy.
  copy_steps Hcopy. inversion Hcopy. subst ci'. clear Hcopy.
  apply copy_ok in Hstep. destruct Hstep as [-> _].
  apply copy_ok in Hstep0. destruct Hstep0 as [-> _].
  apply copy_ok in Hstep1. destruct Hstep1 as [-> _].
  unfold compute_hash_render_pass, hashed.
  cbn [VkRenderPassCreateInfo.attachmentCount
       VkRenderPassCreateInfo.pAttachments
       VkRenderPassCreateInfo.subpassCount
       VkRenderPassCreateInfo.pSubpasses
       VkRenderPassCreateInfo.dependencyCount
       VkRenderPassCreateInfo.pDependencies].
  match goal with
  | |- match ?m Hasher.init with _ => _ end
       = match ?m' Hasher.init with _ => _ end =>
      enough (Hrun : m Hasher.init = m' Hasher.init) by now rewrite Hrun
  end.
  do 3 (apply hash_bind_ext; intros ? ? ?).
  apply hash_bind_both; [apply for_range_take|]. intros ? ? ?.
  apply hash_bind_both; [apply for_range_take|]. intros ? ? ?.
  rewrite (for_range_rewritten copy_subpass _ _ _ _ _ Hstep2).
  - apply for_range_take.
  - intros x x' s Hx. now apply hash_subpass_copy.
Qed.

Lemma hash_compute_pipeline_copy r (ci ci' : VkComputePipelineCreateInfo.t) :
  copy_compute_pipeline ci = Ok ci' →
  compute_hash_compute_pipeline r ci' = compute_hash_compute_pipeline r ci.
Proof.
  unfold copy_compute_pipeline. cbv zeta. intros Hcopy.
  copy_steps Hcopy. inversion Hcopy. subst ci'. clear Hcopy.
  unfold compute_hash_compute_pipeline, hashed. cbv zeta.
  cbn [VkComputePipelineCreateInfo.flags VkComputePipelineCreateInfo.stage
       VkComputePipelineCreateInfo.layout
       VkComputePipelineCreateInfo.basePipelineHandle
       VkComputePipelineCreateInfo.basePipelineIndex
       VkPipelineShaderStageCreateInfo.flags
       VkPipelineShaderStageCreateInfo.stage
       VkPipelineShaderStageCreateInfo.module
       VkPipelineShaderStageCreateInfo.pName
       VkPipelineShaderStageCreateInfo.pSpecializationInfo].
  match goal with
  | |- match ?m Hasher.init with _ => _ end
       = match ?m' Hasher.init with _ => _ end =>
      enough (Hrun : m Hasher.init = m' Hasher.init) by now rewrite Hrun
  end.
  unfold H.string. rewrite string_chars_c_str.
  do 8 (apply hash_bind_ext; intros ? ? ?).
  now apply hash_specialization_info_opt_copy.
Qed.

Lemma hash_stage_copy r (stage stage' : VkPipelineShaderStageCreateInfo.t)
    (s : Hasher.t) :
  copy_stage stage = Ok stage' → hash_stage r stage' s = hash_stage r stage s.
Proof.
  unfold copy_stage. cbv zeta. intros Hcopy. copy_steps Hcopy.
  inversion Hcopy. subst stage'. clear Hcopy.
  unfold hash_stage.
  cbn [VkPipelineShaderStageCreateInfo.flags
       VkPipelineShaderStageCreateInfo.stage
       VkPipelineShaderStageCreateInfo.module
       VkPipelineShaderStageCreateInfo.pName
       VkPipelineShaderStageCreateInfo.pSpecializationInfo].
  unfold H.string. rewrite string_chars_c_str.
  do 5 (apply hash_bind_ext; intros ? ? ?).
  now apply hash_specialization_info_opt_copy.
Qed.

Lemma hash_graphics_pipeline_copy r
    (ci ci' : VkGraphicsPipelineCreateInfo.t) :
  copy_graphics_pipeline ci = Ok ci' →
  compute_hash_graphics_pipeline r ci' = compute_hash_graphics_pipeline r ci.
Proof.
  unfold copy_graphics_pipeline. cbv zeta. intros Hcopy.
  copy_steps Hcopy. inversion Hcopy. subst ci'. clear Hcopy.
  destruct (VkGraphicsPipelineCreateInfo.pColorBlendState ci)
    as [blend|] eqn:Hblend;
  destruct (VkGraphicsPipelineCreateInfo.pVertexInputState ci)
    as [vi|] eqn:Hvi;
  destruct (VkGraphicsPipelineCreateInfo.pMultisampleState ci)
    as [ms|] eqn:Hms;
  destruct (VkGraphicsPipelineCreateInfo.pDynamicState ci)
    as [dyn|] eqn:Hdyn.
  all: try discriminate.
  all: try match goal with
           | Hmask : context [VkPipelineMultisampleStateCreateInfo.pSampleMask
                                ?m0] |- _ =>
               destruct (VkPipelineMultisampleStateCreateInfo.pSampleMask m0)
                 as [mask|] eqn:Hmask'
           end.
  all: unfold res_map in *.
  all: repeat match goal with
              | Hs : res_bind _ _ = Ok _ |- _ => copy_steps Hs
              end.
  all: repeat match goal with
              | Hs : @Ok (option _) _ = Ok _ |- _ =>
                  inversion Hs; subst; clear Hs
              end.
  all: repeat match goal with
              | Hc : copy _ _ = Ok _ |- _ =>
                  apply copy_ok in Hc; destruct Hc as [-> _]
              end.
  all: unfold compute_hash_graphics_pipeline, hashed,
         feed_graphics_pipeline.
  all: cbn [VkGraphicsPipelineCreateInfo.flags
            VkGraphicsPipelineCreateInfo.stageCount
            VkGraphicsPipelineCreateInfo.pStages
            VkGraphicsPipelineCreateInfo.pVertexInputState
            VkGraphicsPipelineCreateInfo.pInputAssemblyState
            VkGraphicsPipelineCreateInfo.pTessellationState
            VkGraphicsPipelineCreateInfo.pViewportState
            VkGraphicsPipelineCreateInfo.pRasterizationState
            VkGraphicsPipelineCreateInfo.pMultisampleState
            VkGraphicsPipelineCreateInfo.pDepthStencilState
            VkGraphicsPipelineCreateInfo.pColorBlendState
            VkGraphicsPipelineCreateInfo.pDynamicState
            VkGraphicsPipelineCreateInfo.layout
            VkGraphicsPipelineCreateInfo.renderPass
            VkGraphicsPipelineCreateInfo.subpass
            VkGraphicsPipelineCreateInfo.basePipelineHandle
            VkGraphicsPipelineCreateInfo.basePipelineIndex].
  all: rewrite ?Hblend, ?Hvi, ?Hms, ?Hdyn.
  all: match goal with
       | |- match ?m Hasher.init with _ => _ end
            = match ?m' Hasher.init with _ => _ end =>
           enough (Hrun : m Hasher.init = m' Hasher.init) by now rewrite Hrun
       end.
  all: do 8 (apply hash_bind_ext; intros ? ? ?).
  (* the dynamic state *)
  all: apply hash_bind_both;
    [ first
        [ reflexivity
        | unfold hash_dynamic_state;
          cbn [VkPipelineDynamicStateCreateInfo.flags
               VkPipelineDynamicStateCreateInfo.dynamicStateCount
               VkPipelineDynamicStateCreateInfo.pDynamicStates];
          do 2 (apply hash_bind_ext; intros ? ? ?);
          apply (for_acc_take
                   (λ v d, hash_bind (H.u32 v)
                             (λ _, hash_ret (switch_dynamic_state v d)))) ]
    | intros d ? ? ].
  all: do 3 (apply hash_bind_ext; intros ? ? ?).
  (* the multisample state *)
  all: apply hash_bind_both;
    [ first
        [ reflexivity
        | unfold hash_multisample_state; cbv zeta;
          cbn [VkPipelineMultisampleStateCreateInfo.flags
               VkPipelineMultisampleStateCreateInfo.rasterizationSamples
               VkPipelineMultisampleStateCreateInfo.sampleShadingEnable
               VkPipelineMultisampleStateCreateInfo.minSampleShading
               VkPipelineMultisampleStateCreateInfo.pSampleMask
               VkPipelineMultisampleStateCreateInfo.alphaToCoverageEnable
               VkPipelineMultisampleStateCreateInfo.alphaToOneEnable];
          rewrite ?Hmask';
          do 6 (apply hash_bind_ext; intros ? ? ?);
          first [reflexivity | apply for_range_take] ]
    | intros ? ? ? ].
  all: apply hash_bind_ext; intros ? ? ?.
  (* the vertex-input state *)
  all: apply hash_bind_both;
    [ first
        [ reflexivity
        | unfold hash_vertex_input_state;
          cbn [VkPipelineVertexInputStateCreateInfo.flags
               VkPipelineVertexInputStateCreateInfo.vertexBindingDescriptionCount
               VkPipelineVertexInputStateCreateInfo.pVertexBindingDescriptions
               VkPipelineVertexInputStateCreateInfo.vertexAttributeDescriptionCount
               VkPipelineVertexInputStateCreateInfo.pVertexAttributeDescriptions];
          do 3 (apply hash_bind_ext; intros ? ? ?);
          apply hash_bind_both; [apply for_range_take|]; intros ? ? ?;
          apply for_range_take ]
    | intros ? ? ? ].
  (* the color-blend state *)
  all: apply hash_bind_both;
    [ first
        [ reflexivity
        | unfold hash_color_blend_state;
          cbn [VkPipelineColorBlendStateCreateInfo.with_pAttachments
               VkPipelineColorBlendStateCreateInfo.flags
               VkPipelineColorBlendStateCreateInfo.logicOpEnable
               VkPipelineColorBlendStateCreateInfo.logicOp
               VkPipelineColorBlendStateCreateInfo.attachmentCount
               VkPipelineColorBlendStateCreateInfo.pAttachments
               VkPipelineColorBlendStateCreateInfo.blendConstants];
          do 4 (apply hash_bind_ext; intros ? ? ?);
          apply hash_bind_both; [|reflexivity];
          apply (for_acc_take hash_blend_attachment) ]
    | intros ? ? ? ].
  all: apply hash_bind_ext; intros ? ? ?.
  (* the stages *)
  all: match goal with
       | Hstages : for_each copy_stage _ _ = Ok _ |- _ =>
           rewrite (for_range_rewritten copy_stage _ _ _ _ _ Hstages);
             [ apply for_range_take
             | intros x x' sx Hx; now apply hash_stage_copy ]
       end.
Qed.

End HashOfCopy.



(** ** The worker *)

(** What [dispatch] does in terms of the result of hashing. *)
Ltac dispatch_cases Hrun :=
  unfold Recording.dispatch, Recording.try_call in Hrun; cbv zeta in Hrun;
  repeat match type of Hrun with
         | context [match ?m with _ => _ end] =>
             lazymatch m with
             | context [match _ with _ => _ end] => fail
             | _ => idtac
             end;
             let Hcase := fresh "Hcase" in
             destruct m eqn:Hcase; try discriminate Hrun
         end.

Ltac dispatch_outcome Hrun :=
  dispatch_cases Hrun;
  match type of Hrun with _ = ?out => subst out end.

Section WorkerFacts.
Import StateRecorder Recording.

Lemma count_false {T} (m : gmap Z T) (k : Z) :
  count m k = false → m !! k = None.
Proof. unfold count. now destruct (m !! k). Qed.

Lemma count_true {T} (m : gmap Z T) (k : Z) :
  count m k = true → is_Some (m !! k).
Proof. unfold count. destruct (m !! k); [eauto | discriminate]. Qed.

Lemma stores_extend_refl r : stores_extend r r.
Proof. unfold stores_extend. repeat split; reflexivity. Qed.

Lemma dispatch_stores handle ci r :
  match dispatch handle ci r with
  | Completed r' | Raised r' _ => stores_extend r r'
  | Undefined => True
  end.
Proof.
  remember (dispatch handle ci r) as out eqn:Hrun. symmetry in Hrun.
  destruct ci; dispatch_outcome Hrun.
  all: try exact I.
  all: unfold stores_extend; cbn.
  all: repeat split; try reflexivity.
  all: apply insert_subseteq; now apply count_false.
Qed.

Lemma dispatch_other_handles handle ci r h :
  h ≠ handle →
  match dispatch handle ci r with
  | Completed r' | Raised r' _ => same_hash_of_handle r r' h
  | Undefined => True
  end.
Proof.
  intros Hne.
  remember (dispatch handle ci r) as out eqn:Hrun. symmetry in Hrun.
  destruct ci; dispatch_outcome Hrun.
  all: try exact I.
  all: unfold same_hash_of_handle; cbn.
  all: repeat split; try reflexivity.
  all: now apply lookup_insert_ne.
Qed.

Lemma dispatch_keeps handle ci r :
  match dispatch handle ci r with
  | Completed r' =>
      record_queue r' = record_queue r
      ∧ serialization_path r' = serialization_path r
      ∧ logged r' = logged r
  | Raised r' _ =>
      record_queue r' = record_queue r
      ∧ serialization_path r' = serialization_path r
      ∧ logged r' = logged r
      ∧ written r' = written r
  | Undefined => True
  end.
Proof.
  remember (dispatch handle ci r) as out eqn:Hrun. symmetry in Hrun.
  destruct ci; dispatch_outcome Hrun.
  all: try exact I.
  all: cbn; repeat split; reflexivity.
Qed.

Lemma dispatch_hashed handle ci r hash :
  compute_hash r ci = Ok hash →
  match dispatch handle ci r with
  | Completed r' =>
      handle_table ci r' !! handle = Some hash ∧ stored ci r' hash = true
  | Raised r' _ => handle_table ci r' !! handle = Some hash
  | Undefined => True
  end.
Proof.
  intros Hhash.
  remember (dispatch handle ci r) as out eqn:Hrun. symmetry in Hrun.
  destruct ci; cbn [compute_hash] in Hhash;
    unfold dispatch, try_call in Hrun; rewrite Hhash in Hrun;
    dispatch_outcome Hrun.
  all: try exact I.
  all: cbn [handle_table stored].
  all: cbn.
  all: rewrite ?lookup_insert_eq; try split; try reflexivity; try assumption.
  all: unfold count; now rewrite lookup_insert_eq.
Qed.

Lemma dispatch_written handle ci r :
  match dispatch handle ci r with
  | Completed r' =>
      written r' = written r
      ∨ ∃ hash bytes,
          compute_hash r ci = Ok hash
          ∧ stored ci r hash = false
          ∧ writes_blob ci = true
          ∧ written r' = written r ++ [(serialization_path r, hash, bytes)]
  | _ => True
  end.
Proof.
  remember (dispatch handle ci r) as out eqn:Hrun. symmetry in Hrun.
  destruct ci; dispatch_outcome Hrun.
  all: try exact I.
  all: try (left; reflexivity).
  all: right; do 2 eexists; cbn [compute_hash stored writes_blob].
  all: repeat split; try eassumption; reflexivity.
Qed.

End WorkerFacts.



(** X9.  Processing an item submitted under [handle] leaves the hash of
    every other handle alone, in all seven handle-to-hash tables. *)
Theorem X9_other_handles_keep_their_hash (handle : Z) (ci : CreateInfo)
    (r r' : StateRecorder.t) (h : Z) :
  Recording.process_item handle ci r = Ok r' →
  h ≠ handle →
  same_hash_of_handle r r' h.
Proof.
  unfold Recording.process_item. intros Hitem Hne.
  pose proof (dispatch_other_handles handle ci r h Hne) as Hsame.
  destruct (Recording.dispatch handle ci r); inversion Hitem; subst r'.
  - exact Hsame.
  - exact Hsame.
Qed.

Lemma X9_other_handles_keep_their_hash_witness :
  ∃ r',
    Recording.process_item 12 (ShaderModuleCI sample_shader_module)
      sample_recorder = Ok r'
    ∧ same_hash_of_handle sample_recorder r' 11.
Proof.
  eexists. split.
  - vm_compute. reflexivity.
  - apply (X9_other_handles_keep_their_hash 12
             (ShaderModuleCI sample_shader_module)).
    + vm_compute. reflexivity.
    + lia.
Defined.

(** X10.  Once the hash of an item has been computed, its handle is
    registered under that hash whatever happens next; and when the item
    ends without an error being logged, the store of its kind holds an
    entry under the hash. *)
Theorem X10_processed_handle_is_registered (handle : Z) (ci : CreateInfo)
    (r r' : StateRecorder.t) (hash : Z) :
  compute_hash r ci = Ok hash →
  Recording.process_item handle ci r = Ok r' →
  handle_table ci r' !! handle = Some hash
  ∧ (StateRecorder.logged r' = StateRecorder.logged r →
     stored ci r' hash = true).
Proof.
  unfold Recording.process_item. intros Hhash Hitem.
  pose proof (dispatch_hashed handle ci r hash Hhash) as Hreg.
  pose proof (dispatch_keeps handle ci r) as Hkeeps.
  destruct (Recording.dispatch handle ci r) as [r1|r1 msg|];
    inversion Hitem; subst r'.
  - destruct Hreg as [Hreg Hstored]. split; [exact Hreg|]. now intros _.
  - split.
    + destruct ci; exact Hreg.
    + destruct Hkeeps as (_ & _ & Hlogged & _).
      destruct ci; cbn; rewrite Hlogged; intros Hlog;
        apply (f_equal length) in Hlog; rewrite length_app in Hlog;
        cbn in Hlog; lia.
Qed.

Lemma X10_processed_handle_is_registered_witness :
  ∃ hash r',
    compute_hash sample_recorder (ShaderModuleCI sample_shader_module)
    = Ok hash
    ∧ Recording.process_item 12 (ShaderModuleCI sample_shader_module)
        sample_recorder = Ok r'
    ∧ handle_table (ShaderModuleCI sample_shader_module) r' !! 12 = Some hash
    ∧ (StateRecorder.logged r' = StateRecorder.logged sample_recorder →
       stored (ShaderModuleCI sample_shader_module) r' hash = true).
Proof.
  do 2 eexists. split; [vm_compute; reflexivity|].
  split; [vm_compute; reflexivity|].
  apply (X10_processed_handle_is_registered 12
           (ShaderModuleCI sample_shader_module) sample_recorder).
  - vm_compute. reflexivity.
  - vm_compute. reflexivity.
Defined.

(** X11.  A descriptor whose hash is already stored is not stored,
    remapped or written again: processing it only registers its handle
    under the hash, and everything else of the recorder stays as it
    was. *)
Theorem X11_known_hash_only_registers_handle (handle : Z) (ci : CreateInfo)
    (r : StateRecorder.t) (hash : Z) :
  compute_hash r ci = Ok hash →
  stored ci r hash = true →
  Recording.process_item handle ci r
  = Ok (set_handle_table ci (<[handle := hash]> (handle_table ci r)) r).
Proof.
  intros Hhash Hstored.
  unfold Recording.process_item, Recording.dispatch, Recording.try_call.
  destruct ci; cbn [compute_hash stored handle_table set_handle_table] in *;
    rewrite Hhash; cbv zeta.
  all: match goal with
       | Hs : _ = true |- context [Recording.count ?m ?h] =>
           replace (Recording.count m h) with true by (symmetry; exact Hs)
       end; reflexivity.
Qed.

Lemma X11_known_hash_only_registers_handle_witness :
  ∃ hash r1,
    Recording.process_item 11 (ShaderModuleCI sample_shader_module)
      sample_recorder = Ok r1
    ∧ compute_hash r1 (ShaderModuleCI sample_shader_module) = Ok hash
    ∧ Recording.process_item 12 (ShaderModuleCI sample_shader_module) r1
      = Ok (set_handle_table (ShaderModuleCI sample_shader_module)
              (<[12 := hash]>
                 (handle_table (ShaderModuleCI sample_shader_module) r1))
              r1).
Proof.
  do 2 eexists. split; [vm_compute; reflexivity|].
  split; [vm_compute; reflexivity|].
  apply X11_known_hash_only_registers_handle.
  - vm_compute. reflexivity.
  - vm_compute. reflexivity.
Defined.

(** X12.  An item makes the worker write at most one file, only when a
    shader module or a pipeline is stored under a hash that was not
    stored before, and that file is named by the hash under the
    serialization path; samplers, set layouts, pipeline layouts, render
    passes and items that fail write nothing. *)
Theorem X12_one_file_per_new_blob (handle : Z) (ci : CreateInfo)
    (r r' : StateRecorder.t) :
  Recording.process_item handle ci r = Ok r' →
  StateRecorder.written r' = StateRecorder.written r
  ∨ ∃ hash bytes,
      compute_hash r ci = Ok hash
      ∧ stored ci r hash = false
      ∧ writes_blob ci = true
      ∧ StateRecorder.logged r' = StateRecorder.logged r
      ∧ StateRecorder.written r'
        = StateRecorder.written r
          ++ [(StateRecorder.serialization_path r, hash, bytes)].
Proof.
  unfold Recording.process_item. intros Hitem.
  pose proof (dispatch_written handle ci r) as Hwritten.
  pose proof (dispatch_keeps handle ci r) as Hkeeps.
  destruct (Recording.dispatch handle ci r) as [r1|r1 msg|];
    inversion Hitem; subst r'.
  - destruct Hwritten as [Hsame | (hash & bytes & Hh & Hs & Hb & Hw)].
    + now left.
    + right. exists hash, bytes.
      destruct Hkeeps as (_ & _ & Hlogged). auto.
  - left. destruct Hkeeps as (_ & _ & _ & Hsame). exact Hsame.
Qed.

Lemma X12_one_file_per_new_blob_witness :
  ∃ r',
    Recording.process_item 11 (ShaderModuleCI sample_shader_module)
      sample_recorder = Ok r'
    ∧ (StateRecorder.written r' = StateRecorder.written sample_recorder
       ∨ ∃ hash bytes,
           compute_hash sample_recorder (ShaderModuleCI sample_shader_module)
           = Ok hash
           ∧ stored (ShaderModuleCI sample_shader_module) sample_recorder
               hash = false
           ∧ writes_blob (ShaderModuleCI sample_shader_module) = true
           ∧ StateRecorder.logged r' = StateRecorder.logged sample_recorder
           ∧ StateRecorder.written r'
             = StateRecorder.written sample_recorder
               ++ [(StateRecorder.serialization_path sample_recorder,
                    hash, bytes)]).
Proof.
  eexists. split; [vm_compute; reflexivity|].
  apply (X12_one_file_per_new_blob 11 (ShaderModuleCI sample_shader_module)).
  vm_compute. reflexivity.
Defined.

Section WorkerQueue.
Import StateRecorder Recording.

Lemma dispatch_queue handle ci r queue :
  dispatch handle ci (set_record_queue queue r)
  = with_queue queue (dispatch handle ci r).
Proof.
  remember (dispatch handle ci r) as out eqn:Hrun. symmetry in Hrun.
  destruct ci; dispatch_outcome Hrun.
  all: unfold dispatch, try_call; cbv zeta.
  all: repeat match goal with
              | Hc : _ = ?rhs |- context [match ?m with _ => _ end] =>
                  lazymatch m with
                  | context [match _ with _ => _ end] => fail
                  | _ => idtac
                  end;
                  replace m with rhs by (symmetry; exact Hc)
              end.
  all: reflexivity.
Qed.

Lemma process_item_queue handle ci r queue :
  process_item handle ci (set_record_queue queue r)
  = res_map (set_record_queue queue) (process_item handle ci r).
Proof.
  unfold process_item. rewrite dispatch_queue.
  now destruct (dispatch handle ci r).
Qed.

Lemma process_items_queue submissions : ∀ r queue,
  process_items submissions (set_record_queue queue r)
  = res_map (set_record_queue queue) (process_items submissions r).
Proof.
  induction submissions as [|[handle ci] submissions IH]; intros r queue.
  - reflexivity.
  - cbn [process_items]. rewrite process_item_queue.
    destruct (process_item handle ci r) as [r1| | |]; try reflexivity.
    cbn. apply IH.
Qed.

Lemma record_task_turns_drain (rest : list WorkItem) (h0 : Z) submissions :
  ∀ r r' k,
    record_queue r
    = map work_item submissions
      ++ {| handle := h0; create_info := None |} :: rest →
    process_items submissions r = Ok r' →
    record_task_turns (S (length submissions) + k) r
    = Returned (set_record_queue rest r').
Proof.
  induction submissions as [|[hnd ci] submissions IH];
    intros r r' k Hqueue Hitems.
  - cbn in Hitems. inversion Hitems. subst r'.
    cbn [length Nat.add record_task_turns]. unfold record_task_turn.
    rewrite Hqueue. reflexivity.
  - cbn [process_items] in Hitems.
    destruct (process_item hnd ci r) as [r1| | |] eqn:Hitem;
      try discriminate.
    cbn [res_bind] in Hitems.
    change (S (length ((hnd, ci) :: submissions)) + k)%nat
      with (S (S (length submissions) + k)).
    cbn [record_task_turns]. unfold record_task_turn.
    rewrite Hqueue. cbn [map app work_item fst snd create_info
                         handle].
    cbv zeta. rewrite process_item_queue, Hitem. cbn [res_map res_bind].
    rewrite (IH _ (set_record_queue
                     (map work_item submissions
                      ++ {| handle := h0; create_info := None |} :: rest)
                     r') k).
    + reflexivity.
    + reflexivity.
    + rewrite process_items_queue, Hitems. reflexivity.
Qed.

End WorkerQueue.

(** X13.  The worker takes the queue in order and stops at the null
    item: when the queue holds some submissions, then the null item that
    [record_end] pushes, then anything else, [record_task] returns the
    state that processing those submissions one after the other gives,
    and leaves in the queue exactly what followed the null item. *)
Theorem X13_worker_drains_queue_in_order (r r' : StateRecorder.t)
    (submissions : list (Z * CreateInfo)) (h0 : Z) (rest : list WorkItem) :
  StateRecorder.record_queue r
  = map work_item submissions
    ++ {| handle := h0; create_info := None |} :: rest →
  process_items submissions r = Ok r' →
  Recording.record_task r
  = Recording.Returned (StateRecorder.set_record_queue rest r').
Proof.
  intros Hqueue Hitems. unfold Recording.record_task.
  rewrite Hqueue, length_app, length_map. cbn [length].
  replace (S (length submissions + S (length rest)))
    with (S (length submissions) + S (length rest))%nat by lia.
  now apply record_task_turns_drain with (h0 := h0).
Qed.

Lemma X13_worker_drains_queue_in_order_witness :
  ∃ r r',
    sample_session = Ok r
    ∧ process_items
        [(11, ShaderModuleCI sample_shader_module);
         (21, PipelineLayoutCI sample_pipeline_layout);
         (31, RenderPassCI sample_render_pass);
         (41, GraphicsPipelineCI sample_graphics_pipeline)] r = Ok r'
    ∧ Recording.record_task r
      = Recording.Returned (StateRecorder.set_record_queue [] r').
Proof.
  do 2 eexists. split; [vm_compute; reflexivity|].
  split; [vm_compute; reflexivity|].
  apply (X13_worker_drains_queue_in_order _ _
           [(11, ShaderModuleCI sample_shader_module);
            (21, PipelineLayoutCI sample_pipeline_layout);
            (31, RenderPassCI sample_render_pass);
            (41, GraphicsPipelineCI sample_graphics_pipeline)] 0 []).
  - vm_compute. reflexivity.
  - vm_compute. reflexivity.
Defined.

(** ** From a submission to a look-up *)

Section RecordThenLookup.
Import StateRecorder Recording.

Lemma record_pushes_copy handle ci r r1 :
  record handle ci r = Ok r1 →
  ∃ ci', copy_create_info ci = Ok ci'
         ∧ same_kind ci ci' = true
         ∧ r1 = push {| handle := handle; create_info := Some ci' |} r.
Proof.
  destruct ci as [c|c|c|c|c|c|c]; cbn [record copy_create_info];
    unfold record_sampler, record_descriptor_set_layout,
      record_pipeline_layout, record_render_pass, record_shader_module,
      record_graphics_pipeline, record_compute_pipeline, res_map;
    intros Hrecord.
  all: repeat match type of Hrecord with
              | (if ?b then _ else _) = _ =>
                  destruct b; [discriminate Hrecord|]
              | res_bind ?m _ = _ =>
                  destruct m as [c'| | |]; try discriminate Hrecord;
                  cbn [res_bind] in Hrecord
              end.
  all: inversion Hrecord; eexists; cbn [res_bind]; repeat split.
Qed.

Lemma compute_hash_queue r queue ci :
  compute_hash (set_record_queue queue r) ci = compute_hash r ci.
Proof. destruct ci; reflexivity. Qed.

Lemma process_items_app subs1 : ∀ subs2 r,
  process_items (subs1 ++ subs2) r
  = (let? r' := process_items subs1 r in process_items subs2 r').
Proof.
  induction subs1 as [|[hnd ci] subs1 IH]; intros subs2 r.
  - reflexivity.
  - cbn [app process_items].
    destruct (process_item hnd ci r); try reflexivity. cbn. apply IH.
Qed.

(** The turns of the worker over a queue that holds the null item. *)
Lemma record_task_turns_items (rest : list WorkItem) (h0 : Z) subs :
  ∀ r k,
    record_queue r
    = map work_item subs ++ {| handle := h0; create_info := None |} :: rest →
    record_task_turns (S (length subs) + k) r
    = match process_items subs r with
      | Ok r' => Returned (set_record_queue rest r')
      | _ => TurnUndef
      end.
Proof.
  induction subs as [|[hnd ci] subs IH]; intros r k Hqueue.
  - cbn [length Nat.add record_task_turns process_items].
    unfold record_task_turn. rewrite Hqueue. reflexivity.
  - change (S (length ((hnd, ci) :: subs)) + k)%nat
      with (S (S (length subs) + k)).
    cbn [record_task_turns process_items]. unfold record_task_turn.
    rewrite Hqueue. cbn [map app work_item fst snd create_info handle].
    cbv zeta. rewrite process_item_queue.
    destruct (process_item hnd ci r) as [r1| | |] eqn:Hitem;
      cbn [res_map res_bind]; try reflexivity.
    rewrite (IH _ k) by reflexivity.
    rewrite process_items_queue.
    destruct (process_items subs r1); reflexivity.
Qed.

Lemma hash_of_copy r ci ci' :
  copy_create_info ci = Ok ci' → compute_hash r ci' = compute_hash r ci.
Proof.
  destruct ci as [c|c|c|c|c|c|c]; cbn [copy_create_info]; unfold res_map;
    intros Hcopy.
  1: { unfold DeepCopy.copy_sampler in Hcopy. now inversion Hcopy. }
  all: match type of Hcopy with
       | res_bind ?m _ = _ => destruct m as [c'| | |] eqn:Hc
       end; try discriminate;
    cbn [res_bind] in Hcopy; inversion Hcopy; subst ci'; cbn [compute_hash].
  - now apply hash_descriptor_set_layout_copy.
  - now apply hash_pipeline_layout_copy.
  - now apply hash_render_pass_copy.
  - now apply hash_shader_module_copy.
  - now apply hash_graphics_pipeline_copy.
  - now apply hash_compute_pipeline_copy.
Qed.

Lemma process_item_registers handle ci r r' hash :
  compute_hash r ci = Ok hash →
  process_item handle ci r = Ok r' →
  handle_table ci r' !! handle = Some hash.
Proof.
  unfold process_item. intros Hhash Hitem.
  pose proof (dispatch_hashed handle ci r hash Hhash) as Hreg.
  destruct (dispatch handle ci r) as [r1|r1 msg|];
    inversion Hitem; subst r'.
  - apply Hreg.
  - destruct ci; exact Hreg.
Qed.

End RecordThenLookup.



(** ** What a closure holds *)

Section ClosureFacts.
Import StateRecorder Serialize.

Lemma for_fold_inv {St : Type} (P : St → Prop) (body : nat → St → Res St)
    (n : nat) :
  (∀ j s s', P s → body j s = Ok s' → P s') →
  ∀ i s s', P s → for_fold n i body s = Ok s' → P s'.
Proof.
  intros Hbody. induction n as [|n IH]; intros i s s' Hs; cbn [for_fold].
  - intros Heq. inversion Heq. subst. exact Hs.
  - destruct (body i s) as [s1| | |] eqn:Hstep; try discriminate.
    cbn [res_bind]. apply IH. eapply Hbody; eauto.
Qed.

Lemma HasMember_false {T} (json_map : list (Z * T)) (hash : Z) :
  HasMember json_map hash = false → hash ∉ json_map.*1.
Proof.
  unfold HasMember. intros Hnot Hin.
  apply list_elem_of_fmap in Hin. destruct Hin as ([k v] & -> & Hin).
  apply not_true_iff_false in Hnot. apply Hnot.
  apply existsb_exists. exists (k, v). split.
  - now apply list_elem_of_In.
  - cbn. apply Z.eqb_refl.
Qed.

Lemma from_store_nil {T} (store : gmap Z T) : from_store store [].
Proof. split; constructor. Qed.

Lemma serialize_obj_from_store {T} (obj : Z) (store : gmap Z T) json_map :
  from_store store json_map →
  from_store store (serialize_obj obj store json_map).2.
Proof.
  intros [Hall Hnodup]. unfold serialize_obj.
  destruct (store !! obj) as [ci|] eqn:Hobj; cbn [snd]; [|now split].
  destruct (HasMember json_map obj) eqn:Hmember; [now split|].
  split.
  - apply Forall_app. split; [exact Hall|]. now repeat constructor.
  - rewrite fmap_app. apply NoDup_app. repeat split.
    + exact Hnodup.
    + intros k Hk Hk'. cbn in Hk'. apply list_elem_of_singleton in Hk'.
      subst k. now apply HasMember_false in Hmember.
    + cbn. apply NoDup_singleton.
Qed.

Lemma serialize_immutable_samplers_from_store r set_layout samplers
    samplers' :
  from_store (StateRecorder.samplers r) samplers →
  serialize_immutable_samplers r set_layout samplers = Ok samplers' →
  from_store (StateRecorder.samplers r) samplers'.
Proof.
  unfold serialize_immutable_samplers. intros Hfrom.
  apply for_fold_inv; [|exact Hfrom].
  intros j s s' Hs. cbv beta.
  destruct (index _ j) as [binding| | |]; try discriminate.
  cbn [res_bind].
  destruct (Hashing.immutable_samplers binding) as [handles|].
  - apply for_fold_inv; [|exact Hs].
    intros k s0 s0' Hs0. cbv beta.
    destruct (index handles k) as [sampler| | |]; try discriminate.
    cbn [res_bind]. intros Heq. inversion Heq.
    now apply serialize_obj_from_store.
  - intros Heq. inversion Heq. subst. assumption.
Qed.

Lemma serialize_pipeline_layout_from_stores r layout maps maps' :
  maps_from_stores r maps →
  serialize_pipeline_layout r layout maps = Ok maps' →
  maps_from_stores r maps'.
Proof.
  unfold serialize_pipeline_layout. intros Hfrom.
  pose proof (serialize_obj_from_store layout (pipeline_layouts r)
                (pipeline_layouts_map maps)) as Hobj.
  destruct (serialize_obj layout (pipeline_layouts r)
              (pipeline_layouts_map maps)) as [[pipeline_layout|] pls].
  - apply for_fold_inv.
    + intros i s s' Hs. cbv beta.
      destruct (index _ i) as [handle| | |]; try discriminate.
      cbn [res_bind].
      pose proof (serialize_obj_from_store handle (descriptor_sets r)
                    (set_layouts_map s)) as Hset.
      destruct (serialize_obj handle (descriptor_sets r) (set_layouts_map s))
        as [[set_layout|] sls].
      * destruct (serialize_immutable_samplers r set_layout (samplers_map s))
          as [samplers'| | |] eqn:Hsamplers; try discriminate.
        cbn [res_bind]. intros Heq. inversion Heq.
        destruct Hs as (Hs1 & Hs2 & Hs3). repeat split; cbn.
        all: try (apply Hset, Hs2). all: try apply Hs3.
        all: try (eapply serialize_immutable_samplers_from_store;
                  [exact Hs1 | exact Hsamplers]).
      * intros Heq. inversion Heq. subst. assumption.
    + destruct Hfrom as (H1 & H2 & H3). repeat split; cbn; try apply H1;
        try apply H2. all: apply Hobj, H3.
  - intros Heq. inversion Heq. subst. assumption.
Qed.

Lemma no_layout_maps_from_stores r : maps_from_stores r no_layout_maps.
Proof. repeat split; constructor. Qed.

End ClosureFacts.

(** X15.  A closure holds nothing but what the recorder has stored: in
    the document of [serialize_graphics_pipeline],
    [serialize_compute_pipeline] or [serialize_shader_module], every
    member of every section is the stored descriptor of the hash that
    names it, and no section has two members of one name. *)
Theorem X15_closure_comes_from_stores (r : StateRecorder.t) (hash : Z)
    (doc : Document.t) :
  Serialize.serialize_graphics_pipeline r hash = Ok (JsonText doc)
  ∨ Serialize.serialize_compute_pipeline r hash = Ok (JsonText doc)
  ∨ Serialize.serialize_shader_module r hash = Ok (JsonText doc) →
  sections_from_stores r doc.
Proof.
  assert (Hsections : ∀ sm sa sl pl rp cp gp,
    from_store (StateRecorder.shader_modules r) (elems sm) →
    from_store (StateRecorder.samplers r) (elems sa) →
    from_store (StateRecorder.descriptor_sets r) (elems sl) →
    from_store (StateRecorder.pipeline_layouts r) (elems pl) →
    from_store (StateRecorder.render_passes r) (elems rp) →
    from_store (StateRecorder.compute_pipelines r) (elems cp) →
    from_store (StateRecorder.graphics_pipelines r) (elems gp) →
    sections_from_stores r
      {| Document.version := Some FOSSILIZE_FORMAT_VERSION;
         Document.shaderModules := sm; Document.samplers := sa;
         Document.setLayouts := sl; Document.pipelineLayouts := pl;
         Document.renderPasses := rp; Document.computePipelines := cp;
         Document.graphicsPipelines := gp |}).
  { intros. unfold sections_from_stores. cbn. tauto. }
  intros [Hdoc | [Hdoc | Hdoc]].
  - unfold Serialize.serialize_graphics_pipeline in Hdoc.
    pose proof (serialize_obj_from_store hash
                  (StateRecorder.graphics_pipelines r) []
                  (from_store_nil _)) as Hpipes.
    destruct (Serialize.serialize_obj hash
                (StateRecorder.graphics_pipelines r) [])
      as [[pipe|] pipes]; cbn [snd] in Hpipes.
    + destruct (Serialize.serialize_pipeline_layout r
                  (VkGraphicsPipelineCreateInfo.layout pipe)
                  Serialize.no_layout_maps) as [maps| | |] eqn:Hmaps;
        try discriminate.
      apply serialize_pipeline_layout_from_stores in Hmaps;
        [|apply no_layout_maps_from_stores].
      cbn in Hdoc. inversion Hdoc. subst doc.
      destruct Hmaps as (H1 & H2 & H3).
      apply Hsections; cbn [elems]; try apply from_store_nil;
        try assumption.
      apply serialize_obj_from_store, from_store_nil.
    + cbn in Hdoc. inversion Hdoc. subst doc.
      apply Hsections; cbn [elems]; apply from_store_nil.
  - unfold Serialize.serialize_compute_pipeline in Hdoc.
    pose proof (serialize_obj_from_store hash
                  (StateRecorder.compute_pipelines r) []
                  (from_store_nil _)) as Hpipes.
    destruct (Serialize.serialize_obj hash
                (StateRecorder.compute_pipelines r) [])
      as [[pipe|] pipes]; cbn [snd] in Hpipes.
    + destruct (Serialize.serialize_pipeline_layout r
                  (VkComputePipelineCreateInfo.layout pipe)
                  Serialize.no_layout_maps) as [maps| | |] eqn:Hmaps;
        try discriminate.
      apply serialize_pipeline_layout_from_stores in Hmaps;
        [|apply no_layout_maps_from_stores].
      cbn in Hdoc. inversion Hdoc. subst doc.
      destruct Hmaps as (H1 & H2 & H3).
      apply Hsections; cbn [elems]; try apply from_store_nil; assumption.
    + cbn in Hdoc. inversion Hdoc. subst doc.
      apply Hsections; cbn [elems]; apply from_store_nil.
  - unfold Serialize.serialize_shader_module in Hdoc.
    pose proof (serialize_obj_from_store hash
                  (StateRecorder.shader_modules r) []
                  (from_store_nil _)) as Hmodules.
    destruct (Serialize.serialize_obj hash
                (StateRecorder.shader_modules r) [])
      as [found modules]; cbn [snd] in Hmodules.
    inversion Hdoc. subst doc.
    unfold sections_from_stores; cbn [elems Document.shaderModules
      Document.samplers Document.setLayouts Document.pipelineLayouts
      Document.renderPasses Document.computePipelines
      Document.graphicsPipelines].
    repeat match goal with |- _ ∧ _ => split end;
      try apply from_store_nil; assumption.
Qed.

Lemma X15_closure_comes_from_stores_witness :
  ∃ doc,
    Serialize.serialize_graphics_pipeline sample_store sample_pipeline_hash
    = Ok (JsonText doc)
    ∧ sections_from_stores sample_store doc.
Proof.
  eexists. split.
  - vm_compute. reflexivity.
  - apply (X15_closure_comes_from_stores sample_store sample_pipeline_hash).
    left. vm_compute. reflexivity.
Defined.

Section ClosureComplete.
Import StateRecorder Serialize.

Lemma serialize_obj_keeps {T} (obj : Z) (store : gmap Z T) json_map m :
  m ∈ json_map → m ∈ (serialize_obj obj store json_map).2.
Proof.
  intros Hm. unfold serialize_obj.
  destruct (store !! obj); cbn [snd]; [|exact Hm].
  destruct (HasMember json_map obj); [exact Hm|].
  apply elem_of_app. now left.
Qed.

Lemma serialize_obj_adds {T} (obj : Z) (store : gmap Z T) json_map ci :
  from_store store json_map →
  store !! obj = Some ci →
  (obj, ci) ∈ (serialize_obj obj store json_map).2.
Proof.
  intros [Hall _] Hobj. unfold serialize_obj. rewrite Hobj. cbn [snd].
  destruct (HasMember json_map obj) eqn:Hmember.
  - unfold HasMember in Hmember. apply existsb_exists in Hmember.
    destruct Hmember as ([k v] & Hin & Hk). cbn in Hk.
    apply Z.eqb_eq in Hk. subst k. apply list_elem_of_In in Hin.
    rewrite Forall_forall in Hall. specialize (Hall _ Hin). cbn in Hall.
    rewrite Hobj in Hall. inversion Hall. now subst.
  - apply elem_of_app. right. now apply list_elem_of_singleton.
Qed.

Lemma serialize_obj_found {T} (obj : Z) (store : gmap Z T) json_map :
  (serialize_obj obj store json_map).1 = store !! obj.
Proof. unfold serialize_obj. now destruct (store !! obj). Qed.

(** What one turn of a loop establishes holds at its end, when the
    later turns keep it. *)
Lemma for_fold_turn {St : Type} (P Q : St → Prop)
    (body : nat → St → Res St) (j : nat) :
  (∀ i s s', P s → body i s = Ok s' → P s') →
  (∀ i s s', P s → Q s → body i s = Ok s' → Q s') →
  (∀ s s', P s → body j s = Ok s' → Q s') →
  ∀ n i s s',
    P s → for_fold n i body s = Ok s' → (i <= j < i + n)%nat → Q s'.
Proof.
  intros Hinv Hkeeps Hturn.
  assert (Hstable : ∀ n i s s',
            P s → Q s → for_fold n i body s = Ok s' → Q s').
  { induction n as [|n IH]; intros i s s' HP HQ; cbn [for_fold].
    - intros Heq. inversion Heq. now subst.
    - destruct (body i s) as [s1| | |] eqn:Hstep; try discriminate.
      cbn [res_bind]. apply IH; eauto. }
  induction n as [|n IH]; intros i s s' HP Hfold Hj; [lia|].
  cbn [for_fold] in Hfold.
  destruct (body i s) as [s1| | |] eqn:Hstep; try discriminate.
  cbn [res_bind] in Hfold.
  destruct (decide (i = j)) as [->|Hne].
  - eapply Hstable; [| |exact Hfold]; eauto.
  - eapply IH; [|exact Hfold|lia]. eauto.
Qed.

Lemma serialize_immutable_samplers_keeps r set_layout samplers samplers' m :
  serialize_immutable_samplers r set_layout samplers = Ok samplers' →
  m ∈ samplers → m ∈ samplers'.
Proof.
  unfold serialize_immutable_samplers. intros Hrun Hm.
  revert Hrun. apply (for_fold_inv (λ s, m ∈ s)); [|exact Hm].
  intros j s s' Hs. cbv beta.
  destruct (index _ j) as [binding| | |]; try discriminate.
  cbn [res_bind].
  destruct (Hashing.immutable_samplers binding) as [handles|].
  - apply (for_fold_inv (λ s, m ∈ s)); [|exact Hs].
    intros k s0 s0' Hs0. cbv beta.
    destruct (index handles k) as [sampler| | |]; try discriminate.
    cbn [res_bind]. intros Heq. inversion Heq.
    now apply serialize_obj_keeps.
  - intros Heq. inversion Heq. now subst.
Qed.

Lemma serialize_immutable_samplers_adds r set_layout samplers samplers'
    (j : nat) binding handles (k : nat) sampler info :
  from_store (StateRecorder.samplers r) samplers →
  serialize_immutable_samplers r set_layout samplers = Ok samplers' →
  (j < Z.to_nat
         set_layout.(VkDescriptorSetLayoutCreateInfo.bindingCount))%nat →
  set_layout.(VkDescriptorSetLayoutCreateInfo.pBindings) !! j
  = Some binding →
  Hashing.immutable_samplers binding = Some handles →
  (k < Z.to_nat binding.(VkDescriptorSetLayoutBinding.descriptorCount))%nat →
  handles !! k = Some sampler →
  StateRecorder.samplers r !! sampler = Some info →
  (sampler, info) ∈ samplers'.
Proof.
  intros Hfrom Hrun Hj Hbinding Hhandles Hk Hsampler Hinfo.
  unfold serialize_immutable_samplers in Hrun.
  assert (Hinner : ∀ b s s',
    from_store (StateRecorder.samplers r) s →
    match Hashing.immutable_samplers b with
    | Some handles =>
        for_fold (Z.to_nat (VkDescriptorSetLayoutBinding.descriptorCount b))
          0
          (λ k samplers,
            let? sampler := index handles k in
            Ok (serialize_obj sampler (StateRecorder.samplers r)
                  samplers).2)
          s
    | None => Ok s
    end = Ok s' →
    from_store (StateRecorder.samplers r) s'
    ∧ ((sampler, info) ∈ s → (sampler, info) ∈ s')).
  { intros b s s' Hs Hb.
    destruct (Hashing.immutable_samplers b) as [hs|].
    - split.
      + revert Hb. apply for_fold_inv; [|exact Hs].
        intros k0 s0 s0' Hs0. cbv beta.
        destruct (index hs k0); try discriminate. cbn [res_bind].
        intros Heq. inversion Heq. now apply serialize_obj_from_store.
      + intros Hin. revert Hb.
        apply (for_fold_inv (λ s, (sampler, info) ∈ s)); [|exact Hin].
        intros k0 s0 s0' Hs0. cbv beta.
        destruct (index hs k0); try discriminate. cbn [res_bind].
        intros Heq. inversion Heq. now apply serialize_obj_keeps.
    - inversion Hb. subst. tauto. }
  eapply (for_fold_turn (from_store (StateRecorder.samplers r))
            (λ s, (sampler, info) ∈ s) _ j); [| | |exact Hfrom|exact Hrun|lia].
  - intros i s s' Hs. cbv beta.
    destruct (index _ i) as [b| | |]; try discriminate. cbn [res_bind].
    intros Hb. now apply (Hinner b s s').
  - intros i s s' Hs Hin. cbv beta.
    destruct (index _ i) as [b| | |]; try discriminate. cbn [res_bind].
    intros Hb. now apply (Hinner b s s').
  - intros s s' Hs. cbv beta. rewrite (index_lookup _ _ _ Hbinding).
    cbn [res_bind]. rewrite Hhandles. intros Hloop.
    eapply (for_fold_turn (from_store (StateRecorder.samplers r))
              (λ s, (sampler, info) ∈ s) _ k);
      [| | |exact Hs|exact Hloop|lia].
    + intros i s0 s0' Hs0. cbv beta.
      destruct (index handles i); try discriminate. cbn [res_bind].
      intros Heq. inversion Heq. now apply serialize_obj_from_store.
    + intros i s0 s0' Hs0 Hin. cbv beta.
      destruct (index handles i); try discriminate. cbn [res_bind].
      intros Heq. inversion Heq. now apply serialize_obj_keeps.
    + intros s0 s0' Hs0. cbv beta. rewrite (index_lookup _ _ _ Hsampler).
      cbn [res_bind]. intros Heq. inversion Heq.
      now apply serialize_obj_adds.
Qed.

Lemma serialize_pipeline_layout_complete r layout maps maps' :
  maps_from_stores r maps →
  serialize_pipeline_layout r layout maps = Ok maps' →
  layout_closure_in r layout (samplers_map maps') (set_layouts_map maps')
    (pipeline_layouts_map maps').
Proof.
  intros Hfrom Hrun. unfold serialize_pipeline_layout in Hrun.
  pose proof (serialize_obj_found layout (pipeline_layouts r)
                (pipeline_layouts_map maps)) as Hfound.
  pose proof (serialize_obj_from_store layout (pipeline_layouts r)
                (pipeline_layouts_map maps)) as Hsound.
  pose proof (serialize_obj_adds layout (pipeline_layouts r)
                (pipeline_layouts_map maps)) as Hadds.
  destruct (serialize_obj layout (pipeline_layouts r)
              (pipeline_layouts_map maps)) as [[pipeline_layout|] pls];
    cbn [fst snd] in *.
  2: { unfold layout_closure_in, layout_reaches_set_layout.
       repeat split.
       - intros info Hinfo. congruence.
       - intros sl info (pl & i & Hpl & _). congruence.
       - intros sl sa info (pl & i & Hpl & _). congruence. }
  destruct Hfrom as (Hsa & Hsl & Hpl).
  match type of Hrun with
  | for_fold _ _ ?b ?s0 = _ => set (body := b) in *; set (maps1 := s0) in *
  end.
  assert (Hstart : maps_from_stores r maps1).
  { subst maps1. repeat split; cbn; try apply Hsa; try apply Hsl;
      now apply Hsound. }
  assert (Hbody_inv : ∀ i s s',
            maps_from_stores r s → body i s = Ok s' → maps_from_stores r s').
  { intros i s s' Hs. subst body. cbv beta.
    destruct (index _ i) as [handle| | |]; try discriminate.
    cbn [res_bind].
    pose proof (serialize_obj_from_store handle (descriptor_sets r)
                  (set_layouts_map s)) as Hset.
    destruct (serialize_obj handle (descriptor_sets r) (set_layouts_map s))
      as [[set_layout|] sls].
    - destruct (serialize_immutable_samplers r set_layout (samplers_map s))
        as [samplers'| | |] eqn:Hsamplers; try discriminate.
      cbn [res_bind]. intros Heq. inversion Heq.
      destruct Hs as (Hs1 & Hs2 & Hs3). repeat split; cbn.
      all: try (apply Hset, Hs2). all: try apply Hs3.
      all: try (eapply serialize_immutable_samplers_from_store;
                [exact Hs1 | exact Hsamplers]).
    - intros Heq. inversion Heq. now subst. }
  assert (Hbody_keeps : ∀ i s s',
            body i s = Ok s' →
            (∀ m, m ∈ samplers_map s → m ∈ samplers_map s')
            ∧ (∀ m, m ∈ set_layouts_map s → m ∈ set_layouts_map s')
            ∧ pipeline_layouts_map s' = pipeline_layouts_map s).
  { intros i s s'. subst body. cbv beta.
    destruct (index _ i) as [handle| | |]; try discriminate.
    cbn [res_bind].
    pose proof (serialize_obj_keeps handle (descriptor_sets r)
                  (set_layouts_map s)) as Hset.
    destruct (serialize_obj handle (descriptor_sets r) (set_layouts_map s))
      as [[set_layout|] sls].
    - destruct (serialize_immutable_samplers r set_layout (samplers_map s))
        as [samplers'| | |] eqn:Hsamplers; try discriminate.
      cbn [res_bind]. intros Heq. inversion Heq. cbn.
      repeat split; [|exact Hset].
      intros m. now apply (serialize_immutable_samplers_keeps r set_layout).
    - intros Heq. inversion Heq. subst. tauto. }
  pose proof (eq_sym Hfound) as Hstored.
  unfold layout_closure_in, layout_reaches_set_layout. repeat split.
  - intros info Hinfo.
    assert (info = pipeline_layout) as -> by congruence.
    revert Hrun.
    apply (for_fold_inv
             (λ s, (layout, pipeline_layout) ∈ pipeline_layouts_map s)).
    + intros i s s' Hin Hstep.
      destruct (Hbody_keeps i s s' Hstep) as (_ & _ & ->). exact Hin.
    + subst maps1. cbn. now apply Hadds.
  - intros sl info (pl & i & Hpl' & Hi & Hsl') Hinfo.
    assert (pl = pipeline_layout) as -> by congruence.
    eapply (for_fold_turn (maps_from_stores r)
              (λ s, (sl, info) ∈ set_layouts_map s) body i);
      [exact Hbody_inv| | |exact Hstart|exact Hrun|lia].
    + intros i0 s s' _ Hin Hstep.
      now apply (Hbody_keeps i0 s s' Hstep).
    + intros s s' Hs. subst body. cbv beta.
      rewrite (index_lookup _ _ _ Hsl'). cbn [res_bind].
      pose proof (serialize_obj_adds sl (descriptor_sets r)
                    (set_layouts_map s) info (proj1 (proj2 Hs)) Hinfo)
        as Hadd.
      pose proof (serialize_obj_found sl (descriptor_sets r)
                    (set_layouts_map s)) as Hf.
      destruct (serialize_obj sl (descriptor_sets r) (set_layouts_map s))
        as [[set_layout|] sls]; cbn [fst snd] in Hadd, Hf; [|congruence].
      destruct (serialize_immutable_samplers r set_layout (samplers_map s))
        as [samplers'| | |]; try discriminate.
      cbn [res_bind]. intros Heq. inversion Heq. exact Hadd.
  - intros sl sa info (pl & i & Hpl' & Hi & Hsl')
      (dsl & j & binding & handles & k & Hdsl & Hj & Hb & Hh & Hk & Hsa')
      Hinfo.
    assert (pl = pipeline_layout) as -> by congruence.
    eapply (for_fold_turn (maps_from_stores r)
              (λ s, (sa, info) ∈ samplers_map s) body i);
      [exact Hbody_inv| | |exact Hstart|exact Hrun|lia].
    + intros i0 s s' _ Hin Hstep.
      now apply (Hbody_keeps i0 s s' Hstep).
    + intros s s' Hs. subst body. cbv beta.
      rewrite (index_lookup _ _ _ Hsl'). cbn [res_bind].
      pose proof (serialize_obj_found sl (descriptor_sets r)
                    (set_layouts_map s)) as Hf.
      destruct (serialize_obj sl (descriptor_sets r) (set_layouts_map s))
        as [[set_layout|] sls]; cbn [fst] in Hf; [|congruence].
      assert (set_layout = dsl) as -> by congruence.
      destruct (serialize_immutable_samplers r dsl (samplers_map s))
        as [samplers'| | |] eqn:Hsamplers; try discriminate.
      cbn [res_bind]. intros Heq. inversion Heq. cbn.
      apply (serialize_immutable_samplers_adds r dsl (samplers_map s)
               samplers' j binding handles k sa info); auto.
      apply Hs.
Qed.

End ClosureComplete.

(** X16.  The closure of a stored graphics pipeline is complete for
    what the recorder has stored: its document holds the pipeline, its
    render pass and its pipeline layout when they are stored, every
    stored set layout among the first [setLayoutCount] of that layout,
    and every stored sampler among the immutable samplers of the
    sampler-typed bindings of those set layouts. *)
Theorem X16_graphics_closure_is_complete (r : StateRecorder.t) (hash : Z)
    (pipe : VkGraphicsPipelineCreateInfo.t) (doc : Document.t) :
  StateRecorder.graphics_pipelines r !! hash = Some pipe →
  Serialize.serialize_graphics_pipeline r hash = Ok (JsonText doc) →
  (hash, pipe) ∈ elems (Document.graphicsPipelines doc)
  ∧ (∀ info,
       StateRecorder.render_passes r
         !! pipe.(VkGraphicsPipelineCreateInfo.renderPass) = Some info →
       (pipe.(VkGraphicsPipelineCreateInfo.renderPass), info)
       ∈ elems (Document.renderPasses doc))
  ∧ layout_closure_in r pipe.(VkGraphicsPipelineCreateInfo.layout)
      (elems (Document.samplers doc)) (elems (Document.setLayouts doc))
      (elems (Document.pipelineLayouts doc)).
Proof.
  intros Hpipe Hdoc. unfold Serialize.serialize_graphics_pipeline in Hdoc.
  unfold Serialize.serialize_obj at 1 in Hdoc. rewrite Hpipe in Hdoc.
  cbn [Serialize.HasMember existsb app] in Hdoc.
  destruct (Serialize.serialize_pipeline_layout r
              (VkGraphicsPipelineCreateInfo.layout pipe)
              Serialize.no_layout_maps) as [maps| | |] eqn:Hmaps;
    try discriminate.
  cbn in Hdoc. inversion Hdoc. subst doc. cbn [elems
    Document.graphicsPipelines Document.renderPasses Document.samplers
    Document.setLayouts Document.pipelineLayouts].
  split; [|split].
  - now apply list_elem_of_singleton.
  - intros info Hinfo. apply serialize_obj_adds; [|exact Hinfo].
    apply from_store_nil.
  - apply (serialize_pipeline_layout_complete r _ Serialize.no_layout_maps);
      [apply no_layout_maps_from_stores | exact Hmaps].
Qed.

(** X17.  The closure of a stored compute pipeline is complete in the
    same way: its document holds the pipeline, its pipeline layout when
    stored, the stored set layouts of that layout and the stored
    immutable samplers of those. *)
Theorem X17_compute_closure_is_complete (r : StateRecorder.t) (hash : Z)
    (pipe : VkComputePipelineCreateInfo.t) (doc : Document.t) :
  StateRecorder.compute_pipelines r !! hash = Some pipe →
  Serialize.serialize_compute_pipeline r hash = Ok (JsonText doc) →
  (hash, pipe) ∈ elems (Document.computePipelines doc)
  ∧ layout_closure_in r pipe.(VkComputePipelineCreateInfo.layout)
      (elems (Document.samplers doc)) (elems (Document.setLayouts doc))
      (elems (Document.pipelineLayouts doc)).
Proof.
  intros Hpipe Hdoc. unfold Serialize.serialize_compute_pipeline in Hdoc.
  unfold Serialize.serialize_obj at 1 in Hdoc. rewrite Hpipe in Hdoc.
  cbn [Serialize.HasMember existsb app] in Hdoc.
  destruct (Serialize.serialize_pipeline_layout r
              (VkComputePipelineCreateInfo.layout pipe)
              Serialize.no_layout_maps) as [maps| | |] eqn:Hmaps;
    try discriminate.
  cbn in Hdoc. inversion Hdoc. subst doc. cbn [elems
    Document.computePipelines Document.samplers
    Document.setLayouts Document.pipelineLayouts].
  split.
  - now apply list_elem_of_singleton.
  - apply (serialize_pipeline_layout_complete r _ Serialize.no_layout_maps);
      [apply no_layout_maps_from_stores | exact Hmaps].
Qed.

Lemma X16_graphics_closure_is_complete_witness :
  ∃ doc,
    Serialize.serialize_graphics_pipeline sample_store sample_pipeline_hash
    = Ok (JsonText doc)
    ∧ (sample_pipeline_hash, sample_stored_pipeline)
      ∈ elems (Document.graphicsPipelines doc)
    ∧ (∀ info,
         StateRecorder.render_passes sample_store
           !! sample_stored_pipeline.(VkGraphicsPipelineCreateInfo.renderPass)
         = Some info →
         (sample_stored_pipeline.(VkGraphicsPipelineCreateInfo.renderPass),
          info) ∈ elems (Document.renderPasses doc))
    ∧ layout_closure_in sample_store
        sample_stored_pipeline.(VkGraphicsPipelineCreateInfo.layout)
        (elems (Document.samplers doc)) (elems (Document.setLayouts doc))
        (elems (Document.pipelineLayouts doc)).
Proof.
  eexists. split; [vm_compute; reflexivity|].
  apply (X16_graphics_closure_is_complete sample_store sample_pipeline_hash
           sample_stored_pipeline).
  - vm_compute. reflexivity.
  - vm_compute. reflexivity.
Defined.

Lemma X17_compute_closure_is_complete_witness :
  ∃ pipe doc,
    StateRecorder.compute_pipelines sample_compute_store
      !! sample_compute_hash = Some pipe
    ∧ Serialize.serialize_compute_pipeline sample_compute_store
        sample_compute_hash = Ok (JsonText doc)
    ∧ (sample_compute_hash, pipe) ∈ elems (Document.computePipelines doc)
    ∧ layout_closure_in sample_compute_store
        pipe.(VkComputePipelineCreateInfo.layout)
        (elems (Document.samplers doc)) (elems (Document.setLayouts doc))
        (elems (Document.pipelineLayouts doc)).
Proof.
  do 2 eexists. split; [vm_compute; reflexivity|].
  split; [vm_compute; reflexivity|].
  apply (X17_compute_closure_is_complete sample_compute_store
           sample_compute_hash).
  - vm_compute. reflexivity.
  - vm_compute. reflexivity.
Defined.

(** ** The tables of the replayer *)

Section ReplayTables.
Import StateReplayer.
Context {C : Type}.
Variable iface : StateCreatorInterface C.

Lemma keys_kept_refl m : keys_kept m m.
Proof. now intros k. Qed.

Lemma keys_kept_trans m1 m2 m3 :
  keys_kept m1 m2 → keys_kept m2 m3 → keys_kept m1 m3.
Proof. intros H12 H23 k Hk. auto. Qed.

Lemma subseteq_keys_kept (m m' : gmap Z Z) : m ⊆ m' → keys_kept m m'.
Proof.
  intros Hsub k [v Hk]. exists v. eapply lookup_weaken; eauto.
Qed.

Lemma extend_refl rep : tables_extend rep rep.
Proof.
  unfold tables_extend. repeat split; try reflexivity;
    apply keys_kept_refl.
Qed.

Lemma extend_trans rep1 rep2 rep3 :
  tables_extend rep1 rep2 → tables_extend rep2 rep3 →
  tables_extend rep1 rep3.
Proof.
  unfold tables_extend.
  intros (A1 & A2 & A3 & A4 & A5 & A6 & A7) (B1 & B2 & B3 & B4 & B5 & B6 & B7).
  repeat split; try (etransitivity; eassumption);
    eapply keys_kept_trans; eassumption.
Qed.

Ltac extending_table :=
  split; [reflexivity|]; split; [reflexivity|];
  intros v rep Hsub; unfold tables_extend; cbn;
  repeat split; try reflexivity; try exact Hsub; try apply keys_kept_refl;
  try (apply subseteq_keys_kept; exact Hsub).

Lemma extending_samplers :
  extending replayed_samplers set_replayed_samplers.
Proof. extending_table. Qed.

Lemma extending_descriptor_set_layouts :
  extending replayed_descriptor_set_layouts
    set_replayed_descriptor_set_layouts.
Proof. extending_table. Qed.

Lemma extending_pipeline_layouts :
  extending replayed_pipeline_layouts set_replayed_pipeline_layouts.
Proof. extending_table. Qed.

Lemma extending_shader_modules :
  extending replayed_shader_modules set_replayed_shader_modules.
Proof. extending_table. Qed.

Lemma extending_render_passes :
  extending replayed_render_passes set_replayed_render_passes.
Proof. extending_table. Qed.

Lemma keeping_render_passes :
  keeping replayed_render_passes set_replayed_render_passes.
Proof. extending_table. Qed.

Lemma keeping_compute_pipelines :
  keeping replayed_compute_pipelines set_replayed_compute_pipelines.
Proof. extending_table. Qed.

Lemma keeping_graphics_pipelines :
  keeping replayed_graphics_pipelines set_replayed_graphics_pipelines.
Proof. extending_table. Qed.

Lemma subscript_extends (m : gmap Z Z) (key : Z) :
  m ⊆ (Replay.subscript m key).2.
Proof.
  unfold Replay.subscript. destruct (m !! key) eqn:Hkey; cbn [snd].
  - reflexivity.
  - now apply insert_subseteq.
Qed.

Lemma subscript_has (m : gmap Z Z) (key : Z) :
  is_Some ((Replay.subscript m key).2 !! key).
Proof.
  unfold Replay.subscript. destruct (m !! key) eqn:Hkey; cbn [snd].
  - eauto.
  - rewrite lookup_insert_eq. eauto.
Qed.

Lemma count_None (m : gmap Z Z) (k : Z) :
  Recording.count m k = false → m !! k = None.
Proof. unfold Recording.count. now destruct (m !! k). Qed.

(** A create call for a hash that has no handle. *)
Lemma create_extends {I : Type} (enqueue : Z → I → C → bool * Z * C)
    get set hash info msg (st st' : Replay.State) :
  extending get set →
  get st.1 !! hash = None →
  Replay.create enqueue get set hash info msg st = Ok st' →
  tables_extend st.1 st'.1 ∧ is_Some (get st'.1 !! hash).
Proof.
  intros (Hget & Hset2 & Hset) Hnew. unfold Replay.create.
  destruct (enqueue hash info st.2) as [[accepted created] c'].
  destruct accepted; [|discriminate].
  intros Heq. inversion Heq. subst st'. cbn [fst].
  rewrite Hset2, !Hget. split.
  - apply Hset. unfold Replay.subscript. rewrite Hnew. cbn [snd].
    rewrite insert_insert_eq. now apply insert_subseteq.
  - rewrite lookup_insert_eq. eauto.
Qed.

(** A create call for a hash that may have a handle. *)
Lemma create_keeps_keys {I : Type} (enqueue : Z → I → C → bool * Z * C)
    get set hash info msg (st st' : Replay.State) :
  keeping get set →
  Replay.create enqueue get set hash info msg st = Ok st' →
  tables_extend st.1 st'.1 ∧ is_Some (get st'.1 !! hash).
Proof.
  intros (Hget & Hset2 & Hset). unfold Replay.create.
  destruct (enqueue hash info st.2) as [[accepted created] c'].
  destruct accepted; [|discriminate].
  intros Heq. inversion Heq. subst st'. cbn [fst].
  rewrite Hset2, !Hget. split.
  - apply Hset. intros k Hk. destruct (decide (k = hash)) as [->|Hne].
    + rewrite lookup_insert_eq. eauto.
    + rewrite lookup_insert_ne by congruence.
      eapply subseteq_keys_kept; [apply subscript_extends | exact Hk].
  - rewrite lookup_insert_eq. eauto.
Qed.

Lemma resolve_handles_apart get' get set indices :
  apart get' set →
  ∀ rep, get' (Replay.resolve_handles get set indices rep).2 = get' rep.
Proof.
  intros Hapart.
  induction indices as [|index indices IH]; intros rep;
    cbn [Replay.resolve_handles].
  - reflexivity.
  - destruct (0 <? index).
    + destruct (Replay.subscript (get rep) index) as [v map].
      specialize (IH (set map rep)).
      destruct (Replay.resolve_handles get set indices (set map rep))
        as [vs rep''].
      cbn [snd] in *. now rewrite IH, Hapart.
    + specialize (IH rep).
      destruct (Replay.resolve_handles get set indices rep) as [vs rep''].
      exact IH.
Qed.

Lemma resolve_handles_extends get set indices :
  extending get set →
  ∀ rep, tables_extend rep (Replay.resolve_handles get set indices rep).2.
Proof.
  intros (Hget & Hset2 & Hset).
  induction indices as [|index indices IH]; intros rep;
    cbn [Replay.resolve_handles].
  - apply extend_refl.
  - destruct (0 <? index).
    + pose proof (subscript_extends (get rep) index) as Hsub.
      destruct (Replay.subscript (get rep) index) as [v map].
      specialize (IH (set map rep)).
      destruct (Replay.resolve_handles get set indices (set map rep))
        as [vs rep''].
      cbn [snd] in *. eapply extend_trans; [apply Hset, Hsub | exact IH].
    + specialize (IH rep).
      destruct (Replay.resolve_handles get set indices rep) as [vs rep''].
      exact IH.
Qed.

Lemma resolve_handle_extends get set index (st : @Replay.State C) :
  extending get set →
  tables_extend st.1 (Replay.resolve_handle get set index st).2.1
  ∧ (Replay.resolve_handle get set index st).2.2 = st.2.
Proof.
  intros (Hget & Hset2 & Hset). unfold Replay.resolve_handle.
  destruct (0 <? index); [|split; [apply extend_refl | reflexivity]].
  pose proof (subscript_extends (get st.1) index) as Hsub.
  destruct (Replay.subscript (get st.1) index) as [v map].
  cbn [fst snd] in *. split; [now apply Hset | reflexivity].
Qed.

Lemma parse_descriptor_set_bindings_extends bindings :
  ∀ rep,
    tables_extend rep (Replay.parse_descriptor_set_bindings bindings rep).2.
Proof.
  induction bindings as [|b bindings IH]; intros rep;
    cbn [Replay.parse_descriptor_set_bindings].
  - apply extend_refl.
  - destruct (VkDescriptorSetLayoutBinding.pImmutableSamplers b)
      as [samplers|].
    + pose proof (resolve_handles_extends replayed_samplers
                    set_replayed_samplers
                    (take
                       (Z.to_nat
                          (VkDescriptorSetLayoutBinding.descriptorCount b))
                       samplers) extending_samplers rep) as Hkeeps.
      destruct (Replay.resolve_handles _ _ _ rep) as [handles rep'].
      specialize (IH rep').
      destruct (Replay.parse_descriptor_set_bindings bindings rep')
        as [rest rep''].
      cbn [snd] in *. eapply extend_trans; eassumption.
    + specialize (IH rep).
      destruct (Replay.parse_descriptor_set_bindings bindings rep)
        as [rest rep''].
      exact IH.
Qed.

(** A loop over the members of a section, every turn of which extends
    the tables. *)
Lemma for_members_extends {T : Type}
    (body : T → Replay.State → Res Replay.State) :
  (∀ member st st', body member st = Ok st' → tables_extend st.1 st'.1) →
  ∀ members (st st' : @Replay.State C),
    Replay.for_members body members st = Ok st' →
    tables_extend st.1 st'.1.
Proof.
  intros Hbody members.
  induction members as [|member members IH]; intros st st';
    cbn [Replay.for_members].
  - intros Heq. inversion Heq. apply extend_refl.
  - destruct (body member st) as [st1| | |] eqn:Hstep; try discriminate.
    cbn [res_bind]. intros Hrest.
    eapply extend_trans; [eapply Hbody; exact Hstep | now apply IH].
Qed.

Lemma section_extends (st st' : @Replay.State C) (m : Res Replay.State) :
  (∀ st1, m = Ok st1 → tables_extend st.1 st1.1) →
  (let? st := m in Ok (st.1, wait_enqueue iface st.2)) = Ok st' →
  tables_extend st.1 st'.1.
Proof.
  intros Hm. destruct m as [st1| | |]; try discriminate.
  cbn [res_bind]. intros Heq. inversion Heq. cbn [fst]. now apply Hm.
Qed.

Lemma parse_shader_modules_extends modules (st st' : Replay.State) :
  Replay.parse_shader_modules iface modules st = Ok st' →
  tables_extend st.1 st'.1.
Proof.
  apply section_extends. intros st1. apply for_members_extends.
  intros [hash obj] st0 st0'.
  destruct (Recording.count (replayed_shader_modules st0.1) hash) eqn:Hcount.
  - intros Heq. inversion Heq. apply extend_refl.
  - intros Hcreate.
    eapply (create_extends _ _ _ _ _ _ _ _ extending_shader_modules);
      [|exact Hcreate].
    now apply count_None.
Qed.

Lemma parse_samplers_extends samplers (st st' : Replay.State) :
  Replay.parse_samplers iface samplers st = Ok st' →
  tables_extend st.1 st'.1.
Proof.
  apply section_extends. intros st1. apply for_members_extends.
  intros [hash obj] st0 st0'.
  destruct (Recording.count (replayed_samplers st0.1) hash) eqn:Hcount.
  - intros Heq. inversion Heq. apply extend_refl.
  - intros Hcreate.
    eapply (create_extends _ _ _ _ _ _ _ _ extending_samplers);
      [|exact Hcreate].
    now apply count_None.
Qed.

Lemma parse_descriptor_set_bindings_apart get' bindings :
  apart get' set_replayed_samplers →
  ∀ rep,
    get' (Replay.parse_descriptor_set_bindings bindings rep).2 = get' rep.
Proof.
  intros Hapart.
  induction bindings as [|b bindings IH]; intros rep;
    cbn [Replay.parse_descriptor_set_bindings].
  - reflexivity.
  - destruct (VkDescriptorSetLayoutBinding.pImmutableSamplers b)
      as [samplers|].
    + pose proof (resolve_handles_apart get' replayed_samplers
                    set_replayed_samplers
                    (take
                       (Z.to_nat
                          (VkDescriptorSetLayoutBinding.descriptorCount b))
                       samplers) Hapart rep) as Hkeeps.
      destruct (Replay.resolve_handles _ _ _ rep) as [handles rep'].
      specialize (IH rep').
      destruct (Replay.parse_descriptor_set_bindings bindings rep')
        as [rest rep''].
      cbn [snd] in *. congruence.
    + specialize (IH rep).
      destruct (Replay.parse_descriptor_set_bindings bindings rep)
        as [rest rep''].
      exact IH.
Qed.

Lemma parse_descriptor_set_layouts_extends layouts
    (st st' : Replay.State) :
  Replay.parse_descriptor_set_layouts iface layouts st = Ok st' →
  tables_extend st.1 st'.1.
Proof.
  apply section_extends. intros st1. apply for_members_extends.
  intros [hash obj] st0 st0'.
  destruct (Recording.count (replayed_descriptor_set_layouts st0.1) hash)
    eqn:Hcount.
  - intros Heq. inversion Heq. apply extend_refl.
  - pose proof (parse_descriptor_set_bindings_extends
                  (take
                     (Z.to_nat
                        (VkDescriptorSetLayoutCreateInfo.bindingCount obj))
                     (VkDescriptorSetLayoutCreateInfo.pBindings obj))
                  st0.1) as Hbindings.
    pose proof (parse_descriptor_set_bindings_apart
                  replayed_descriptor_set_layouts
                  (take
                     (Z.to_nat
                        (VkDescriptorSetLayoutCreateInfo.bindingCount obj))
                     (VkDescriptorSetLayoutCreateInfo.pBindings obj))
                  (λ _ _, eq_refl) st0.1) as Hapart.
    destruct (Replay.parse_descriptor_set_bindings _ st0.1)
      as [bindings rep].
    cbn [snd] in Hbindings, Hapart. intros Hcreate.
    eapply extend_trans; [exact Hbindings|].
    eapply (create_extends _ _ _ _ _ _ (rep, st0.2) _
              extending_descriptor_set_layouts); [|exact Hcreate].
    cbn [fst]. rewrite Hapart. now apply count_None.
Qed.

Lemma parse_pipeline_layouts_extends layouts (st st' : Replay.State) :
  Replay.parse_pipeline_layouts iface layouts st = Ok st' →
  tables_extend st.1 st'.1.
Proof.
  apply section_extends. intros st1. apply for_members_extends.
  intros [hash obj] st0 st0'.
  destruct (Recording.count (replayed_pipeline_layouts st0.1) hash)
    eqn:Hcount.
  - intros Heq. inversion Heq. apply extend_refl.
  - cbv zeta.
    pose proof (resolve_handles_extends replayed_descriptor_set_layouts
                  set_replayed_descriptor_set_layouts
                  (take
                     (Z.to_nat
                        (VkPipelineLayoutCreateInfo.setLayoutCount obj))
                     (VkPipelineLayoutCreateInfo.pSetLayouts obj))
                  extending_descriptor_set_layouts st0.1) as Hhandles.
    pose proof (resolve_handles_apart replayed_pipeline_layouts
                  replayed_descriptor_set_layouts
                  set_replayed_descriptor_set_layouts
                  (take
                     (Z.to_nat
                        (VkPipelineLayoutCreateInfo.setLayoutCount obj))
                     (VkPipelineLayoutCreateInfo.pSetLayouts obj))
                  (λ _ _, eq_refl) st0.1) as Hapart.
    destruct (Replay.resolve_handles _ _ _ st0.1) as [set_layouts rep].
    cbn [snd] in Hhandles, Hapart. intros Hcreate.
    eapply extend_trans; [exact Hhandles|].
    eapply (create_extends _ _ _ _ _ _ (rep, st0.2) _
              extending_pipeline_layouts); [|exact Hcreate].
    cbn [fst]. rewrite Hapart. now apply count_None.
Qed.

Lemma parse_render_passes_extends passes (st st' : Replay.State) :
  Replay.parse_render_passes iface passes st = Ok st' →
  tables_extend st.1 st'.1.
Proof.
  apply section_extends. intros st1. apply for_members_extends.
  intros [hash obj] st0 st0'.
  destruct (Recording.count (replayed_samplers st0.1) hash).
  - intros Heq. inversion Heq. apply extend_refl.
  - intros Hcreate.
    now apply (create_keeps_keys _ _ _ _ _ _ _ _ keeping_render_passes)
      in Hcreate.
Qed.

Section WithResolver.
Variable resolver : ResolverInterface.
Variable parse_rec : Buffer → @Replay.State C → Res (@Replay.State C).
Hypothesis Hrec :
  ∀ buffer st st', parse_rec buffer st = Ok st' → tables_extend st.1 st'.1.

Lemma find_or_resolve_extends get hash msg1 msg2 (st st' : Replay.State)
    created :
  Replay.find_or_resolve resolver parse_rec get hash msg1 msg2 st
  = Ok (created, st') →
  tables_extend st.1 st'.1.
Proof.
  unfold Replay.find_or_resolve.
  destruct (get st.1 !! hash).
  - intros Heq. inversion Heq. apply extend_refl.
  - destruct (Replay.buffer_empty (resolver hash)); [discriminate|].
    destruct (parse_rec (resolver hash) st) as [st1| | |] eqn:Hparse;
      try discriminate.
    cbn [res_bind]. destruct (get st1.1 !! hash); [|discriminate].
    intros Heq. inversion Heq. subst. now apply Hrec in Hparse.
Qed.

Lemma parse_stage_extends obj (st st' : Replay.State) stage :
  Replay.parse_stage resolver parse_rec obj st = Ok (stage, st') →
  tables_extend st.1 st'.1.
Proof.
  unfold Replay.parse_stage. cbv zeta.
  destruct (0 <? VkPipelineShaderStageCreateInfo.module obj).
  - destruct (Replay.find_or_resolve _ _ _ _ _ _ st)
      as [[created st1]| | |] eqn:Hfind; try discriminate.
    cbn [res_bind]. intros Heq. inversion Heq. subst.
    now apply find_or_resolve_extends in Hfind.
  - cbn [res_bind]. intros Heq. inversion Heq. apply extend_refl.
Qed.

Lemma parse_stages_extends stages :
  ∀ (st st' : Replay.State) result,
    Replay.parse_stages resolver parse_rec stages st = Ok (result, st') →
    tables_extend st.1 st'.1.
Proof.
  induction stages as [|obj stages IH]; intros st st' result;
    cbn [Replay.parse_stages].
  - intros Heq. inversion Heq. apply extend_refl.
  - destruct (Replay.parse_stage resolver parse_rec obj st)
      as [[stage st1]| | |] eqn:Hstage; try discriminate.
    cbn [res_bind].
    destruct (Replay.parse_stages resolver parse_rec stages st1)
      as [[rest st2]| | |] eqn:Hrest; try discriminate.
    cbn [res_bind]. intros Heq. inversion Heq. subst.
    eapply extend_trans; [eapply parse_stage_extends; exact Hstage|].
    eapply IH; exact Hrest.
Qed.

Lemma parse_compute_pipeline_extends hash obj (st st' : Replay.State) :
  Replay.parse_compute_pipeline iface resolver parse_rec hash obj st
  = Ok st' →
  tables_extend st.1 st'.1
  ∧ is_Some (replayed_compute_pipelines st'.1 !! hash).
Proof.
  unfold Replay.parse_compute_pipeline.
  destruct (Recording.count (replayed_compute_pipelines st.1) hash)
    eqn:Hcount.
  { intros Heq. inversion Heq. subst st'. split; [apply extend_refl|].
    unfold Recording.count in Hcount.
    destruct (replayed_compute_pipelines st.1 !! hash); [eauto|discriminate]. }
  destruct (Replay.GetUint _) as [index| | |]; try discriminate.
  cbn [res_bind]. cbv zeta.
  match goal with
  | |- res_bind ?m _ = _ → _ =>
      assert (Hbase : ∀ v st1, m = Ok (v, st1) → tables_extend st.1 st1.1);
        [|destruct m as [[base st1]| | |]; try discriminate;
          specialize (Hbase _ _ eq_refl)]
  end.
  { destruct (0 <? VkComputePipelineCreateInfo.basePipelineHandle obj).
    - intros v st1 Hfind. now apply find_or_resolve_extends in Hfind.
    - intros v st1 Heq. inversion Heq. apply extend_refl. }
  cbn [res_bind].
  pose proof (resolve_handle_extends replayed_pipeline_layouts
                set_replayed_pipeline_layouts
                (VkComputePipelineCreateInfo.layout obj) st1
                extending_pipeline_layouts) as [Hlayout _].
  destruct (Replay.resolve_handle _ _ _ st1) as [layout st2].
  cbn [snd] in Hlayout.
  match goal with
  | |- res_bind ?m _ = _ → _ =>
      assert (Hmodule : ∀ v st3, m = Ok (v, st3) →
                        tables_extend st2.1 st3.1);
        [|destruct m as [[created st3]| | |]; try discriminate;
          specialize (Hmodule _ _ eq_refl)]
  end.
  { destruct (0 <? _).
    - intros v st3 Hfind. now apply find_or_resolve_extends in Hfind.
    - intros v st3 Heq. inversion Heq. apply extend_refl. }
  cbn [res_bind]. intros Hcreate.
  apply (create_keeps_keys _ _ _ _ _ _ _ _ keeping_compute_pipelines)
    in Hcreate.
  destruct Hcreate as [Hcreate Hhas]. split; [|exact Hhas].
  eapply extend_trans; [exact Hbase|].
  eapply extend_trans; [exact Hlayout|].
  eapply extend_trans; [exact Hmodule|]. exact Hcreate.
Qed.

Lemma parse_graphics_pipeline_extends hash obj (st st' : Replay.State) :
  Replay.parse_graphics_pipeline iface resolver parse_rec hash obj st
  = Ok st' →
  tables_extend st.1 st'.1
  ∧ is_Some (replayed_graphics_pipelines st'.1 !! hash).
Proof.
  unfold Replay.parse_graphics_pipeline.
  destruct (Recording.count (replayed_graphics_pipelines st.1) hash)
    eqn:Hcount.
  { intros Heq. inversion Heq. subst st'. split; [apply extend_refl|].
    unfold Recording.count in Hcount.
    destruct (replayed_graphics_pipelines st.1 !! hash);
      [eauto|discriminate]. }
  destruct (Replay.GetUint _) as [index| | |]; try discriminate.
  cbn [res_bind]. cbv zeta.
  match goal with
  | |- res_bind ?m _ = _ → _ =>
      assert (Hbase : ∀ v st1, m = Ok (v, st1) → tables_extend st.1 st1.1);
        [|destruct m as [[base st1]| | |]; try discriminate;
          specialize (Hbase _ _ eq_refl)]
  end.
  { destruct (0 <? VkGraphicsPipelineCreateInfo.basePipelineHandle obj).
    - intros v st1 Hfind. now apply find_or_resolve_extends in Hfind.
    - intros v st1 Heq. inversion Heq. apply extend_refl. }
  cbn [res_bind].
  pose proof (resolve_handle_extends replayed_pipeline_layouts
                set_replayed_pipeline_layouts
                (VkGraphicsPipelineCreateInfo.layout obj) st1
                extending_pipeline_layouts) as [Hlayout _].
  destruct (Replay.resolve_handle _ _ _ st1) as [layout st2].
  cbn [snd] in Hlayout.
  pose proof (resolve_handle_extends replayed_render_passes
                set_replayed_render_passes
                (VkGraphicsPipelineCreateInfo.renderPass obj) st2
                extending_render_passes) as [Hpass _].
  destruct (Replay.resolve_handle _ _ _ st2) as [renderPass st3].
  cbn [snd] in Hpass.
  destruct (Replay.parse_stages resolver parse_rec _ st3)
    as [[stages st4]| | |] eqn:Hstages; try discriminate.
  apply parse_stages_extends in Hstages.
  cbn [res_bind]. intros Hcreate.
  apply (create_keeps_keys _ _ _ _ _ _ _ _ keeping_graphics_pipelines)
    in Hcreate.
  destruct Hcreate as [Hcreate Hhas]. split; [|exact Hhas].
  eapply extend_trans; [exact Hbase|].
  eapply extend_trans; [exact Hlayout|].
  eapply extend_trans; [exact Hpass|].
  eapply extend_trans; [exact Hstages|]. exact Hcreate.
Qed.

Lemma parse_compute_pipelines_extends pipelines (st st' : Replay.State) :
  Replay.parse_compute_pipelines iface resolver parse_rec pipelines st
  = Ok st' →
  tables_extend st.1 st'.1.
Proof.
  apply section_extends. intros st1. apply for_members_extends.
  intros [hash obj] st0 st0' Hstep.
  now apply parse_compute_pipeline_extends in Hstep.
Qed.

Lemma parse_graphics_pipelines_extends pipelines (st st' : Replay.State) :
  Replay.parse_graphics_pipelines iface resolver parse_rec pipelines st
  = Ok st' →
  tables_extend st.1 st'.1.
Proof.
  apply section_extends. intros st1. apply for_members_extends.
  intros [hash obj] st0 st0' Hstep.
  now apply parse_graphics_pipeline_extends in Hstep.
Qed.

Lemma parse_section_extends {T : Type} (member : option (list (Z * T)))
    parse_members set_num (st st' : @Replay.State C) :
  (∀ members (st st' : @Replay.State C),
     parse_members members st = Ok st' → tables_extend st.1 st'.1) →
  Replay.parse_section member parse_members set_num st = Ok st' →
  tables_extend st.1 st'.1.
Proof.
  intros Hmembers. unfold Replay.parse_section.
  destruct member as [members|].
  - apply Hmembers.
  - intros Heq. inversion Heq. apply extend_refl.
Qed.

Lemma parse_buffer_extends buffer (st st' : Replay.State) :
  Replay.parse_buffer iface resolver parse_rec buffer st = Ok st' →
  tables_extend st.1 st'.1.
Proof.
  unfold Replay.parse_buffer.
  destruct buffer as [| |doc]; try discriminate.
  destruct (Document.version doc) as [version|]; [|discriminate].
  destruct (negb (version =? FOSSILIZE_FORMAT_VERSION)); [discriminate|].
  destruct (Replay.parse_section (Document.shaderModules doc) _ _ st)
    as [st1| | |] eqn:H1; try discriminate; cbn [res_bind].
  destruct (Replay.parse_section (Document.samplers doc) _ _ st1)
    as [st2| | |] eqn:H2; try discriminate; cbn [res_bind].
  destruct (Replay.parse_section (Document.setLayouts doc) _ _ st2)
    as [st3| | |] eqn:H3; try discriminate; cbn [res_bind].
  destruct (Replay.parse_section (Document.pipelineLayouts doc) _ _ st3)
    as [st4| | |] eqn:H4; try discriminate; cbn [res_bind].
  destruct (Replay.parse_section (Document.renderPasses doc) _ _ st4)
    as [st5| | |] eqn:H5; try discriminate; cbn [res_bind].
  destruct (Replay.parse_section (Document.computePipelines doc) _ _ st5)
    as [st6| | |] eqn:H6; try discriminate; cbn [res_bind].
  intros H7.
  apply parse_section_extends in H1;
    [|apply parse_shader_modules_extends].
  apply parse_section_extends in H2; [|apply parse_samplers_extends].
  apply parse_section_extends in H3;
    [|apply parse_descriptor_set_layouts_extends].
  apply parse_section_extends in H4;
    [|apply parse_pipeline_layouts_extends].
  apply parse_section_extends in H5; [|apply parse_render_passes_extends].
  apply parse_section_extends in H6;
    [|apply parse_compute_pipelines_extends].
  apply parse_section_extends in H7;
    [|apply parse_graphics_pipelines_extends].
  eapply extend_trans; [exact H1|].
  eapply extend_trans; [exact H2|].
  eapply extend_trans; [exact H3|].
  eapply extend_trans; [exact H4|].
  eapply extend_trans; [exact H5|].
  eapply extend_trans; [exact H6|]. exact H7.
Qed.

End WithResolver.

Lemma parse_extends fuel resolver :
  ∀ buffer (st st' : @Replay.State C),
    Replay.parse fuel iface resolver buffer st = Ok st' →
    tables_extend st.1 st'.1.
Proof.
  induction fuel as [|fuel IH]; intros buffer st st'; [discriminate|].
  cbn [Replay.parse]. now apply parse_buffer_extends.
Qed.

End ReplayTables.

(** X18.  A replay never forgets: whatever the document, the creator
    and the resolver, when [parse] returns, every shader module,
    sampler, set layout and pipeline layout that had a handle before
    has the same handle, and every render pass and pipeline that had a
    handle has one. *)
Theorem X18_replay_extends_tables {C : Type}
    (iface : StateCreatorInterface C) (resolver : ResolverInterface)
    (fuel : nat) (buffer : Buffer) (st st' : StateReplayer.t * C) :
  Replay.parse fuel iface resolver buffer st = Ok st' →
  (∀ hash created,
     (StateReplayer.replayed_shader_modules st.1 !! hash = Some created →
      StateReplayer.replayed_shader_modules st'.1 !! hash = Some created)
     ∧ (StateReplayer.replayed_samplers st.1 !! hash = Some created →
        StateReplayer.replayed_samplers st'.1 !! hash = Some created)
     ∧ (StateReplayer.replayed_descriptor_set_layouts st.1 !! hash
        = Some created →
        StateReplayer.replayed_descriptor_set_layouts st'.1 !! hash
        = Some created)
     ∧ (StateReplayer.replayed_pipeline_layouts st.1 !! hash
        = Some created →
        StateReplayer.replayed_pipeline_layouts st'.1 !! hash
        = Some created))
  ∧ (∀ hash,
       (is_Some (StateReplayer.replayed_render_passes st.1 !! hash) →
        is_Some (StateReplayer.replayed_render_passes st'.1 !! hash))
       ∧ (is_Some (StateReplayer.replayed_compute_pipelines st.1 !! hash) →
          is_Some (StateReplayer.replayed_compute_pipelines st'.1 !! hash))
       ∧ (is_Some (StateReplayer.replayed_graphics_pipelines st.1 !! hash) →
          is_Some
            (StateReplayer.replayed_graphics_pipelines st'.1 !! hash))).
Proof.
  intros Hparse. apply parse_extends in Hparse.
  destruct Hparse as (Hsa & Hsl & Hpl & Hsm & Hrp & Hcp & Hgp).
  split.
  - intros hash created. repeat split; intros Hhas;
      eapply lookup_weaken; eassumption.
  - intros hash. repeat split; intros Hhas.
    + now apply Hrp.
    + now apply Hcp.
    + now apply Hgp.
Qed.

Lemma X18_replay_extends_tables_witness :
  ∃ st',
    Replay.parse 1 counting_creator empty_resolver sample_module_document
      (StateReplayer.set_replayed_samplers {[ 7 := 70 ]}
         StateReplayer.empty, 0) = Ok st'
    ∧ StateReplayer.replayed_samplers st'.1 !! 7 = Some 70.
Proof.
  eexists. split; [vm_compute; reflexivity|].
  eapply (X18_replay_extends_tables counting_creator empty_resolver 1
            sample_module_document
            (StateReplayer.set_replayed_samplers {[ 7 := 70 ]}
               StateReplayer.empty, 0)).
  - vm_compute. reflexivity.
  - reflexivity.
Defined.

Section SecondReplay.
Import StateReplayer.
Context {C : Type}.
Variable iface : StateCreatorInterface C.

Lemma count_Some (m : gmap Z Z) (k : Z) :
  Recording.count m k = true ↔ is_Some (m !! k).
Proof.
  unfold Recording.count. destruct (m !! k); split; eauto;
    try discriminate. intros [v Hv]. discriminate.
Qed.

(** The keys of the seven tables are kept when the tables extend. *)
Lemma extend_keys rep rep' :
  tables_extend rep rep' →
  keys_kept (replayed_shader_modules rep) (replayed_shader_modules rep')
  ∧ keys_kept (replayed_samplers rep) (replayed_samplers rep')
  ∧ keys_kept (replayed_descriptor_set_layouts rep)
      (replayed_descriptor_set_layouts rep')
  ∧ keys_kept (replayed_pipeline_layouts rep)
      (replayed_pipeline_layouts rep')
  ∧ keys_kept (replayed_compute_pipelines rep)
      (replayed_compute_pipelines rep')
  ∧ keys_kept (replayed_graphics_pipelines rep)
      (replayed_graphics_pipelines rep').
Proof.
  intros (Hsa & Hsl & Hpl & Hsm & Hrp & Hcp & Hgp).
  repeat split; try assumption; now apply subseteq_keys_kept.
Qed.

(** After a loop whose every turn leaves its hash with a handle, every
    member has one. *)
Lemma for_members_created {T : Type} (get : StateReplayer.t → gmap Z Z)
    (body : Z * T → Replay.State → Res Replay.State) :
  (∀ rep rep', tables_extend rep rep' → keys_kept (get rep) (get rep')) →
  (∀ hash obj (st st' : @Replay.State C),
     body (hash, obj) st = Ok st' →
     tables_extend st.1 st'.1 ∧ is_Some (get st'.1 !! hash)) →
  ∀ members (st st' : @Replay.State C),
    Replay.for_members body members st = Ok st' →
    tables_extend st.1 st'.1
    ∧ Forall (λ member, is_Some (get st'.1 !! member.1)) members.
Proof.
  intros Hkeys Hbody members.
  induction members as [|[hash obj] members IH]; intros st st';
    cbn [Replay.for_members].
  - intros Heq. inversion Heq. split; [apply extend_refl | constructor].
  - destruct (body (hash, obj) st) as [st1| | |] eqn:Hstep;
      try discriminate.
    cbn [res_bind]. intros Hrest.
    destruct (Hbody _ _ _ _ Hstep) as [Hext Hhas].
    destruct (IH _ _ Hrest) as [Hext' Hall].
    split; [eapply extend_trans; eassumption|].
    constructor; [|exact Hall]. cbn [fst].
    now apply (Hkeys _ _ Hext').
Qed.

(** A loop whose every member has a handle does nothing. *)
Lemma for_members_skipped {T : Type} (get : StateReplayer.t → gmap Z Z)
    (body : Z * T → Replay.State → Res Replay.State) :
  (∀ hash obj (st : @Replay.State C),
     is_Some (get st.1 !! hash) → body (hash, obj) st = Ok st) →
  ∀ members (st : @Replay.State C),
    Forall (λ member, is_Some (get st.1 !! member.1)) members →
    Replay.for_members body members st = Ok st.
Proof.
  intros Hbody members st Hall.
  induction Hall as [|[hash obj] members Hhas _ IH];
    cbn [Replay.for_members]; [reflexivity|].
  rewrite Hbody by exact Hhas. cbn [res_bind]. exact IH.
Qed.

Lemma parse_section_created {T : Type} get
    (body : Z * T → Replay.State → Res Replay.State) member set_num
    (st st' : @Replay.State C) :
  (∀ rep rep', tables_extend rep rep' → keys_kept (get rep) (get rep')) →
  (∀ hash obj (st st' : @Replay.State C),
     body (hash, obj) st = Ok st' →
     tables_extend st.1 st'.1 ∧ is_Some (get st'.1 !! hash)) →
  Replay.parse_section member
    (λ members st,
       let? st := Replay.for_members body members st in
       Ok (st.1, wait_enqueue iface st.2))
    set_num st = Ok st' →
  section_created get member st'.1.
Proof.
  intros Hkeys Hbody. unfold Replay.parse_section, section_created.
  destruct member as [members|]; cbn [elems].
  - destruct (Replay.for_members body members st) as [st1| | |] eqn:Hloop;
      try discriminate.
    cbn [res_bind]. intros Heq. inversion Heq. cbn [fst].
    now apply (for_members_created get body Hkeys Hbody) in Hloop.
  - constructor.
Qed.

Lemma parse_section_skipped {T : Type} get
    (body : Z * T → Replay.State → Res Replay.State) member set_num
    (st : @Replay.State C) :
  (∀ hash obj (st : @Replay.State C),
     is_Some (get st.1 !! hash) → body (hash, obj) st = Ok st) →
  section_created get member st.1 →
  Replay.parse_section member
    (λ members st,
       let? st := Replay.for_members body members st in
       Ok (st.1, wait_enqueue iface st.2))
    set_num st
  = Ok (st.1, quiet_section iface member set_num st.2).
Proof.
  intros Hbody Hall. unfold Replay.parse_section, section_created in *.
  destruct member as [members|]; cbn [elems quiet_section] in *.
  - now rewrite (for_members_skipped get body Hbody members st Hall).
  - reflexivity.
Qed.

Lemma shader_module_turn hash obj (st st' : @Replay.State C) :
  (if Recording.count (replayed_shader_modules st.1) hash then Ok st
   else Replay.create (enqueue_create_shader_module iface)
          replayed_shader_modules set_replayed_shader_modules
          hash obj "Failed to create shader module." st) = Ok st' →
  tables_extend st.1 st'.1 ∧ is_Some (replayed_shader_modules st'.1 !! hash).
Proof.
  destruct (Recording.count (replayed_shader_modules st.1) hash) eqn:Hcount.
  - intros Heq. inversion Heq. subst st'.
    split; [apply extend_refl | now apply count_Some].
  - apply create_extends; [apply extending_shader_modules|].
    now apply count_None.
Qed.

Lemma sampler_turn hash obj (st st' : @Replay.State C) :
  (if Recording.count (replayed_samplers st.1) hash then Ok st
   else Replay.create (enqueue_create_sampler iface)
          replayed_samplers set_replayed_samplers
          hash obj "Failed to create sampler." st) = Ok st' →
  tables_extend st.1 st'.1 ∧ is_Some (replayed_samplers st'.1 !! hash).
Proof.
  destruct (Recording.count (replayed_samplers st.1) hash) eqn:Hcount.
  - intros Heq. inversion Heq. subst st'.
    split; [apply extend_refl | now apply count_Some].
  - apply create_extends; [apply extending_samplers|].
    now apply count_None.
Qed.

Lemma descriptor_set_layout_turn hash obj (st st' : @Replay.State C) :
  (if Recording.count (replayed_descriptor_set_layouts st.1) hash
   then Ok st
   else
     let '(bindings, rep) :=
       Replay.parse_descriptor_set_bindings
         (take (Z.to_nat obj.(VkDescriptorSetLayoutCreateInfo.bindingCount))
            obj.(VkDescriptorSetLayoutCreateInfo.pBindings))
         st.1 in
     let info :=
       {| VkDescriptorSetLayoutCreateInfo.pNext := 0;
          VkDescriptorSetLayoutCreateInfo.flags :=
            obj.(VkDescriptorSetLayoutCreateInfo.flags);
          VkDescriptorSetLayoutCreateInfo.bindingCount :=
            Z.of_nat (length bindings);
          VkDescriptorSetLayoutCreateInfo.pBindings := bindings |} in
     Replay.create (enqueue_create_descriptor_set_layout iface)
       replayed_descriptor_set_layouts set_replayed_descriptor_set_layouts
       hash info "Failed to create descriptor set layout." (rep, st.2))
  = Ok st' →
  tables_extend st.1 st'.1
  ∧ is_Some (replayed_descriptor_set_layouts st'.1 !! hash).
Proof.
  destruct (Recording.count (replayed_descriptor_set_layouts st.1) hash)
    eqn:Hcount.
  - intros Heq. inversion Heq. subst st'.
    split; [apply extend_refl | now apply count_Some].
  - pose proof (parse_descriptor_set_bindings_extends
                  (take
                     (Z.to_nat
                        (VkDescriptorSetLayoutCreateInfo.bindingCount obj))
                     (VkDescriptorSetLayoutCreateInfo.pBindings obj))
                  st.1) as Hbindings.
    pose proof (parse_descriptor_set_bindings_apart
                  replayed_descriptor_set_layouts
                  (take
                     (Z.to_nat
                        (VkDescriptorSetLayoutCreateInfo.bindingCount obj))
                     (VkDescriptorSetLayoutCreateInfo.pBindings obj))
                  (λ _ _, eq_refl) st.1) as Hapart.
    destruct (Replay.parse_descriptor_set_bindings _ st.1)
      as [bindings rep].
    cbn [snd] in Hbindings, Hapart. intros Hcreate.
    cbv zeta in Hcreate.
    apply (create_extends _ _ _ _ _ _ (rep, st.2) _
             extending_descriptor_set_layouts) in Hcreate.
    + destruct Hcreate as [Hext Hhas]. split; [|exact Hhas].
      eapply extend_trans; eassumption.
    + cbn [fst]. rewrite Hapart. now apply count_None.
Qed.

Lemma pipeline_layout_turn hash obj (st st' : @Replay.State C) :
  (if Recording.count (replayed_pipeline_layouts st.1) hash then Ok st
   else
     let ranges :=
       take
         (Z.to_nat obj.(VkPipelineLayoutCreateInfo.pushConstantRangeCount))
         obj.(VkPipelineLayoutCreateInfo.pPushConstantRanges) in
     let '(set_layouts, rep) :=
       Replay.resolve_handles replayed_descriptor_set_layouts
         set_replayed_descriptor_set_layouts
         (take (Z.to_nat obj.(VkPipelineLayoutCreateInfo.setLayoutCount))
            obj.(VkPipelineLayoutCreateInfo.pSetLayouts))
         st.1 in
     let info :=
       {| VkPipelineLayoutCreateInfo.pNext := 0;
          VkPipelineLayoutCreateInfo.flags :=
            obj.(VkPipelineLayoutCreateInfo.flags);
          VkPipelineLayoutCreateInfo.setLayoutCount :=
            Z.of_nat (length set_layouts);
          VkPipelineLayoutCreateInfo.pSetLayouts := set_layouts;
          VkPipelineLayoutCreateInfo.pushConstantRangeCount :=
            Z.of_nat (length ranges);
          VkPipelineLayoutCreateInfo.pPushConstantRanges := ranges |} in
     Replay.create (enqueue_create_pipeline_layout iface)
       replayed_pipeline_layouts set_replayed_pipeline_layouts
       hash info "Failed to create pipeline layout." (rep, st.2))
  = Ok st' →
  tables_extend st.1 st'.1
  ∧ is_Some (replayed_pipeline_layouts st'.1 !! hash).
Proof.
  destruct (Recording.count (replayed_pipeline_layouts st.1) hash)
    eqn:Hcount.
  - intros Heq. inversion Heq. subst st'.
    split; [apply extend_refl | now apply count_Some].
  - cbv zeta.
    pose proof (resolve_handles_extends replayed_descriptor_set_layouts
                  set_replayed_descriptor_set_layouts
                  (take
                     (Z.to_nat
                        (VkPipelineLayoutCreateInfo.setLayoutCount obj))
                     (VkPipelineLayoutCreateInfo.pSetLayouts obj))
                  extending_descriptor_set_layouts st.1) as Hhandles.
    pose proof (resolve_handles_apart replayed_pipeline_layouts
                  replayed_descriptor_set_layouts
                  set_replayed_descriptor_set_layouts
                  (take
                     (Z.to_nat
                        (VkPipelineLayoutCreateInfo.setLayoutCount obj))
                     (VkPipelineLayoutCreateInfo.pSetLayouts obj))
                  (λ _ _, eq_refl) st.1) as Hapart.
    destruct (Replay.resolve_handles _ _ _ st.1) as [set_layouts rep].
    cbn [snd] in Hhandles, Hapart. intros Hcreate.
    cbv zeta in Hcreate.
    apply (create_extends _ _ _ _ _ _ (rep, st.2) _
             extending_pipeline_layouts) in Hcreate.
    + destruct Hcreate as [Hext Hhas]. split; [|exact Hhas].
      eapply extend_trans; eassumption.
    + cbn [fst]. rewrite Hapart. now apply count_None.
Qed.

Lemma section_created_later {T : Type} get (member : option (list (Z * T)))
    rep rep' :
  keys_kept (get rep) (get rep') →
  section_created get member rep → section_created get member rep'.
Proof.
  intros Hkeys. unfold section_created. intros Hall.
  eapply Forall_impl; [exact Hall|]. intros m. apply Hkeys.
Qed.

(** X19.  A second replay creates nothing: when a document without
    render passes has been replayed, replaying it again into the same
    replayer, with any resolver, makes no create call: the tables stay
    as they are and the creator only sees [wait_enqueue] for the
    sections of the document and [set_num_X(0)] for the others. *)
Theorem X19_second_replay_creates_nothing
    (resolver resolver' : ResolverInterface) (fuel fuel' : nat)
    (doc : Document.t) (st st1 : StateReplayer.t * C) :
  elems (Document.renderPasses doc) = [] →
  Replay.parse (S fuel) iface resolver (JsonText doc) st = Ok st1 →
  Replay.parse (S fuel') iface resolver' (JsonText doc) st1
  = Ok (st1.1, quiet_replay iface doc st1.2).
Proof.
  intros Hrp Hfirst. cbn [Replay.parse] in *.
  unfold Replay.parse_buffer in *.
  destruct (Document.version doc) as [version|]; [|discriminate].
  destruct (negb (version =? FOSSILIZE_FORMAT_VERSION)); [discriminate|].
  pose proof (parse_extends iface fuel resolver) as Hrec.
  destruct (Replay.parse_section (Document.shaderModules doc) _ _ st)
    as [s1| | |] eqn:H1; try discriminate; cbn [res_bind] in Hfirst.
  destruct (Replay.parse_section (Document.samplers doc) _ _ s1)
    as [s2| | |] eqn:H2; try discriminate; cbn [res_bind] in Hfirst.
  destruct (Replay.parse_section (Document.setLayouts doc) _ _ s2)
    as [s3| | |] eqn:H3; try discriminate; cbn [res_bind] in Hfirst.
  destruct (Replay.parse_section (Document.pipelineLayouts doc) _ _ s3)
    as [s4| | |] eqn:H4; try discriminate; cbn [res_bind] in Hfirst.
  destruct (Replay.parse_section (Document.renderPasses doc) _ _ s4)
    as [s5| | |] eqn:H5; try discriminate; cbn [res_bind] in Hfirst.
  destruct (Replay.parse_section (Document.computePipelines doc) _ _ s5)
    as [s6| | |] eqn:H6; try discriminate; cbn [res_bind] in Hfirst.
  rename Hfirst into H7.
  (* the tables extend from section to section *)
  pose proof H2 as E2. apply parse_section_extends in E2;
    [|apply parse_samplers_extends].
  pose proof H3 as E3. apply parse_section_extends in E3;
    [|apply parse_descriptor_set_layouts_extends].
  pose proof H4 as E4. apply parse_section_extends in E4;
    [|apply parse_pipeline_layouts_extends].
  pose proof H5 as E5. apply parse_section_extends in E5;
    [|apply parse_render_passes_extends].
  pose proof H6 as E6. apply parse_section_extends in E6;
    [|apply parse_compute_pipelines_extends; exact Hrec].
  pose proof H7 as E7. apply parse_section_extends in E7;
    [|apply parse_graphics_pipelines_extends; exact Hrec].
  assert (L6 : tables_extend s6.1 st1.1) by exact E7.
  assert (L5 : tables_extend s5.1 st1.1)
    by (eapply extend_trans; eassumption).
  assert (L4 : tables_extend s4.1 st1.1)
    by (eapply extend_trans; eassumption).
  assert (L3 : tables_extend s3.1 st1.1)
    by (eapply extend_trans; eassumption).
  assert (L2 : tables_extend s2.1 st1.1)
    by (eapply extend_trans; eassumption).
  assert (L1 : tables_extend s1.1 st1.1)
    by (eapply extend_trans; eassumption).
  (* every member of a section has a handle at the end *)
  unfold Replay.parse_shader_modules in H1.
  eapply (parse_section_created replayed_shader_modules) in H1;
    [|intros ? ? Hext; apply (extend_keys _ _ Hext)
     |intros ? ? ? ?; apply shader_module_turn].
  apply (section_created_later _ _ _ st1.1) in H1;
    [|apply (extend_keys _ _ L1)].
  unfold Replay.parse_samplers in H2.
  eapply (parse_section_created replayed_samplers) in H2;
    [|intros ? ? Hext; apply (extend_keys _ _ Hext)
     |intros ? ? ? ?; apply sampler_turn].
  apply (section_created_later _ _ _ st1.1) in H2;
    [|apply (extend_keys _ _ L2)].
  unfold Replay.parse_descriptor_set_layouts in H3.
  eapply (parse_section_created replayed_descriptor_set_layouts) in H3;
    [|intros ? ? Hext; apply (extend_keys _ _ Hext)
     |intros ? ? ? ?; apply descriptor_set_layout_turn].
  apply (section_created_later _ _ _ st1.1) in H3;
    [|apply (extend_keys _ _ L3)].
  unfold Replay.parse_pipeline_layouts in H4.
  eapply (parse_section_created replayed_pipeline_layouts) in H4;
    [|intros ? ? Hext; apply (extend_keys _ _ Hext)
     |intros ? ? ? ?; apply pipeline_layout_turn].
  apply (section_created_later _ _ _ st1.1) in H4;
    [|apply (extend_keys _ _ L4)].
  unfold Replay.parse_compute_pipelines in H6.
  eapply (parse_section_created replayed_compute_pipelines) in H6;
    [|intros ? ? Hext; apply (extend_keys _ _ Hext)
     |intros ? ? ? ?;
      apply (parse_compute_pipeline_extends iface resolver _ Hrec)].
  apply (section_created_later _ _ _ st1.1) in H6;
    [|apply (extend_keys _ _ L6)].
  unfold Replay.parse_graphics_pipelines in H7.
  eapply (parse_section_created replayed_graphics_pipelines) in H7;
    [|intros ? ? Hext; apply (extend_keys _ _ Hext)
     |intros ? ? ? ?;
      apply (parse_graphics_pipeline_extends iface resolver _ Hrec)].
  (* the second replay skips them all *)
  unfold Replay.parse_shader_modules.
  erewrite (parse_section_skipped replayed_shader_modules);
    [|intros hash obj st0 Hhas; apply count_Some in Hhas; cbn;
      now rewrite Hhas|exact H1].
  cbn [res_bind]. unfold Replay.parse_samplers.
  erewrite (parse_section_skipped replayed_samplers);
    [|intros hash obj st0 Hhas; apply count_Some in Hhas; cbn;
      now rewrite Hhas|exact H2].
  cbn [res_bind]. unfold Replay.parse_descriptor_set_layouts.
  erewrite (parse_section_skipped replayed_descriptor_set_layouts);
    [|intros hash obj st0 Hhas; apply count_Some in Hhas; cbn;
      now rewrite Hhas|exact H3].
  cbn [res_bind]. unfold Replay.parse_pipeline_layouts.
  erewrite (parse_section_skipped replayed_pipeline_layouts);
    [|intros hash obj st0 Hhas; apply count_Some in Hhas; cbn;
      now rewrite Hhas|exact H4].
  cbn [res_bind].
  assert (Hpasses : ∀ st0 : @Replay.State C,
            Replay.parse_section (Document.renderPasses doc)
              (Replay.parse_render_passes iface)
              (set_num_render_passes iface) st0
            = Ok (st0.1, quiet_section iface (Document.renderPasses doc)
                           (set_num_render_passes iface) st0.2)).
  { intros st0. destruct (Document.renderPasses doc) as [[|pass passes]|];
      try discriminate Hrp; reflexivity. }
  rewrite Hpasses. cbn [res_bind fst snd].
  unfold Replay.parse_compute_pipelines.
  erewrite (parse_section_skipped replayed_compute_pipelines);
    [|intros hash obj st0 Hhas; apply count_Some in Hhas;
      unfold Replay.parse_compute_pipeline; now rewrite Hhas|exact H6].
  cbn [res_bind]. unfold Replay.parse_graphics_pipelines.
  erewrite (parse_section_skipped replayed_graphics_pipelines);
    [|intros hash obj st0 Hhas; apply count_Some in Hhas;
      unfold Replay.parse_graphics_pipeline; now rewrite Hhas|exact H7].
  reflexivity.
Qed.

End SecondReplay.

Lemma X19_second_replay_creates_nothing_witness :
  ∃ st1,
    Replay.parse 1 counting_creator empty_resolver
      (JsonText sample_module_doc) (StateReplayer.empty, 0) = Ok st1
    ∧ Replay.parse 1 counting_creator empty_resolver
        (JsonText sample_module_doc) st1
      = Ok (st1.1, quiet_replay counting_creator sample_module_doc st1.2).
Proof.
  eexists. split; [vm_compute; reflexivity|].
  apply (X19_second_replay_creates_nothing counting_creator empty_resolver
           empty_resolver 0 0 sample_module_doc (StateReplayer.empty, 0)).
  - reflexivity.
  - vm_compute. reflexivity.
Defined.



(** ** Items that are stored *)

Section HashThenRemap.
Import StateRecorder Hashing Recording.

Lemma hashed_inv (m : HashM unit) (hash : Z) :
  hashed m = Ok hash → ∃ s, m Hasher.init = Ok (tt, s).
Proof.
  unfold hashed. destruct (m Hasher.init) as [[[] s]| | |]; try discriminate.
  eauto.
Qed.

Lemma hash_bind_inv {A B} (m : HashM A) (f : A → HashM B) s r :
  hash_bind m f s = Ok r → ∃ a s1, m s = Ok (a, s1) ∧ f a s1 = Ok r.
Proof.
  unfold hash_bind. destruct (m s) as [[a s1]| | |]; try discriminate.
  eauto.
Qed.

Lemma hash_lift_inv {A} (x : Res A) s a s1 :
  hash_lift x s = Ok (a, s1) → x = Ok a.
Proof.
  unfold hash_lift. destruct x; try discriminate.
  intros Heq. now inversion Heq.
Qed.

(** Every turn of a loop that ends has a state in which it ends. *)
Lemma for_acc_turn {B} (body : nat → B → HashM B) (n : nat) :
  ∀ i b s r,
    for_acc n i body b s = Ok r →
    ∀ j, (i <= j < i + n)%nat → ∃ bj sj rj, body j bj sj = Ok rj.
Proof.
  induction n as [|n IH]; intros i b s r Hloop j Hj; [lia|].
  cbn [for_acc] in Hloop. apply hash_bind_inv in Hloop.
  destruct Hloop as (b1 & s1 & Hstep & Hrest).
  destruct (decide (j = i)) as [->|Hne]; [eauto|].
  apply (IH _ _ _ _ Hrest). lia.
Qed.

Lemma for_range_turn (count : Z) (body : nat → HashM unit) s r :
  for_range count body s = Ok r →
  ∀ j, (j < Z.to_nat count)%nat → ∃ sj rj, body j sj = Ok rj.
Proof.
  unfold for_range. intros Hloop j Hj.
  destruct (for_acc_turn _ _ _ _ _ _ Hloop j) as (bj & sj & rj & Hturn);
    [lia|]. eauto.
Qed.

Lemma for_each_ok {T} (f : T → Res T) (n : nat) :
  ∀ arr,
    (∀ j, (j < n)%nat → ∃ x y, arr !! j = Some x ∧ f x = Ok y) →
    ∃ arr', DeepCopy.for_each f n arr = Ok arr'.
Proof.
  induction n as [|n IH]; intros arr Hall; cbn [DeepCopy.for_each].
  - eauto.
  - destruct (Hall 0%nat) as (x & y & Hx & Hy); [lia|].
    destruct arr as [|x0 rest]; [discriminate|].
    cbn in Hx. inversion Hx. subst x0. rewrite Hy. cbn [res_bind].
    destruct (IH rest) as [rest' ->].
    { intros j Hj. apply (Hall (S j)). lia. }
    cbn [res_bind]. eauto.
Qed.

Lemma index_inv {T} (p : list T) (i : nat) (x : T) :
  index p i = Ok x → p !! i = Some x.
Proof. unfold index. destruct (p !! i); [|discriminate]. congruence. Qed.

Lemma find_or_throw_inv table handle msg hash :
  find_or_throw table handle msg = Ok hash → table !! handle = Some hash.
Proof.
  unfold find_or_throw. destruct (table !! handle); [|discriminate].
  congruence.
Qed.

Lemma find_or_throw_ok table handle msg hash :
  table !! handle = Some hash → find_or_throw table handle msg = Ok hash.
Proof. unfold find_or_throw. now intros ->. Qed.

Ltac hash_inv Hrun :=
  repeat match type of Hrun with
         | hash_bind _ _ _ = Ok _ =>
             let a := fresh "a" in
             let s1 := fresh "s" in
             let Hstep := fresh "Hstep" in
             apply hash_bind_inv in Hrun;
             destruct Hrun as (a & s1 & Hstep & Hrun)
         end.

Ltac hash_inv_all :=
  repeat match goal with
         | Hb : hash_bind _ _ _ = Ok _ |- _ => hash_inv Hb
         end.

Ltac lookups :=
  repeat match goal with
         | Hl : hash_lift _ _ = Ok (_, _) |- _ => apply hash_lift_inv in Hl
         end;
  unfold get_hash_for_sampler, get_hash_for_descriptor_set_layout,
    get_hash_for_pipeline_layout, get_hash_for_render_pass,
    get_hash_for_shader_module, get_hash_for_graphics_pipeline_handle,
    get_hash_for_compute_pipeline_handle in *;
  repeat match goal with
         | Hf : find_or_throw _ _ _ = Ok _ |- _ =>
             apply find_or_throw_inv in Hf
         | Hi : index _ _ = Ok _ |- _ => apply index_inv in Hi
         end.

(** The set layouts: the samplers that the hash looks up are those that
    the remapping looks up. *)
Lemma remap_descriptor_set_layout_ok r r1 ci hash :
  sampler_to_index r1 = sampler_to_index r →
  compute_hash_descriptor_set_layout r ci = Ok hash →
  ∃ ci', remap_descriptor_set_layout_ci r1 ci = Ok ci'.
Proof.
  intros Htable Hhash. apply hashed_inv in Hhash. destruct Hhash as [s Hrun].
  hash_inv Hrun.
  unfold remap_descriptor_set_layout_ci.
  destruct (for_each_ok (remap_binding r1)
              (Z.to_nat (VkDescriptorSetLayoutCreateInfo.bindingCount ci))
              (VkDescriptorSetLayoutCreateInfo.pBindings ci))
    as [bindings ->]; [|cbn [res_bind]; eauto].
  intros j Hj.
  destruct (for_range_turn _ _ _ _ Hrun j Hj) as (sj & rj & Hturn).
  hash_inv Hturn. apply hash_lift_inv, index_inv in Hstep1.
  exists a1. unfold remap_binding.
  destruct (immutable_samplers a1) as [samplers|]; [|eauto].
  destruct (for_each_ok (remap_sampler_handle r1)
              (Z.to_nat (VkDescriptorSetLayoutBinding.descriptorCount a1))
              samplers) as [samplers' ->]; [|cbn [res_bind]; eauto].
  intros k Hk.
  destruct (for_range_turn _ _ _ _ Hturn k Hk) as (sk & rk & Hsampler).
  hash_inv Hsampler.
  apply hash_lift_inv, index_inv in Hstep6.
  apply hash_lift_inv in Hstep7.
  unfold get_hash_for_sampler in Hstep7.
  apply find_or_throw_inv in Hstep7.
  exists a6, a7. split; [exact Hstep6|].
  unfold remap_sampler_handle. rewrite Htable.
  now apply find_or_throw_ok.
Qed.

Lemma remap_pipeline_layout_ok r r1 ci hash :
  descriptor_set_layout_to_index r1 = descriptor_set_layout_to_index r →
  no_null_set_layout (PipelineLayoutCI ci) →
  compute_hash_pipeline_layout r ci = Ok hash →
  ∃ ci', remap_pipeline_layout_ci r1 ci = Ok ci'.
Proof.
  intros Htable Hnull Hhash. cbn [no_null_set_layout] in Hnull.
  apply hashed_inv in Hhash. destruct Hhash as [s Hrun].
  hash_inv Hrun.
  unfold remap_pipeline_layout_ci.
  destruct (for_each_ok (remap_descriptor_set_layout_handle r1)
              (Z.to_nat (VkPipelineLayoutCreateInfo.setLayoutCount ci))
              (VkPipelineLayoutCreateInfo.pSetLayouts ci))
    as [set_layouts ->]; [|cbn [res_bind]; eauto].
  intros j Hj.
  destruct (for_range_turn _ _ _ _ Hstep0 j Hj) as (sj & rj & Hturn).
  hash_inv Hturn. apply hash_lift_inv, index_inv in Hstep3.
  rewrite Forall_forall in Hnull.
  assert (Hne : a3 ≠ VK_NULL_HANDLE).
  { apply Hnull. apply (list_elem_of_lookup_2 _ j).
    rewrite lookup_take_lt by lia. exact Hstep3. }
  apply Z.eqb_neq in Hne. rewrite Hne in Hturn.
  hash_inv Hturn. apply hash_lift_inv in Hstep4.
  unfold get_hash_for_descriptor_set_layout in Hstep4.
  apply find_or_throw_inv in Hstep4.
  exists a3, a4. split; [exact Hstep3|].
  unfold remap_descriptor_set_layout_handle. rewrite Htable.
  now apply find_or_throw_ok.
Qed.

Lemma remap_stage_ok r r1 stage s result :
  shader_module_to_index r1 = shader_module_to_index r →
  hash_stage r stage s = Ok result →
  ∃ stage', remap_stage r1 stage = Ok stage'.
Proof.
  intros Htable Hrun. unfold hash_stage in Hrun. hash_inv Hrun. lookups.
  unfold remap_stage, remap_shader_module_handle. rewrite Htable.
  erewrite find_or_throw_ok by eassumption. cbn [res_bind]. eauto.
Qed.

Lemma remap_base_ok (table : gmap Z Z) handle hash0 base msg
    (f : Z → HashM unit) s result :
  (if negb (base =? VK_NULL_HANDLE)
   then hash_bind
          (hash_lift (find_or_throw table base "Handle is not registered."))
          f
   else hash_ret tt) s = Ok result
  ∨ (if negb (base =? VK_NULL_HANDLE)
     then hash_bind
            (hash_lift (find_or_throw table base "Handle is not registered."))
            f
     else H.u32 0) s = Ok result →
  ∃ base',
    (if negb (base =? VK_NULL_HANDLE)
     then find_or_throw (<[handle := hash0]> table) base msg
     else Ok base) = Ok base'.
Proof.
  destruct (negb (base =? VK_NULL_HANDLE)); [|eauto].
  intros Hrun.
  assert (∃ hash, table !! base = Some hash) as [hash Hbase].
  { destruct Hrun as [Hrun|Hrun]; hash_inv Hrun; lookups; eauto. }
  destruct (decide (base = handle)) as [->|Hne].
  - exists hash0. apply find_or_throw_ok, lookup_insert_eq.
  - exists hash. apply find_or_throw_ok.
    rewrite lookup_insert_ne by congruence. exact Hbase.
Qed.

Lemma remap_compute_pipeline_ok r handle hash0 ci hash :
  compute_hash_compute_pipeline r ci = Ok hash →
  ∃ ci',
    remap_compute_pipeline_ci
      (set_compute_pipeline_to_index
         (<[handle := hash0]> (compute_pipeline_to_index r)) r) ci = Ok ci'.
Proof.
  intros Hhash. unfold compute_hash_compute_pipeline in Hhash.
  cbv zeta in Hhash.
  apply hashed_inv in Hhash. destruct Hhash as [s Hrun].
  hash_inv Hrun.
  match goal with
  | Hbase : (if _ then _ else _) _ = Ok _ |- _ =>
      unfold get_hash_for_compute_pipeline_handle in Hbase;
      destruct (remap_base_ok _ handle hash0 _
                  "Cannot find compute pipeline in hashmap." _ _ _
                  (or_intror Hbase)) as [base' Hbase']
  end.
  lookups.
  unfold remap_compute_pipeline_ci, remap_stage, remap_shader_module_handle,
    remap_pipeline_layout_handle, remap_compute_pipeline_handle.
  cbn [shader_module_to_index pipeline_layout_to_index
       compute_pipeline_to_index set_compute_pipeline_to_index].
  erewrite (find_or_throw_ok (shader_module_to_index r)) by eassumption.
  cbn [res_bind]. rewrite Hbase'. cbn [res_bind].
  erewrite (find_or_throw_ok (pipeline_layout_to_index r)) by eassumption.
  cbn [res_bind]. eauto.
Qed.

Lemma remap_graphics_pipeline_ok r handle hash0 ci hash :
  compute_hash_graphics_pipeline r ci = Ok hash →
  ∃ ci',
    remap_graphics_pipeline_ci
      (set_graphics_pipeline_to_index
         (<[handle := hash0]> (graphics_pipeline_to_index r)) r) ci = Ok ci'.
Proof.
  intros Hhash. unfold compute_hash_graphics_pipeline in Hhash.
  apply hashed_inv in Hhash. destruct Hhash as [s Hrun].
  unfold feed_graphics_pipeline in Hrun. hash_inv Hrun.
  match goal with
  | Hbase : (if _ then _ else _) _ = Ok _ |- _ =>
      unfold get_hash_for_graphics_pipeline_handle in Hbase;
      destruct (remap_base_ok _ handle hash0 _
                  "Cannot find graphics pipeline in hashmap." _ _ _
                  (or_introl Hbase)) as [base' Hbase']
  end.
  assert (Hstages : ∃ stages,
            DeepCopy.for_each
              (remap_stage
                 (set_graphics_pipeline_to_index
                    (<[handle := hash0]> (graphics_pipeline_to_index r)) r))
              (Z.to_nat (VkGraphicsPipelineCreateInfo.stageCount ci))
              (VkGraphicsPipelineCreateInfo.pStages ci) = Ok stages).
  { apply for_each_ok. intros j Hj.
    destruct (for_range_turn _ _ _ _ Hrun j Hj) as (sj & rj & Hturn).
    hash_inv Hturn.
    match goal with
    | Hi : hash_lift (index _ j) _ = Ok (?x, _) |- _ =>
        apply hash_lift_inv, index_inv in Hi; exists x
    end.
    destruct (remap_stage_ok r
                (set_graphics_pipeline_to_index
                   (<[handle := hash0]> (graphics_pipeline_to_index r)) r)
                _ _ _ eq_refl Hturn) as [stage' Hstage].
    eauto. }
  destruct Hstages as [stages Hstages].
  lookups.
  unfold remap_graphics_pipeline_ci, remap_render_pass_handle,
    remap_pipeline_layout_handle, remap_graphics_pipeline_handle.
  cbn [render_pass_to_index pipeline_layout_to_index
       graphics_pipeline_to_index set_graphics_pipeline_to_index].
  erewrite (find_or_throw_ok (render_pass_to_index r)) by eassumption.
  cbn [res_bind].
  erewrite (find_or_throw_ok (pipeline_layout_to_index r)) by eassumption.
  cbn [res_bind]. rewrite Hbase'. cbn [res_bind].
  rewrite Hstages. cbn [res_bind]. eauto.
Qed.

Lemma no_throw_bind {A B} (m : Res A) (f : A → Res B) :
  no_throw m → (∀ a, no_throw (f a)) → no_throw (res_bind m f).
Proof.
  intros Hm Hf msg. destruct m as [a|msg'| |]; cbn [res_bind].
  - apply Hf.
  - destruct (Hm msg'). reflexivity.
  - discriminate.
  - discriminate.
Qed.

Lemma no_throw_index {T} (p : list T) (i : nat) : no_throw (index p i).
Proof. intros msg. unfold index. destruct (p !! i); discriminate. Qed.

Lemma no_throw_for_fold {St} (body : nat → St → Res St) (n : nat) :
  (∀ j s, no_throw (body j s)) → ∀ i s, no_throw (for_fold n i body s).
Proof.
  intros Hbody. induction n as [|n IH]; intros i s; cbn [for_fold].
  - discriminate.
  - apply no_throw_bind; [apply Hbody | intros s'; apply IH].
Qed.

Lemma no_throw_serialize_pipeline_layout r layout maps :
  no_throw (Serialize.serialize_pipeline_layout r layout maps).
Proof.
  unfold Serialize.serialize_pipeline_layout.
  destruct (Serialize.serialize_obj _ _ _) as [[pipeline_layout|] pls];
    [|discriminate].
  apply no_throw_for_fold. intros i s.
  apply no_throw_bind; [apply no_throw_index|]. intros set_layout.
  destruct (Serialize.serialize_obj _ _ _) as [[info|] sls];
    [|discriminate].
  apply no_throw_bind; [|discriminate].
  unfold Serialize.serialize_immutable_samplers.
  apply no_throw_for_fold. intros j samplers.
  apply no_throw_bind; [apply no_throw_index|]. intros binding.
  destruct (immutable_samplers binding); [|discriminate].
  apply no_throw_for_fold. intros k samplers'.
  apply no_throw_bind; [apply no_throw_index|]. discriminate.
Qed.

Lemma no_throw_serialize_graphics_pipeline r hash :
  no_throw (Serialize.serialize_graphics_pipeline r hash).
Proof.
  unfold Serialize.serialize_graphics_pipeline.
  apply no_throw_bind.
  - destruct (Serialize.serialize_obj _ _ _) as [[pipe|] pipes];
      [|discriminate].
    apply no_throw_bind; [apply no_throw_serialize_pipeline_layout|].
    discriminate.
  - intros [[maps passes] pipes]. discriminate.
Qed.

Lemma no_throw_serialize_compute_pipeline r hash :
  no_throw (Serialize.serialize_compute_pipeline r hash).
Proof.
  unfold Serialize.serialize_compute_pipeline.
  apply no_throw_bind.
  - destruct (Serialize.serialize_obj _ _ _) as [[pipe|] pipes];
      [|discriminate].
    apply no_throw_bind; [apply no_throw_serialize_pipeline_layout|].
    discriminate.
  - intros [maps pipes]. discriminate.
Qed.

(** An item whose hash is computed is not dropped. *)
Lemma dispatch_not_raised handle ci r hash :
  no_null_set_layout ci →
  compute_hash r ci = Ok hash →
  ∀ r' msg, dispatch handle ci r ≠ Raised r' msg.
Proof.
  intros Hnull Hhash r' msg.
  destruct ci as [c|c|c|c|c|c|c]; cbn [compute_hash] in Hhash;
    unfold dispatch; rewrite Hhash; cbn [try_call].
  - destruct (count _ hash); (intros Heq; discriminate Heq).
  - destruct (count _ hash); [intros Heq; discriminate Heq|].
    destruct (remap_descriptor_set_layout_ok r
                (set_descriptor_set_layout_to_index
                   (<[handle := hash]> (descriptor_set_layout_to_index r)) r)
                c hash eq_refl Hhash) as [c' ->].
    cbn [try_call]. (intros Heq; discriminate Heq).
  - destruct (count _ hash); [intros Heq; discriminate Heq|].
    destruct (remap_pipeline_layout_ok r
                (set_pipeline_layout_to_index
                   (<[handle := hash]> (pipeline_layout_to_index r)) r)
                c hash eq_refl Hnull Hhash) as [c' ->].
    cbn [try_call]. (intros Heq; discriminate Heq).
  - destruct (count _ hash); (intros Heq; discriminate Heq).
  - destruct (count _ hash); [intros Heq; discriminate Heq|].
    unfold Serialize.serialize_shader_module.
    destruct (Serialize.serialize_obj _ _ _) as [found modules].
    cbn [try_call]. intros Heq. discriminate Heq.
  - destruct (count _ hash); [intros Heq; discriminate Heq|].
    destruct (remap_graphics_pipeline_ok r handle hash c hash Hhash)
      as [c' ->].
    cbn [try_call].
    match goal with
    | |- context [Serialize.serialize_graphics_pipeline ?r0 ?h0] =>
        pose proof (no_throw_serialize_graphics_pipeline r0 h0) as Hno;
        destruct (Serialize.serialize_graphics_pipeline r0 h0)
          as [bytes|msg'| |]
    end; cbn [try_call]; try (intros Heq; discriminate Heq).
    destruct (Hno msg'). reflexivity.
  - destruct (count _ hash); [intros Heq; discriminate Heq|].
    destruct (remap_compute_pipeline_ok r handle hash c hash Hhash)
      as [c' ->].
    cbn [try_call].
    match goal with
    | |- context [Serialize.serialize_compute_pipeline ?r0 ?h0] =>
        pose proof (no_throw_serialize_compute_pipeline r0 h0) as Hno;
        destruct (Serialize.serialize_compute_pipeline r0 h0)
          as [bytes|msg'| |]
    end; cbn [try_call]; try (intros Heq; discriminate Heq).
    destruct (Hno msg'). reflexivity.
Qed.

End HashThenRemap.



(** ** The text of the encoder and the bytes of the decoder *)

Section Base64Text.
Import Base64.

Lemma base64_in_alphabet (x : Z) :
  is_base64_char (base64 (Z.land x 63)) = true.
Proof.
  pose proof (sextet_range x) as Hv.
  assert (Hn : ∃ n : nat, (n < 64)%nat ∧ Z.land x 63 = Z.of_nat n).
  { exists (Z.to_nat (Z.land x 63)). lia. }
  destruct Hn as (n & Hn & ->).
  do 64 (destruct n as [|n]; [vm_compute; reflexivity|]).
  lia.
Qed.

Lemma encode_groups_text : ∀ (n : nat) (d : list Z),
  (length d <= n)%nat →
  Z.of_nat (String.length (encode_groups d))
  = 4 * ((Z.of_nat (length d) + 2) / 3)
  ∧ string_forallb is_base64_char (encode_groups d) = true.
Proof.
  induction n as [|n IH]; intros d Hn.
  - destruct d; [|cbn in Hn; lia]. split; reflexivity.
  - destruct d as [|d0 [|d1 [|d2 rest]]].
    + split; reflexivity.
    + cbn [encode_groups]. cbv zeta. split; [reflexivity|].
      cbn [string_forallb]. rewrite !base64_in_alphabet. reflexivity.
    + cbn [encode_groups]. cbv zeta. split; [reflexivity|].
      cbn [string_forallb]. rewrite !base64_in_alphabet. reflexivity.
    + cbn [encode_groups]. cbv zeta.
      destruct (IH rest) as [Hlen Hall]; [cbn in Hn; lia|]. split.
      * cbn [String.length length].
        replace (Z.of_nat (S (S (S (length rest)))) + 2)
          with ((Z.of_nat (length rest) + 2) + 1 * 3) by lia.
        rewrite Z.div_add by lia. lia.
      * cbn [string_forallb]. rewrite !base64_in_alphabet, Hall.
        reflexivity.
Qed.

End Base64Text.

(** X22.  The text of the encoder: for every array [d],
    [encode_base64] on [d] and its size returns a string of exactly
    [4 * ((size + 2) / 3)] characters, the [num_chars] it reserves, and
    every character of it is a letter, a digit, ['+'], ['/'] or the
    padding ['=']. *)
Theorem X22_encode_base64_text (d : list Z) :
  ∃ s : string,
    Base64.encode_base64 d (Z.of_nat (length d)) = Ok s
    ∧ Z.of_nat (String.length s) = 4 * ((Z.of_nat (length d) + 2) / 3)
    ∧ string_forallb is_base64_char s = true.
Proof.
  exists (Base64.encode_groups d). split.
  - apply encode_base64_groups.
  - now apply (encode_groups_text (length d)).
Qed.

Section Base64Bytes.
Import Base64.

(** The loop stores as many bytes as its counter says, and stops once
    the counter has reached the length asked for. *)
Lemma decode_loop_bound (len : Z) : ∀ (n : nat) (data : string) (i : Z)
    (buf : list Z),
  (String.length data <= n)%nat →
  Z.of_nat (length buf) = i →
  i <= len + 2 →
  Z.of_nat (length (decode_loop data len i buf)) <= len + 2.
Proof.
  induction n as [|n IH]; intros data i buf Hn Hbuf Hi.
  - destruct data; [|cbn in Hn; lia].
    rewrite decode_loop_end. lia.
  - destruct data as [|c0 [|c1 [|c2 [|c3 data4]]]];
      cbn [decode_loop];
      destruct (Z.ltb_spec i len) as [Hlt|Hge]; try lia.
    all: repeat match goal with
                | |- context [if is_nul ?c then _ else _] =>
                    destruct (is_nul c)
                end; try lia.
    cbv zeta.
    destruct (is_pad c2 && is_pad c3); [|destruct (is_pad c3)].
    all: apply IH; [cbn in Hn; lia | rewrite length_app; cbn; lia | lia].
Qed.

End Base64Bytes.

(** X23.  The decoder stores at most two bytes more than it is asked
    for: whatever the text, [decode_base64] asked for [length] bytes
    stores at most [length + 2] bytes in the buffer of [length] bytes
    that it allocates (a group is decoded whenever fewer than [length]
    bytes are stored, and a group stores up to three). *)
Theorem X23_decode_base64_stores_at_most (data : string) (length : Z) :
  0 <= length →
  Z.of_nat (List.length (Base64.decode_base64 data length)) <= length + 2.
Proof.
  intros Hlength. unfold Base64.decode_base64.
  apply (decode_loop_bound length (String.length data)).
  - lia.
  - reflexivity.
  - lia.
Qed.

Lemma X23_decode_base64_stores_at_most_witness :
  Z.of_nat (List.length (Base64.decode_base64 "TWFu" 1)) <= 1 + 2.
Proof. apply X23_decode_base64_stores_at_most. lia. Defined.

(** ** The arena *)

Section Arena.
Import ScratchAllocator.
Lemma lnot_mask (k : Z) :
  0 <= k < 64 →
  (Z.lnot ((2 ^ k - 1) mod 2 ^ 64)) mod 2 ^ 64 = 2 ^ 64 - 2 ^ k.
Proof.
  intros Hk.
  assert (0 < 2 ^ k < 2 ^ 64).
  { split; [apply Z.pow_pos_nonneg; lia|]. apply Z.pow_lt_mono_r; lia. }
  rewrite (Z.mod_small (2 ^ k - 1)) by lia.
  unfold Z.lnot. replace (Z.pred (- (2 ^ k - 1))) with (- 2 ^ k) by lia.
  replace (- 2 ^ k) with ((2 ^ 64 - 2 ^ k) + (-1) * 2 ^ 64) by lia.
  rewrite Z.mod_add by lia. apply Z.mod_small. lia.
Qed.

Lemma land_mask (y k : Z) :
  0 <= k < 64 → 0 <= y < 2 ^ 64 →
  Z.land y (2 ^ 64 - 2 ^ k) = (y / 2 ^ k) * 2 ^ k.
Proof.
  intros Hk Hy.
  replace (2 ^ 64 - 2 ^ k) with (Z.shiftl (Z.ones (64 - k)) k).
  2: { rewrite Z.shiftl_mul_pow2 by lia. rewrite Z.ones_equiv.
       rewrite Z.mul_pred_l. rewrite <- Z.pow_add_r by lia.
       replace (64 - k + k) with 64 by lia. reflexivity. }
  rewrite <- Z.shiftr_div_pow2, <- Z.shiftl_mul_pow2 by lia.
  assert (Hhigh : ∀ n, 64 <= n → Z.testbit y n = false).
  { intros n Hn. destruct (Z.eq_dec y 0) as [->|Hne].
    - apply Z.bits_0.
    - apply Z.bits_above_log2; [lia|].
      assert (Z.log2 y < 64); [|lia].
      apply Z.log2_lt_pow2; lia. }
  apply Z.bits_inj'. intros n Hn.
  rewrite Z.land_spec, !Z.shiftl_spec by lia.
  destruct (Z.ltb_spec n k).
  - rewrite !(Z.testbit_neg_r _ (n - k)) by lia. apply andb_false_r.
  - rewrite Z.shiftr_spec by lia.
    replace (n - k + k) with n by lia.
    destruct (Z.ltb_spec n 64).
    + rewrite Z.ones_spec_low by lia. apply andb_true_r.
    + rewrite Hhigh by lia. reflexivity.
Qed.

(** Rounding up to a multiple of a power of two. *)
Lemma align_up (x alignment : Z) :
  power_of_two alignment →
  0 <= x → x + alignment <= 2 ^ 64 →
  let offset :=
    Z.land (size_t (x + alignment - 1))
      (size_t (Z.lnot (size_t (alignment - 1)))) in
  offset mod alignment = 0 ∧ x <= offset < x + alignment.
Proof.
  intros (k & Hk & ->) Hx Hfit. cbv zeta. unfold size_t.
  assert (Hpos : 0 < 2 ^ k) by (apply Z.pow_pos_nonneg; lia).
  rewrite lnot_mask by exact Hk.
  rewrite (Z.mod_small (x + 2 ^ k - 1)) by lia.
  rewrite land_mask by lia.
  split.
  - apply Z.mod_mul. lia.
  - pose proof (Z.div_mod (x + 2 ^ k - 1) (2 ^ k)) as Hdiv.
    pose proof (Z.mod_pos_bound (x + 2 ^ k - 1) (2 ^ k) Hpos) as Hmod.
    nia.
Qed.

(** The bump on the last block, when the bytes fit. *)
Lemma bump (size alignment : Z) (blocks : list Block) (block : Block) :
  power_of_two alignment →
  0 <= size →
  last blocks = Some block →
  Forall block_ok blocks →
  ScratchAllocator.offset block + alignment + size <= 2 ^ 64 →
  let offset :=
    Z.land (size_t (offset block + alignment - 1))
      (size_t (Z.lnot (size_t (alignment - 1)))) in
  let required_size := size_t (offset + size) in
  required_size <= blob_size block →
  allocated size alignment blocks
    (pred (length blocks), offset,
     <[pred (length blocks) :=
         {| ScratchAllocator.offset := required_size;
            blob_size := blob_size block |}]> blocks).
Proof.
  intros Hpow Hsize Hlast Hok Hfit. cbv zeta.
  rewrite last_lookup in Hlast.
  assert (Hblock : block_ok block).
  { rewrite Forall_forall in Hok. apply Hok.
    now apply (list_elem_of_lookup_2 _ (pred (length blocks))). }
  destruct Hblock as [Hoffset Hblob].
  assert (Hpos : 0 < alignment).
  { destruct Hpow as (k & Hk & ->). apply Z.pow_pos_nonneg; lia. }
  destruct (align_up (ScratchAllocator.offset block) alignment Hpow)
    as [Haligned Hrange]; [lia|lia|].
  set (off := Z.land _ _) in *.
  assert (Hsmall : size_t (off + size) = off + size).
  { unfold size_t. apply Z.mod_small. lia. }
  rewrite Hsmall. intros Hrequired.
  assert (Hi : (pred (length blocks) < length blocks)%nat).
  { apply lookup_lt_Some in Hlast. exact Hlast. }
  unfold allocated. eexists. split; [now apply list_lookup_insert_eq|].
  cbn [ScratchAllocator.offset blob_size].
  split; [exact Haligned|]. split; [lia|]. split; [reflexivity|].
  split; [lia|]. split; [|split].
  - intros block0 Hblock0. rewrite Hlast in Hblock0.
    inversion Hblock0. subst block0. lia.
  - intros j block0 Hne Hj. rewrite list_lookup_insert_ne by congruence.
    exact Hj.
  - apply Forall_insert; [exact Hok|]. split; cbn; lia.
Qed.

(** A pointer into a block that was added is a pointer for the blocks
    before. *)
Lemma allocated_added size alignment blocks extra i offset blocks' :
  (length blocks <= i)%nat →
  allocated size alignment (blocks ++ extra) (i, offset, blocks') →
  allocated size alignment blocks (i, offset, blocks').
Proof.
  intros Hi (block' & Hblock' & Haligned & Hpos & Hbump & Hin & _ & Hothers
             & Hok).
  exists block'. split; [exact Hblock'|]. split; [exact Haligned|].
  split; [exact Hpos|]. split; [exact Hbump|]. split; [exact Hin|].
  split; [|split; [|exact Hok]].
  - intros block Hblock. apply lookup_lt_Some in Hblock. lia.
  - intros j block Hne Hj. apply Hothers; [exact Hne|].
    rewrite lookup_app_l by (apply lookup_lt_Some in Hj; exact Hj).
    exact Hj.
Qed.

(** The bump on a block that was just added. *)
Lemma bump_added (size alignment : Z) (blocks : list Block) :
  power_of_two alignment →
  0 <= size →
  size + alignment < 2 ^ 64 →
  Forall block_ok blocks →
  ∃ result,
    (let blocks := add_block (size_t (size + alignment)) blocks in
     match last blocks with
     | None => Undef
     | Some block =>
         let offset :=
           Z.land (size_t (offset block + alignment - 1))
             (size_t (Z.lnot (size_t (alignment - 1)))) in
         let required_size := size_t (offset + size) in
         if required_size <=? blob_size block then
           Ok (pred (length blocks), offset,
               <[pred (length blocks) :=
                   {| ScratchAllocator.offset := required_size;
                      blob_size := blob_size block |}]> blocks)
         else
           allocate_raw 0 size alignment
             (add_block (size_t (size + alignment)) blocks)
     end) = Ok result
    ∧ allocated size alignment blocks result.
Proof.
  intros Hpow Hsize Hfit Hok. cbv zeta.
  assert (Hpos : 0 < alignment).
  { destruct Hpow as (k & Hk & ->). apply Z.pow_pos_nonneg; lia. }
  unfold add_block at 1 2 3 4. cbv zeta. rewrite last_snoc.
  set (blob := if size_t (size + alignment) <? 64 * 1024 then 64 * 1024
               else size_t (size + alignment)).
  assert (Hblob : size + alignment <= blob < 2 ^ 64).
  { subst blob. unfold size_t. rewrite Z.mod_small by lia.
    destruct (Z.ltb_spec (size + alignment) (64 * 1024)); lia. }
  assert (Hok' : Forall block_ok (blocks ++ [new_block blob])).
  { apply Forall_app. split; [exact Hok|]. constructor; [|constructor].
    unfold block_ok, new_block; cbn. lia. }
  pose proof (bump size alignment (blocks ++ [new_block blob])
                (new_block blob) Hpow Hsize (last_snoc _ _) Hok') as Hbump.
  cbn [blob_size new_block ScratchAllocator.offset] in Hbump |- *.
  specialize (Hbump ltac:(lia)). cbv zeta in Hbump.
  destruct (align_up 0 alignment Hpow) as [Haligned Hrange]; [lia|lia|].
  cbn [Z.add] in Haligned, Hrange, Hbump |- *.
  set (off := Z.land _ _) in *.
  assert (off = 0) as Hzero.
  { rewrite Z.mod_small in Haligned by lia. exact Haligned. }
  assert (Hsmall : size_t (off + size) = size).
  { rewrite Hzero. unfold size_t. apply Z.mod_small. lia. }
  rewrite Hsmall in Hbump |- *.
  destruct (Z.leb_spec size blob) as [Hle|Hgt]; [|lia].
  eexists. split; [reflexivity|].
  apply (allocated_added _ _ _ [new_block blob]).
  - rewrite length_app. cbn. lia.
  - apply Hbump. exact Hle.
Qed.

End Arena.

(** X24.  [allocate_raw] returns aligned bytes of its own: for an
    alignment that is a power of two and sizes with which [size_t]
    does not wrap, it returns after adding at most one block, with a
    pointer whose offset is a multiple of the alignment, to [size]
    bytes that lie within the blob of their block and above every byte
    that the block had given out; the offset of that block is moved
    past them and the other blocks are left as they were. *)
Theorem X24_allocate_raw_gives_fresh_aligned_bytes (size alignment : Z)
    (blocks : list ScratchAllocator.Block) :
  power_of_two alignment →
  0 <= size →
  size + alignment < 2 ^ 64 →
  Forall block_ok blocks →
  Forall
    (λ block, ScratchAllocator.blob_size block + alignment + size <= 2 ^ 64)
    blocks →
  ∃ result,
    ScratchAllocator.allocate_raw 2 size alignment blocks = Ok result
    ∧ allocated size alignment blocks result.
Proof.
  intros Hpow Hsize Hfit Hok Hroom.
  destruct blocks as [|block0 blocks0].
  - cbn [ScratchAllocator.allocate_raw].
    destruct (bump_added size alignment [] Hpow Hsize Hfit Hok)
      as (result & Hrun & Hresult).
    cbv zeta in Hrun.
    match type of Hrun with
    | match ?m with _ => _ end = _ =>
        match goal with
        | |- ∃ _, match ?m' with _ => _ end = _ ∧ _ =>
            change m' with m
        end
    end.
    destruct (last _) as [block|]; [|discriminate].
    destruct (_ <=? _).
    + eauto.
    + discriminate.
  - set (blocks := block0 :: blocks0) in *.
    assert (Hlast : ∃ block, last blocks = Some block).
    { rewrite last_lookup. apply lookup_lt_is_Some_2. cbn. lia. }
    destruct Hlast as [block Hlast].
    change (ScratchAllocator.allocate_raw 2 size alignment blocks)
      with (match last blocks with
            | None => Undef
            | Some block =>
                let offset :=
                  Z.land
                    (ScratchAllocator.size_t
                       (ScratchAllocator.offset block + alignment - 1))
                    (ScratchAllocator.size_t
                       (Z.lnot (ScratchAllocator.size_t (alignment - 1)))) in
                let required_size :=
                  ScratchAllocator.size_t (offset + size) in
                if required_size <=? ScratchAllocator.blob_size block then
                  Ok (pred (length blocks), offset,
                      <[pred (length blocks) :=
                          {| ScratchAllocator.offset := required_size;
                             ScratchAllocator.blob_size :=
                               ScratchAllocator.blob_size block |}]> blocks)
                else
                  ScratchAllocator.allocate_raw 1 size alignment
                    (ScratchAllocator.add_block
                       (ScratchAllocator.size_t (size + alignment)) blocks)
            end).
    rewrite Hlast. cbv zeta.
    destruct (Z.leb_spec
                (ScratchAllocator.size_t
                   (Z.land
                      (ScratchAllocator.size_t
                         (ScratchAllocator.offset block + alignment - 1))
                      (ScratchAllocator.size_t
                         (Z.lnot (ScratchAllocator.size_t (alignment - 1))))
                    + size))
                (ScratchAllocator.blob_size block)) as [Hle|Hgt].
    + eexists. split; [reflexivity|].
      apply (bump size alignment blocks block); try assumption.
      rewrite last_lookup in Hlast.
      apply (list_elem_of_lookup_2 _ (pred (length blocks))) in Hlast.
      rewrite Forall_forall in Hroom, Hok.
      specialize (Hroom _ Hlast). specialize (Hok _ Hlast).
      destruct Hok as [Hoffset _]. lia.
    + destruct (bump_added size alignment blocks Hpow Hsize Hfit Hok)
        as (result & Hrun & Hresult).
      exists result. split; [|exact Hresult].
      rewrite <- Hrun. cbn [ScratchAllocator.allocate_raw].
      unfold ScratchAllocator.add_block at 1 3. subst blocks.
      reflexivity.
Qed.

Lemma X24_allocate_raw_gives_fresh_aligned_bytes_witness :
  ∃ result,
    ScratchAllocator.allocate_raw 2 24 8
      [ {| ScratchAllocator.offset := 5;
           ScratchAllocator.blob_size := 65536 |} ] = Ok result
    ∧ allocated 24 8
        [ {| ScratchAllocator.offset := 5;
             ScratchAllocator.blob_size := 65536 |} ] result.
Proof.
  apply X24_allocate_raw_gives_fresh_aligned_bytes.
  - exists 3. split; [lia | reflexivity].
  - lia.
  - lia.
  - repeat constructor; cbn; lia.
  - repeat constructor; cbn; lia.
Defined.

(** ** Hashes as member names *)

Section HexStrings.

Lemma hex_value_digit (v : Z) :
  0 <= v < 16 →
  hex_value (hex_digit v) = Some v
  ∧ isspace (hex_digit v) = false
  ∧ hex_digit v ≠ "+"%char ∧ hex_digit v ≠ "-"%char
  ∧ hex_digit v ≠ "x"%char ∧ hex_digit v ≠ "X"%char.
Proof.
  intros Hv.
  assert (Hn : ∃ n : nat, (n < 16)%nat ∧ v = Z.of_nat n).
  { exists (Z.to_nat v). lia. }
  destruct Hn as (n & Hn & ->).
  do 16 (destruct n as [|n]; [vm_compute; repeat split; discriminate|]).
  lia.
Qed.

Lemma scan_hex_digits (n : nat) : ∀ (value acc : Z) (count : nat),
  scan_digits (hex_digits n value) acc count
  = (acc * 16 ^ Z.of_nat n + value mod 16 ^ Z.of_nat n, (count + n)%nat).
Proof.
  induction n as [|n IH]; intros value acc count.
  - cbn [hex_digits scan_digits]. rewrite Z.mod_1_r.
    f_equal; [cbn; lia | lia].
  - cbn [hex_digits scan_digits].
    destruct (hex_value_digit ((value / 16 ^ Z.of_nat n) mod 16)) as [-> _].
    { apply Z.mod_pos_bound. lia. }
    rewrite IH. f_equal; [|lia].
    rewrite Nat2Z.inj_succ, Z.pow_succ_r by lia.
    rewrite (Z.mul_comm 16 (16 ^ Z.of_nat n)).
    rewrite (Z.rem_mul_r value (16 ^ Z.of_nat n) 16) by lia.
    ring.
Qed.

End HexStrings.

(** X25.  A hash is read back from its name: for every 64-bit value,
    [uint64_string] gives sixteen characters, and [string_to_uint64]
    of them is the value. *)
Theorem X25_hash_name_round_trip (value : Z) :
  0 <= value < 2 ^ 64 →
  String.length (uint64_string value) = 16%nat
  ∧ string_to_uint64 (uint64_string value) = Ok value.
Proof.
  intros Hvalue. split; [reflexivity|].
  unfold string_to_uint64, uint64_string.
  pose proof (scan_hex_digits 16 value 0 0) as Hscan.
  change (hex_digits 16 value)
    with (String (hex_digit ((value / 16 ^ 15) mod 16))
            (String (hex_digit ((value / 16 ^ 14) mod 16))
               (hex_digits 14 value))) in *.
  destruct (hex_value_digit ((value / 16 ^ 15) mod 16))
    as (_ & Hspace & Hplus & Hminus & _);
    [apply Z.mod_pos_bound; lia|].
  destruct (hex_value_digit ((value / 16 ^ 14) mod 16))
    as (_ & _ & _ & _ & Hx & HX);
    [apply Z.mod_pos_bound; lia|].
  cbn [skip_space]. rewrite Hspace.
  set (c0 := hex_digit ((value / 16 ^ 15) mod 16)) in *.
  set (c1 := hex_digit ((value / 16 ^ 14) mod 16)) in *.
  assert (Hsign :
            match String c0 (String c1 (hex_digits 14 value)) with
            | String "+" str' => (false, str')
            | String "-" str' => (true, str')
            | _ => (false, String c0 (String c1 (hex_digits 14 value)))
            end = (false, String c0 (String c1 (hex_digits 14 value)))).
  { destruct c0 as [[] [] [] [] [] [] [] []]; try reflexivity;
      congruence. }
  rewrite Hsign.
  assert (Hprefix :
            match String c0 (String c1 (hex_digits 14 value)) with
            | String "0" (String "x" str') => str'
            | String "0" (String "X" str') => str'
            | _ => String c0 (String c1 (hex_digits 14 value))
            end = String c0 (String c1 (hex_digits 14 value))).
  { destruct c0 as [[] [] [] [] [] [] [] []]; try reflexivity;
      destruct c1 as [[] [] [] [] [] [] [] []]; try reflexivity;
      congruence. }
  rewrite Hprefix, Hscan.
  change (16 ^ Z.of_nat 16) with (2 ^ 64).
  rewrite Z.mod_small by exact Hvalue.
  cbn [Nat.add Nat.eqb].
  replace (0 * 2 ^ 64 + value) with value by lia.
  destruct (Z.leb_spec (2 ^ 64) value); [lia | reflexivity].
Qed.

Lemma X25_hash_name_round_trip_witness :
  String.length (uint64_string 0x1234ABCD) = 16%nat
  ∧ string_to_uint64 (uint64_string 0x1234ABCD) = Ok 0x1234ABCD.
Proof. apply X25_hash_name_round_trip. lia. Defined.
